(* ===== verification/_CoqProject ===== *)
-Q . S2P
Prelude.v
PyObjects.v
PyBuiltins.v
Fixtures.v
Convert.v
ObjectWrapper.v
ArrayWrapper.v
Equality.v
ArraySearch.v
JsonText.v
Codec.v
Repr.v
Session.v
Packaging.v
PyEval.v
TestSuite.v
