(* ===== verification/Prelude.v ===== *)
(** * pyJSONobj in Rocq: a verification development of [src/jsonobj.py]

    ** The program
    [src/jsonobj.py] (240 lines) wraps parsed JSON so that objects are read
    and written by attribute ([obj.key]) and arrays by index, while the
    native [dict]/[list] stays the single source of truth.  It has four
    parts: the conversion functions [wrap]/[unwrap] (lines 33-68); the
    object wrapper [JSONobj] (71-127), whose slot [dict] holds a [dict];
    the array wrapper [JSONarray] (130-239), whose slot [seq] holds a
    [list] or [tuple]; and four codec adapters [dump]/[dumps]/[load]/
    [loads] (9-30) around Python's [json].  The wrappers call [wrap] on
    every value they hand out and [unwrap] on (most) values they store;
    nothing is copied, so wrappers, the caller and nested wrappers all
    alias the same containers.

    ** How it is modelled
    Python's heap is modelled explicitly, because aliasing is the point
    of the design and the source of its bugs.
    - [Prelude] (this file): Python's index conventions on sequences
      ([py_norm_index], [py_clamp_index], [py_slice_bound]), list helpers,
      the hint databases [pyjson]/[pyjson_rw] and [decide_by_eval].
    - [PyObjects]: values ([val]: None, bool, int, str, references),
      heap objects ([obj]: dict as an insertion-ordered item list, list,
      tuple, and the two wrapper classes with their single slot), the heap
      ([heap]: a [gmap] and the next free address), Python exceptions, and
      [PyM], a state-and-exception monad in which the heap survives a
      raised exception.  [heap_wf]: no dangling reference, fresh
      allocation, dict keys unique.
    - [PyBuiltins]: the [dict] operations the wrappers delegate to
      (lookup, [d[k] = v] keeping key order, [del d[k]]), with lemmas.
    - [Fixtures]: the heaps of [src/test_jsonobj.py]'s test objects.
    - [Convert]: the constructors [JSONobj_new]/[JSONarray_new] with the
      import-time default arguments ([JSONobj_init_default] for line
      97, [JSONarray_init_default] for line 154, run in order by
      [import_jsonobj]),
      [wrap], [unwrap], and the representation invariant [jsonobj_inv]:
      well-formed heap, every wrapper's slot a container of its kind, and
      no native container holding a wrapper (the spec's unwrap boundary).
    - [ObjectWrapper]: Module [JSONobj] with [__len__], [__contains__],
      [__iter__], [__getattr__], [__setattr__], [__delattr__], and
      [attr_read], Python's attribute lookup in which the slot [dict]
      takes precedence over [__getattr__].
    - [ArrayWrapper]: CPython's iterators ([py_iter], [iter_next],
      [py_iter_of]) including the [Iterator] class of [__iter__], and
      Module [JSONarray] with [__len__], [__getitem__], [__setitem__],
      [__delitem__], [__iter__], [__reversed__], [insert], [append],
      [clear], [reverse], [pop], [extend] (its [for] loop is
      [extend_loop]) and [__iadd__].
    - [Equality]: Python's [a == b] ([rich_eq]): [type(a).__eq__], the
      reflected [type(b).__eq__] on [NotImplemented], then [a is b]; the
      identity shortcut of [RichCompareBool] ([rich_eq_bool]); [bool] as a
      subclass of [int]; and the wrappers' [JSONobj.__eq__] and
      [JSONarray.__eq__], which compare their slot with [unwrap(other)].
    - [ArraySearch]: [JSONarray.__contains__], [index], [count], [remove],
      searching with [RichCompareBool(element, value)] within
      [list.index]'s bounds; the methods on a tuple-backed array.
    - [JsonText]: the semantics of CPython's [json] package on text,
      written from its C accelerator and [json/decoder.py]: the JSON tree
      [json], the encoder [dumps_tree] with the default separators
      ([", "], [": "]) and [ensure_ascii] escaping, and the strict
      scanner [loads_text] ([scan_chars], [scan_number],
      [scan_literal], the mutual [parse_value]/[parse_elems]/
      [parse_members], duplicate keys resolved as [dict(pairs)] does).
    - [Codec]: the typeclass [JsonCodec], the contract the adapters rely
      on ([codec_loads] after [codec_dumps] is the identity on
      well-formed trees, [codec_loads] always answers and yields
      well-formed trees), with the instance [python_json] built from
      [JsonText]; the heap side of the package ([encode_val], the C
      encoder's walk with its cycle check, [alloc_tree], which lays a
      decoded tree out in fresh containers, and the streaming
      [iterencode] of [json.dump]); the four adapters [dump]/[dumps]/
      [load]/[loads] (lines 9-30); and [__str__] of both wrappers.
      [tree_at h v t] relates a heap value to the tree it encodes.
    - [Repr]: CPython's [repr] over the heap ([repr_val]: [unicode_repr]'s
      quote choice and escapes, [list_repr]/[tuple_repr]/[dict_repr] with
      the [Py_ReprEnter] marks [[...]], [(...)], [{...}]), the wrappers'
      [__repr__] (lines 123-124, 235-236, the format string being
      [wrapper_text]), the slot read [array.seq] ([seq_slot]), and the
      docstrings' four doctest sessions ([wrap] 37-42, [unwrap] 56-61,
      [JSONobj] 78-89, [JSONarray] 137-146) as programs whose printed
      lines ([display]) are computed.
    - [Session]: the composition of all of the above as a client uses it.
      [call] lists every call of the module's interface, [run_call] runs
      one, [call_ok] is the documented use (valid arguments, no wrapper
      inside a literal or given to [insert], constructors given a
      container), and [session_step] is one such call.  Its proofs use
      [wp m h Q] (the invariant holds after [m], the heap only grew, an
      [Ok] answer satisfies [Q]) with one rule per primitive and one
      lemma per method, gathered in the hint database [session].
    - [Packaging]: [src/setup.py]'s [setup(...)] call as the record of
      its keyword arguments ([setup_py]), fed by the module's attributes
      ([jsonobj_attrs], lines 1-4 of [src/jsonobj.py]) and the README's
      text; [pip]'s PEP 440 reading of [python_requires]
      ([specifier_admits]).
    - [PyEval]: Python's [eval] on the language [repr] prints (literals,
      displays, the calls [jsonobj.JSONobj(...)]/[jsonobj.JSONarray(...)])
      as a parser ([parse_expr], on fuel) and an evaluator ([eval_pexpr])
      over the heap, which the [test_repr] methods call.
    - [TestSuite]: [src/test_jsonobj.py], one Module per [TestCase]
      class ([Test_jsonobj], [TestJSONobj], [TestJSONarray]) and one
      program per test method, with [unittest]'s assertions and the
      loader's order ([run_suite]); both [test_repr] methods assert
      [check_repr].
    Each method is the source's one-line delegation: read the slot,
    dispatch on the container's class (a method [tuple] lacks raises
    [AttributeError]), convert at the boundary.

    ** What is proved
    - Conversion (C1, C2, C22): [unwrap(wrap(c))] is [c] itself;
      [wrap(unwrap(w))] is an equal wrapper at a fresh address; [wrap]
      builds a [JSONobj] for a [dict], a [JSONarray] for a [list] or
      [tuple] and returns anything else as it is.
    - Object wrapper (C3-C8): read is exactly [wrap] of the stored
      value or [KeyError]; write stores [unwrap(value)], in place, keeping
      key order; delete removes exactly one key or raises [KeyError];
      writes and deletes keep [jsonobj_inv].
    - Array wrapper (C9-C15, C18, C20): indexed read is [wrap] of the
      element; write and delete at a valid (negative counting from the
      end) index or [IndexError], never growing the list; [append] stores
      [unwrap(value)]; [pop] deletes the element and answers exactly what
      [wrap] of it answers (C13); [extend(self)] doubles the list;
      iteration runs exactly as [wrap] mapped over the elements (C18);
      on a tuple-backed array every method writing through [self.seq],
      and [reversed()], raises [AttributeError] with the heap unchanged,
      [extend]/[+=] once they reach an item (C20).  [extend] with
      another array appends it ([extend_other]).
    - Eval (C16): [eval(w.__repr__())], for a wrapper over a laid-out
      tree, builds a new wrapper of the same class at an unused address
      over a fresh value denoting that tree, existing objects untouched:
      the parser reads back every text [repr] prints and the evaluator
      rebuilds the tree ([PyEval]).
    - Sessions (C23): from the heap [import jsonobj] leaves, every
      sequence of documented calls keeps [jsonobj_inv], whatever each
      call answers; proved by rule induction on [rtc session_step].
    - Equality (C25): [w == x] and [mapping == w] both compare [w]'s
      mapping with the mapping under [x].
    - Codec (C26-C31): for every text the codec decodes, [loads] keeps
      the invariant, returns a wrapper, and [dumps] of it is the codec's
      text of the tree (C26); [loads] of any value keeps the invariant
      and answers on every branch, a wrapper for a decoded container,
      the codec's error or [TypeError] with the heap unchanged (C30);
      [dump] fails exactly when [dumps] does and otherwise appends
      [dumps]' text (C28); [str(w)] is [dumps(w)] (C31).  The instance's
      law, [loads_text (dumps_tree t) = Ok t] for well-formed [t], is
      proved in [JsonText] ([loads_dumps]), with termination of the
      scanner ([loads_text_terminates]).
    - Repr (C32): [repr(jsonobj.loads(s))] is the wrapper's class name,
      prefixed with the module, around Python's [repr] of the decoded
      tree ([repr_loaded], written from [repr_tree]).
    - Test suite (C33): the assertion of both [test_repr] methods,
      [self.assertEqual(eval(repr(x)), x)] ([check_repr]), holds for
      every wrapper over a laid-out container of at most CPython's
      recursion limit of levels: two values denoting one tree compare
      equal ([eq_method_tree]).
    - Packaging (C34): [pip] installs the package exactly on 2.7 and
      later, the 3.0 series excepted.
    - Findings, proved as theorems: [insert] stores wrappers and breaks
      the invariant (C12), after which [dumps] raises [TypeError] (C27)
      and [dump] leaves the opening bracket and the items before the
      wrapper in the stream before raising (C29); [a.extend(a.seq)] and
      [a.extend(JSONarray(a.seq))] never terminate (C17); every
      [JSONobj()] shares one [{}] (C19); [reversed()] and the mutators
      fail on tuple-backed arrays (C20); [obj.dict] can never read the
      property ["dict"] that [obj.dict = x] writes (C21); [index(v)]
      with the default [stop=-1] never examines the last element (C24);
      the wrappers print [jsonobj.JSONobj(...)]/[jsonobj.JSONarray(...)]
      (C32), not the [JSONobj(...)]/[JSONarray(...)] the docstrings of
      [wrap] and [JSONarray] show, which is what [test_repr]'s [eval]
      needs (C33); the metadata admits Python 2.7, 3.1 and 3.2 (C34),
      which lack the [list.clear] that [JSONarray.clear] calls.

    ** Bounds and fuel
    The [for] loops ([extend_loop], [iter_collect]) take a step budget
    [fuel] and answer [NoFuel] when it runs out.  Comparison takes the
    interpreter's remaining recursion budget [depth] (one unit per nested
    [==]) and raises [RecursionError] when it is spent; CPython's limit is
    1000 frames, counted approximately (a wrapper's [__eq__] frame is not
    charged).  The termination theorems
    say that [length + 1] steps are enough (C15, C18, [extend_other]); the
    divergence theorem (C17) says that no budget is enough.  The
    scanner runs on fuel [length s + 1]: every recursive call consumes at
    least one character ([shrinks]), so this is enough for every input
    and [loads_text] never answers [NoFuel].  The encoder walks on
    budget [size (hmem h) + 1]: its path of open containers has no
    repeated address (the cycle check), so it is never longer than the
    number of heap objects (it is a budget of the walk, not CPython's
    recursion limit, which the encoder does not model).  [repr] takes
    one level of the recursion budget per nested call, as
    [Py_EnterRecursiveCall] does (the frame of a wrapper's Python
    [__repr__] is not charged separately): [nesting t] levels for a
    laid-out tree (C16, C32); [test_repr]'s [==] takes one more level per
    container, so [nesting t] within CPython's limit of 1000 is enough
    for both (C33).  The doctests and tests run with that limit, the
    tests' loops on 16 steps (no test list has more items), [eval]'s
    parser on twice the text's length plus two, enough for every text
    [repr] prints ([eval_repr_tree], C16).
    The session theorem (C23) holds for every [fuel] and [depth]: a call
    cut short by its budget leaves the heap as far as it got, and every
    intermediate heap keeps the invariant.
    Integers are unbounded [Z], as Python's are.

    ** What remains
    Every function, method and class of [src/jsonobj.py], the [setup()]
    call of [src/setup.py] and every test of [src/test_jsonobj.py] has
    its definition.  The docstrings' doctest sessions and the 32 test
    methods are executable definitions; their outcome on their fixed
    inputs is a computation, and no theorem restates it, except the
    general form of [test_repr] (C33).  Open are theorems, not
    definitions: that [remove(w)] behaves as [remove(unwrap(w))] (the
    reflected [__eq__] makes the missing [unwrap] harmless, up to the
    recursion budget), and that no documented call of a session goes
    [Wrong].

    ** Not modelled, and why
    - [repr] of floats, and of code points above U+00FF (strings are
      Latin-1 [ascii] lists).
    - The [json] package's keyword arguments ([dump]/[dumps] accept none
      through the adapters; [**kw] of [json.loads]), floats ([scan_number]
      answers [Wrong] on a fraction or exponent), [NaN]/[Infinity] and
      [\u] escapes above U+00FF: the trees are over [Z] and [ascii]
      strings.  Inputs using them are outside the model, not errors.
    - CPython's [RecursionError] in the [json] C encoder and scanner
      ([Py_EnterRecursiveCall]): [encode_val] and [loads_text] have no
      recursion limit, so no theorem here says that [dumps] or [loads]
      cannot fail on deeply nested data; [repr] and [==] do take the
      recursion budget.
    - Python 2: [setup.py] admits 2.7, where the module's classes are
      old-style; the model is Python 3's object model (C34 shows 2.7 is
      admitted).  Reading [README.md] is file I/O: its text is a
      parameter of [setup_py].
    - Slices and non-string dict keys: outside the program's logic;
      [eval] beyond the language [repr] prints.  A wrapper slot holding
      something other than the documented [dict]/[list]/[tuple] is
      reported as [TypeError]; such heaps violate [jsonobj_inv]. *)

From Stdlib Require Import ZArith Lia.
From stdpp Require Import base list.

Declare Scope py_scope.
Delimit Scope py_scope with py.

(** ** Python's integer-index conventions on sequences of length [n] *)

(** [list.__getitem__], [__setitem__], [__delitem__] and [pop]: a negative
    index counts from the end once; anything still outside [[0, n)] is an
    [IndexError] ([None] here). *)
Definition py_norm_index (n : nat) (i : Z) : option nat :=
  let j := if (i <? 0)%Z then (i + Z.of_nat n)%Z else i in
  if ((0 <=? j) && (j <? Z.of_nat n))%Z then Some (Z.to_nat j) else None.

(** [list.insert]: the position is clamped into [[0, n]], never an error. *)
Definition py_clamp_index (n : nat) (i : Z) : nat :=
  if (i <? 0)%Z then Z.to_nat (Z.max 0 (i + Z.of_nat n))
  else Nat.min (Z.to_nat i) n.

(** The [start] and [stop] arguments of [list.index] / [tuple.index]:
    a negative bound counts from the end, clamped at 0; the search loop
    itself stops at the current length. *)
Definition py_slice_bound (n : nat) (i : Z) : nat :=
  if (i <? 0)%Z then Z.to_nat (Z.max 0 (i + Z.of_nat n)) else Z.to_nat i.

(** Insertion with shift, the effect of [list.insert] at a clamped index. *)
Definition insert_at {A} (i : nat) (x : A) (l : list A) : list A :=
  take i l ++ x :: drop i l.

(** Close a decidable goal on concrete data by evaluating its decision. *)
Ltac decide_by_eval :=
  match goal with |- ?P => apply (bool_decide_eq_true_1 P); vm_compute; reflexivity end.

Create HintDb pyjson.
Create Rewrite HintDb pyjson_rw.

Section index_lemmas.
  Context (n : nat).

  (** The normalised index is [i] or [i + n], whichever lands in range. *)
Lemma py_norm_index_spec (i : Z) :
    py_norm_index n i =
      if ((- Z.of_nat n <=? i) && (i <? Z.of_nat n))%Z
      then Some (Z.to_nat (if (i <? 0)%Z then i + Z.of_nat n else i)%Z)
      else None.
  Proof.
    unfold py_norm_index.
    destruct (Z.ltb_spec i 0), (Z.leb_spec (- Z.of_nat n) i), (Z.ltb_spec i (Z.of_nat n));
      simpl; repeat (case_match; simpl in *); try reflexivity;
      rewrite ?andb_true_iff, ?andb_false_iff, ?Z.leb_le, ?Z.ltb_lt, ?Z.leb_gt, ?Z.ltb_ge in *;
      lia.
  Qed.

Lemma py_norm_index_Some (i : Z) (k : nat) :
    py_norm_index n i = Some k ->
    k < n /\ (Z.of_nat k = i \/ Z.of_nat k = i + Z.of_nat n)%Z.
  Proof.
    rewrite py_norm_index_spec.
    destruct (Z.leb_spec (- Z.of_nat n) i), (Z.ltb_spec i (Z.of_nat n)); simpl;
      intros Heq; try discriminate; injection Heq as <-;
      destruct (Z.ltb_spec i 0); lia.
  Qed.

Lemma py_norm_index_None (i : Z) :
    py_norm_index n i = None <-> (i < - Z.of_nat n \/ Z.of_nat n <= i)%Z.
  Proof.
    rewrite py_norm_index_spec.
    destruct (Z.leb_spec (- Z.of_nat n) i), (Z.ltb_spec i (Z.of_nat n)); simpl;
      split; intros; try discriminate; first [done | lia | exfalso; lia].
  Qed.

Lemma py_norm_index_nat (k : nat) :
    k < n -> py_norm_index n (Z.of_nat k) = Some k.
  Proof.
    intros Hk. unfold py_norm_index.
    destruct (Z.ltb_spec (Z.of_nat k) 0); [lia|].
    destruct (Z.leb_spec 0 (Z.of_nat k)); [|lia].
    destruct (Z.ltb_spec (Z.of_nat k) (Z.of_nat n)); [|lia].
    simpl. by rewrite Nat2Z.id.
  Qed.

Lemma py_norm_index_neg (k : nat) :
    k < n -> py_norm_index n (Z.of_nat k - Z.of_nat n) = Some k.
  Proof.
    intros Hk. unfold py_norm_index.
    destruct (Z.ltb_spec (Z.of_nat k - Z.of_nat n) 0); [|lia].
    replace (Z.of_nat k - Z.of_nat n + Z.of_nat n)%Z with (Z.of_nat k) by lia.
    destruct (Z.leb_spec 0 (Z.of_nat k)); [|lia].
    destruct (Z.ltb_spec (Z.of_nat k) (Z.of_nat n)); [|lia].
    simpl. by rewrite Nat2Z.id.
  Qed.

Lemma py_clamp_index_le (i : Z) : py_clamp_index n i <= n.
  Proof. unfold py_clamp_index. destruct (Z.ltb_spec i 0); lia. Qed.
End index_lemmas.

Section list_lemmas.
  Context {A : Type}.

Lemma length_insert_at (i : nat) (x : A) (l : list A) :
    length (insert_at i x l) = S (length l).
  Proof.
    unfold insert_at. rewrite length_app, length_take. simpl.
    rewrite length_drop. lia.
  Qed.

Lemma lookup_insert_at_eq (i : nat) (x : A) (l : list A) :
    i <= length l -> insert_at i x l !! i = Some x.
  Proof.
    intros Hi. unfold insert_at.
    rewrite lookup_app_r; rewrite length_take; [|lia].
    by replace (i - i `min` length l) with 0 by lia.
  Qed.

Lemma elem_of_insert_at (i : nat) (x : A) (l : list A) : x ∈ insert_at i x l.
  Proof. unfold insert_at. apply elem_of_app. right. apply list_elem_of_here. Qed.

Lemma insert_at_end (x : A) (l : list A) : insert_at (length l) x l = l ++ [x].
  Proof. unfold insert_at. by rewrite take_ge, drop_ge by done. Qed.

Lemma insert_at_elem (i : nat) (x y : A) (l : list A) :
    y ∈ insert_at i x l -> y = x \/ y ∈ l.
  Proof.
    unfold insert_at. rewrite elem_of_app, elem_of_cons. intros [Hy|[Hy|Hy]]; [right|by left|right].
    - by apply (subseteq_take i l).
    - by apply (subseteq_drop i l).
  Qed.

Lemma length_list_delete (i : nat) (l : list A) :
    i < length l -> length (delete i l) = pred (length l).
  Proof. intros. rewrite length_delete; [lia|]. by apply lookup_lt_is_Some_2. Qed.
Lemma filter_all {P : A -> Prop} `{!forall x, Decision (P x)} (l : list A) :
    Forall P l -> filter P l = l.
  Proof.
    induction 1 as [|x l Hx _ IH]; [done|].
    rewrite filter_cons_True; [by rewrite IH|done].
  Qed.
End list_lemmas.

#[export] Hint Resolve py_clamp_index_le py_norm_index_nat : pyjson.
#[export] Hint Rewrite @length_insert_at : pyjson_rw.
