(* ===== verification/PyObjects.v ===== *)
(** * The Python object model the module runs on

    Values, heap objects and the heap of a CPython process, restricted to
    what [src/jsonobj.py] touches: [None], [bool], [int], [str], [dict],
    [list], [tuple] and the two wrapper classes.  Containers are heap
    objects reached by reference ([VRef]), so aliasing is explicit: two
    wrappers built on the same [dict] share one location.  Computations run
    in [PyM], a state-and-exception monad: the heap is threaded through
    every call and survives a raised exception, as in Python. *)

From Stdlib Require Import ZArith.
From stdpp Require Import base list gmap strings.
From S2P Require Import Prelude.

Definition loc := positive.

(** A Python value: an immediate scalar or a reference to a heap object. *)
Inductive val :=
  | VNone
  | VBool (b : bool)
  | VInt (z : Z)
  | VStr (s : string)
  | VRef (l : loc).

(** Heap objects.  A [dict] is its item list in insertion order (keys are
    strings, as in every dict the JSON decoder builds and every attribute
    name).  [OJSONobj d] is an instance of [JSONobj] whose slot [dict]
    holds [d]; [OJSONarray s] an instance of [JSONarray] with slot [seq]. *)
Inductive obj :=
  | ODict (items : list (string * val))
  | OList (elems : list val)
  | OTuple (elems : list val)
  | OJSONobj (dict : val)
  | OJSONarray (seq : val).

#[export] Instance val_eq_dec : EqDecision val.
Proof. solve_decision. Defined.
#[export] Instance obj_eq_dec : EqDecision obj.
Proof. solve_decision. Defined.

(** The heap and the next fresh address. *)
Record heap := mkHeap { hmem : gmap loc obj; hnext : loc }.

(** The exceptions the module raises or lets through, and the
    [AssertionError] of a failing test assertion. *)
Inductive exc :=
  | KeyError | IndexError | ValueError | TypeError | AttributeError
  | RecursionError | AssertionError.

#[export] Instance exc_eq_dec : EqDecision exc.
Proof. solve_decision. Defined.

(** The outcome of a computation: a value, a raised exception, [Wrong] for a
    dangling reference (impossible in a well-formed heap, see
    [heap_wf]) and [NoFuel] when a loop's step budget ran out. *)
Inductive outcome (A : Type) :=
  | Ok (a : A)
  | Exc (e : exc)
  | Wrong
  | NoFuel.
Arguments Ok {A} a.
Arguments Exc {A} e.
Arguments Wrong {A}.
Arguments NoFuel {A}.

Definition PyM (A : Type) : Type := heap -> heap * outcome A.

Definition py_ret {A} (a : A) : PyM A := fun h => (h, Ok a).

Definition py_bind {A B} (m : PyM A) (k : A -> PyM B) : PyM B :=
  fun h =>
    match m h with
    | (h', Ok a) => k a h'
    | (h', Exc e) => (h', Exc e)
    | (h', Wrong) => (h', Wrong)
    | (h', NoFuel) => (h', NoFuel)
    end.

Definition py_raise {A} (e : exc) : PyM A := fun h => (h, Exc e).
Definition py_wrong {A} : PyM A := fun h => (h, Wrong).
Definition py_nofuel {A} : PyM A := fun h => (h, NoFuel).

(** Sequencing of pure computations that may raise. *)
Definition out_bind {A B} (o : outcome A) (f : A -> outcome B) : outcome B :=
  match o with
  | Ok a => f a
  | Exc e => Exc e
  | Wrong => Wrong
  | NoFuel => NoFuel
  end.

Definition out_map {A B} (f : A -> B) (o : outcome A) : outcome B :=
  out_bind o (fun a => Ok (f a)).

Notation "'let*' x ':=' m 'in' k" := (py_bind m (fun x => k))
  (at level 61, x name, m at level 100, k at level 200) : py_scope.
Notation "'let*' ' p ':=' m 'in' k" := (py_bind m (fun x => match x with p => k end))
  (at level 61, p pattern, m at level 100, k at level 200) : py_scope.
Notation "m ;; k" := (py_bind m (fun _ => k))
  (at level 100, right associativity) : py_scope.
Open Scope py_scope.

(** [f] on every element in order, stopping at the first failure. *)
Fixpoint out_mapM {A B} (f : A -> outcome B) (xs : list A) : outcome (list B) :=
  match xs with
  | [] => Ok []
  | x :: xs' => out_bind (f x) (fun y => out_map (cons y) (out_mapM f xs'))
  end.

(** [f] on every element in order, threading the heap. *)
Definition py_mapM {A B} (f : A -> PyM B) : list A -> PyM (list B) :=
  fix go xs :=
    match xs with
    | [] => py_ret []
    | x :: xs' => let* y := f x in let* ys := go xs' in py_ret (y :: ys)
    end.

(** The heap after creating object [o] at the fresh address, and after
    overwriting the object at [l]. *)
Definition heap_alloc (h : heap) (o : obj) : heap :=
  mkHeap (<[hnext h := o]> (hmem h)) (Pos.succ (hnext h)).
Definition heap_update (h : heap) (l : loc) (o : obj) : heap :=
  mkHeap (<[l := o]> (hmem h)) (hnext h).
Arguments heap_alloc : simpl never.
Arguments heap_update : simpl never.

(** Primitive heap accesses. *)
Definition get_obj (l : loc) : PyM obj :=
  fun h => match hmem h !! l with
           | Some o => (h, Ok o)
           | None => (h, Wrong)
           end.

Definition put_obj (l : loc) (o : obj) : PyM unit :=
  fun h => match hmem h !! l with
           | Some _ => (heap_update h l o, Ok tt)
           | None => (h, Wrong)
           end.

(** Object creation: a fresh address. *)
Definition alloc (o : obj) : PyM loc :=
  fun h => (heap_alloc h o, Ok (hnext h)).

(** ** Monad laws and running lemmas *)

Lemma py_bind_ret_l {A B} (a : A) (k : A -> PyM B) : py_bind (py_ret a) k = k a.
Proof. reflexivity. Qed.

Lemma py_bind_ret_r {A} (m : PyM A) h : py_bind m py_ret h = m h.
Proof. unfold py_bind. by destruct (m h) as [? []]. Qed.

Lemma py_bind_assoc {A B C} (m : PyM A) (f : A -> PyM B) (g : B -> PyM C) h :
  py_bind (py_bind m f) g h = py_bind m (fun a => py_bind (f a) g) h.
Proof. unfold py_bind. by destruct (m h) as [? []]. Qed.

Lemma out_bind_Ok {A B} (o : outcome A) (f : A -> outcome B) b :
  out_bind o f = Ok b -> exists a, o = Ok a /\ f a = Ok b.
Proof. destruct o; simpl; try discriminate. eauto. Qed.

Lemma out_map_Ok {A B} (f : A -> B) (o : outcome A) b :
  out_map f o = Ok b -> exists a, o = Ok a /\ b = f a.
Proof. destruct o; simpl; try discriminate. intros [= <-]. eauto. Qed.

Lemma out_bind_NoFuel {A B} (o : outcome A) (f : A -> outcome B) :
  out_bind o f = NoFuel -> o = NoFuel \/ exists a, o = Ok a /\ f a = NoFuel.
Proof. destruct o; simpl; try discriminate; eauto. Qed.

(** Replacing a computation and its continuation by ones that agree
    wherever the originals finish does not change a finished result. *)
Lemma out_bind_mono {A B} (o o' : outcome A) (k k' : A -> outcome B) :
  (o <> NoFuel -> o' = o) -> (forall a, k a <> NoFuel -> k' a = k a) ->
  out_bind o k <> NoFuel -> out_bind o' k' = out_bind o k.
Proof.
  intros Ho Hk. destruct o; simpl; intros Hn; try done; rewrite Ho by done; simpl; auto.
Qed.

Lemma py_bind_run_ok {A B} (m : PyM A) (k : A -> PyM B) h h' a :
  m h = (h', Ok a) -> py_bind m k h = k a h'.
Proof. unfold py_bind. by intros ->. Qed.

Lemma py_bind_run_exc {A B} (m : PyM A) (k : A -> PyM B) h h' e :
  m h = (h', Exc e) -> py_bind m k h = (h', Exc e).
Proof. unfold py_bind. by intros ->. Qed.

Lemma py_mapM_cons {A B} (f : A -> PyM B) x xs :
  py_mapM f (x :: xs) = (let* y := f x in let* ys := py_mapM f xs in py_ret (y :: ys)).
Proof. reflexivity. Qed.

Lemma get_obj_run l o h : hmem h !! l = Some o -> get_obj l h = (h, Ok o).
Proof. unfold get_obj. by intros ->. Qed.

Lemma put_obj_run l o o' h :
  hmem h !! l = Some o' ->
  put_obj l o h = (heap_update h l o, Ok tt).
Proof. unfold put_obj. by intros ->. Qed.

#[export] Hint Rewrite @py_bind_ret_l @py_bind_assoc : pyjson_rw.

(** ** Well-formed heaps

    Every address below [hnext] is the only fresh-address discipline
    [alloc] needs, and every reference stored in an object points to an
    object: no dangling references. *)

Definition val_ok (h : heap) (v : val) : Prop :=
  match v with VRef l => is_Some (hmem h !! l) | _ => True end.

#[export] Instance val_ok_dec h v : Decision (val_ok h v).
Proof. destruct v; simpl; apply _. Defined.

(** The values an object holds. *)
Definition obj_children (o : obj) : list val :=
  match o with
  | ODict items => map snd items
  | OList xs | OTuple xs => xs
  | OJSONobj d => [d]
  | OJSONarray s => [s]
  end.

(** A [dict] never holds the same key twice. *)
Definition obj_keys_nodup (o : obj) : Prop :=
  match o with ODict items => NoDup (map fst items) | _ => True end.

#[export] Instance obj_keys_nodup_dec o : Decision (obj_keys_nodup o).
Proof. destruct o; simpl; apply _. Defined.

Definition obj_ok (h : heap) (o : obj) : Prop :=
  Forall (val_ok h) (obj_children o) /\ obj_keys_nodup o.

Record heap_wf (h : heap) : Prop := {
  wf_fresh : map_Forall (fun l _ => (l < hnext h)%positive) (hmem h);
  wf_closed : map_Forall (fun _ o => obj_ok h o) (hmem h)
}.

#[export] Instance heap_wf_dec h : Decision (heap_wf h).
Proof.
  destruct (decide (map_Forall (fun l (_ : obj) => (l < hnext h)%positive) (hmem h)));
  destruct (decide (map_Forall (fun _ o => obj_ok h o) (hmem h)));
  [left; by constructor | right; by intros [] ..].
Defined.

Section wf_lemmas.
  Context (h : heap) (Hwf : heap_wf h).

Lemma wf_next_fresh : hmem h !! hnext h = None.
  Proof.
    destruct (hmem h !! hnext h) eqn:E; [|done].
    apply (wf_fresh h Hwf) in E. lia.
  Qed.

Lemma val_ok_alloc o v :
    val_ok h v -> val_ok (heap_alloc h o) v.
  Proof.
    unfold heap_alloc. destruct v as [| | | |l]; simpl; try done.
    intros [o' Ho']. destruct (decide (l = hnext h)) as [->|Hne].
    - by rewrite lookup_insert_eq.
    - rewrite lookup_insert_ne; [by eexists|done].
  Qed.

  (** [alloc] keeps the heap well formed when the new object's children
      are valid, and answers the old [hnext], which was free. *)
Lemma alloc_wf o :
    obj_ok h o -> heap_wf (heap_alloc h o).
  Proof.
    intros Ho. destruct Hwf as [Hf Hc]. unfold heap_alloc. constructor; simpl.
    - apply map_Forall_insert_2; [lia|].
      intros l x Hl. specialize (Hf l x Hl). simpl in Hf. lia.
    - apply map_Forall_insert_2.
      + split; [|apply Ho]. eapply Forall_impl; [apply Ho|]. intros v. apply val_ok_alloc.
      + intros l x Hl. split; [|apply (Hc l x Hl)].
        eapply Forall_impl; [apply (Hc l x Hl)|]. intros v. apply val_ok_alloc.
  Qed.

Lemma val_ok_update l o v :
    is_Some (hmem h !! l) -> val_ok h v -> val_ok (heap_update h l o) v.
  Proof.
    intros Hl. unfold heap_update. destruct v as [| | | |l']; simpl; try done.
    intros Hl'. destruct (decide (l' = l)) as [->|Hne].
    - by rewrite lookup_insert_eq.
    - by rewrite lookup_insert_ne.
  Qed.

  (** Overwriting an existing object with one whose children are valid. *)
Lemma update_wf l o :
    is_Some (hmem h !! l) -> obj_ok h o -> heap_wf (heap_update h l o).
  Proof.
    intros Hl Ho. destruct Hwf as [Hf Hc]. unfold heap_update. constructor; simpl.
    - apply map_Forall_insert_2; [|done].
      destruct Hl as [x Hx]. exact (Hf l x Hx).
    - apply map_Forall_insert_2.
      + split; [|apply Ho]. eapply Forall_impl; [apply Ho|]. intros v Hv. by apply val_ok_update.
      + intros l' x Hl'. split; [|apply (Hc l' x Hl')].
        eapply Forall_impl; [apply (Hc l' x Hl')|]. intros v Hv. by apply val_ok_update.
  Qed.


Lemma lookup_alloc_old o l : is_Some (hmem h !! l) -> hmem (heap_alloc h o) !! l = hmem h !! l.
  Proof.
    intros [x Hx]. unfold heap_alloc; simpl. rewrite lookup_insert_ne; [done|].
    intros Heq. rewrite <- Heq, wf_next_fresh in Hx. discriminate.
  Qed.
End wf_lemmas.

Lemma lookup_alloc_new h o : hmem (heap_alloc h o) !! hnext h = Some o.
Proof. apply lookup_insert_eq. Qed.

Lemma lookup_update h l o l' :
  hmem (heap_update h l o) !! l' = if decide (l' = l) then Some o else hmem h !! l'.
Proof.
  unfold heap_update; simpl. case_decide; subst.
  - apply lookup_insert_eq.
  - by apply lookup_insert_ne.
Qed.

#[export] Hint Resolve alloc_wf update_wf wf_next_fresh : pyjson.
#[export] Hint Rewrite lookup_alloc_new lookup_update : pyjson_rw.
