(* ===== verification/PyBuiltins.v ===== *)
(** * The built-in [dict] and [list] operations the wrappers delegate to

    Pure functions on a dict's item list and a list's element list, with
    the CPython behaviour the module inherits: insertion order of dict
    keys, overwrite in place, [KeyError] on a missing key ([None] here),
    and the index conventions of [Prelude].  These are the library's
    semantics, not code of the repository. *)

From Stdlib Require Import ZArith.
From stdpp Require Import base list sets strings.
From S2P Require Import Prelude PyObjects.

(** ** dict *)

Fixpoint dict_lookup {V} (k : string) (items : list (string * V)) : option V :=
  match items with
  | [] => None
  | (k', v) :: rest => if decide (k = k') then Some v else dict_lookup k rest
  end.

(** [d[k] = v]: an existing key keeps its position, a new key goes last. *)
Fixpoint dict_setitem {V} (k : string) (v : V) (items : list (string * V)) :
    list (string * V) :=
  match items with
  | [] => [(k, v)]
  | (k', v') :: rest =>
      if decide (k = k') then (k, v) :: rest else (k', v') :: dict_setitem k v rest
  end.

(** [del d[k]]: [None] is the [KeyError] of a missing key. *)
Fixpoint dict_delitem {V} (k : string) (items : list (string * V)) :
    option (list (string * V)) :=
  match items with
  | [] => None
  | (k', v') :: rest =>
      if decide (k = k') then Some rest
      else (fun r => (k', v') :: r) <$> dict_delitem k rest
  end.

Section dict_lemmas.
  Context {V : Type}.
  Implicit Types (items : list (string * V)) (v : V).

Lemma dict_lookup_in k items v :
    dict_lookup k items = Some v -> k ∈ map fst items.
  Proof.
    induction items as [|[k' v'] rest IH]; simpl; [done|].
    case_decide; intros Hl; [subst; left|right; by apply IH].
  Qed.

Lemma dict_lookup_elem k items v :
    dict_lookup k items = Some v -> v ∈ map snd items.
  Proof.
    induction items as [|[k' v'] rest IH]; simpl; [done|].
    case_decide; intros Hl; [injection Hl as <-; left|right; by apply IH].
  Qed.

Lemma dict_lookup_None k items :
    dict_lookup k items = None <-> k ∉ map fst items.
  Proof.
    induction items as [|[k' v'] rest IH]; simpl; [set_solver|].
    case_decide; [subst; split; [done| set_solver]|].
    rewrite IH. set_solver.
  Qed.

Lemma dict_lookup_setitem k k' v items :
    dict_lookup k' (dict_setitem k v items) =
      if decide (k' = k) then Some v else dict_lookup k' items.
  Proof.
    induction items as [|[k0 v0] rest IH]; simpl.
    - by repeat case_decide.
    - repeat (case_decide; simpl); subst; try done; congruence.
  Qed.

Lemma dict_keys_setitem k v items :
    map fst (dict_setitem k v items) =
      if decide (k ∈ map fst items) then map fst items else map fst items ++ [k].
  Proof.
    induction items as [|[k0 v0] rest IH]; cbn [dict_setitem map fst].
    - case_decide; [set_solver|done].
    - destruct (decide (k = k0)) as [->|Hne]; cbn [map fst].
      + rewrite decide_True; [done|set_solver].
      + rewrite IH. repeat case_decide; first [done | exfalso; set_solver].
  Qed.

(** A key not yet present goes last. *)
Lemma dict_setitem_fresh k v items :
    k ∉ map fst items -> dict_setitem k v items = items ++ [(k, v)].
  Proof.
    induction items as [|[k0 v0] rest IH]; simpl; [done|].
    intros Hk. rewrite decide_False by set_solver. f_equal. apply IH. set_solver.
  Qed.

Lemma dict_setitem_nodup k v items :
    NoDup (map fst items) -> NoDup (map fst (dict_setitem k v items)).
  Proof.
    intros Hnd. rewrite dict_keys_setitem. case_decide; [done|].
    apply NoDup_app. repeat split; [done| |apply NoDup_singleton]. set_solver.
  Qed.

Lemma dict_setitem_values k v items x :
    x ∈ map snd (dict_setitem k v items) -> x = v \/ x ∈ map snd items.
  Proof.
    induction items as [|[k0 v0] rest IH]; cbn [dict_setitem].
    - simpl. set_solver.
    - case_decide; simpl; [set_solver|].
      rewrite !elem_of_cons. intros [->|Hx]; [by right; left|].
      destruct (IH Hx); [by left|by right; right].
  Qed.

Lemma dict_delitem_values k items items' x :
    dict_delitem k items = Some items' -> x ∈ map snd items' -> x ∈ map snd items.
  Proof.
    revert items'. induction items as [|[k0 v0] rest IH]; intros items'; simpl; [done|].
    case_decide; [intros [= <-]; set_solver|].
    destruct (dict_delitem k rest) as [r|] eqn:E; simpl; [|done]. intros [= <-].
    simpl. rewrite !elem_of_cons. intros [->|Hx]; [by left|right; by apply (IH r)].
  Qed.

Lemma dict_delitem_Some k items :
    k ∈ map fst items -> exists items', dict_delitem k items = Some items'.
  Proof.
    induction items as [|[k0 v0] rest IH]; simpl; [set_solver|].
    intros Hk. case_decide; [by eexists|].
    destruct IH as [r ->]; [set_solver|]. by eexists.
  Qed.

Lemma dict_delitem_None k items :
    dict_delitem k items = None <-> k ∉ map fst items.
  Proof.
    split.
    - intros H Hk. destruct (dict_delitem_Some k items Hk). congruence.
    - induction items as [|[k0 v0] rest IH]; simpl; [done|].
      intros Hk. case_decide; [set_solver|]. rewrite IH; [done|set_solver].
  Qed.

  (** Deleting removes exactly the key's entry and keeps the others in order. *)
Lemma dict_delitem_spec k items items' :
    NoDup (map fst items) -> dict_delitem k items = Some items' ->
    map fst items' = filter (fun k' => k' <> k) (map fst items) /\
    dict_lookup k items' = None /\
    (forall k', k' <> k -> dict_lookup k' items' = dict_lookup k' items).
  Proof.
    revert items'. induction items as [|[k0 v0] rest IH]; intros items' Hnd; simpl; [done|].
    apply NoDup_cons in Hnd as [Hnin Hnd].
    case_decide as Hk; subst.
    - intros [= <-]. rewrite filter_cons_False; [|tauto].
      rewrite filter_all; [|apply Forall_forall; set_solver].
      split; [done|]. split; [by apply dict_lookup_None|].
      intros k' Hk'. by case_decide.
    - destruct (dict_delitem k rest) as [r|] eqn:E; simpl; [|done]. intros [= <-].
      destruct (IH r Hnd eq_refl) as (H1 & H2 & H3). simpl.
      rewrite filter_cons_True; [|done]. split; [by f_equal|].
      split; [by case_decide|]. intros k' Hk'. case_decide; [done|]. by apply H3.
  Qed.

Lemma dict_delitem_length k items items' :
    dict_delitem k items = Some items' -> length items' = pred (length items).
  Proof.
    revert items'. induction items as [|[k0 v0] rest IH]; intros items'; simpl; [done|].
    case_decide; [by intros [= <-]|].
    destruct (dict_delitem k rest) as [r|] eqn:E; simpl; [|done]. intros [= <-]; simpl.
    rewrite (IH r eq_refl). destruct rest; simpl in *; [done|lia].
  Qed.

Lemma dict_delitem_nodup k items items' :
    NoDup (map fst items) -> dict_delitem k items = Some items' -> NoDup (map fst items').
  Proof.
    intros Hnd Hd. destruct (dict_delitem_spec k items items' Hnd Hd) as [-> _].
    by apply NoDup_filter.
  Qed.
End dict_lemmas.

#[export] Hint Resolve dict_setitem_nodup dict_delitem_nodup : pyjson.
