(* ===== verification/Fixtures.v ===== *)
(** * Concrete heaps for the witnesses

    The objects of the repository's own tests ([src/test_jsonobj.py]) laid
    out on a heap: [JSONobj({'key1': 'value1', 'key2': {'foo': 'bar'}})]
    and [JSONarray(['value1', {'foo': 'bar'}])], plus the heap right after
    the module is imported. *)

From stdpp Require Import base list gmap strings.
From S2P Require Import Prelude PyObjects.

(** [{'foo': 'bar'}] at 1, the outer mapping at 2, the wrapper at 3. *)
Definition test_obj_heap : heap :=
  mkHeap (list_to_map [(1%positive, ODict [("foo", VStr "bar")]);
                       (2%positive, ODict [("key1", VStr "value1"); ("key2", VRef 1%positive)]);
                       (3%positive, OJSONobj (VRef 2%positive))]) 4%positive.

(** [{'foo': 'bar'}] at 1, the list at 2, the wrapper at 3. *)
Definition test_array_heap : heap :=
  mkHeap (list_to_map [(1%positive, ODict [("foo", VStr "bar")]);
                       (2%positive, OList [VStr "value1"; VRef 1%positive]);
                       (3%positive, OJSONarray (VRef 2%positive))]) 4%positive.

(** [['a', 'b']] as a tuple at 1, wrapped at 2. *)
Definition test_tuple_heap : heap :=
  mkHeap (list_to_map [(1%positive, OTuple [VStr "a"; VStr "b"]);
                       (2%positive, OJSONarray (VRef 1%positive))]) 3%positive.

Definition empty_heap : heap := mkHeap ∅ 1%positive.

(** The test array plus a second array [JSONarray([{'key': 'value'}])]:
    the dict at 4, its list at 5, the wrapper at 6. *)
Definition test_two_arrays_heap : heap :=
  mkHeap (list_to_map [(1%positive, ODict [("foo", VStr "bar")]);
                       (2%positive, OList [VStr "value1"; VRef 1%positive]);
                       (3%positive, OJSONarray (VRef 2%positive));
                       (4%positive, ODict [("key", VStr "value")]);
                       (5%positive, OList [VRef 4%positive]);
                       (6%positive, OJSONarray (VRef 5%positive))]) 7%positive.

(** The spec's test objects: [{'key1': 'value1', 'key2': {'foo': 'bar'}}]
    wrapped at 3 compared with a second, equal mapping at 5 held by a
    wrapper at 6. *)
Definition eq_test_heap : heap :=
  mkHeap (list_to_map [(1%positive, ODict [("foo", VStr "bar")]);
                       (2%positive, ODict [("key1", VStr "value1"); ("key2", VRef 1%positive)]);
                       (3%positive, OJSONobj (VRef 2%positive));
                       (4%positive, ODict [("foo", VStr "bar")]);
                       (5%positive, ODict [("key1", VStr "value1"); ("key2", VRef 4%positive)]);
                       (6%positive, OJSONobj (VRef 5%positive))]) 7%positive.
