(* ===== verification/Convert.v ===== *)
(** * The conversion layer: [wrap], [unwrap] and the wrapper constructors

    [src/jsonobj.py] lines 33-68 ([wrap], [unwrap]) and the two
    constructors [JSONobj.__init__] (97-98) and [JSONarray.__init__]
    (154-155), with their mutable default arguments: the [{}] and [[]]
    written as defaults are evaluated once, when the class body runs at
    import time, and are then shared by every call that omits the
    argument ([module_env]).  The file also states the representation
    invariant of the module ([jsonobj_inv]): a well-formed heap in which
    every wrapper's slot holds a native container of its kind and no
    native container holds a wrapper (the spec's unwrap boundary). *)

From Stdlib Require Import ZArith.
From stdpp Require Import base list gmap strings.
From S2P Require Import Prelude PyObjects Fixtures.

(** ** Heap classification *)

Definition obj_at (h : heap) (v : val) : option obj :=
  match v with VRef l => hmem h !! l | _ => None end.

(** [isinstance(value, dict)] and [isinstance(value, list) or
    isinstance(value, tuple)]. *)
Definition is_dict_obj (o : obj) : bool :=
  match o with ODict _ => true | _ => false end.
Definition is_seq_obj (o : obj) : bool :=
  match o with OList _ | OTuple _ => true | _ => false end.
Definition is_native_obj (o : obj) : bool := is_dict_obj o || is_seq_obj o.

(** [isinstance(value, JSONobj)] or [isinstance(value, JSONarray)]. *)
Definition is_wrapper_obj (o : obj) : bool :=
  match o with OJSONobj _ | OJSONarray _ => true | _ => false end.

Definition refers_to_wrapper (h : heap) (v : val) : bool :=
  match obj_at h v with Some o => is_wrapper_obj o | None => false end.

(** ** The module's import-time state: the two default arguments *)

Record module_env := {
  JSONobj_default : loc;     (** the [{}] of [def __init__(self, jsondict={})] *)
  JSONarray_default : loc    (** the [[]] of [def __init__(self, jsonseq=[])] *)
}.

(** Line 97: [def __init__(self, jsondict={})] evaluates its [{}] once,
    when the class body of [JSONobj] runs. *)
Definition JSONobj_init_default : PyM loc := alloc (ODict []).

(** Line 154: the [[]] of [def __init__(self, jsonseq=[])], evaluated
    when the class body of [JSONarray] runs. *)
Definition JSONarray_init_default : PyM loc := alloc (OList []).

(** [import jsonobj]: the two class bodies run in order. *)
Definition import_jsonobj : PyM module_env :=
  let* d := JSONobj_init_default in
  let* s := JSONarray_init_default in
  py_ret {| JSONobj_default := d; JSONarray_default := s |}.

(** [JSONobj(jsondict)]: a new instance whose slot [dict] is the argument
    itself (line 98 stores it through the slot descriptor, no copy). *)
Definition JSONobj_new (jsondict : val) : PyM val :=
  let* l := alloc (OJSONobj jsondict) in py_ret (VRef l).

(** [JSONobj()]: the argument defaults to the shared [{}]. *)
Definition JSONobj_new_default (env : module_env) : PyM val :=
  JSONobj_new (VRef (JSONobj_default env)).

(** [JSONarray(jsonseq)] and [JSONarray()], lines 154-155. *)
Definition JSONarray_new (jsonseq : val) : PyM val :=
  let* l := alloc (OJSONarray jsonseq) in py_ret (VRef l).

Definition JSONarray_new_default (env : module_env) : PyM val :=
  JSONarray_new (VRef (JSONarray_default env)).

(** ** [wrap] and [unwrap] *)

Definition wrap (value : val) : PyM val :=
  match value with
  | VRef l =>
      let* o := get_obj l in
      if is_dict_obj o then JSONobj_new value
      else if is_seq_obj o then JSONarray_new value
      else py_ret value
  | _ => py_ret value
  end.

Definition unwrap (value : val) : PyM val :=
  match value with
  | VRef l =>
      let* o := get_obj l in
      match o with
      | OJSONobj d => py_ret d
      | OJSONarray s => py_ret s
      | _ => py_ret value
      end
  | _ => py_ret value
  end.

(** ** The representation invariant *)

(** Every wrapper's slot is a native container of its kind, as [wrap]
    builds them and as the constructors' documented arguments are. *)
Definition slot_ok (h : heap) (o : obj) : Prop :=
  match o with
  | OJSONobj d => exists o', obj_at h d = Some o' /\ is_dict_obj o' = true
  | OJSONarray s => exists o', obj_at h s = Some o' /\ is_seq_obj o' = true
  | _ => True
  end.

(** No native container holds a wrapper: the unwrap boundary. *)
Definition boundary_ok (h : heap) (o : obj) : Prop :=
  is_native_obj o = true -> Forall (fun v => refers_to_wrapper h v = false) (obj_children o).

Record jsonobj_inv (h : heap) : Prop := {
  inv_wf : heap_wf h;
  inv_slots : map_Forall (fun _ o => slot_ok h o) (hmem h);
  inv_boundary : map_Forall (fun _ o => boundary_ok h o) (hmem h)
}.

#[export] Instance slot_ok_dec h o : Decision (slot_ok h o).
Proof.
  destruct o as [| | |d|s]; simpl; try apply _;
    [destruct (obj_at h d) as [o'|] eqn:E | destruct (obj_at h s) as [o'|] eqn:E];
    try (right; intros (? & ? & ?); congruence);
    [destruct (is_dict_obj o') eqn:F | destruct (is_seq_obj o') eqn:F];
    try (left; by eexists); right; intros (? & ? & ?); congruence.
Defined.

#[export] Instance boundary_ok_dec h o : Decision (boundary_ok h o).
Proof. unfold boundary_ok. destruct (is_native_obj o); apply _. Defined.

#[export] Instance jsonobj_inv_dec h : Decision (jsonobj_inv h).
Proof.
  destruct (decide (heap_wf h)), (decide (map_Forall (fun _ o => slot_ok h o) (hmem h))),
    (decide (map_Forall (fun _ o => boundary_ok h o) (hmem h)));
    try (left; by constructor); right; by intros [].
Defined.

(** ** Running [wrap] and [unwrap] *)

(** What [unwrap] answers, read off the heap. *)
Definition unwrap_val (h : heap) (v : val) : val :=
  match obj_at h v with
  | Some (OJSONobj d) => d
  | Some (OJSONarray s) => s
  | _ => v
  end.

(** The wrapper [wrap] builds around a native container [o] at [v]. *)
Definition wrapper_of (o : obj) (v : val) : obj :=
  if is_dict_obj o then OJSONobj v else OJSONarray v.

Lemma val_ok_obj_at h v : val_ok h v <-> (forall l, v = VRef l -> is_Some (obj_at h v)).
Proof.
  destruct v; simpl; split; intros H; try done; try (intros; discriminate).
  by apply (H l).
Qed.

Lemma obj_at_alloc h o v :
  heap_wf h -> val_ok h v -> obj_at (heap_alloc h o) v = obj_at h v.
Proof. intros Hwf. destruct v; simpl; try done. intros Hl. by apply lookup_alloc_old. Qed.

Lemma obj_at_update h l o v :
  obj_at (heap_update h l o) v = if decide (v = VRef l) then Some o else obj_at h v.
Proof.
  destruct v as [| | | |l']; cbn [obj_at]; try done. rewrite lookup_update.
  repeat case_decide; congruence.
Qed.

Lemma unwrap_run h v : val_ok h v -> unwrap v h = (h, Ok (unwrap_val h v)).
Proof.
  unfold unwrap, unwrap_val. destruct v as [| | | |l]; simpl; try done.
  intros [o Ho]. unfold py_bind, get_obj. rewrite Ho. by destruct o.
Qed.

Lemma wrap_run_native h v o :
  obj_at h v = Some o -> is_native_obj o = true ->
  wrap v h = (heap_alloc h (wrapper_of o v), Ok (VRef (hnext h))).
Proof.
  destruct v as [| | | |l]; simpl; try discriminate. intros Ho Hn.
  unfold py_bind, get_obj. rewrite Ho. unfold wrapper_of.
  destruct o; simpl in *; try discriminate; reflexivity.
Qed.

Lemma wrap_run_other h v :
  val_ok h v -> (forall o, obj_at h v = Some o -> is_native_obj o = false) ->
  wrap v h = (h, Ok v).
Proof.
  destruct v as [| | | |l]; simpl; try done. intros [o Ho] Hn.
  specialize (Hn o Ho). unfold py_bind, get_obj. rewrite Ho.
  destruct o; simpl in *; try discriminate; reflexivity.
Qed.

(** [wrap] only ever adds an object: every existing object is kept. *)
Lemma wrap_grows h v h' r :
  heap_wf h -> val_ok h v -> wrap v h = (h', r) -> hmem h ⊆ hmem h'.
Proof.
  intros Hwf Hv Hw.
  destruct (obj_at h v) as [o|] eqn:Ho; [destruct (is_native_obj o) eqn:Hn|].
  - rewrite (wrap_run_native h v o Ho Hn) in Hw. injection Hw as <- _.
    unfold heap_alloc; simpl. apply insert_subseteq. by apply wf_next_fresh.
  - rewrite wrap_run_other in Hw; [by injection Hw as <- _|done|]. intros o' Ho'. congruence.
  - rewrite wrap_run_other in Hw; [by injection Hw as <- _|done|]. intros o' Ho'. congruence.
Qed.

(** ** The invariant under allocation and in-place update *)

Section inv_frame.
  Context (h : heap) (Hinv : jsonobj_inv h).

Lemma slot_ok_alloc o o' : slot_ok h o' -> slot_ok (heap_alloc h o) o'.
  Proof.
    destruct o' as [| | |d|s]; simpl; try done; intros (o'' & Ho'' & Hk);
      exists o''; split; try done; rewrite obj_at_alloc; try done;
      try apply (inv_wf h Hinv); apply val_ok_obj_at; intros ? ->; by eexists.
  Qed.

Lemma boundary_ok_alloc o o' :
    obj_ok h o' -> boundary_ok h o' -> boundary_ok (heap_alloc h o) o'.
  Proof.
    intros Hok Hb Hn. specialize (Hb Hn). destruct Hok as [Hok _].
    eapply Forall_impl; [apply Forall_and; split; [exact Hok|exact Hb]|].
    intros v [Hv Hw]. unfold refers_to_wrapper in *.
    by rewrite (obj_at_alloc h o v (inv_wf h Hinv) Hv).
  Qed.

  (** Creating an object whose slot and children respect the invariant. *)
Lemma inv_alloc o :
    obj_ok h o -> slot_ok h o -> boundary_ok h o -> jsonobj_inv (heap_alloc h o).
  Proof.
    intros Hok Hs Hb. pose proof Hinv as [Hwf Hsl Hbd]. constructor.
    - by apply alloc_wf.
    - apply map_Forall_insert_2; [by apply slot_ok_alloc|].
      intros l x Hx. apply slot_ok_alloc. exact (Hsl l x Hx).
    - apply map_Forall_insert_2; [by apply boundary_ok_alloc|].
      intros l x Hx. apply boundary_ok_alloc; [| exact (Hbd l x Hx)].
      exact (wf_closed h Hwf l x Hx).
  Qed.
End inv_frame.

(** Overwriting an object in place with one of the same class (a [dict]
    by a [dict], a [list] by a [list]) keeps every class test true. *)
Definition same_class (o1 o2 : obj) : Prop :=
  is_dict_obj o1 = is_dict_obj o2 /\ is_seq_obj o1 = is_seq_obj o2 /\
  is_wrapper_obj o1 = is_wrapper_obj o2.

Section inv_update_frame.
  Context (h : heap) (l : loc) (o_old o : obj).
  Context (Hold : hmem h !! l = Some o_old) (Hsame : same_class o_old o).

Lemma obj_class_update v :
    (exists o', obj_at (heap_update h l o) v = Some o') <-> (exists o', obj_at h v = Some o').
  Proof.
    rewrite obj_at_update. case_decide; subst; simpl; [|done]. split; eauto.
  Qed.

Lemma refers_to_wrapper_update v :
    refers_to_wrapper (heap_update h l o) v = refers_to_wrapper h v.
  Proof.
    unfold refers_to_wrapper. rewrite obj_at_update. case_decide; subst; simpl; [|done].
    rewrite Hold. symmetry. apply Hsame.
  Qed.

Lemma slot_ok_update o' : slot_ok h o' -> slot_ok (heap_update h l o) o'.
  Proof.
    destruct o' as [| | |d|sq]; simpl; try done; intros (o'' & Ho'' & Hk);
      rewrite obj_at_update; case_decide; subst; simpl in *;
      try (rewrite Hold in Ho''; injection Ho'' as <-; eexists; split; [done|];
           destruct Hsame as (? & ? & ?); congruence);
      by exists o''.
  Qed.

Lemma boundary_ok_update o' : boundary_ok h o' -> boundary_ok (heap_update h l o) o'.
  Proof.
    intros Hb Hn. eapply Forall_impl; [exact (Hb Hn)|]. intros v Hv.
    by rewrite refers_to_wrapper_update.
  Qed.

  (** An in-place update of a container with valid, wrapper-free content. *)
Lemma inv_update :
    jsonobj_inv h -> obj_ok h o -> slot_ok h o -> boundary_ok h o ->
    jsonobj_inv (heap_update h l o).
  Proof.
    intros [Hwf Hsl Hbd] Hok Hs Hb. constructor.
    - apply update_wf; [done|by eexists|done].
    - unfold heap_update; simpl. apply map_Forall_insert_2; [by apply slot_ok_update|].
      intros l' x Hx. apply slot_ok_update. exact (Hsl l' x Hx).
    - unfold heap_update; simpl. apply map_Forall_insert_2; [by apply boundary_ok_update|].
      intros l' x Hx. apply boundary_ok_update. exact (Hbd l' x Hx).
  Qed.
End inv_update_frame.

(** [unwrap] never hands back a wrapper, and what it hands back is valid:
    the lemma every operation that stores [unwrap(value)] relies on. *)
Lemma unwrap_val_ok h v :
  jsonobj_inv h -> val_ok h v ->
  val_ok h (unwrap_val h v) /\ refers_to_wrapper h (unwrap_val h v) = false.
Proof.
  intros Hinv Hv. unfold unwrap_val.
  destruct (obj_at h v) as [o|] eqn:Ho.
  2:{ split; [done|]. unfold refers_to_wrapper. by rewrite Ho. }
  destruct v as [| | | |l]; try discriminate. simpl in Ho.
  pose proof (wf_closed h (inv_wf h Hinv) l o Ho) as Hc.
  pose proof (inv_slots h Hinv l o Ho) as Hs.
  destruct Hc as [Hc _].
  destruct o as [| | |d|s]; simpl in *;
    try (split; [done|]; unfold refers_to_wrapper; simpl; by rewrite Ho).
  all: destruct Hs as (o' & Ho' & Hk); inversion Hc; subst; split; [done|];
    unfold refers_to_wrapper; rewrite Ho'; by destruct o'.
Qed.

Lemma unwrap_val_weaken h h' v :
  hmem h ⊆ hmem h' -> val_ok h v -> unwrap_val h' v = unwrap_val h v.
Proof.
  intros Hsub Hv. destruct v as [| | | |l]; try done. destruct Hv as [o Ho].
  unfold unwrap_val. cbn [obj_at]. by rewrite Ho, (lookup_weaken _ _ _ _ Ho Hsub).
Qed.

Lemma unwrap_val_native h v : refers_to_wrapper h v = false -> unwrap_val h v = v.
Proof.
  unfold refers_to_wrapper, unwrap_val. destruct (obj_at h v) as [[]|]; simpl; congruence.
Qed.

Lemma wrapper_of_ok h o v :
  jsonobj_inv h -> obj_at h v = Some o -> is_native_obj o = true ->
  obj_ok h (wrapper_of o v) /\ slot_ok h (wrapper_of o v) /\ boundary_ok h (wrapper_of o v).
Proof.
  intros Hinv Ho Hn. unfold wrapper_of, obj_ok, boundary_ok.
  assert (val_ok h v) by (destruct v; simpl in *; try discriminate; by eexists).
  destruct (is_dict_obj o) eqn:Hd; simpl; (split; [split; [by constructor|done]|]); split; try done;
    exists o; split; try done; unfold is_native_obj in Hn; rewrite Hd in Hn; done.
Qed.

(** C1.  For a native container, [unwrap(wrap(c))] is [c] itself: the same
    reference, not a copy.  The only effect is the one new wrapper. *)
Theorem unwrap_wrap_native h v o :
  heap_wf h -> obj_at h v = Some o -> is_native_obj o = true ->
  (let* w := wrap v in unwrap w) h = (heap_alloc h (wrapper_of o v), Ok v).
Proof.
  intros Hwf Ho Hn. rewrite (py_bind_run_ok _ _ _ _ _ (wrap_run_native h v o Ho Hn)).
  rewrite unwrap_run; [|unfold val_ok; rewrite lookup_alloc_new; by eexists].
  unfold unwrap_val. cbn [obj_at]. rewrite lookup_alloc_new. unfold wrapper_of.
  by destruct (is_dict_obj o).
Qed.

(** C2.  For a wrapper [w], [wrap(unwrap(w))] is a new wrapper of the same
    class holding the same underlying container, at a fresh address:
    equal to [w] but never the same object. *)
Theorem wrap_unwrap_wrapper h w o :
  jsonobj_inv h -> obj_at h w = Some o -> is_wrapper_obj o = true ->
  (let* x := unwrap w in wrap x) h = (heap_alloc h o, Ok (VRef (hnext h))) /\
  w <> VRef (hnext h).
Proof.
  intros Hinv Ho Hw.
  assert (Hv : val_ok h w) by (destruct w; simpl in *; try discriminate; by eexists).
  destruct w as [| | | |l]; try discriminate. simpl in Ho.
  pose proof (inv_slots h Hinv l o Ho) as Hs. split.
  - rewrite (py_bind_run_ok _ _ _ _ _ (unwrap_run h _ Hv)).
    unfold unwrap_val; cbn [obj_at]; rewrite Ho.
    destruct o as [| | |d|s]; try discriminate; simpl in Hs;
      destruct Hs as (o' & Ho' & Hk);
      rewrite (wrap_run_native h _ o' Ho'); unfold wrapper_of, is_native_obj;
      try rewrite Hk; destruct o'; try discriminate; done.
  - intros [= ->]. by rewrite (wf_next_fresh h (inv_wf h Hinv)) in Ho.
Qed.

(** C22.  The type of [wrap(value)]: a new [JSONobj] over [value] itself
    for a [dict], a new [JSONarray] over it for a [list] or [tuple], each
    at the next free address; any other value, scalar or wrapper, comes
    back as it is with the heap untouched. *)
Theorem wrap_result_type h v :
  val_ok h v ->
  exists h' w, wrap v h = (h', Ok w) /\
    match obj_at h v with
    | Some (ODict _) => w = VRef (hnext h) /\ obj_at h' w = Some (OJSONobj v)
    | Some (OList _) | Some (OTuple _) => w = VRef (hnext h) /\ obj_at h' w = Some (OJSONarray v)
    | _ => w = v /\ h' = h
    end.
Proof.
  intros Hv. destruct (obj_at h v) as [o|] eqn:Ho; [destruct (is_native_obj o) eqn:Hn|].
  - rewrite (wrap_run_native h v o Ho Hn). eexists _, _. split; [done|].
    cbn [obj_at]. rewrite lookup_alloc_new. destruct o; simpl in Hn; try discriminate; done.
  - rewrite wrap_run_other; [|done|intros o' Ho'; congruence]. eexists _, _. split; [done|].
    destruct o; simpl in Hn; try discriminate; done.
  - rewrite wrap_run_other; [|done|intros o' Ho'; congruence]. by eexists _, _.
Qed.

(** [wrap] preserves the representation invariant, returns a valid
    value, and [unwrap] of its result is [unwrap] of its argument. *)
Theorem wrap_preserves_inv h v :
  jsonobj_inv h -> val_ok h v ->
  exists h' v', wrap v h = (h', Ok v') /\ jsonobj_inv h' /\ val_ok h' v' /\
                unwrap_val h' v' = unwrap_val h v.
Proof.
  intros Hinv Hv.
  destruct (obj_at h v) as [o|] eqn:Ho; [destruct (is_native_obj o) eqn:Hn|].
  - destruct (wrapper_of_ok h o v Hinv Ho Hn) as (Hok & Hs & Hb).
    exists (heap_alloc h (wrapper_of o v)), (VRef (hnext h)).
    rewrite (wrap_run_native h v o Ho Hn). split; [done|]. split; [by apply inv_alloc|].
    split; [unfold val_ok; rewrite lookup_alloc_new; by eexists|].
    unfold unwrap_val at 1. cbn [obj_at]. rewrite lookup_alloc_new.
    unfold unwrap_val. rewrite Ho. unfold wrapper_of.
    destruct o; simpl in Hn |- *; try discriminate; done.
  - exists h, v. rewrite wrap_run_other; [|done|].
    + split; [done|]. done.
    + intros o' Ho'. congruence.
  - exists h, v. rewrite wrap_run_other; [done|done|]. intros o' Ho'. congruence.
Qed.

(** ** Witnesses on the repository's test object *)

Lemma unwrap_wrap_native_witness :
  (let* w := wrap (VRef 2%positive) in unwrap w) test_obj_heap =
  (heap_alloc test_obj_heap (OJSONobj (VRef 2%positive)), Ok (VRef 2%positive)).
Proof.
  apply (unwrap_wrap_native test_obj_heap (VRef 2%positive)
           (ODict [("key1", VStr "value1"); ("key2", VRef 1%positive)]));
    [decide_by_eval | reflexivity | reflexivity].
Defined.

Lemma wrap_unwrap_wrapper_witness :
  (let* x := unwrap (VRef 3%positive) in wrap x) test_obj_heap =
  (heap_alloc test_obj_heap (OJSONobj (VRef 2%positive)), Ok (VRef 4%positive)) /\
  VRef 3%positive <> VRef 4%positive.
Proof.
  apply (wrap_unwrap_wrapper test_obj_heap (VRef 3%positive) (OJSONobj (VRef 2%positive)));
    [decide_by_eval | reflexivity | reflexivity].
Defined.

Lemma wrap_result_type_witness :
  exists h' w, wrap (VRef 2%positive) test_obj_heap = (h', Ok w) /\
    w = VRef (hnext test_obj_heap) /\ obj_at h' w = Some (OJSONobj (VRef 2%positive)).
Proof. exact (wrap_result_type test_obj_heap (VRef 2%positive) ltac:(decide_by_eval)). Defined.

Lemma wrap_preserves_inv_witness :
  exists h' v', wrap (VRef 1%positive) test_obj_heap = (h', Ok v') /\ jsonobj_inv h' /\
                val_ok h' v' /\ unwrap_val h' v' = unwrap_val test_obj_heap (VRef 1%positive).
Proof. apply wrap_preserves_inv; decide_by_eval. Defined.
