(* ===== verification/ObjectWrapper.v ===== *)
(** * The object wrapper: class [JSONobj] (src/jsonobj.py lines 71-127)

    Each method is the one-line delegation of the source: read the slot
    [self.dict], call the [dict] method on it, and convert at the boundary
    ([wrap] on the way out, [unwrap] on the way in).  [self.dict] is the
    slot declared by [__slots__ = ('dict',)]; ordinary attribute lookup
    finds it before [__getattr__] is ever consulted ([attr_read]).
    [__eq__] is in [Equality]; [__repr__] and [__str__] are left to the
    planned codec component. *)

From Stdlib Require Import ZArith.
From stdpp Require Import base list sets gmap strings.
From S2P Require Import Prelude PyObjects PyBuiltins Fixtures Convert.

(** [self.dict], then dispatch to the built-in [dict]: the address of the
    underlying mapping and its items.  A slot that is not a [dict] lies
    outside the documented use and is reported as [TypeError]. *)
Definition self_dict (self : val) : PyM (loc * list (string * val)) :=
  match self with
  | VRef l =>
      let* o := get_obj l in
      match o with
      | OJSONobj (VRef d) =>
          let* od := get_obj d in
          match od with
          | ODict items => py_ret (d, items)
          | _ => py_raise TypeError
          end
      | _ => py_raise TypeError
      end
  | _ => py_raise TypeError
  end.

Module JSONobj.

Definition __len__ (self : val) : PyM nat :=
    let* '(_, items) := self_dict self in py_ret (length items).

Definition __contains__ (self : val) (item : string) : PyM bool :=
    let* '(_, items) := self_dict self in py_ret (bool_decide (item ∈ map fst items)).

  (** The dict's key iterator, as the sequence of keys it yields. *)
Definition __iter__ (self : val) : PyM (list string) :=
    let* '(_, items) := self_dict self in py_ret (map fst items).

Definition __getattr__ (self : val) (name : string) : PyM val :=
    let* '(_, items) := self_dict self in
    match dict_lookup name items with
    | Some v => wrap v
    | None => py_raise KeyError
    end.

Definition __setattr__ (self : val) (name : string) (value : val) : PyM unit :=
    let* '(d, items) := self_dict self in
    let* v := unwrap value in
    put_obj d (ODict (dict_setitem name v items)).

Definition __delattr__ (self : val) (name : string) : PyM unit :=
    let* '(d, items) := self_dict self in
    match dict_delitem name items with
    | Some items' => put_obj d (ODict items')
    | None => py_raise KeyError
    end.

  (** [obj.name] as Python resolves it: the slot descriptor [dict] of the
      class wins over [__getattr__], which only runs for names the class
      does not define. *)
Definition attr_read (self : val) (name : string) : PyM val :=
    if decide (name = "dict"%string) then
      match self with
      | VRef l =>
          let* o := get_obj l in
          match o with OJSONobj d => py_ret d | _ => py_raise TypeError end
      | _ => py_raise TypeError
      end
    else __getattr__ self name.

End JSONobj.

(** ** Running the methods *)

(** [self] is a [JSONobj] whose slot is the [dict] at [d] holding [items]. *)
Definition is_jsonobj (h : heap) (self : val) (d : loc) (items : list (string * val)) : Prop :=
  obj_at h self = Some (OJSONobj (VRef d)) /\ hmem h !! d = Some (ODict items).

Lemma self_dict_run h self d items :
  is_jsonobj h self d items -> self_dict self h = (h, Ok (d, items)).
Proof.
  intros [Hs Hd]. destruct self as [| | | |l]; try discriminate. simpl in Hs.
  unfold self_dict, py_bind, get_obj. by rewrite Hs, Hd.
Qed.

(** Updating the mapping in place leaves [self] a [JSONobj] over it. *)
Lemma is_jsonobj_update h self d items items' :
  is_jsonobj h self d items ->
  is_jsonobj (heap_update h d (ODict items')) self d items'.
Proof.
  intros [Hs Hd]. split.
  - rewrite obj_at_update. case_decide; [subst; simpl in Hs; congruence|done].
  - rewrite lookup_update. by case_decide.
Qed.

Ltac run_self_dict H :=
  unfold py_bind at 1; rewrite (self_dict_run _ _ _ _ H); cbn beta iota.

Section jsonobj_theorems.
  Context (h : heap) (self : val) (d : loc) (items : list (string * val)).
  Context (Hself : is_jsonobj h self d items).

  (** The values stored in the mapping are valid and are not wrappers. *)
Lemma stored_value_ok v :
    jsonobj_inv h -> v ∈ map snd items -> val_ok h v /\ refers_to_wrapper h v = false.
  Proof.
    intros Hinv Hv. destruct Hself as [_ Hd].
    destruct (wf_closed h (inv_wf h Hinv) d _ Hd) as [Hc _].
    pose proof (inv_boundary h Hinv d _ Hd eq_refl) as Hb. simpl in Hc, Hb.
    rewrite Forall_forall in Hc, Hb. split; [by apply Hc|by apply Hb].
  Qed.

  (** C4.  Reading an absent property raises [KeyError] and changes nothing. *)
Theorem getattr_missing name :
    name ∉ map fst items -> JSONobj.__getattr__ self name h = (h, Exc KeyError).
  Proof.
    intros Hn. unfold JSONobj.__getattr__. run_self_dict Hself.
    by rewrite (proj2 (dict_lookup_None name items) Hn).
  Qed.

  (** C3.  Reading a present property is exactly [wrap] of the stored
      value, and unwrapping the answer gives back the stored value itself:
      a nested container is shared with the mapping, not copied; the
      invariant holds afterwards. *)
Theorem getattr_present name v :
    jsonobj_inv h -> dict_lookup name items = Some v ->
    JSONobj.__getattr__ self name h = wrap v h /\
    exists h' r, wrap v h = (h', Ok r) /\ jsonobj_inv h' /\ unwrap_val h' r = v.
  Proof.
    intros Hinv Hl. split.
    - unfold JSONobj.__getattr__. run_self_dict Hself. by rewrite Hl.
    - destruct (stored_value_ok v Hinv (dict_lookup_elem _ _ _ Hl)) as [Hv Hw].
      destruct (wrap_preserves_inv h v Hinv Hv) as (h' & r & Hr & Hinv' & _ & Hu).
      exists h', r. split; [done|]. split; [done|]. by rewrite Hu, unwrap_val_native.
  Qed.

  (** C5.  Writing a property stores [unwrap(value)] under the name in the
      underlying mapping, in place: an existing key keeps its position, a
      new key goes last, and nothing else on the heap changes. *)
Theorem setattr_spec name value :
    val_ok h value ->
    JSONobj.__setattr__ self name value h =
      (heap_update h d (ODict (dict_setitem name (unwrap_val h value) items)), Ok tt) /\
    dict_lookup name (dict_setitem name (unwrap_val h value) items) = Some (unwrap_val h value) /\
    map fst (dict_setitem name (unwrap_val h value) items) =
      (if decide (name ∈ map fst items) then map fst items else map fst items ++ [name]).
  Proof.
    intros Hv. split; [|split].
    - unfold JSONobj.__setattr__. run_self_dict Hself.
      rewrite (py_bind_run_ok _ _ _ _ _ (unwrap_run h value Hv)).
      apply put_obj_run with (o' := ODict items). apply Hself.
    - rewrite dict_lookup_setitem. by case_decide.
    - apply dict_keys_setitem.
  Qed.

  (** C6.  Writing a property keeps the representation invariant: in
      particular no wrapper ever lands inside the mapping. *)
Theorem setattr_preserves_inv name value :
    jsonobj_inv h -> val_ok h value ->
    exists h', JSONobj.__setattr__ self name value h = (h', Ok tt) /\ jsonobj_inv h'.
  Proof.
    intros Hinv Hv. eexists. split; [apply (setattr_spec name value Hv)|].
    destruct Hself as [_ Hd].
    destruct (unwrap_val_ok h value Hinv Hv) as [Huv Huw].
    destruct (wf_closed h (inv_wf h Hinv) d _ Hd) as [Hc Hnd].
    pose proof (inv_boundary h Hinv d _ Hd eq_refl) as Hb.
    apply (inv_update h d (ODict items)); try done.
    - split; simpl; [|by apply dict_setitem_nodup].
      apply Forall_forall. intros x Hx.
      destruct (dict_setitem_values _ _ _ _ Hx) as [->|Hin]; [done|].
      rewrite Forall_forall in Hc. by apply Hc.
    - intros _. apply Forall_forall. intros x Hx. simpl in Hx.
      destruct (dict_setitem_values _ _ _ _ Hx) as [->|Hin]; [done|].
      rewrite Forall_forall in Hb. by apply Hb.
  Qed.

  (** C8.  Deleting an absent property raises [KeyError], changing nothing. *)
Theorem delattr_missing name :
    name ∉ map fst items -> JSONobj.__delattr__ self name h = (h, Exc KeyError).
  Proof.
    intros Hn. unfold JSONobj.__delattr__. run_self_dict Hself.
    by rewrite (proj2 (dict_delitem_None name items) Hn).
  Qed.

  (** C7.  Deleting a present property removes exactly that key: the size
      drops by one, the name is no longer contained, every other key keeps
      its value and the keys keep their order; the invariant is kept. *)
Theorem delattr_present name :
    jsonobj_inv h -> name ∈ map fst items ->
    exists items',
      JSONobj.__delattr__ self name h = (heap_update h d (ODict items'), Ok tt) /\
      length items' = pred (length items) /\
      map fst items' = filter (fun k => k <> name) (map fst items) /\
      (forall k, k <> name -> dict_lookup k items' = dict_lookup k items) /\
      jsonobj_inv (heap_update h d (ODict items')).
  Proof.
    intros Hinv Hn. destruct (dict_delitem_Some name items Hn) as [items' Hdel].
    pose proof Hself as [_ Hd].
    destruct (wf_closed h (inv_wf h Hinv) d _ Hd) as [Hc Hnd].
    pose proof (inv_boundary h Hinv d _ Hd eq_refl) as Hb.
    destruct (dict_delitem_spec name items items' Hnd Hdel) as (Hkeys & _ & Hother).
    exists items'. split; [|split; [|split; [|split]]].
    - unfold JSONobj.__delattr__. run_self_dict Hself. rewrite Hdel.
      by apply put_obj_run with (o' := ODict items).
    - by apply (dict_delitem_length name).
    - done.
    - done.
    - apply (inv_update h d (ODict items)); try done.
      + split; simpl; [|by apply (dict_delitem_nodup name items)].
        apply Forall_forall. intros x Hx. rewrite Forall_forall in Hc.
        apply Hc. by apply (dict_delitem_values name items items').
      + intros _. apply Forall_forall. intros x Hx. rewrite Forall_forall in Hb.
        apply Hb. by apply (dict_delitem_values name items items').
  Qed.

  (** Size and membership read the underlying mapping directly. *)
Theorem len_contains_iter name :
    JSONobj.__len__ self h = (h, Ok (length items)) /\
    JSONobj.__contains__ self name h = (h, Ok (bool_decide (name ∈ map fst items))) /\
    JSONobj.__iter__ self h = (h, Ok (map fst items)).
  Proof.
    unfold JSONobj.__len__, JSONobj.__contains__, JSONobj.__iter__.
    split; [|split]; by run_self_dict Hself.
  Qed.

  (** C21.  [obj.dict] is the slot, never the property named ["dict"]:
      after [obj.dict = s], which [__setattr__] stores as a key of the
      mapping, reading [obj.dict] still answers the raw mapping. *)
Theorem dict_property_shadowed (s : string) :
    exists h',
      (JSONobj.__setattr__ self "dict" (VStr s) ;; JSONobj.attr_read self "dict") h =
        (h', Ok (VRef d)) /\
      hmem h' !! d = Some (ODict (dict_setitem "dict" (VStr s) items)).
  Proof.
    destruct (setattr_spec "dict" (VStr s) I) as [Hset _].
    change (unwrap_val h (VStr s)) with (VStr s) in Hset.
    eexists. split.
    - rewrite (py_bind_run_ok _ _ _ _ _ Hset).
      unfold JSONobj.attr_read. rewrite decide_True by done.
      pose proof (is_jsonobj_update h self d items (dict_setitem "dict" (VStr s) items) Hself)
        as [Hs _].
      destruct self as [| | | |l]; try discriminate. cbn [obj_at] in Hs.
      unfold py_bind, get_obj. by rewrite Hs.
    - rewrite lookup_update. by case_decide.
  Qed.
End jsonobj_theorems.

(** ** The shared default argument *)

Lemma JSONobj_new_run v h :
  JSONobj_new v h = (heap_alloc h (OJSONobj v), Ok (VRef (hnext h))).
Proof. reflexivity. Qed.

(** A new [JSONobj] over the [dict] at [d] is a [JSONobj] over it, in a
    well-formed heap. *)
Lemma JSONobj_new_is_jsonobj h d items :
  heap_wf h -> hmem h !! d = Some (ODict items) ->
  heap_wf (heap_alloc h (OJSONobj (VRef d))) /\
  is_jsonobj (heap_alloc h (OJSONobj (VRef d))) (VRef (hnext h)) d items.
Proof.
  intros Hwf Hd. split; [apply alloc_wf; [done|]; split; [repeat constructor; by eexists|done]|].
  split; cbn [obj_at]; [apply lookup_alloc_new|]. rewrite lookup_alloc_old; [done|done|by eexists].
Qed.

(** C19.  Every [JSONobj()] built without an argument shares the one [{}]
    evaluated when the class was defined: a property written through one
    such wrapper is read back through another, independently created
    one.  (The spec promises a fresh empty container per construction.) *)
Theorem JSONobj_default_shared env h items name s :
  heap_wf h -> hmem h !! JSONobj_default env = Some (ODict items) ->
  exists h',
    (let* a := JSONobj_new_default env in
     let* b := JSONobj_new_default env in
     JSONobj.__setattr__ a name (VStr s) ;;
     JSONobj.__getattr__ b name) h = (h', Ok (VStr s)).
Proof.
  intros Hwf Hd. unfold JSONobj_new_default.
  set (dl := JSONobj_default env) in *.
  destruct (JSONobj_new_is_jsonobj h dl items Hwf Hd) as [Hwf1 Ha1].
  set (h1 := heap_alloc h (OJSONobj (VRef dl))) in *.
  assert (Hd1 : hmem h1 !! dl = Some (ODict items)) by apply Ha1.
  destruct (JSONobj_new_is_jsonobj h1 dl items Hwf1 Hd1) as [Hwf2 Hb2].
  set (h2 := heap_alloc h1 (OJSONobj (VRef dl))) in *.
  assert (Ha2 : is_jsonobj h2 (VRef (hnext h)) dl items).
  { destruct Ha1 as [Ha Hi]. split; [|apply Hb2].
    cbn [obj_at] in *. subst h2. rewrite lookup_alloc_old; [done|done|by eexists]. }
  rewrite (py_bind_run_ok _ _ _ _ _ (JSONobj_new_run _ h)).
  rewrite (py_bind_run_ok _ _ _ _ _ (JSONobj_new_run _ h1)).
  destruct (setattr_spec h2 _ dl items Ha2 name (VStr s) I) as [Hset _].
  rewrite (py_bind_run_ok _ _ _ _ _ Hset).
  pose proof (is_jsonobj_update _ _ _ _ (dict_setitem name (unwrap_val h2 (VStr s)) items) Hb2)
    as Hb3.
  eexists. unfold JSONobj.__getattr__. run_self_dict Hb3.
  rewrite dict_lookup_setitem, decide_True by done. reflexivity.
Qed.

(** ** Witnesses on the repository's test object *)

Definition test_items : list (string * val) :=
  [("key1", VStr "value1"); ("key2", VRef 1%positive)].

Lemma test_is_jsonobj : is_jsonobj test_obj_heap (VRef 3%positive) 2%positive test_items.
Proof. split; reflexivity. Qed.

Lemma getattr_missing_witness :
  JSONobj.__getattr__ (VRef 3%positive) "key3" test_obj_heap = (test_obj_heap, Exc KeyError).
Proof. apply (getattr_missing _ _ _ _ test_is_jsonobj). decide_by_eval. Defined.

Lemma getattr_present_witness :
  JSONobj.__getattr__ (VRef 3%positive) "key2" test_obj_heap = wrap (VRef 1%positive) test_obj_heap /\
  exists h' r, wrap (VRef 1%positive) test_obj_heap = (h', Ok r) /\
               jsonobj_inv h' /\ unwrap_val h' r = VRef 1%positive.
Proof. apply (getattr_present _ _ _ _ test_is_jsonobj); [decide_by_eval | reflexivity]. Defined.

Lemma setattr_spec_witness :
  let items' := dict_setitem "key1" (unwrap_val test_obj_heap (VStr "update")) test_items in
  JSONobj.__setattr__ (VRef 3%positive) "key1" (VStr "update") test_obj_heap =
    (heap_update test_obj_heap 2%positive (ODict items'), Ok tt) /\
  dict_lookup "key1" items' = Some (unwrap_val test_obj_heap (VStr "update")) /\
  map fst items' = (if decide ("key1" ∈ map fst test_items) then map fst test_items
                    else map fst test_items ++ ["key1"]).
Proof. apply (setattr_spec _ _ _ _ test_is_jsonobj). exact I. Defined.

Lemma setattr_preserves_inv_witness :
  exists h', JSONobj.__setattr__ (VRef 3%positive) "key3" (VRef 1%positive) test_obj_heap =
             (h', Ok tt) /\ jsonobj_inv h'.
Proof. apply (setattr_preserves_inv _ _ _ _ test_is_jsonobj); decide_by_eval. Defined.

Lemma delattr_missing_witness :
  JSONobj.__delattr__ (VRef 3%positive) "key3" test_obj_heap = (test_obj_heap, Exc KeyError).
Proof. apply (delattr_missing _ _ _ _ test_is_jsonobj). decide_by_eval. Defined.

Lemma delattr_present_witness :
  exists items',
    JSONobj.__delattr__ (VRef 3%positive) "key1" test_obj_heap =
      (heap_update test_obj_heap 2%positive (ODict items'), Ok tt) /\
    length items' = pred (length test_items) /\
    map fst items' = filter (fun k => k <> "key1"%string) (map fst test_items) /\
    (forall k, k <> "key1"%string -> dict_lookup k items' = dict_lookup k test_items) /\
    jsonobj_inv (heap_update test_obj_heap 2%positive (ODict items')).
Proof. apply (delattr_present _ _ _ _ test_is_jsonobj); decide_by_eval. Defined.

Lemma dict_property_shadowed_witness :
  exists h',
    (JSONobj.__setattr__ (VRef 3%positive) "dict" (VStr "x") ;;
     JSONobj.attr_read (VRef 3%positive) "dict") test_obj_heap = (h', Ok (VRef 2%positive)) /\
    hmem h' !! 2%positive = Some (ODict (dict_setitem "dict" (VStr "x") test_items)).
Proof. apply (dict_property_shadowed _ _ _ _ test_is_jsonobj). Defined.

Lemma JSONobj_default_shared_witness :
  let '(h0, r) := import_jsonobj empty_heap in
  match r with
  | Ok env => exists h',
      (let* a := JSONobj_new_default env in
       let* b := JSONobj_new_default env in
       JSONobj.__setattr__ a "foo" (VStr "bar") ;;
       JSONobj.__getattr__ b "foo") h0 = (h', Ok (VStr "bar"))
  | _ => False
  end.
Proof. apply (JSONobj_default_shared _ _ []); decide_by_eval || reflexivity. Defined.

Lemma len_contains_iter_witness :
  JSONobj.__len__ (VRef 3%positive) test_obj_heap = (test_obj_heap, Ok 2) /\
  JSONobj.__contains__ (VRef 3%positive) "key1" test_obj_heap =
    (test_obj_heap, Ok (bool_decide ("key1" ∈ map fst test_items))) /\
  JSONobj.__iter__ (VRef 3%positive) test_obj_heap = (test_obj_heap, Ok ["key1"; "key2"]%string).
Proof. apply (len_contains_iter _ _ _ _ test_is_jsonobj). Defined.
