(* ===== verification/ArrayWrapper.v ===== *)
(** * The array wrapper: class [JSONarray] (src/jsonobj.py lines 130-239)

    The slot [seq] holds a [list] or a [tuple].  Every method delegates
    to the sequence by an explicit dunder or method call
    ([self.seq.__setitem__], [self.seq.append], ...), so a method the
    [tuple] type lacks raises [AttributeError] on a tuple-backed array.
    Iteration is modelled by CPython's iterator states ([py_iter]): the
    list iterator re-reads the live list at every step, which is what
    makes [extend] loop forever on an aliased list.  The loops run on an
    explicit step budget ([fuel]); the theorems say how much is enough.
    [index], [count], [__contains__] and [remove] compare with Python's
    [==] and are in [ArraySearch]; [__eq__] is in [Equality]. *)

From Stdlib Require Import ZArith.
From stdpp Require Import base list sets gmap strings.
From S2P Require Import Prelude PyObjects PyBuiltins Fixtures Convert.

Inductive seq_kind := KList | KTuple.

(** [self.seq] and the sequence behind it. *)
Definition self_seq (self : val) : PyM (loc * seq_kind * list val) :=
  match self with
  | VRef l =>
      let* o := get_obj l in
      match o with
      | OJSONarray (VRef s) =>
          let* os := get_obj s in
          match os with
          | OList xs => py_ret (s, KList, xs)
          | OTuple xs => py_ret (s, KTuple, xs)
          | _ => py_raise TypeError
          end
      | _ => py_raise TypeError
      end
  | _ => py_raise TypeError
  end.

(** [self.seq.<method>] for a method only [list] has: [AttributeError] on a
    tuple, otherwise the list's address and elements. *)
Definition self_list (self : val) : PyM (loc * list val) :=
  let* '(s, k, xs) := self_seq self in
  match k with
  | KList => py_ret (s, xs)
  | KTuple => py_raise AttributeError
  end.

(** ** Iterators *)

(** CPython's iterator objects: over a [list] or [tuple] (the sequence's
    address and the next position, re-checked against the current length
    at each step), over a [dict]'s keys, over a [str]'s characters, and
    the [Iterator] class of [JSONarray.__iter__], which wraps each item. *)
Inductive py_iter :=
  | SeqIter (s : loc) (i : nat)
  | RevSeqIter (s : loc) (i : Z)
  | DictKeyIter (d : loc) (i : nat)
  | StrIter (str : string)
  | WrapIter (inner : py_iter).

(** [next(it)]: [None] is [StopIteration]. *)
Fixpoint iter_next (it : py_iter) : PyM (option (val * py_iter)) :=
  match it with
  | SeqIter s i =>
      let* o := get_obj s in
      match o with
      | OList xs | OTuple xs =>
          match xs !! i with
          | Some x => py_ret (Some (x, SeqIter s (S i)))
          | None => py_ret None
          end
      | _ => py_wrong
      end
  | RevSeqIter s i =>
      let* o := get_obj s in
      match o with
      | OList xs =>
          if ((0 <=? i) && (i <? Z.of_nat (length xs)))%Z then
            match xs !! Z.to_nat i with
            | Some x => py_ret (Some (x, RevSeqIter s (i - 1)))
            | None => py_ret None
            end
          else py_ret None
      | _ => py_wrong
      end
  | DictKeyIter d i =>
      let* o := get_obj d in
      match o with
      | ODict items =>
          match items !! i with
          | Some (k, _) => py_ret (Some (VStr k, DictKeyIter d (S i)))
          | None => py_ret None
          end
      | _ => py_wrong
      end
  | StrIter str =>
      match str with
      | EmptyString => py_ret None
      | String c rest => py_ret (Some (VStr (String c EmptyString), StrIter rest))
      end
  | WrapIter inner =>
      (* Iterator.__next__: return wrap(next(self.itr)) *)
      let* r := iter_next inner in
      match r with
      | Some (x, inner') => let* w := wrap x in py_ret (Some (w, WrapIter inner'))
      | None => py_ret None
      end
  end.

(** [iter(v)], as the [for] statement calls it.  [JSONarray.__iter__]
    (line 183) is [Iterator(self.seq.__iter__())]; [JSONobj.__iter__]
    (line 107) is [self.dict.__iter__()]. *)
Definition py_iter_of (v : val) : PyM py_iter :=
  match v with
  | VStr str => py_ret (StrIter str)
  | VRef l =>
      let* o := get_obj l in
      match o with
      | OList _ | OTuple _ => py_ret (SeqIter l 0)
      | ODict _ => py_ret (DictKeyIter l 0)
      | OJSONarray (VRef s) =>
          let* os := get_obj s in
          match os with
          | OList _ | OTuple _ => py_ret (WrapIter (SeqIter s 0))
          | _ => py_raise TypeError
          end
      | OJSONobj (VRef d) =>
          let* od := get_obj d in
          match od with
          | ODict _ => py_ret (DictKeyIter d 0)
          | _ => py_raise TypeError
          end
      | _ => py_raise TypeError
      end
  | _ => py_raise TypeError
  end.

Module JSONarray.

Definition __len__ (self : val) : PyM nat :=
    let* '(_, _, xs) := self_seq self in py_ret (length xs).

Definition __getitem__ (self : val) (index : Z) : PyM val :=
    let* '(_, _, xs) := self_seq self in
    match py_norm_index (length xs) index ≫= (fun k => xs !! k) with
    | Some x => wrap x
    | None => py_raise IndexError
    end.

Definition __setitem__ (self : val) (index : Z) (value : val) : PyM unit :=
    let* '(s, xs) := self_list self in
    let* v := unwrap value in
    match py_norm_index (length xs) index with
    | Some k => put_obj s (OList (<[k := v]> xs))
    | None => py_raise IndexError
    end.

Definition __delitem__ (self : val) (index : Z) : PyM unit :=
    let* '(s, xs) := self_list self in
    match py_norm_index (length xs) index with
    | Some k => put_obj s (OList (delete k xs))
    | None => py_raise IndexError
    end.

  (** [__iter__] returns [Iterator(self.seq.__iter__())]. *)
Definition __iter__ (self : val) : PyM py_iter :=
    let* '(s, _, _) := self_seq self in py_ret (WrapIter (SeqIter s 0)).

  (** [__reversed__] calls [self.seq.__reversed__()], which [tuple] lacks. *)
Definition __reversed__ (self : val) : PyM py_iter :=
    let* '(s, k, xs) := self_seq self in
    match k with
    | KList => py_ret (WrapIter (RevSeqIter s (Z.of_nat (length xs) - 1)))
    | KTuple => py_raise AttributeError
    end.

  (** [insert] stores [value] as given: no [unwrap]. *)
Definition insert (self : val) (index : Z) (value : val) : PyM unit :=
    let* '(s, xs) := self_list self in
    put_obj s (OList (insert_at (py_clamp_index (length xs) index) value xs)).

Definition append (self : val) (value : val) : PyM unit :=
    let* '(s, xs) := self_list self in
    let* v := unwrap value in
    put_obj s (OList (xs ++ [v])).

Definition clear (self : val) : PyM unit :=
    let* '(s, _) := self_list self in put_obj s (OList []).

Definition reverse (self : val) : PyM unit :=
    let* '(s, xs) := self_list self in put_obj s (OList (reverse xs)).

Definition pop (self : val) (index : Z) : PyM val :=
    let* '(s, xs) := self_list self in
    match py_norm_index (length xs) index ≫= (fun k => (fun x => (k, x)) <$> xs !! k) with
    | Some (k, x) => put_obj s (OList (delete k xs)) ;; wrap x
    | None => py_raise IndexError
    end.

  (** The body of [for v in values: self.append(unwrap(v))], one item per
      unit of [fuel]; [NoFuel] if the iterator is still not exhausted. *)
Fixpoint extend_loop (fuel : nat) (self : val) (it : py_iter) : PyM unit :=
    match fuel with
    | O => py_nofuel
    | S fuel' =>
        let* r := iter_next it in
        match r with
        | None => py_ret tt
        | Some (v, it') =>
            let* u := unwrap v in
            append self u ;;
            extend_loop fuel' self it'
        end
    end.

  (** [extend]: when [values is self], iterate over a snapshot
      [list(values.seq)] instead. *)
Definition extend (fuel : nat) (self values : val) : PyM unit :=
    let* src :=
      if decide (values = self) then
        let* '(_, _, xs) := self_seq values in
        let* c := alloc (OList xs) in
        py_ret (VRef c)
      else py_ret values in
    let* it := py_iter_of src in
    extend_loop fuel self it.

Definition __iadd__ (fuel : nat) (self values : val) : PyM val :=
    extend fuel self values ;; py_ret self.

End JSONarray.

(** ** Running the methods *)

Definition seq_obj (k : seq_kind) (xs : list val) : obj :=
  match k with KList => OList xs | KTuple => OTuple xs end.

(** [self] is a [JSONarray] whose slot is the sequence at [s]. *)
Definition is_jsonarray (h : heap) (self : val) (s : loc) (k : seq_kind) (xs : list val) : Prop :=
  obj_at h self = Some (OJSONarray (VRef s)) /\ hmem h !! s = Some (seq_obj k xs).

Lemma self_seq_run h self s k xs :
  is_jsonarray h self s k xs -> self_seq self h = (h, Ok (s, k, xs)).
Proof.
  intros [Hs Hx]. destruct self as [| | | |l]; try discriminate. cbn [obj_at] in Hs.
  unfold self_seq, py_bind, get_obj. rewrite Hs, Hx. by destruct k.
Qed.

Lemma self_list_run h self s xs :
  is_jsonarray h self s KList xs -> self_list self h = (h, Ok (s, xs)).
Proof. intros H. unfold self_list, py_bind at 1. by rewrite (self_seq_run _ _ _ _ _ H). Qed.

Lemma self_list_tuple h self s xs :
  is_jsonarray h self s KTuple xs -> self_list self h = (h, Exc AttributeError).
Proof. intros H. unfold self_list, py_bind at 1. by rewrite (self_seq_run _ _ _ _ _ H). Qed.

(** Replacing the list behind [self] keeps [self] an array over it. *)
Lemma is_jsonarray_update h self s xs ys :
  is_jsonarray h self s KList xs -> is_jsonarray (heap_update h s (OList ys)) self s KList ys.
Proof.
  intros [Hs Hx]. split.
  - rewrite obj_at_update. case_decide; [subst; cbn [obj_at seq_obj] in Hs, Hx; congruence|done].
  - rewrite lookup_update. by case_decide.
Qed.

(** Growing the heap keeps it. *)
Lemma is_jsonarray_weaken h h' self s k xs :
  hmem h ⊆ hmem h' -> is_jsonarray h self s k xs -> is_jsonarray h' self s k xs.
Proof.
  intros Hsub [Hs Hx]. split; [|by eapply lookup_weaken].
  destruct self; try discriminate. by eapply lookup_weaken.
Qed.

(** The elements of a sequence in an invariant heap are valid and are not
    wrappers, so [unwrap] is the identity on them. *)
Lemma seq_elem_ok h s k xs x :
  jsonobj_inv h -> hmem h !! s = Some (seq_obj k xs) -> x ∈ xs ->
  val_ok h x /\ unwrap_val h x = x.
Proof.
  intros Hinv Hx Hin.
  destruct (wf_closed h (inv_wf h Hinv) s _ Hx) as [Hc _].
  pose proof (inv_boundary h Hinv s _ Hx) as Hb.
  assert (Hn : is_native_obj (seq_obj k xs) = true) by (destruct k; reflexivity).
  specialize (Hb Hn). destruct k; simpl in Hc, Hb; rewrite Forall_forall in Hc, Hb;
    (split; [by apply Hc | apply unwrap_val_native; by apply Hb]).
Qed.

(** The elements of a sequence in an invariant heap, all at once. *)
Lemma seq_elems_ok h s k xs :
  jsonobj_inv h -> hmem h !! s = Some (seq_obj k xs) ->
  Forall (fun y => val_ok h y /\ refers_to_wrapper h y = false) xs.
Proof.
  intros Hinv Hx.
  destruct (wf_closed h (inv_wf h Hinv) s _ Hx) as [Hc _].
  pose proof (inv_boundary h Hinv s _ Hx) as Hb.
  assert (Hn : is_native_obj (seq_obj k xs) = true) by (destruct k; reflexivity).
  specialize (Hb Hn). destruct k; simpl in Hc, Hb; by apply Forall_and.
Qed.

(** Replacing a list by one built from valid, wrapper-free values. *)
Lemma list_update_inv h s xs ys :
  jsonobj_inv h -> hmem h !! s = Some (OList xs) ->
  Forall (fun y => val_ok h y /\ refers_to_wrapper h y = false) ys ->
  jsonobj_inv (heap_update h s (OList ys)).
Proof.
  intros Hinv Hx Hys. apply (inv_update h s (OList xs)); try done.
  - split; [|done]. simpl. eapply Forall_impl; [exact Hys|]. by intros y [].
  - intros _. simpl. eapply Forall_impl; [exact Hys|]. by intros y [].
Qed.

Ltac run_self H :=
  unfold py_bind at 1; rewrite (self_seq_run _ _ _ _ _ H); cbn beta iota.
Ltac run_list H :=
  unfold py_bind at 1; rewrite (self_list_run _ _ _ _ H); cbn beta iota.

Section array_theorems.
  Context (h : heap) (self : val) (s : loc).

  (** Reading an index outside [[-n, n)] raises [IndexError]. *)
Theorem getitem_out_of_range k xs i :
    is_jsonarray h self s k xs -> (i < - Z.of_nat (length xs) \/ Z.of_nat (length xs) <= i)%Z ->
    JSONarray.__getitem__ self i h = (h, Exc IndexError).
  Proof.
    intros Hself Hi. unfold JSONarray.__getitem__. run_self Hself.
    by rewrite (proj2 (py_norm_index_None _ i) Hi).
  Qed.

  (** C9.  Reading a valid index, negative ones counting from the end, is
      exactly [wrap] of that element: unwrapping the answer gives back the
      element itself, and the invariant holds afterwards. *)
Theorem getitem_in_range k xs i j x :
    jsonobj_inv h -> is_jsonarray h self s k xs ->
    py_norm_index (length xs) i = Some j -> xs !! j = Some x ->
    JSONarray.__getitem__ self i h = wrap x h /\
    exists h' r, wrap x h = (h', Ok r) /\ jsonobj_inv h' /\ unwrap_val h' r = x.
  Proof.
    intros Hinv Hself Hj Hx. split.
    - unfold JSONarray.__getitem__. run_self Hself. by rewrite Hj; simpl; rewrite Hx.
    - destruct (seq_elem_ok h s k xs x Hinv (proj2 Hself)) as [Hv Hu];
        [by eapply list_elem_of_lookup_2|].
      destruct (wrap_preserves_inv h x Hinv Hv) as (h' & r & Hr & Hinv' & _ & Hu').
      exists h', r. by rewrite Hu', Hu.
  Qed.

  Context (xs : list val) (Hinv : jsonobj_inv h) (Hself : is_jsonarray h self s KList xs).

Lemma elems_ok : Forall (fun y => val_ok h y /\ refers_to_wrapper h y = false) xs.
  Proof. exact (seq_elems_ok h s KList xs Hinv (proj2 Hself)). Qed.

Lemma unwrapped_ok value :
    val_ok h value -> val_ok h (unwrap_val h value) /\ refers_to_wrapper h (unwrap_val h value) = false.
  Proof. intros Hv. by apply unwrap_val_ok. Qed.

  (** C10.  Indexed write stores [unwrap(value)] at a valid index, in
      place and keeping the invariant; an index out of range raises
      [IndexError] and the list does not grow. *)
Theorem setitem_spec i value :
    val_ok h value ->
    match py_norm_index (length xs) i with
    | Some j =>
        JSONarray.__setitem__ self i value h =
          (heap_update h s (OList (<[j := unwrap_val h value]> xs)), Ok tt) /\
        jsonobj_inv (heap_update h s (OList (<[j := unwrap_val h value]> xs)))
    | None => JSONarray.__setitem__ self i value h = (h, Exc IndexError)
    end.
  Proof.
    intros Hv. destruct (py_norm_index (length xs) i) as [j|] eqn:Hj;
      unfold JSONarray.__setitem__; run_list Hself;
      rewrite (py_bind_run_ok _ _ _ _ _ (unwrap_run h value Hv)), Hj; [split|done].
    - by apply put_obj_run with (o' := OList xs), Hself.
    - apply (list_update_inv h s xs); [done|apply Hself|].
      apply Forall_insert; [apply elems_ok|by apply unwrapped_ok].
  Qed.

  (** C13.  [pop(i)] removes the element at a valid index (the last one by
      default, [i = -1]) and answers it wrapped: its answer and final heap
      are those of [wrap] of the element, run once the element is deleted
      from the list, and unwrapping the answer gives the element back; on
      an empty list or an index out of range it raises [IndexError] and
      changes nothing. *)
Theorem pop_spec i :
    match py_norm_index (length xs) i with
    | Some j =>
        exists h' r x, xs !! j = Some x /\
          JSONarray.pop self i h = (h', Ok r) /\
          wrap x (heap_update h s (OList (delete j xs))) = (h', Ok r) /\
          hmem h' !! s = Some (OList (delete j xs)) /\
          unwrap_val h' r = x /\ jsonobj_inv h'
    | None => JSONarray.pop self i h = (h, Exc IndexError)
    end.
  Proof.
    destruct (py_norm_index (length xs) i) as [j|] eqn:Hj;
      unfold JSONarray.pop; run_list Hself; rewrite Hj; [simpl|done].
    destruct (py_norm_index_Some _ _ _ Hj) as [Hlt _].
    destruct (lookup_lt_is_Some_2 xs j Hlt) as [x Hx]. rewrite Hx. simpl.
    set (h1 := heap_update h s (OList (delete j xs))).
    assert (Hinv1 : jsonobj_inv h1).
    { apply (list_update_inv h s xs); [done|apply Hself|]. apply Forall_delete, elems_ok. }
    pose proof (is_jsonarray_update h self s xs (delete j xs) Hself) as Hself1.
    assert (Hxin : x ∈ xs) by (by eapply list_elem_of_lookup_2).
    pose proof (proj1 (Forall_forall _ _) elems_ok x Hxin) as [Hvx Hwx].
    assert (Hv1 : val_ok h1 x) by (apply val_ok_update; [by eexists; apply Hself|done]).
    destruct (wrap_preserves_inv h1 x Hinv1 Hv1) as (h' & r & Hr & Hinv' & _ & Hu).
    exists h', r, x. split; [done|].
    rewrite (py_bind_run_ok _ _ _ _ _ (put_obj_run s _ (OList xs) h (proj2 Hself))).
    fold h1. rewrite Hr. split; [done|]. split; [done|]. split.
    - eapply lookup_weaken; [|eapply wrap_grows; [apply Hinv1|exact Hv1|exact Hr]].
      subst h1. rewrite lookup_update. by case_decide.
    - split; [|done]. rewrite Hu. apply unwrap_val_native.
      subst h1. unfold refers_to_wrapper. rewrite obj_at_update. case_decide; [done|].
      exact Hwx.
  Qed.

  (** C11.  [append] stores [unwrap(value)] at the end, in place, keeping
      the invariant. *)
Theorem append_spec value :
    val_ok h value ->
    JSONarray.append self value h =
      (heap_update h s (OList (xs ++ [unwrap_val h value])), Ok tt) /\
    jsonobj_inv (heap_update h s (OList (xs ++ [unwrap_val h value]))).
  Proof.
    intros Hv. unfold JSONarray.append. run_list Hself.
    rewrite (py_bind_run_ok _ _ _ _ _ (unwrap_run h value Hv)). split.
    - by apply put_obj_run with (o' := OList xs), Hself.
    - apply (list_update_inv h s xs); [done|apply Hself|].
      apply Forall_app; split; [apply elems_ok|repeat constructor; by apply unwrapped_ok].
  Qed.

  (** C12.  [insert] stores [value] as given, at the clamped position
      (never an error).  Given a wrapper, it puts a wrapper inside the
      native list: the representation invariant no longer holds, unlike
      after [append] or an indexed write. *)
Theorem insert_spec i value :
    JSONarray.insert self i value h =
      (heap_update h s (OList (insert_at (py_clamp_index (length xs) i) value xs)), Ok tt) /\
    (refers_to_wrapper h value = true ->
     ~ jsonobj_inv (heap_update h s (OList (insert_at (py_clamp_index (length xs) i) value xs)))).
  Proof.
    split.
    - unfold JSONarray.insert. run_list Hself.
      by apply put_obj_run with (o' := OList xs), Hself.
    - intros Hw Hinv'. set (ys := insert_at _ value xs) in *.
      pose proof (inv_boundary _ Hinv' s (OList ys)) as Hb.
      rewrite lookup_update, decide_True in Hb by done.
      specialize (Hb eq_refl eq_refl). simpl in Hb. rewrite Forall_forall in Hb.
      specialize (Hb value (elem_of_insert_at _ _ _)).
      rewrite (refers_to_wrapper_update h s (OList xs) (OList ys)) in Hb;
        [congruence|apply Hself|done].
  Qed.

  (** C14.  [del a[i]] removes the element at a valid index, shifting the
      rest left; an index out of range raises [IndexError]. *)
Theorem delitem_spec i :
    match py_norm_index (length xs) i with
    | Some j =>
        JSONarray.__delitem__ self i h = (heap_update h s (OList (delete j xs)), Ok tt) /\
        length (delete j xs) = pred (length xs) /\
        jsonobj_inv (heap_update h s (OList (delete j xs)))
    | None => JSONarray.__delitem__ self i h = (h, Exc IndexError)
    end.
  Proof.
    destruct (py_norm_index (length xs) i) as [j|] eqn:Hj;
      unfold JSONarray.__delitem__; run_list Hself; rewrite Hj; [|done].
    destruct (py_norm_index_Some _ _ _ Hj) as [Hlt _].
    split; [|split].
    - by apply put_obj_run with (o' := OList xs), Hself.
    - by apply length_list_delete.
    - apply (list_update_inv h s xs); [done|apply Hself|]. apply Forall_delete, elems_ok.
  Qed.
End array_theorems.

(** ** Iterating a sequence, and the [extend] loop *)

(** The iterator [for] gets from a [list]/[tuple] ([b = false]) or from a
    [JSONarray] over it ([b = true]). *)
Definition seq_iter (b : bool) (src : loc) (i : nat) : py_iter :=
  if b then WrapIter (SeqIter src i) else SeqIter src i.

Lemma iter_next_wrap it :
  iter_next (WrapIter it) =
    (let* r := iter_next it in
     match r with
     | Some (x, it') => let* w := wrap x in py_ret (Some (w, WrapIter it'))
     | None => py_ret None
     end).
Proof. reflexivity. Qed.

(** [next] on a [list]/[tuple] iterator reads the item at its position. *)
Lemma iter_next_seq h src k zs i :
  hmem h !! src = Some (seq_obj k zs) ->
  iter_next (SeqIter src i) h =
    (h, Ok (match zs !! i with Some z => Some (z, SeqIter src (S i)) | None => None end)).
Proof. intros Hsrc. unfold iter_next, py_bind, get_obj. rewrite Hsrc. destruct k; simpl; by destruct (zs !! i). Qed.

Lemma seq_iter_next h b src k zs i :
  jsonobj_inv h -> hmem h !! src = Some (seq_obj k zs) ->
  match zs !! i with
  | Some z => exists h1 w,
      iter_next (seq_iter b src i) h = (h1, Ok (Some (w, seq_iter b src (S i)))) /\
      jsonobj_inv h1 /\ hmem h ⊆ hmem h1 /\ val_ok h1 w /\ unwrap_val h1 w = z
  | None => iter_next (seq_iter b src i) h = (h, Ok None)
  end.
Proof.
  intros Hinv Hsrc.
  pose proof (iter_next_seq h src k zs i Hsrc) as Hraw.
  destruct (zs !! i) as [z|] eqn:Hz.
  2:{ destruct b; cbn [seq_iter]; [rewrite iter_next_wrap; unfold py_bind; by rewrite Hraw|done]. }
  destruct (seq_elem_ok h src k zs z Hinv Hsrc) as [Hv Hu]; [by eapply list_elem_of_lookup_2|].
  destruct b; cbn [seq_iter].
  - destruct (wrap_preserves_inv h z Hinv Hv) as (h1 & w & Hw & Hinv1 & Hv1 & Hu1).
    exists h1, w. rewrite iter_next_wrap. unfold py_bind at 1. rewrite Hraw. cbn beta iota.
    unfold py_bind. rewrite Hw. split; [done|]. split; [done|]. split.
    + eapply wrap_grows; [apply Hinv|exact Hv|exact Hw].
    + split; [done|]. by rewrite Hu1.
  - exists h, z. split; [by rewrite Hraw|]. done.
Qed.

(** One turn of the loop: the item's underlying value is appended to the
    list behind [self]. *)
Lemma extend_loop_step fuel b h self s cur src k zs i z :
  jsonobj_inv h -> is_jsonarray h self s KList cur ->
  hmem h !! src = Some (seq_obj k zs) -> zs !! i = Some z ->
  exists h2,
    JSONarray.extend_loop (S fuel) self (seq_iter b src i) h =
      JSONarray.extend_loop fuel self (seq_iter b src (S i)) h2 /\
    jsonobj_inv h2 /\ is_jsonarray h2 self s KList (cur ++ [z]) /\
    (src <> s -> hmem h2 !! src = Some (seq_obj k zs)).
Proof.
  intros Hinv Hself Hsrc Hz.
  pose proof (seq_iter_next h b src k zs i Hinv Hsrc) as Hn. rewrite Hz in Hn.
  destruct Hn as (h1 & w & Hnext & Hinv1 & Hsub & Hv1 & Hu1).
  pose proof (is_jsonarray_weaken h h1 self s KList cur Hsub Hself) as Hself1.
  assert (Hsrc1 : hmem h1 !! src = Some (seq_obj k zs)) by (by eapply lookup_weaken).
  destruct (seq_elem_ok h1 src k zs z Hinv1 Hsrc1) as [Hvz Huz]; [by eapply list_elem_of_lookup_2|].
  destruct (append_spec h1 self s cur Hinv1 Hself1 z Hvz) as [Happ Hinv2].
  rewrite Huz in Happ, Hinv2.
  exists (heap_update h1 s (OList (cur ++ [z]))). split; [|split; [done|split]].
  - cbn [JSONarray.extend_loop]. unfold py_bind at 1. rewrite Hnext. cbn beta iota.
    rewrite (py_bind_run_ok _ _ _ _ _ (unwrap_run h1 w Hv1)), Hu1.
    by rewrite (py_bind_run_ok _ _ _ _ _ Happ).
  - by apply (is_jsonarray_update h1 self s cur (cur ++ [z])).

  - intros Hne. rewrite lookup_update. by case_decide.
Qed.

(** With enough steps the loop over a sequence other than [self]'s own
    appends its remaining items and stops. *)
Lemma extend_loop_copy fuel b h self s cur src k zs i :
  jsonobj_inv h -> is_jsonarray h self s KList cur -> src <> s ->
  hmem h !! src = Some (seq_obj k zs) -> length zs - i < fuel ->
  exists h', JSONarray.extend_loop fuel self (seq_iter b src i) h = (h', Ok tt) /\
    jsonobj_inv h' /\ is_jsonarray h' self s KList (cur ++ drop i zs) /\
    hmem h' !! src = Some (seq_obj k zs).
Proof.
  revert h cur i. induction fuel as [|fuel IH]; intros h cur i Hinv Hself Hne Hsrc Hf; [lia|].
  destruct (zs !! i) as [z|] eqn:Hz.
  - destruct (extend_loop_step fuel b h self s cur src k zs i z Hinv Hself Hsrc Hz)
      as (h2 & -> & Hinv2 & Hself2 & Hsrc2).
    destruct (IH h2 (cur ++ [z]) (S i) Hinv2 Hself2 Hne (Hsrc2 Hne)) as (h' & Hrun & Hrest).
    { apply lookup_lt_Some in Hz. lia. }
    exists h'. split; [done|]. rewrite <- app_assoc in Hrest. rewrite (drop_S zs z i Hz). exact Hrest.
  - exists h. pose proof (seq_iter_next h b src k zs i Hinv Hsrc) as Hn. rewrite Hz in Hn.
    cbn [JSONarray.extend_loop]. unfold py_bind. rewrite Hn.
    rewrite drop_ge, app_nil_r; [done|by apply lookup_ge_None].
Qed.

(** Over [self]'s own list the loop never stops: each turn appends one
    item and the live iterator stays behind the end, so every step
    budget runs out. *)
Lemma extend_loop_alias fuel b h self s cur i :
  jsonobj_inv h -> is_jsonarray h self s KList cur -> i < length cur ->
  exists h', JSONarray.extend_loop fuel self (seq_iter b s i) h = (h', NoFuel).
Proof.
  revert h cur i. induction fuel as [|fuel IH]; intros h cur i Hinv Hself Hi; [by eexists|].
  destruct (lookup_lt_is_Some_2 cur i Hi) as [z Hz].
  destruct (extend_loop_step fuel b h self s cur s KList cur i z Hinv Hself (proj2 Hself) Hz)
    as (h2 & -> & Hinv2 & Hself2 & _).
  apply (IH h2 (cur ++ [z]) (S i) Hinv2 Hself2). rewrite length_app; simpl. lia.
Qed.

Lemma py_iter_of_seq h l k zs :
  hmem h !! l = Some (seq_obj k zs) -> py_iter_of (VRef l) h = (h, Ok (seq_iter false l 0)).
Proof. intros Hl. unfold py_iter_of, py_bind, get_obj. rewrite Hl. by destruct k. Qed.

Lemma py_iter_of_array h v src k ys :
  is_jsonarray h v src k ys -> py_iter_of v h = (h, Ok (seq_iter true src 0)).
Proof.
  intros [Hv Hs]. destruct v as [| | | |l]; try discriminate. cbn [obj_at] in Hv.
  unfold py_iter_of, py_bind, get_obj. rewrite Hv, Hs. by destruct k.
Qed.

Lemma extend_not_self fuel self values :
  values <> self ->
  JSONarray.extend fuel self values =
    (let* it := py_iter_of values in JSONarray.extend_loop fuel self it).
Proof. intros Hne. unfold JSONarray.extend. by rewrite decide_False. Qed.

(** On a tuple-backed array the [extend] loop over a [list]/[tuple]
    stops at its first item: [self.append] raises [AttributeError]
    before anything is written; an empty sequence ends the loop. *)
Lemma extend_loop_tuple fuel h self s xs src k ys :
  is_jsonarray h self s KTuple xs -> hmem h !! src = Some (seq_obj k ys) ->
  Forall (val_ok h) ys -> 0 < fuel ->
  JSONarray.extend_loop fuel self (SeqIter src 0) h =
    (h, match ys with [] => Ok tt | _ => Exc AttributeError end).
Proof.
  intros Hself Hsrc Hys Hf. destruct fuel as [|fuel]; [lia|]. cbn [JSONarray.extend_loop].
  rewrite (py_bind_run_ok _ _ _ _ _ (iter_next_seq h src k ys 0 Hsrc)).
  destruct ys as [|y ys]; [done|]. change ((y :: ys) !! 0) with (Some y). cbn beta iota.
  apply Forall_cons in Hys as [Hy _]. rewrite (py_bind_run_ok _ _ _ _ _ (unwrap_run h y Hy)).
  assert (Happ : JSONarray.append self (unwrap_val h y) h = (h, Exc AttributeError)).
  { unfold JSONarray.append. by rewrite (py_bind_run_exc _ _ _ _ _ (self_list_tuple h self s xs Hself)). }
  by rewrite (py_bind_run_exc _ _ _ _ _ Happ).
Qed.

(** C15.  [a.extend(a)] appends a snapshot of [a]: the list becomes its
    contents twice over ([[x, y]] becomes [[x, y, x, y]]), within
    [length + 1] loop steps. *)
Theorem extend_self_doubles fuel h self s xs :
  jsonobj_inv h -> is_jsonarray h self s KList xs -> length xs < fuel ->
  exists h', JSONarray.extend fuel self self h = (h', Ok tt) /\
             jsonobj_inv h' /\ is_jsonarray h' self s KList (xs ++ xs).
Proof.
  intros Hinv Hself Hf. unfold JSONarray.extend. rewrite decide_True by done.
  rewrite py_bind_assoc. run_self Hself.
  set (h1 := heap_alloc h (OList xs)).
  pose proof (seq_elems_ok h s KList xs Hinv (proj2 Hself)) as Hel.
  assert (Hinv1 : jsonobj_inv h1).
  { apply inv_alloc; [done| |done|].
    - split; [|done]. eapply Forall_impl; [exact Hel|]. by intros y [].
    - intros _. eapply Forall_impl; [exact Hel|]. by intros y []. }
  assert (Hc : hmem h1 !! hnext h = Some (seq_obj KList xs)) by apply lookup_alloc_new.
  assert (Hsub : hmem h ⊆ hmem h1) by (apply insert_subseteq, wf_next_fresh, Hinv).
  pose proof (is_jsonarray_weaken h h1 self s KList xs Hsub Hself) as Hself1.
  assert (Hne : hnext h <> s).
  { intros Heq. pose proof (proj2 Hself) as Hs. rewrite <- Heq, wf_next_fresh in Hs;
      [discriminate|apply Hinv]. }
  destruct (extend_loop_copy fuel false h1 self s xs (hnext h) KList xs 0 Hinv1 Hself1 Hne Hc)
    as (h' & Hrun & Hinv' & Hself' & _); [lia|].
  exists h'. rewrite py_bind_assoc. unfold py_bind at 1. cbn [alloc]. fold h1. cbn beta iota.
  rewrite py_bind_ret_l. unfold py_bind at 1. rewrite (py_iter_of_seq h1 _ KList xs Hc).
  by rewrite drop_0 in Hself'.
Qed.

(** Extending with another array (over a different list or tuple)
    appends its items' underlying values in order, within
    [length + 1] loop steps; the invariant is kept. *)
Theorem extend_other fuel h self s xs other src k ys :
  jsonobj_inv h -> is_jsonarray h self s KList xs -> is_jsonarray h other src k ys ->
  other <> self -> src <> s -> length ys < fuel ->
  exists h', JSONarray.extend fuel self other h = (h', Ok tt) /\
             jsonobj_inv h' /\ is_jsonarray h' self s KList (xs ++ ys).
Proof.
  intros Hinv Hself Hother Hne Hsrc Hf. rewrite extend_not_self by done.
  unfold py_bind at 1. rewrite (py_iter_of_array h other src k ys Hother). cbn beta iota.
  destruct (extend_loop_copy fuel true h self s xs src k ys 0 Hinv Hself Hsrc (proj2 Hother))
    as (h' & Hrun & Hinv' & Hself' & _); [lia|].
  exists h'. by rewrite drop_0 in Hself'.
Qed.

(** C17.  The snapshot is taken only when [values is self]: extending a
    non-empty array with its own raw list ([a.extend(a.seq)]) or with
    another wrapper of that list ([a.extend(JSONarray(a.seq))]) iterates
    the list while appending to it and never terminates: every step
    budget runs out. *)
Theorem extend_alias_diverges fuel h self s xs values :
  jsonobj_inv h -> is_jsonarray h self s KList xs -> xs <> [] -> values <> self ->
  values = VRef s \/ is_jsonarray h values s KList xs ->
  exists h', JSONarray.extend fuel self values h = (h', NoFuel).
Proof.
  intros Hinv Hself Hxs Hne Hval. rewrite extend_not_self by done.
  assert (Hlen : 0 < length xs) by (destruct xs; [done|simpl; lia]).
  destruct Hval as [->|Harr]; unfold py_bind at 1.
  - rewrite (py_iter_of_seq h s KList xs (proj2 Hself)). cbn beta iota.
    exact (extend_loop_alias fuel false h self s xs 0 Hinv Hself Hlen).
  - rewrite (py_iter_of_array h values s KList xs Harr). cbn beta iota.
    exact (extend_loop_alias fuel true h self s xs 0 Hinv Hself Hlen).
Qed.

(** [list(it)]: drain an iterator, one item per unit of [fuel]. *)
Fixpoint iter_collect (fuel : nat) (it : py_iter) : PyM (list val) :=
  match fuel with
  | O => py_nofuel
  | S fuel' =>
      let* r := iter_next it in
      match r with
      | None => py_ret []
      | Some (v, it') => let* rest := iter_collect fuel' it' in py_ret (v :: rest)
      end
  end.

Lemma iter_collect_seq fuel b h src k zs i :
  jsonobj_inv h -> hmem h !! src = Some (seq_obj k zs) -> length zs - i < fuel ->
  exists h' rs, iter_collect fuel (seq_iter b src i) h = (h', Ok rs) /\
    jsonobj_inv h' /\ hmem h ⊆ hmem h' /\ map (unwrap_val h') rs = drop i zs.
Proof.
  revert h i. induction fuel as [|fuel IH]; intros h i Hinv Hsrc Hf; [lia|].
  pose proof (seq_iter_next h b src k zs i Hinv Hsrc) as Hn.
  destruct (zs !! i) as [z|] eqn:Hz.
  - destruct Hn as (h1 & w & Hnext & Hinv1 & Hsub1 & Hv1 & Hu1).
    destruct (IH h1 (S i) Hinv1 (lookup_weaken _ _ _ _ Hsrc Hsub1)) as (h' & rs & Hrun & Hinv' & Hsub' & Hmap).
    { apply lookup_lt_Some in Hz. lia. }
    exists h', (w :: rs). cbn [iter_collect]. unfold py_bind at 1. rewrite Hnext. cbn beta iota.
    rewrite (py_bind_run_ok _ _ _ _ _ Hrun). split; [done|]. split; [done|].
    split; [by trans (hmem h1)|]. simpl. rewrite Hmap, (drop_S zs z i Hz). f_equal.
    rewrite <- Hu1. by apply unwrap_val_weaken.
  - exists h, []. cbn [iter_collect]. unfold py_bind. rewrite Hn.
    split; [done|]. split; [done|]. split; [done|]. simpl.
    symmetry. apply drop_ge. by apply lookup_ge_None.
Qed.

(** Draining the [Iterator] of [JSONarray.__iter__] from position [i] is
    [wrap] of each remaining element in turn: [wrap] only allocates, so
    the list it walks stays as it was. *)
Lemma iter_collect_wrap fuel h src k zs i :
  jsonobj_inv h -> hmem h !! src = Some (seq_obj k zs) -> length zs - i < fuel ->
  iter_collect fuel (WrapIter (SeqIter src i)) h = py_mapM wrap (drop i zs) h.
Proof.
  revert h i. induction fuel as [|fuel IH]; intros h i Hinv Hsrc Hf; [lia|].
  pose proof (iter_next_seq h src k zs i Hsrc) as Hraw.
  cbn [iter_collect]. rewrite iter_next_wrap, py_bind_assoc, (py_bind_run_ok _ _ _ _ _ Hraw).
  destruct (zs !! i) as [z|] eqn:Hz.
  - destruct (seq_elem_ok h src k zs z Hinv Hsrc) as [Hv _]; [by eapply list_elem_of_lookup_2|].
    destruct (wrap_preserves_inv h z Hinv Hv) as (h1 & w & Hw & Hinv1 & _).
    pose proof (wrap_grows h z h1 _ ltac:(apply Hinv) Hv Hw) as Hsub.
    rewrite (drop_S zs z i Hz), py_mapM_cons. unfold py_bind, py_ret. rewrite Hw.
    rewrite (IH h1 (S i) Hinv1 (lookup_weaken _ _ _ _ Hsrc Hsub)); [done|].
    apply lookup_lt_Some in Hz. lia.
  - rewrite drop_ge; [done|]. by apply lookup_ge_None.
Qed.

(** C18.  Iterating an array (list- or tuple-backed) is [wrap] of each
    element in turn, in order: [list(iter(a))] runs exactly as [wrap]
    mapped over the elements, finishes within [length + 1] steps, keeps
    the invariant, and the wrappers' underlying values are the
    elements. *)
Theorem iter_yields_elements fuel h self s k xs :
  jsonobj_inv h -> is_jsonarray h self s k xs -> length xs < fuel ->
  (let* it := JSONarray.__iter__ self in iter_collect fuel it) h = py_mapM wrap xs h /\
  exists h' rs, py_mapM wrap xs h = (h', Ok rs) /\
    jsonobj_inv h' /\ map (unwrap_val h') rs = xs.
Proof.
  intros Hinv Hself Hf.
  assert (E : (let* it := JSONarray.__iter__ self in iter_collect fuel it) h = py_mapM wrap xs h).
  { unfold JSONarray.__iter__. rewrite py_bind_assoc. run_self Hself. rewrite py_bind_ret_l.
    rewrite (iter_collect_wrap fuel h s k xs 0 Hinv (proj2 Hself)); [by rewrite drop_0|lia]. }
  split; [exact E|]. rewrite <- E. unfold JSONarray.__iter__. rewrite py_bind_assoc. run_self Hself.
  rewrite py_bind_ret_l.
  destruct (iter_collect_seq fuel true h s k xs 0 Hinv (proj2 Hself)) as (h' & rs & Hrun & Hinv' & _ & Hmap);
    [lia|].
  exists h', rs. split; [exact Hrun|]. by rewrite drop_0 in Hmap.
Qed.

(** ** Witnesses on the repository's test array *)

Definition test_elems : list val := [VStr "value1"; VRef 1%positive].

Lemma test_is_jsonarray : is_jsonarray test_array_heap (VRef 3%positive) 2%positive KList test_elems.
Proof. split; reflexivity. Qed.

Lemma test_inv : jsonobj_inv test_array_heap.
Proof. decide_by_eval. Qed.

Lemma getitem_out_of_range_witness :
  JSONarray.__getitem__ (VRef 3%positive) 2 test_array_heap = (test_array_heap, Exc IndexError).
Proof. apply (getitem_out_of_range _ _ _ KList test_elems 2%Z test_is_jsonarray). simpl. lia. Defined.

Lemma getitem_in_range_witness :
  JSONarray.__getitem__ (VRef 3%positive) (-1) test_array_heap = wrap (VRef 1%positive) test_array_heap /\
  exists h' r, wrap (VRef 1%positive) test_array_heap = (h', Ok r) /\
               jsonobj_inv h' /\ unwrap_val h' r = VRef 1%positive.
Proof.
  apply (getitem_in_range _ _ 2%positive KList test_elems (-1)%Z 1); [exact test_inv|exact test_is_jsonarray|reflexivity|reflexivity].
Defined.

Lemma setitem_spec_witness :
  match py_norm_index (length test_elems) 0 with
  | Some j =>
      JSONarray.__setitem__ (VRef 3%positive) 0 (VStr "update") test_array_heap =
        (heap_update test_array_heap 2%positive
           (OList (<[j := unwrap_val test_array_heap (VStr "update")]> test_elems)), Ok tt) /\
      jsonobj_inv (heap_update test_array_heap 2%positive
           (OList (<[j := unwrap_val test_array_heap (VStr "update")]> test_elems)))
  | None => JSONarray.__setitem__ (VRef 3%positive) 0 (VStr "update") test_array_heap =
              (test_array_heap, Exc IndexError)
  end.
Proof. apply (setitem_spec _ _ 2%positive test_elems); first [exact test_inv | exact test_is_jsonarray | exact I]. Defined.

Lemma pop_spec_witness :
  match py_norm_index (length test_elems) (-1) with
  | Some j =>
      exists h' r x, test_elems !! j = Some x /\
        JSONarray.pop (VRef 3%positive) (-1) test_array_heap = (h', Ok r) /\
        wrap x (heap_update test_array_heap 2%positive (OList (delete j test_elems))) = (h', Ok r) /\
        hmem h' !! 2%positive = Some (OList (delete j test_elems)) /\
        unwrap_val h' r = x /\ jsonobj_inv h'
  | None => JSONarray.pop (VRef 3%positive) (-1) test_array_heap = (test_array_heap, Exc IndexError)
  end.
Proof. apply (pop_spec _ _ 2%positive test_elems); first [exact test_inv | exact test_is_jsonarray | exact I]. Defined.

Lemma append_spec_witness :
  JSONarray.append (VRef 3%positive) (VStr "append") test_array_heap =
    (heap_update test_array_heap 2%positive
       (OList (test_elems ++ [unwrap_val test_array_heap (VStr "append")])), Ok tt) /\
  jsonobj_inv (heap_update test_array_heap 2%positive
       (OList (test_elems ++ [unwrap_val test_array_heap (VStr "append")]))).
Proof. apply (append_spec _ _ 2%positive test_elems); first [exact test_inv | exact test_is_jsonarray | exact I]. Defined.

Lemma insert_spec_witness :
  JSONarray.insert (VRef 3%positive) 0 (VRef 3%positive) test_array_heap =
    (heap_update test_array_heap 2%positive
       (OList (insert_at (py_clamp_index (length test_elems) 0) (VRef 3%positive) test_elems)), Ok tt) /\
  (refers_to_wrapper test_array_heap (VRef 3%positive) = true ->
   ~ jsonobj_inv (heap_update test_array_heap 2%positive
       (OList (insert_at (py_clamp_index (length test_elems) 0) (VRef 3%positive) test_elems)))).
Proof. apply (insert_spec _ _ 2%positive test_elems); first [exact test_inv | exact test_is_jsonarray | exact I]. Defined.

Lemma delitem_spec_witness :
  match py_norm_index (length test_elems) 0 with
  | Some j =>
      JSONarray.__delitem__ (VRef 3%positive) 0 test_array_heap =
        (heap_update test_array_heap 2%positive (OList (delete j test_elems)), Ok tt) /\
      length (delete j test_elems) = pred (length test_elems) /\
      jsonobj_inv (heap_update test_array_heap 2%positive (OList (delete j test_elems)))
  | None => JSONarray.__delitem__ (VRef 3%positive) 0 test_array_heap = (test_array_heap, Exc IndexError)
  end.
Proof. apply (delitem_spec _ _ 2%positive test_elems); first [exact test_inv | exact test_is_jsonarray | exact I]. Defined.

Lemma extend_self_doubles_witness :
  exists h', JSONarray.extend 3 (VRef 3%positive) (VRef 3%positive) test_array_heap = (h', Ok tt) /\
             jsonobj_inv h' /\ is_jsonarray h' (VRef 3%positive) 2%positive KList (test_elems ++ test_elems).
Proof. apply extend_self_doubles; [exact test_inv|exact test_is_jsonarray|simpl; lia]. Defined.

Lemma extend_other_witness :
  exists h', JSONarray.extend 2 (VRef 3%positive) (VRef 6%positive) test_two_arrays_heap = (h', Ok tt) /\
             jsonobj_inv h' /\
             is_jsonarray h' (VRef 3%positive) 2%positive KList (test_elems ++ [VRef 4%positive]).
Proof.
  apply (extend_other 2 _ _ _ _ _ 5%positive KList);
    [decide_by_eval|split; reflexivity|split; reflexivity|discriminate|discriminate|simpl; lia].
Defined.

Lemma extend_alias_diverges_witness :
  exists h', JSONarray.extend 100 (VRef 3%positive) (VRef 2%positive) test_array_heap = (h', NoFuel).
Proof.
  apply (extend_alias_diverges 100 _ _ 2%positive test_elems);
    [exact test_inv|exact test_is_jsonarray|discriminate|discriminate|by left].
Defined.

Lemma iter_yields_elements_witness :
  (let* it := JSONarray.__iter__ (VRef 3%positive) in iter_collect 3 it) test_array_heap =
    py_mapM wrap test_elems test_array_heap /\
  exists h' rs, py_mapM wrap test_elems test_array_heap = (h', Ok rs) /\
    jsonobj_inv h' /\ map (unwrap_val h') rs = test_elems.
Proof. apply (iter_yields_elements 3 _ _ 2%positive KList); [exact test_inv|exact test_is_jsonarray|simpl; lia]. Defined.
