(* ===== verification/Equality.v ===== *)
(** * Python's [==], the wrappers' [__eq__], and the array searches

    [a == b] runs [type(a).__eq__(a, b)]; if that answers
    [NotImplemented] it runs [type(b).__eq__(b, a)]; if that too answers
    [NotImplemented] the result is [a is b].  Containers compare their
    items with [PyObject_RichCompareBool], which answers [True] for
    identical objects without calling [__eq__].  Each nested comparison
    consumes one unit of the interpreter's recursion budget [depth];
    exhausting it raises [RecursionError] (Python's default limit is 1000
    frames, shared with the caller's own frames).  [JSONobj.__eq__]
    (line 120-121) and [JSONarray.__eq__] (232-233) compare their slot
    with [unwrap(other)] by calling the slot's [__eq__] directly.
    [JSONarray.__contains__], [index], [count] and [remove] (lines
    160-161, 198-202, 225-226) search the sequence with
    [RichCompareBool(element, value)]. *)

From Stdlib Require Import ZArith.
From stdpp Require Import base list gmap strings.
From S2P Require Import Prelude PyObjects PyBuiltins Fixtures Convert ArrayWrapper.

(** [a is b]: the same object.  [None], [True] and [False] are
    singletons; equal [int]s and [str]s may or may not be the same
    object, which only spares a comparison, so they are counted as
    distinct. *)
Definition py_is (a b : val) : bool :=
  match a, b with
  | VRef l1, VRef l2 => bool_decide (l1 = l2)
  | VNone, VNone => true
  | VBool b1, VBool b2 => Bool.eqb b1 b2
  | _, _ => false
  end.

(** [bool] is a subclass of [int]. *)
Definition int_of (v : val) : option Z :=
  match v with
  | VBool b => Some (if b then 1 else 0)%Z
  | VInt z => Some z
  | _ => None
  end.

Section eq_methods.
  (** [cmp x y] is [PyObject_RichCompareBool(x, y, Py_EQ)] one level
      deeper; [h] is the heap being compared. *)
  Context (cmp : val -> val -> outcome bool) (h : heap).

  (** Item-by-item comparison of two sequences of equal length, stopping
      at the first difference or error. *)
Fixpoint items_eq (xs ys : list val) : outcome bool :=
    match xs, ys with
    | x :: xs', y :: ys' =>
        out_bind (cmp x y) (fun r => if r then items_eq xs' ys' else Ok false)
    | _, _ => Ok true
    end.

  (** [dict_equal]: every key of the left dict is in the right one with an
      equal value, in the left dict's order. *)
Fixpoint dict_items_eq (items items2 : list (string * val)) : outcome bool :=
    match items with
    | [] => Ok true
    | (k, v) :: rest =>
        match dict_lookup k items2 with
        | None => Ok false
        | Some v2 => out_bind (cmp v v2) (fun r => if r then dict_items_eq rest items2 else Ok false)
        end
    end.

  (** [dict.__eq__(items, other)]; [None] is [NotImplemented]. *)
Definition dict_eq_method (items : list (string * val)) (other : val) : outcome (option bool) :=
    match other with
    | VRef l =>
        match hmem h !! l with
        | None => Wrong
        | Some (ODict items2) =>
            if decide (length items = length items2)
            then out_bind (dict_items_eq items items2) (fun r => Ok (Some r))
            else Ok (Some false)
        | Some _ => Ok None
        end
    | _ => Ok None
    end.

  (** [list.__eq__] / [tuple.__eq__]: only against the same type. *)
Definition seq_eq_method (k : seq_kind) (xs : list val) (other : val) : outcome (option bool) :=
    match other with
    | VRef l =>
        match hmem h !! l, k with
        | None, _ => Wrong
        | Some (OList ys), KList | Some (OTuple ys), KTuple =>
            if decide (length xs = length ys)
            then out_bind (items_eq xs ys) (fun r => Ok (Some r))
            else Ok (Some false)
        | Some _, _ => Ok None
        end
    | _ => Ok None
    end.

  (** [self.dict.__eq__(o)] / [self.seq.__eq__(o)]: the slot's own method. *)
Definition slot_eq_method (slot other : val) : outcome (option bool) :=
    match obj_at h slot with
    | Some (ODict items) => dict_eq_method items other
    | Some (OList xs) => seq_eq_method KList xs other
    | Some (OTuple xs) => seq_eq_method KTuple xs other
    | _ => Exc TypeError
    end.

End eq_methods.

Module JSONobj.
  (** [return self.dict.__eq__(unwrap(other))] *)
Definition __eq__ (cmp : val -> val -> outcome bool) (h : heap) (dict other : val) :
      outcome (option bool) :=
    slot_eq_method cmp h dict (unwrap_val h other).
End JSONobj.

Module JSONarray.
  (** [return self.seq.__eq__(unwrap(other))] *)
Definition __eq__ (cmp : val -> val -> outcome bool) (h : heap) (seq other : val) :
      outcome (option bool) :=
    slot_eq_method cmp h seq (unwrap_val h other).
End JSONarray.

(** [type(a).__eq__(a, b)]. *)
Definition eq_method (cmp : val -> val -> outcome bool) (h : heap) (a b : val) : outcome (option bool) :=
  match a with
  | VNone => Ok (if py_is a b then Some true else None)
  | VBool _ | VInt _ =>
      match int_of a, int_of b with
      | Some z1, Some z2 => Ok (Some (Z.eqb z1 z2))
      | _, _ => Ok None
      end
  | VStr s1 => match b with VStr s2 => Ok (Some (String.eqb s1 s2)) | _ => Ok None end
  | VRef l =>
      match hmem h !! l with
      | None => Wrong
      | Some (ODict items) => dict_eq_method cmp h items b
      | Some (OList xs) => seq_eq_method cmp h KList xs b
      | Some (OTuple xs) => seq_eq_method cmp h KTuple xs b
      | Some (OJSONobj d) => JSONobj.__eq__ cmp h d b
      | Some (OJSONarray s) => JSONarray.__eq__ cmp h s b
      end
  end.

(** [a == b] with [depth] levels of recursion left. *)
Fixpoint rich_eq (depth : nat) (h : heap) (a b : val) : outcome bool :=
  match depth with
  | O => Exc RecursionError
  | S depth' =>
      let cmp x y := if py_is x y then Ok true else rich_eq depth' h x y in
      out_bind (eq_method cmp h a b) (fun r =>
        match r with
        | Some r => Ok r
        | None => out_bind (eq_method cmp h b a) (fun r' =>
            match r' with Some r' => Ok r' | None => Ok (py_is a b) end)
        end)
  end.

(** [PyObject_RichCompareBool(a, b, Py_EQ)]. *)
Definition rich_eq_bool (depth : nat) (h : heap) (a b : val) : outcome bool :=
  if py_is a b then Ok true else rich_eq depth h a b.

(** ** Wrapper equality *)

Lemma out_bind_some_then {A} (o : outcome A) (k : option A -> outcome A) :
  out_bind (out_bind o (fun r => Ok (Some r))) (fun r => match r with Some r => Ok r | None => k r end) = o.
Proof. by destruct o. Qed.

Section wrapper_eq.
  Context (depth : nat) (h : heap) (w : val) (d d2 : loc) (items items2 : list (string * val)).
  Context (Hw : obj_at h w = Some (OJSONobj (VRef d))) (Hd : hmem h !! d = Some (ODict items)).
  Context (Hd2 : hmem h !! d2 = Some (ODict items2)).

Let cmp := fun a b => if py_is a b then Ok true else rich_eq depth h a b.

  (** The comparison both orders come down to: [w.dict] against [d2]. *)
Definition wrapper_dict_cmp : outcome bool :=
    if decide (length items = length items2) then dict_items_eq cmp items items2 else Ok false.

Lemma JSONobj_eq_method_run x :
    unwrap_val h x = VRef d2 ->
    eq_method cmp h w x = out_bind wrapper_dict_cmp (fun r => Ok (Some r)).
  Proof.
    intros Hx. destruct w as [| | | |lw]; try discriminate. cbn [obj_at] in Hw.
    unfold eq_method. rewrite Hw. unfold JSONobj.__eq__, slot_eq_method. rewrite Hx.
    cbn [obj_at]. rewrite Hd. unfold dict_eq_method. rewrite Hd2.
    unfold wrapper_dict_cmp. by case_decide.
  Qed.

  (** C25.  A [JSONobj] compares structurally against [unwrap(other)]:
      [w == x] is the comparison of [w]'s mapping with the mapping under
      [x], whether [x] is that mapping or a wrapper of it; and
      [mapping == w] gives the same answer, through [dict.__eq__]
      answering [NotImplemented] and the reflected [JSONobj.__eq__]. *)
Theorem JSONobj_eq_structural x :
    unwrap_val h x = VRef d2 ->
    rich_eq (S depth) h w x = wrapper_dict_cmp /\
    rich_eq (S depth) h (VRef d2) w = wrapper_dict_cmp.
  Proof.
    intros Hx. split.
    - cbn [rich_eq]. fold cmp. rewrite (JSONobj_eq_method_run x Hx). apply out_bind_some_then.
    - cbn [rich_eq]. fold cmp.
      assert (Hn : eq_method cmp h (VRef d2) w = Ok None).
      { destruct w as [| | | |lw]; try discriminate. cbn [obj_at] in Hw.
        unfold eq_method. rewrite Hd2. unfold dict_eq_method. by rewrite Hw. }
      rewrite Hn. simpl.
      assert (Hu : unwrap_val h (VRef d2) = VRef d2) by (unfold unwrap_val; cbn [obj_at]; by rewrite Hd2).
      rewrite (JSONobj_eq_method_run (VRef d2) Hu). by destruct wrapper_dict_cmp.
  Qed.
End wrapper_eq.

Lemma JSONobj_eq_structural_witness :
  rich_eq 10 eq_test_heap (VRef 3%positive) (VRef 6%positive) =
    wrapper_dict_cmp 9 eq_test_heap [("key1", VStr "value1"); ("key2", VRef 1%positive)]
                     [("key1", VStr "value1"); ("key2", VRef 4%positive)] /\
  rich_eq 10 eq_test_heap (VRef 5%positive) (VRef 3%positive) =
    wrapper_dict_cmp 9 eq_test_heap [("key1", VStr "value1"); ("key2", VRef 1%positive)]
                     [("key1", VStr "value1"); ("key2", VRef 4%positive)].
Proof.
  apply (JSONobj_eq_structural 9 eq_test_heap (VRef 3%positive) 2%positive 5%positive);
    reflexivity.
Defined.

Lemma JSONobj_eq_test_true : rich_eq 10 eq_test_heap (VRef 3%positive) (VRef 6%positive) = Ok true.
Proof. vm_compute. reflexivity. Qed.
