(* ===== verification/ArraySearch.v ===== *)
(** * The searching methods of [JSONarray] (src/jsonobj.py lines 160-161,
    198-202, 225-226)

    [__contains__], [index] and [count] unwrap their argument and delegate
    to the sequence's method, which compares each element with it by
    [RichCompareBool(element, value)] ([Equality.rich_eq_bool]); [remove]
    passes its argument as given.  [index]'s bounds follow [list.index]:
    a negative bound counts from the end ([py_slice_bound]), and the
    default [stop=-1] of the source therefore means [len - 1].

    With [remove] defined here, the file also gathers what every method
    does on an array over a [tuple] ([tuple_array_methods]). *)

From Stdlib Require Import ZArith.
From stdpp Require Import base list gmap strings.
From S2P Require Import Prelude PyObjects PyBuiltins Fixtures Convert ArrayWrapper Equality.

(** Read-only steps that look at the current heap. *)
Definition py_read {A} (f : heap -> outcome A) : PyM A := fun h => (h, f h).

Section searches.
  Context (cmp : val -> val -> outcome bool) (v : val).

  (** [list.index]'s loop: positions [i], [i+1], ... below [stop]. *)
Fixpoint find_index (xs : list val) (i stop : nat) : outcome (option nat) :=
    match xs with
    | [] => Ok None
    | x :: rest =>
        if decide (i < stop) then
          out_bind (cmp x v) (fun r => if r then Ok (Some i) else find_index rest (S i) stop)
        else Ok None
    end.

Fixpoint count_eq (xs : list val) : outcome nat :=
    match xs with
    | [] => Ok 0
    | x :: rest =>
        out_bind (cmp x v) (fun r => out_bind (count_eq rest) (fun c => Ok (if r then S c else c)))
    end.
End searches.

Module JSONarray.

Definition __contains__ (depth : nat) (self item : val) : PyM bool :=
    let* '(_, _, xs) := self_seq self in
    let* u := unwrap item in
    let* r := py_read (fun h => find_index (rich_eq_bool depth h) u xs 0 (length xs)) in
    py_ret (bool_decide (is_Some r)).

  (** [def index(self, value, start=0, stop=-1)] *)
Definition index (depth : nat) (self value : val) (start stop : Z) : PyM nat :=
    let* '(_, _, xs) := self_seq self in
    let* u := unwrap value in
    let i0 := py_slice_bound (length xs) start in
    let* r := py_read (fun h =>
      find_index (rich_eq_bool depth h) u (drop i0 xs) i0 (py_slice_bound (length xs) stop)) in
    match r with
    | Some i => py_ret i
    | None => py_raise ValueError
    end.

Definition count (depth : nat) (self value : val) : PyM nat :=
    let* '(_, _, xs) := self_seq self in
    let* u := unwrap value in
    py_read (fun h => count_eq (rich_eq_bool depth h) u xs).

  (** [self.seq.remove(value)]: no [unwrap]. *)
Definition remove (depth : nat) (self value : val) : PyM unit :=
    let* '(s, xs) := self_list self in
    let* r := py_read (fun h => find_index (rich_eq_bool depth h) value xs 0 (length xs)) in
    match r with
    | Some i => put_obj s (OList (delete i xs))
    | None => py_raise ValueError
    end.

End JSONarray.

(** ** Searching *)

Section find_lemmas.
  Context (cmp : val -> val -> outcome bool) (v : val).

  (** The loop finds nothing among elements that all compare unequal. *)
Lemma find_index_none xs i stop :
    Forall (fun y => cmp y v = Ok false) xs -> find_index cmp v xs i stop = Ok None.
  Proof.
    revert i. induction xs as [|y xs IH]; intros i Hall; [done|]. inversion Hall as [|? ? Hy Hrest]; subst.
    simpl. case_decide; [|done]. rewrite Hy. simpl. by apply IH.
  Qed.

  (** It stops at the bound: positions at or above [stop] are never
      examined. *)
Lemma find_index_stop xs i stop :
    stop <= i -> find_index cmp v xs i stop = Ok None.
  Proof. destruct xs; simpl; [done|]. intros. by rewrite decide_False by lia. Qed.

Lemma find_index_app xs ys i stop :
    Forall (fun y => cmp y v = Ok false) xs ->
    find_index cmp v (xs ++ ys) i stop = find_index cmp v ys (i + length xs) stop.
  Proof.
    revert i. induction xs as [|y xs IH]; intros i Hall; simpl; [by rewrite Nat.add_0_r|].
    inversion Hall as [|? ? Hy Hrest]; subst. case_decide.
    - rewrite Hy. simpl. rewrite IH by done. f_equal. lia.
    - symmetry. apply find_index_stop. lia.
  Qed.
End find_lemmas.

Lemma py_slice_bound_neg1 n : 0 < n -> py_slice_bound n (-1) = n - 1.
Proof. intros Hn. unfold py_slice_bound. simpl. lia. Qed.

Lemma py_slice_bound_nat n k : py_slice_bound n (Z.of_nat k) = k.
Proof. unfold py_slice_bound. destruct (Z.ltb_spec (Z.of_nat k) 0); lia. Qed.

Section index_theorems.
  Context (depth : nat) (h : heap) (self : val) (s : loc) (k : seq_kind).
  Context (ys : list val) (x value : val).
  Context (Hself : is_jsonarray h self s k (ys ++ [x])) (Hv : val_ok h value).
  Context (Hys : Forall (fun y => rich_eq_bool depth h y (unwrap_val h value) = Ok false) ys).

  (** C24.  With the default bounds of the source, [index(value)] never
      examines the last element: when no earlier element equals [value],
      it raises [ValueError] even if the last element does. *)
Theorem index_default_skips_last :
    JSONarray.index depth self value 0 (-1) h = (h, Exc ValueError).
  Proof.
    unfold JSONarray.index. run_self Hself.
    rewrite (py_bind_run_ok _ _ _ _ _ (unwrap_run h value Hv)).
    unfold py_bind at 1, py_read. cbn [py_slice_bound]. rewrite drop_0.
    rewrite length_app, py_slice_bound_neg1 by (simpl; lia). simpl length.
    rewrite find_index_app by done. rewrite find_index_stop by lia. reflexivity.
  Qed.

  (** With [stop] set to the length, the same search reaches the last
      element: [index] answers its position when it equals [value]. *)
Theorem index_full_range_finds_last :
    rich_eq_bool depth h x (unwrap_val h value) = Ok true ->
    JSONarray.index depth self value 0 (Z.of_nat (length (ys ++ [x]))) h = (h, Ok (length ys)).
  Proof.
    intros Hx. unfold JSONarray.index. run_self Hself.
    rewrite (py_bind_run_ok _ _ _ _ _ (unwrap_run h value Hv)).
    unfold py_bind at 1, py_read. cbn [py_slice_bound]. rewrite drop_0, py_slice_bound_nat.
    rewrite find_index_app by done. simpl. rewrite decide_True by (rewrite length_app; simpl; lia).
    by rewrite Hx.
  Qed.
End index_theorems.

(** ** Arrays over a tuple *)

(** C20.  On a tuple-backed array ([wrap] of a tuple) the methods that
    write through [self.seq] fail with [AttributeError], since [tuple]
    lacks [__setitem__], [__delitem__], [insert], [append], [pop],
    [clear], [reverse] and [remove], and so does [reversed()], which
    calls [self.seq.__reversed__()]; each leaves the heap as it was.
    [extend] and [+=] fail only once they reach an item: with a [list]
    or [tuple] they raise [AttributeError] at its first item, with the
    heap unchanged, and finish normally on an empty one; [a.extend(a)]
    first copies [a.seq] into a new list, which stays allocated, and
    raises unless the tuple is empty. *)
Theorem tuple_array_methods depth fuel h self s xs i v src k ys :
  jsonobj_inv h -> is_jsonarray h self s KTuple xs -> hmem h !! src = Some (seq_obj k ys) -> 0 < fuel ->
  JSONarray.__reversed__ self h = (h, Exc AttributeError) /\
  JSONarray.__setitem__ self i v h = (h, Exc AttributeError) /\
  JSONarray.__delitem__ self i h = (h, Exc AttributeError) /\
  JSONarray.insert self i v h = (h, Exc AttributeError) /\
  JSONarray.append self v h = (h, Exc AttributeError) /\
  JSONarray.pop self i h = (h, Exc AttributeError) /\
  JSONarray.clear self h = (h, Exc AttributeError) /\
  JSONarray.reverse self h = (h, Exc AttributeError) /\
  JSONarray.remove depth self v h = (h, Exc AttributeError) /\
  JSONarray.extend fuel self (VRef src) h = (h, match ys with [] => Ok tt | _ => Exc AttributeError end) /\
  JSONarray.__iadd__ fuel self (VRef src) h = (h, match ys with [] => Ok self | _ => Exc AttributeError end) /\
  JSONarray.extend fuel self self h =
    (heap_alloc h (OList xs), match xs with [] => Ok tt | _ => Exc AttributeError end).
Proof.
  intros Hinv Hself Hsrc Hf. pose proof (self_list_tuple h self s xs Hself) as Ht.
  assert (Hok : forall h' l k' zs, jsonobj_inv h' -> hmem h' !! l = Some (seq_obj k' zs) -> Forall (val_ok h') zs).
  { intros h' l k' zs Hi Hl. eapply Forall_impl; [exact (seq_elems_ok h' l k' zs Hi Hl)|]. by intros y []. }
  assert (Hne : VRef src <> self).
  { intros <-. destruct Hself as [Hs _]. cbn [obj_at] in Hs. rewrite Hsrc in Hs. by destruct k. }
  assert (Hext : JSONarray.extend fuel self (VRef src) h =
                 (h, match ys with [] => Ok tt | _ => Exc AttributeError end)).
  { rewrite extend_not_self by done. rewrite (py_bind_run_ok _ _ _ _ _ (py_iter_of_seq h src k ys Hsrc)).
    exact (extend_loop_tuple fuel h self s xs src k ys Hself Hsrc (Hok h src k ys Hinv Hsrc) Hf). }
  split; [unfold JSONarray.__reversed__; by run_self Hself|].
  unfold JSONarray.__setitem__, JSONarray.__delitem__, JSONarray.insert, JSONarray.append,
    JSONarray.pop, JSONarray.clear, JSONarray.reverse, JSONarray.remove.
  split_and!; try by rewrite (py_bind_run_exc _ _ _ _ _ Ht).
  - exact Hext.
  - unfold JSONarray.__iadd__, py_bind at 1. rewrite Hext. by destruct ys.
  - unfold JSONarray.extend. rewrite decide_True by done. rewrite py_bind_assoc. run_self Hself.
    set (h1 := heap_alloc h (OList xs)).
    assert (Hc : hmem h1 !! hnext h = Some (seq_obj KList xs)) by apply lookup_alloc_new.
    assert (Hsub : hmem h ⊆ hmem h1) by (apply insert_subseteq, wf_next_fresh, Hinv).
    rewrite py_bind_assoc. unfold py_bind at 1. cbn [alloc]. fold h1. cbn beta iota.
    rewrite py_bind_ret_l. unfold py_bind at 1. rewrite (py_iter_of_seq h1 _ KList xs Hc). cbn beta iota.
    refine (extend_loop_tuple fuel h1 self s xs (hnext h) KList xs _ Hc _ Hf);
      [exact (is_jsonarray_weaken h h1 self s KTuple xs Hsub Hself)|].
    eapply Forall_impl; [exact (Hok h s KTuple xs Hinv (proj2 Hself))|]. intros y Hy.
    by apply val_ok_alloc.
Qed.

(** ** Witnesses on the repository's test array [['value1', {'foo': 'bar'}]] *)

(** [array.index(array.seq[1])] raises [ValueError]. *)
Lemma index_default_skips_last_witness :
  JSONarray.index 1000 (VRef 3%positive) (VRef 1%positive) 0 (-1) test_array_heap =
    (test_array_heap, Exc ValueError).
Proof.
  apply (index_default_skips_last 1000 test_array_heap (VRef 3%positive) 2%positive KList
           [VStr "value1"] (VRef 1%positive) (VRef 1%positive));
    [split; reflexivity | decide_by_eval | constructor; [vm_compute; reflexivity|constructor]].
Defined.

Lemma index_full_range_finds_last_witness :
  JSONarray.index 1000 (VRef 3%positive) (VRef 1%positive) 0
    (Z.of_nat (length ([VStr "value1"] ++ [VRef 1%positive]))) test_array_heap =
    (test_array_heap, Ok (length [VStr "value1"])).
Proof.
  apply (index_full_range_finds_last 1000 test_array_heap (VRef 3%positive) 2%positive KList
           [VStr "value1"] (VRef 1%positive) (VRef 1%positive));
    [split; reflexivity | decide_by_eval | constructor; [vm_compute; reflexivity|constructor]
    | vm_compute; reflexivity].
Defined.

(** On [JSONarray(('a', 'b'))]: [a.extend(a.seq)] raises at the tuple's
    first item. *)
Lemma tuple_array_methods_witness :
  JSONarray.__reversed__ (VRef 2%positive) test_tuple_heap = (test_tuple_heap, Exc AttributeError) /\
  JSONarray.__setitem__ (VRef 2%positive) 0 VNone test_tuple_heap = (test_tuple_heap, Exc AttributeError) /\
  JSONarray.__delitem__ (VRef 2%positive) 0 test_tuple_heap = (test_tuple_heap, Exc AttributeError) /\
  JSONarray.insert (VRef 2%positive) 0 VNone test_tuple_heap = (test_tuple_heap, Exc AttributeError) /\
  JSONarray.append (VRef 2%positive) VNone test_tuple_heap = (test_tuple_heap, Exc AttributeError) /\
  JSONarray.pop (VRef 2%positive) 0 test_tuple_heap = (test_tuple_heap, Exc AttributeError) /\
  JSONarray.clear (VRef 2%positive) test_tuple_heap = (test_tuple_heap, Exc AttributeError) /\
  JSONarray.reverse (VRef 2%positive) test_tuple_heap = (test_tuple_heap, Exc AttributeError) /\
  JSONarray.remove 1000 (VRef 2%positive) VNone test_tuple_heap = (test_tuple_heap, Exc AttributeError) /\
  JSONarray.extend 3 (VRef 2%positive) (VRef 1%positive) test_tuple_heap = (test_tuple_heap, Exc AttributeError) /\
  JSONarray.__iadd__ 3 (VRef 2%positive) (VRef 1%positive) test_tuple_heap =
    (test_tuple_heap, Exc AttributeError) /\
  JSONarray.extend 3 (VRef 2%positive) (VRef 2%positive) test_tuple_heap =
    (heap_alloc test_tuple_heap (OList [VStr "a"; VStr "b"]), Exc AttributeError).
Proof.
  apply (tuple_array_methods 1000 3 test_tuple_heap (VRef 2%positive) 1%positive [VStr "a"; VStr "b"] 0 VNone
           1%positive KTuple [VStr "a"; VStr "b"]);
    [decide_by_eval|split; reflexivity|reflexivity|lia].
Defined.
