(* ===== verification/JsonText.v ===== *)
(** * JSON text as Python's [json] module writes and reads it

    The external codec behind the adapters of [src/jsonobj.py], modelled
    from CPython's [json] package with its C accelerator [_json]
    (the library's semantics, not code of the repository):
    - [json]: the native JSON value tree;
    - [dumps_tree]: the text [json.dumps] produces with its default
      options ([ensure_ascii=True], separators [', '] and [': '], no
      indentation, keys in insertion order), with [int.__repr__] for
      integers and [encode_basestring_ascii] for strings;
    - [parse_value]/[parse_elems]/[parse_members]: the C scanner
      [scan_once_unicode] with [_parse_array_unicode],
      [_parse_object_unicode], [scanstring_unicode] ([scan_chars]) and
      [_match_number_unicode] ([scan_number]); [loads_text] is
      [JSONDecoder.decode] (surrounding whitespace, "Extra data").
    A [JSONDecodeError] is Python's [ValueError].  Text that would decode
    to a [float] ([1.5], [1e3], [NaN], [Infinity]) or to a character above
    U+00FF is [Wrong]: outside the value domain of the model, whose
    strings are 8-bit.  The scanner recurses on a step budget; the
    budget [length s + 1] is always enough ([loads_text_terminates]). *)

From Stdlib Require Import ZArith Ascii String Lia DecimalPos Wf_nat.
From stdpp Require Import base list strings.
From S2P Require Import Prelude PyObjects PyBuiltins.

(** ** The native value tree *)

Inductive json :=
  | JNull
  | JBool (b : bool)
  | JInt (z : Z)
  | JStr (s : string)
  | JArr (xs : list json)
  | JObj (kvs : list (string * json)).

(** The characters the Rocq string syntax cannot write plainly. *)
Abbreviation dq := (Ascii false true false false false true false false).
Abbreviation bslash := (Ascii false false true true true false true false).

(** Text written with a single quote for every double quote, for
    readable witnesses. *)
Definition qt (s : string) : list ascii :=
  map (fun c => if bool_decide (c = "'"%char) then dq else c) (list_ascii_of_string s).

(** A tree is well formed when every object has distinct keys: the only
    trees a [dict] can serialise to and the decoder can build. *)
Fixpoint json_wf (t : json) : bool :=
  match t with
  | JArr xs => forallb json_wf xs
  | JObj kvs => bool_decide (NoDup (map fst kvs)) && forallb (fun '(_, v) => json_wf v) kvs
  | _ => true
  end.

(** Nodes and object members: the scanner's step budget for a tree's
    text (one step per value, one more per member). *)
Fixpoint json_size (t : json) : nat :=
  match t with
  | JArr xs => S (sum_list_with json_size xs)
  | JObj kvs => S (sum_list_with (fun '(_, v) => S (json_size v)) kvs)
  | _ => 1
  end.

(** ** The encoder: [json.dumps] with default options *)

Definition hex_digit (n : nat) : ascii :=
  if n <? 10 then ascii_of_nat (48 + n) else ascii_of_nat (87 + n).

(** [ESCAPE_DCT] and the [\uXXXX] fallback of [py_encode_basestring_ascii]:
    the double quote, the backslash and the five named controls get a
    short escape, other
    characters outside [' '..'~'] a lower-case [\u00xx]. *)
Definition escape_char (c : ascii) : list ascii :=
  let n := nat_of_ascii c in
  if n =? 34 then [bslash; dq]
  else if n =? 92 then [bslash; bslash]
  else if n =? 8 then [bslash; "b"%char]
  else if n =? 12 then [bslash; "f"%char]
  else if n =? 10 then [bslash; "n"%char]
  else if n =? 13 then [bslash; "r"%char]
  else if n =? 9 then [bslash; "t"%char]
  else if (32 <=? n) && (n <=? 126) then [c]
  else [bslash; "u"%char; "0"%char; "0"%char; hex_digit (n / 16); hex_digit (n mod 16)].

Fixpoint escape_string (s : string) : list ascii :=
  match s with
  | EmptyString => []
  | String c s' => escape_char c ++ escape_string s'
  end.

Definition encode_basestring_ascii (s : string) : list ascii :=
  dq :: escape_string s ++ [dq].

Fixpoint uint_text (d : Decimal.uint) : list ascii :=
  match d with
  | Decimal.Nil => []
  | Decimal.D0 d => "0"%char :: uint_text d
  | Decimal.D1 d => "1"%char :: uint_text d
  | Decimal.D2 d => "2"%char :: uint_text d
  | Decimal.D3 d => "3"%char :: uint_text d
  | Decimal.D4 d => "4"%char :: uint_text d
  | Decimal.D5 d => "5"%char :: uint_text d
  | Decimal.D6 d => "6"%char :: uint_text d
  | Decimal.D7 d => "7"%char :: uint_text d
  | Decimal.D8 d => "8"%char :: uint_text d
  | Decimal.D9 d => "9"%char :: uint_text d
  end.

(** [int.__repr__]: decimal, a leading [-] when negative. *)
Definition int_text (z : Z) : list ascii :=
  match Z.to_int z with
  | Decimal.Pos d => uint_text d
  | Decimal.Neg d => "-"%char :: uint_text d
  end.

(** The separators between items: [', '] before every item but the first. *)
Definition items_tail (chunks : list (list ascii)) : list ascii :=
  concat (map (fun c => [","%char; " "%char] ++ c) chunks).

(** One object member: the key, [': '], the value's text. *)
Definition member_text (f : json -> list ascii) (kv : string * json) : list ascii :=
  encode_basestring_ascii kv.1 ++ [":"%char; " "%char] ++ f kv.2.

(** The C encoder [encoder_listencode_obj]: empty containers as [[]] and
    [{}], items joined by [', '], a key and its value by [': ']. *)
Fixpoint dumps_tree (t : json) : list ascii :=
  match t with
  | JNull => list_ascii_of_string "null"
  | JBool true => list_ascii_of_string "true"
  | JBool false => list_ascii_of_string "false"
  | JInt z => int_text z
  | JStr s => encode_basestring_ascii s
  | JArr [] => ["["%char; "]"%char]
  | JArr (x :: xs) =>
      "["%char :: dumps_tree x ++ items_tail (map dumps_tree xs) ++ ["]"%char]
  | JObj [] => ["{"%char; "}"%char]
  | JObj (kv :: kvs) =>
      "{"%char :: member_text dumps_tree kv ++ items_tail (map (member_text dumps_tree) kvs) ++
        ["}"%char]
  end.

(** ** The decoder: CPython's C scanner *)

(** [IS_WHITESPACE]: space, tab, newline, carriage return. *)
Definition is_ws (c : ascii) : bool :=
  let n := nat_of_ascii c in (n =? 32) || (n =? 9) || (n =? 10) || (n =? 13).

Fixpoint skip_ws (s : list ascii) : list ascii :=
  match s with
  | c :: s' => if is_ws c then skip_ws s' else s
  | [] => []
  end.

(** The text after the literal [p], if [s] starts with it. *)
Fixpoint strip_prefix (p s : list ascii) : option (list ascii) :=
  match p, s with
  | [], _ => Some s
  | c :: p', c' :: s' => if bool_decide (c = c') then strip_prefix p' s' else None
  | _ :: _, [] => None
  end.

Definition is_digit (c : ascii) : bool :=
  (48 <=? nat_of_ascii c) && (nat_of_ascii c <=? 57).

(** The value of a hexadecimal digit of a [\uXXXX] escape, either case. *)
Definition hex_val (c : ascii) : option nat :=
  let n := nat_of_ascii c in
  if (48 <=? n) && (n <=? 57) then Some (n - 48)
  else if (97 <=? n) && (n <=? 102) then Some (n - 87)
  else if (65 <=? n) && (n <=? 70) then Some (n - 55)
  else None.

Definition hex4 (a b c d : ascii) : option nat :=
  match hex_val a, hex_val b, hex_val c, hex_val d with
  | Some x, Some y, Some z, Some w => Some (((x * 16 + y) * 16 + z) * 16 + w)
  | _, _, _, _ => None
  end.

(** The one-character escapes of [scanstring_unicode]. *)
Definition unescape (e : ascii) : option ascii :=
  let n := nat_of_ascii e in
  if n =? 34 then Some dq
  else if n =? 92 then Some bslash
  else if n =? 47 then Some "/"%char
  else if n =? 98 then Some (ascii_of_nat 8)
  else if n =? 102 then Some (ascii_of_nat 12)
  else if n =? 110 then Some (ascii_of_nat 10)
  else if n =? 114 then Some (ascii_of_nat 13)
  else if n =? 116 then Some (ascii_of_nat 9)
  else None.

Definition cons_char (c : ascii) (o : outcome (string * list ascii)) :
    outcome (string * list ascii) :=
  out_map (fun '(s, r) => (String c s, r)) o.

(** [scanstring_unicode] with [strict=True], from just after the opening
    quote: the decoded string and the text after the closing quote.  An
    unterminated string, a raw control character, an unknown escape or a
    malformed [\uXXXX] is a [ValueError]. *)
Fixpoint scan_chars (s : list ascii) : outcome (string * list ascii) :=
  match s with
  | [] => Exc ValueError
  | c :: s1 =>
      if bool_decide (c = dq) then Ok (EmptyString, s1)
      else if bool_decide (c = bslash) then
        match s1 with
        | [] => Exc ValueError
        | e :: s2 =>
            if bool_decide (e = "u"%char) then
              match s2 with
              | h1 :: h2 :: h3 :: h4 :: s3 =>
                  match hex4 h1 h2 h3 h4 with
                  | Some u => if u <? 256 then cons_char (ascii_of_nat u) (scan_chars s3)
                              else Wrong
                  | None => Exc ValueError
                  end
              | _ => Exc ValueError
              end
            else match unescape e with
                 | Some c' => cons_char c' (scan_chars s2)
                 | None => Exc ValueError
                 end
        end
      else if nat_of_ascii c <? 32 then Exc ValueError
      else cons_char c (scan_chars s1)
  end.

Fixpoint span_digits (s : list ascii) : Decimal.uint * list ascii :=
  match s with
  | c :: s' =>
      if is_digit c then
        let '(d, r) := span_digits s' in
        (match nat_of_ascii c - 48 with
         | 0 => Decimal.D0 | 1 => Decimal.D1 | 2 => Decimal.D2 | 3 => Decimal.D3
         | 4 => Decimal.D4 | 5 => Decimal.D5 | 6 => Decimal.D6 | 7 => Decimal.D7
         | 8 => Decimal.D8 | _ => Decimal.D9
         end d, r)
      else (Decimal.Nil, s)
  | [] => (Decimal.Nil, [])
  end.

(** The number continues as a [float]: a fraction [.d] or an exponent
    [e[+-]d]; otherwise the scanner stops before the [.] or [e]. *)
Definition float_follows (s : list ascii) : bool :=
  match s with
  | c :: s' =>
      if bool_decide (c = "."%char) then
        match s' with d :: _ => is_digit d | [] => false end
      else if bool_decide (c = "e"%char) || bool_decide (c = "E"%char) then
        match s' with
        | d :: s'' =>
            is_digit d ||
            ((bool_decide (d = "+"%char) || bool_decide (d = "-"%char)) &&
             match s'' with d' :: _ => is_digit d' | [] => false end)
        | [] => false
        end
      else false
  | [] => false
  end.

(** [_match_number_unicode]: an optional [-], then [0] or a non-zero
    digit and more digits, then [int(numstr)]. *)
Definition scan_number (s : list ascii) : outcome (json * list ascii) :=
  let '(neg, s1) :=
    match s with
    | c :: s' => if bool_decide (c = "-"%char) then (true, s') else (false, s)
    | [] => (false, s)
    end in
  match s1 with
  | c :: s2 =>
      if bool_decide (c = "0"%char) then
        if float_follows s2 then Wrong else Ok (JInt 0, s2)
      else if is_digit c then
        let '(d, s3) := span_digits s1 in
        if float_follows s3 then Wrong
        else let n := Z.of_uint d in Ok (JInt (if neg then - n else n)%Z, s3)
      else Exc ValueError
  | [] => Exc ValueError
  end.

(** The named constants of [scan_once_unicode], then a number. *)
Definition scan_literal (s : list ascii) : outcome (json * list ascii) :=
  match strip_prefix (list_ascii_of_string "null") s with
  | Some r => Ok (JNull, r)
  | None =>
  match strip_prefix (list_ascii_of_string "true") s with
  | Some r => Ok (JBool true, r)
  | None =>
  match strip_prefix (list_ascii_of_string "false") s with
  | Some r => Ok (JBool false, r)
  | None =>
      if bool_decide (strip_prefix (list_ascii_of_string "NaN") s <> None) ||
         bool_decide (strip_prefix (list_ascii_of_string "Infinity") s <> None) ||
         bool_decide (strip_prefix (list_ascii_of_string "-Infinity") s <> None)
      then Wrong
      else scan_number s
  end end end.

(** [dict(pairs)] as the C scanner builds it, by [PyDict_SetItem] in
    order: a repeated key keeps its first position and its last value. *)
Definition dict_of_pairs (kvs : list (string * json)) : list (string * json) :=
  foldl (fun d '(k, v) => dict_setitem k v d) [] kvs.

(** [scan_once_unicode] on a step budget.  [parse_elems] continues an
    array after an item (whitespace, then [,] and the next item, or [}]);
    [parse_members] reads [key: value] pairs from just after a key's
    opening quote. *)
Fixpoint parse_value (fuel : nat) (s : list ascii) {struct fuel} :
    outcome (json * list ascii) :=
  match fuel with
  | O => NoFuel
  | S n =>
      match s with
      | [] => Exc ValueError
      | c :: s1 =>
          if bool_decide (c = dq) then out_map (fun '(k, r) => (JStr k, r)) (scan_chars s1)
          else if bool_decide (c = "{"%char) then
            match skip_ws s1 with
            | c' :: s2 =>
                if bool_decide (c' = "}"%char) then Ok (JObj [], s2)
                else if bool_decide (c' = dq) then
                  out_map (fun '(kvs, r) => (JObj (dict_of_pairs kvs), r)) (parse_members n s2)
                else Exc ValueError
            | [] => Exc ValueError
            end
          else if bool_decide (c = "["%char) then
            match skip_ws s1 with
            | c' :: s2 =>
                if bool_decide (c' = "]"%char) then Ok (JArr [], s2)
                else out_bind (parse_value n (c' :: s2)) (fun '(x, r) =>
                       out_map (fun '(xs, r') => (JArr (x :: xs), r')) (parse_elems n r))
            | [] => Exc ValueError
            end
          else scan_literal s
      end
  end
with parse_elems (fuel : nat) (s : list ascii) {struct fuel} :
    outcome (list json * list ascii) :=
  match fuel with
  | O => NoFuel
  | S n =>
      match skip_ws s with
      | c :: s1 =>
          if bool_decide (c = "]"%char) then Ok ([], s1)
          else if bool_decide (c = ","%char) then
            out_bind (parse_value n (skip_ws s1)) (fun '(x, r) =>
              out_map (fun '(xs, r') => (x :: xs, r')) (parse_elems n r))
          else Exc ValueError
      | [] => Exc ValueError
      end
  end
with parse_members (fuel : nat) (s : list ascii) {struct fuel} :
    outcome (list (string * json) * list ascii) :=
  match fuel with
  | O => NoFuel
  | S n =>
      out_bind (scan_chars s) (fun '(k, s1) =>
        match skip_ws s1 with
        | c :: s2 =>
            if bool_decide (c = ":"%char) then
              out_bind (parse_value n (skip_ws s2)) (fun '(v, s3) =>
                match skip_ws s3 with
                | c' :: s4 =>
                    if bool_decide (c' = "}"%char) then Ok ([(k, v)], s4)
                    else if bool_decide (c' = ","%char) then
                      match skip_ws s4 with
                      | c'' :: s5 =>
                          if bool_decide (c'' = dq) then
                            out_map (fun '(kvs, r) => ((k, v) :: kvs, r)) (parse_members n s5)
                          else Exc ValueError
                      | [] => Exc ValueError
                      end
                    else Exc ValueError
                | [] => Exc ValueError
                end)
            else Exc ValueError
        | [] => Exc ValueError
        end)
  end.

(** [json.loads] on a [str]: whitespace around one value, nothing after. *)
Definition loads_text (s : list ascii) : outcome json :=
  out_bind (parse_value (S (length s)) (skip_ws s)) (fun '(t, r) =>
    if bool_decide (skip_ws r = []) then Ok t else Exc ValueError).

(** The text [json.dumps] returns for the spec's test array and for the
    object of [test_str]. *)
Definition test_loads_text : list ascii :=
  qt "[{'key1': 'value1'}, {'key2': 'value2'}]".

(** ** The scanner consumes input and always has budget enough *)

(** A scanner result that is not out of budget, and whose rest is shorter
    than the input. *)
Definition shrinks {A} (s : list ascii) (o : outcome (A * list ascii)) : Prop :=
  o <> NoFuel /\ forall a r, o = Ok (a, r) -> length r < length s.

Lemma shrinks_exc {A} s e : shrinks (A:=A) s (Exc e).
Proof. split; [done|]. intros ?? [=]. Qed.

Lemma shrinks_wrong {A} s : shrinks (A:=A) s Wrong.
Proof. split; [done|]. intros ?? [=]. Qed.

Lemma shrinks_ok {A} s (a : A) r : length r < length s -> shrinks s (Ok (a, r)).
Proof. split; [done|]. by intros ?? [= -> ->]. Qed.

Section shrinks_lemmas.
  Context {A : Type}.
  Implicit Types (o : outcome (A * list ascii)).

Lemma shrinks_weaken s s' o : length s <= length s' -> shrinks s o -> shrinks s' o.
  Proof. intros Hl [H1 H2]. split; [done|]. intros a r Hr. specialize (H2 a r Hr). lia. Qed.

Lemma shrinks_map {B} s (g : A * list ascii -> B * list ascii) o :
    (forall p, (g p).2 = p.2) -> shrinks s o -> shrinks s (out_map g o).
  Proof.
    intros Hg [H1 H2]. unfold out_map.
    destruct o as [[a r]| | |]; simpl; try solve [done | auto using shrinks_exc, shrinks_wrong].
    specialize (Hg (a, r)). destruct (g (a, r)) as [b r']. simpl in Hg; subst r'.
    apply shrinks_ok. by apply (H2 a).
  Qed.

Lemma shrinks_bind {B} s o (k : A * list ascii -> outcome (B * list ascii)) :
    shrinks s o -> (forall a r, o = Ok (a, r) -> shrinks s (k (a, r))) ->
    shrinks s (out_bind o k).
  Proof.
    intros [H1 _] Hk.
    destruct o as [[a r]| | |]; simpl; try solve [done | auto using shrinks_exc, shrinks_wrong].
  Qed.
End shrinks_lemmas.

#[export] Hint Resolve shrinks_exc shrinks_wrong : pyjson.

Lemma skip_ws_length s : length (skip_ws s) <= length s.
Proof. induction s as [|c s IH]; simpl; [done|]. case_match; simpl; lia. Qed.

Lemma strip_prefix_length p s r :
  strip_prefix p s = Some r -> length s = length p + length r.
Proof.
  revert s. induction p as [|c p IH]; intros [|c' s]; simpl; try done;
    try (intros [= <-]; done).
  case_bool_decide; [|done]. intros Hs. rewrite (IH s Hs). lia.
Qed.

Lemma span_digits_length s d r : span_digits s = (d, r) -> length r <= length s.
Proof.
  revert d. induction s as [|c s IH]; intros d; simpl; [by intros [= _ <-]|].
  destruct (is_digit c); [|intros [= _ <-]; simpl; lia].
  destruct (span_digits s) as [d' r'] eqn:E. intros [= _ <-]. specialize (IH d' eq_refl). lia.
Qed.

Lemma span_digits_cons_length c s d r :
  is_digit c = true -> span_digits (c :: s) = (d, r) -> length r <= length s.
Proof.
  intros Hc. simpl. rewrite Hc. destruct (span_digits s) as [d' r'] eqn:E.
  intros [= _ <-]. by apply (span_digits_length s d').
Qed.

Lemma scan_chars_shrinks s : shrinks s (scan_chars s).
Proof.
  induction s as [s IH] using (well_founded_induction (well_founded_ltof _ length)). unfold ltof in IH.
  destruct s as [|c s1]; simpl; [apply shrinks_exc|].
  assert (Hcons : forall c' s', length s' < length (c :: s1) ->
            shrinks (c :: s1) (cons_char c' (scan_chars s'))).
  { intros c' s' Hl. apply shrinks_map; [by intros []|].
    apply (shrinks_weaken s'); [lia|]. by apply IH. }
  repeat case_match; eauto with pyjson;
    first [apply shrinks_ok | apply Hcons]; simplify_eq; simpl; lia.
Qed.

Lemma scan_number_shrinks s : shrinks s (scan_number s).
Proof.
  unfold scan_number.
  destruct (match s with c :: s' => _ | [] => _ end) as [neg s1] eqn:Es.
  assert (Hs1 : length s1 <= length s).
  { destruct s; [by simplify_eq|]. case_bool_decide; simplify_eq; simpl; lia. }
  destruct s1 as [|c s2]; [apply shrinks_exc|].
  repeat case_match; eauto with pyjson; apply shrinks_ok; simplify_eq;
    repeat match goal with H : span_digits _ = _ |- _ =>
      apply span_digits_cons_length in H; [|done] end; simpl in *; lia.
Qed.

Lemma scan_literal_shrinks s : shrinks s (scan_literal s).
Proof.
  unfold scan_literal.
  repeat case_match; eauto using scan_number_shrinks with pyjson;
    apply shrinks_ok; match goal with H : strip_prefix _ _ = Some _ |- _ =>
      apply strip_prefix_length in H end; simpl in *; lia.
Qed.

(** Every recursive call of the scanner reads at least one character
    first, so a budget above the text's length never runs out. *)
Lemma parse_shrinks n :
  (forall s, length s < n -> shrinks s (parse_value n s)) /\
  (forall s, length s < n -> shrinks s (parse_elems n s)) /\
  (forall s, length s < n -> shrinks s (parse_members n s)).
Proof.
  induction n as [|n (IHv & IHe & IHm)]; [split_and!; intros; lia|].
  split_and!.
  - intros [|c s1] Hs; simpl; [apply shrinks_exc|].
    pose proof (skip_ws_length s1).
    case_bool_decide.
    { apply shrinks_map; [by intros []|].
      apply (shrinks_weaken s1); [simpl; lia|]. apply scan_chars_shrinks. }
    case_bool_decide.
    { destruct (skip_ws s1) as [|c' s2]; [apply shrinks_exc|].
      case_bool_decide; [apply shrinks_ok; simpl in *; lia|].
      case_bool_decide; [|apply shrinks_exc].
      apply shrinks_map; [by intros []|].
      apply (shrinks_weaken s2); [simpl in *; lia|]. apply IHm. simpl in *; lia. }
    case_bool_decide; [|apply scan_literal_shrinks].
    destruct (skip_ws s1) as [|c' s2]; [apply shrinks_exc|].
    case_bool_decide; [apply shrinks_ok; simpl in *; lia|].
    destruct (IHv (c' :: s2)) as [Hv Hr]; [simpl in *; lia|].
    apply shrinks_bind; [apply (shrinks_weaken (c' :: s2)); [simpl in *; lia|done]|].
    intros x r Hx. specialize (Hr _ _ Hx).
    apply shrinks_map; [by intros []|].
    apply (shrinks_weaken r); [simpl in *; lia|]. apply IHe. simpl in *; lia.
  - intros s Hs; simpl. pose proof (skip_ws_length s).
    destruct (skip_ws s) as [|c s1]; [apply shrinks_exc|].
    case_bool_decide; [apply shrinks_ok; simpl in *; lia|].
    case_bool_decide; [|apply shrinks_exc].
    pose proof (skip_ws_length s1).
    destruct (IHv (skip_ws s1)) as [Hv Hr]; [simpl in *; lia|].
    apply shrinks_bind; [apply (shrinks_weaken (skip_ws s1)); [simpl in *; lia|done]|].
    intros x r Hx. specialize (Hr _ _ Hx).
    apply shrinks_map; [by intros []|].
    apply (shrinks_weaken r); [simpl in *; lia|]. apply IHe. simpl in *; lia.
  - intros s Hs; simpl.
    destruct (scan_chars_shrinks s) as [Hk Hkr].
    apply shrinks_bind; [apply scan_chars_shrinks|].
    intros k s1 Hk1. specialize (Hkr _ _ Hk1). pose proof (skip_ws_length s1).
    destruct (skip_ws s1) as [|c s2]; [apply shrinks_exc|].
    case_bool_decide; [|apply shrinks_exc].
    pose proof (skip_ws_length s2).
    destruct (IHv (skip_ws s2)) as [Hv Hr]; [simpl in *; lia|].
    apply shrinks_bind; [apply (shrinks_weaken (skip_ws s2)); [simpl in *; lia|done]|].
    intros v s3 Hv3. specialize (Hr _ _ Hv3). pose proof (skip_ws_length s3).
    destruct (skip_ws s3) as [|c' s4]; [apply shrinks_exc|].
    case_bool_decide; [apply shrinks_ok; simpl in *; lia|].
    case_bool_decide; [|apply shrinks_exc].
    pose proof (skip_ws_length s4).
    destruct (skip_ws s4) as [|c'' s5]; [apply shrinks_exc|].
    case_bool_decide; [|apply shrinks_exc].
    apply shrinks_map; [by intros []|].
    apply (shrinks_weaken s5); [simpl in *; lia|]. apply IHm. simpl in *; lia.
Qed.

Lemma loads_text_terminates_aux s : shrinks s (parse_value (S (length s)) s).
Proof. apply parse_shrinks. lia. Qed.

(** A larger budget does not change an answer the scanner has reached. *)
Lemma parse_mono n m : n <= m ->
  (forall s, parse_value n s <> NoFuel -> parse_value m s = parse_value n s) /\
  (forall s, parse_elems n s <> NoFuel -> parse_elems m s = parse_elems n s) /\
  (forall s, parse_members n s <> NoFuel -> parse_members m s = parse_members n s).
Proof.
  revert m. induction n as [|n IH]; intros m Hle; [split_and!; by intros s []|].
  destruct m as [|m]; [lia|]. destruct (IH m ltac:(lia)) as (IHv & IHe & IHm).
  unfold out_map. split_and!.
  - intros [|c s1]; simpl; [done|].
    repeat case_bool_decide; try done; destruct (skip_ws s1) as [|c' s2]; try done;
      repeat case_bool_decide; try done; apply out_bind_mono; auto.
    intros [x r] Hk; simpl in *. apply out_bind_mono; auto.
  - intros s; simpl. destruct (skip_ws s) as [|c s1]; try done.
    repeat case_bool_decide; try done. apply out_bind_mono; auto.
    intros [x r] Hk; simpl in *. apply out_bind_mono; auto.
  - intros s; simpl. apply out_bind_mono; [done|]. intros [k s1] Hk; simpl in *.
    destruct (skip_ws s1) as [|c s2]; try done.
    case_bool_decide; try done. apply out_bind_mono; auto.
    intros [v s3] Hk'; simpl in *. destruct (skip_ws s3) as [|c' s4]; try done.
    repeat case_bool_decide; try done. destruct (skip_ws s4) as [|c'' s5]; try done.
    case_bool_decide; try done. apply out_bind_mono; auto.
Qed.

(** ** The decoder reads back what the encoder writes *)

Section json_ind'.
  Context (P : json -> Prop)
    (Hnull : P JNull) (Hbool : forall b, P (JBool b)) (Hint : forall z, P (JInt z))
    (Hstr : forall s, P (JStr s))
    (Harr : forall xs, Forall P xs -> P (JArr xs))
    (Hobj : forall kvs, Forall (fun kv => P kv.2) kvs -> P (JObj kvs)).

  (** Induction on trees, with the hypothesis for every element of an
      array and every value of an object. *)
Fixpoint json_ind' (t : json) : P t :=
    match t with
    | JNull => Hnull
    | JBool b => Hbool b
    | JInt z => Hint z
    | JStr s => Hstr s
    | JArr xs =>
        Harr xs ((fix go (xs : list json) : Forall P xs :=
                    match xs with
                    | [] => @List.Forall_nil _ P
                    | x :: xs' => @List.Forall_cons _ P x xs' (json_ind' x) (go xs')
                    end) xs)
    | JObj kvs =>
        Hobj kvs ((fix go (kvs : list (string * json)) : Forall (fun kv => P kv.2) kvs :=
                     match kvs with
                     | [] => @List.Forall_nil _ _
                     | kv :: kvs' => @List.Forall_cons _ (fun kv => P kv.2) kv kvs' (json_ind' kv.2) (go kvs')
                     end) kvs)
    end.
End json_ind'.

(** The text that may follow a value inside the encoder's output. *)
Definition stops (r : list ascii) : Prop :=
  match r with
  | [] => True
  | c :: _ => c = ","%char \/ c = "]"%char \/ c = "}"%char
  end.

Lemma stops_float r : stops r -> float_follows r = false.
Proof. destruct r as [|c r]; [done|]. by intros [->|[->| ->]]. Qed.

Lemma stops_span r : stops r -> span_digits r = (Decimal.Nil, r).
Proof. destruct r as [|c r]; [done|]. by intros [->|[->| ->]]. Qed.

Lemma scan_escape_char c s : scan_chars (escape_char c ++ s) = cons_char c (scan_chars s).
Proof. destruct c as [[] [] [] [] [] [] [] []]; reflexivity. Qed.

Lemma scan_escape_string k r : scan_chars (escape_string k ++ dq :: r) = Ok (k, r).
Proof.
  induction k as [|c k IH]; [reflexivity|].
  cbn [escape_string]. by rewrite <- app_assoc, scan_escape_char, IH.
Qed.

Lemma span_uint d r : stops r -> span_digits (uint_text d ++ r) = (d, r).
Proof.
  intros Hr. induction d; [by apply stops_span|..]; simpl; by rewrite IHd.
Qed.

Lemma nzhead_not_D0 u w : Decimal.nzhead u <> Decimal.D0 w.
Proof. induction u; simpl; congruence. Qed.

(** [int.__repr__] of a positive number starts with a non-zero digit. *)
Lemma pos_uint_lead p :
  Pos.to_uint p <> Decimal.Nil /\ forall w, Pos.to_uint p <> Decimal.D0 w.
Proof.
  pose proof (Unsigned.to_of (Pos.to_uint p)) as Hn.
  rewrite Unsigned.of_to in Hn. cbn in Hn.
  pose proof (Unsigned.to_uint_nonzero p) as Hz.
  split; [apply Unsigned.to_uint_nonnil|]. intros w Hw. rewrite Hw in Hn, Hz.
  unfold Decimal.unorm in Hn. cbn in Hn.
  destruct (Decimal.nzhead w) eqn:E; try congruence. by apply nzhead_not_D0 in E.
Qed.

Lemma scan_number_digits (neg : bool) c s d r :
  is_digit c = true -> c <> "0"%char -> span_digits (c :: s) = (d, r) -> stops r ->
  scan_number ((if neg then ["-"%char] else []) ++ c :: s) =
    Ok (JInt (if neg then - Z.of_uint d else Z.of_uint d)%Z, r).
Proof.
  intros Hc H0 Hs Hr. unfold scan_number.
  assert (c <> "-"%char) by (intros ->; discriminate).
  destruct neg; cbn -[span_digits]; repeat case_bool_decide; try congruence;
    cbn -[span_digits]; rewrite Hc, Hs, (stops_float r Hr); reflexivity.
Qed.

Lemma scan_number_uint (neg : bool) d r :
  d <> Decimal.Nil -> (forall w, d <> Decimal.D0 w) -> stops r ->
  scan_number ((if neg then ["-"%char] else []) ++ uint_text d ++ r) =
    Ok (JInt (if neg then - Z.of_uint d else Z.of_uint d)%Z, r).
Proof.
  intros Hnil Hd0 Hr. pose proof (span_uint d r Hr) as Hs.
  destruct d; try congruence; apply scan_number_digits; done.
Qed.

(** Right-associate appends and push conses outwards. *)
Ltac app_norm := repeat progress (rewrite <- ?app_assoc; cbn [app]).

(** Distinct concrete characters. *)
Ltac ascii_neq := let H := fresh in intros H; vm_compute in H; congruence.

Lemma digit_ne c d : is_digit c = true -> is_digit d = false -> c <> d.
Proof. congruence. Qed.

Lemma uint_text_lead d :
  d <> Decimal.Nil -> (forall w, d <> Decimal.D0 w) ->
  exists c s, uint_text d = c :: s /\ is_digit c = true /\ c <> "0"%char.
Proof.
  intros Hnil Hd0.
  destruct d; try congruence; (eexists _, _; split; [reflexivity|split; [reflexivity|ascii_neq]]).
Qed.

(** The first character of an encoded value: never whitespace, never a
    closing bracket or brace. *)
Lemma dumps_head t :
  exists c s, dumps_tree t = c :: s /\ is_ws c = false /\
              c <> "]"%char /\ c <> "}"%char.
Proof.
  destruct t as [| [] | [|p|p] | | [|? ?] | [|[? ?] ?]]; simpl;
    try (eexists _, _; split; [reflexivity|split; [reflexivity|split; ascii_neq]]).
  destruct (pos_uint_lead p) as [Hn Hd].
  destruct (uint_text_lead _ Hn Hd) as (c & s & Hs & Hc & _).
  unfold int_text; simpl; rewrite Hs. eexists _, _. split; [reflexivity|].
  split; [destruct c as [[] [] [] [] [] [] [] []]; try discriminate; reflexivity|].
  split; intros ->; discriminate.
Qed.

Lemma skip_ws_head c s : is_ws c = false -> skip_ws (c :: s) = c :: s.
Proof. simpl. by intros ->. Qed.

Lemma skip_ws_space s : skip_ws (" "%char :: s) = skip_ws s.
Proof. reflexivity. Qed.

Lemma parse_value_other n c s :
  c <> dq -> c <> "{"%char -> c <> "["%char ->
  parse_value (S n) (c :: s) = scan_literal (c :: s).
Proof. intros H1 H2 H3. simpl. by rewrite !bool_decide_eq_false_2. Qed.

Lemma scan_literal_number c s :
  is_digit c = true -> scan_literal (c :: s) = scan_number (c :: s).
Proof.
  intros Hc. unfold scan_literal. simpl.
  rewrite !(bool_decide_eq_false_2 (_ = c)) by (apply not_eq_sym, digit_ne; done).
  reflexivity.
Qed.

Lemma scan_literal_neg c s :
  is_digit c = true -> scan_literal ("-"%char :: c :: s) = scan_number ("-"%char :: c :: s).
Proof.
  intros Hc. unfold scan_literal. simpl.
  rewrite (bool_decide_eq_false_2 ("I"%char = c)) by (apply not_eq_sym, digit_ne; done).
  reflexivity.
Qed.

Lemma Z_of_uint_pos p : Z.of_uint (Pos.to_uint p) = Zpos p.
Proof. unfold Z.of_uint. by rewrite Unsigned.of_to. Qed.

Lemma parse_int n z r : stops r -> parse_value (S n) (int_text z ++ r) = Ok (JInt z, r).
Proof.
  intros Hr. destruct z as [|p|p]; unfold int_text; cbn [Z.to_int].
  - cbn [uint_text app]. rewrite parse_value_other, scan_literal_number by (done || ascii_neq).
    unfold scan_number. cbn -[float_follows]. repeat case_bool_decide; try congruence.
    cbn -[float_follows]. repeat case_bool_decide; try congruence. by rewrite (stops_float r Hr).
  - destruct (pos_uint_lead p) as [Hn Hd].
    destruct (uint_text_lead _ Hn Hd) as (c & s & Hs & Hc & Hc0).
    pose proof (scan_number_uint false _ r Hn Hd Hr) as Hnum.
    rewrite Hs in Hnum |- *. cbn [app] in *.
    rewrite parse_value_other, scan_literal_number, Hnum, Z_of_uint_pos; try done;
      apply digit_ne; done.
  - destruct (pos_uint_lead p) as [Hn Hd].
    destruct (uint_text_lead _ Hn Hd) as (c & s & Hs & Hc & Hc0).
    pose proof (scan_number_uint true _ r Hn Hd Hr) as Hnum.
    rewrite Hs in Hnum |- *. cbn [app] in *.
    rewrite parse_value_other, scan_literal_neg, Hnum, Z_of_uint_pos; try done; ascii_neq.
Qed.

Lemma json_size_pos t : 1 <= json_size t.
Proof. destruct t; simpl; lia. Qed.

Lemma stops_items cs (c : ascii) r :
  c = "]"%char \/ c = "}"%char -> stops (items_tail cs ++ c :: r).
Proof. destruct cs; simpl; [|by left]. intros [-> | ->]; simpl; auto. Qed.

Lemma items_tail_cons c cs : items_tail (c :: cs) = ","%char :: " "%char :: c ++ items_tail cs.
Proof. reflexivity. Qed.

(** The encoder's text of a value followed by [rest] is read back by
    one scanner call, after any whitespace. *)
Definition reads_back (t : json) : Prop :=
  forall n r, json_size t <= n -> stops r -> parse_value n (dumps_tree t ++ r) = Ok (t, r).

Lemma reads_back_ws t n rest :
  reads_back t -> json_size t <= n -> stops rest ->
  parse_value n (skip_ws (dumps_tree t ++ rest)) = Ok (t, rest).
Proof.
  intros Ht Hn Hr. destruct (dumps_head t) as (c & s & Hx & Hws & _).
  rewrite Hx. cbn [app]. rewrite skip_ws_head by done.
  change (c :: s ++ rest) with ((c :: s) ++ rest). rewrite <- Hx. by apply Ht.
Qed.

Lemma parse_elems_dumps xs n r :
  Forall reads_back xs -> S (sum_list_with json_size xs) <= n -> stops r ->
  parse_elems n (items_tail (map dumps_tree xs) ++ "]"%char :: r) = Ok (xs, r).
Proof.
  intros Hall. revert n. induction Hall as [|y ys Hy Hys IH]; intros [|n] Hn Hr; try lia.
  - reflexivity.
  - cbn [map sum_list_with] in *. rewrite items_tail_cons. cbn -[skip_ws].
    rewrite skip_ws_head by done. repeat case_bool_decide; try congruence.
    rewrite skip_ws_space, <- app_assoc.
    rewrite (reads_back_ws y) by first [done | apply stops_items; auto | lia].
    pose proof (json_size_pos y). cbn. rewrite IH by (done || lia). reflexivity.
Qed.

Lemma parse_members_dumps kv kvs n r :
  reads_back kv.2 -> Forall (fun kv => reads_back kv.2) kvs ->
  S (json_size kv.2) + sum_list_with (fun '(_, v) => S (json_size v)) kvs <= n -> stops r ->
  parse_members n (escape_string kv.1 ++ dq :: ":"%char :: " "%char :: dumps_tree kv.2 ++
                   items_tail (map (member_text dumps_tree) kvs) ++ "}"%char :: r) =
    Ok (kv :: kvs, r).
Proof.
  intros Hv Hall. revert kv n Hv.
  induction Hall as [|kv' kvs Hv' Hall IH]; intros [k v] [|n] Hv Hn Hr; simpl in Hn; try lia.
  all: cbn [parse_members]; rewrite scan_escape_string; cbn [out_bind].
  all: rewrite skip_ws_head by done; repeat case_bool_decide; try congruence.
  all: rewrite skip_ws_space, (reads_back_ws v) by (auto using stops_items; simpl; lia); cbn [out_bind].
  - reflexivity.
  - destruct kv' as [k' v']. cbn [map]. rewrite items_tail_cons. unfold member_text at 1, encode_basestring_ascii.
    cbn [fst snd]. rewrite <- !app_assoc. cbn [app].
    rewrite skip_ws_head by done. repeat case_bool_decide; try congruence.
    rewrite skip_ws_space, skip_ws_head by done. repeat case_bool_decide; try congruence.
    specialize (IH (k', v') n). cbn [fst snd] in IH. rewrite <- !app_assoc. cbn [app]. rewrite <- !app_assoc. cbn [app].
    rewrite IH by (done || lia). reflexivity.
Qed.

Lemma foldl_setitem_fresh (acc kvs : list (string * json)) :
  NoDup (map fst (acc ++ kvs)) ->
  foldl (fun d '(k, v) => dict_setitem k v d) acc kvs = acc ++ kvs.
Proof.
  revert acc. induction kvs as [|[k v] kvs IH]; intros acc Hnd; simpl; [by rewrite app_nil_r|].
  rewrite map_app in Hnd. cbn [map fst] in Hnd.
  rewrite dict_setitem_fresh.
  - rewrite IH; [by rewrite <- app_assoc|].
    rewrite <- app_assoc, map_app. exact Hnd.
  - apply NoDup_app in Hnd as (_ & Hdis & _). intros Hk. by apply (Hdis k); [|left].
Qed.

(** Building the [dict] of pairs with distinct keys keeps them as they are. *)
Lemma dict_of_pairs_nodup kvs : NoDup (map fst kvs) -> dict_of_pairs kvs = kvs.
Proof. intros Hnd. by apply (foldl_setitem_fresh []). Qed.

Lemma json_wf_arr xs : json_wf (JArr xs) = true -> Forall (fun x => json_wf x = true) xs.
Proof. simpl. intros H. apply List.Forall_forall. by apply forallb_forall. Qed.

Lemma json_wf_obj kvs :
  json_wf (JObj kvs) = true ->
  NoDup (map fst kvs) /\ Forall (fun kv => json_wf kv.2 = true) kvs.
Proof.
  simpl. rewrite andb_true_iff, bool_decide_eq_true. intros [Hnd Hall]. split; [done|].
  apply List.Forall_forall. intros [k v] Hin. by apply forallb_forall with (x := (k, v)) in Hall.
Qed.

(** Every well-formed tree's text is read back as the tree, with any
    budget at least its size and any text a container may put after it. *)
Lemma parse_dumps t : json_wf t = true -> reads_back t.
Proof.
  induction t as [| b | z | s | xs IH | kvs IH] using json_ind';
    intros Hwf [|n] r Hn Hr; try (simpl in Hn; lia).
  - reflexivity.
  - destruct b; reflexivity.
  - by apply parse_int.
  - cbn [dumps_tree encode_basestring_ascii app]. cbn -[scan_chars].
    rewrite bool_decide_eq_true_2 by done. rewrite <- app_assoc. cbn [app].
    by rewrite scan_escape_string.
  - apply json_wf_arr in Hwf.
    assert (Hrb : Forall reads_back xs).
    { eapply Forall_impl; [apply Forall_and; split; [exact IH|exact Hwf]|]. by intros x [Hx Hw]; apply Hx. }
    destruct xs as [|x xs]; [reflexivity|].
    apply Forall_cons in Hrb as [Hx Hxs]. cbn [json_size sum_list_with] in Hn.
    cbn [dumps_tree app]. rewrite <- ?app_assoc. cbn [app].
    destruct (dumps_head x) as (c & s & Hc & Hws & Hc1 & _).
    cbn -[skip_ws]. repeat case_bool_decide; try congruence.
    rewrite Hc. cbn [app]. rewrite skip_ws_head by done.
    rewrite bool_decide_eq_false_2 by done.
    change (c :: s ++ ?rest) with ((c :: s) ++ rest). rewrite <- Hc.
    rewrite Hx by first [done | apply stops_items; auto | lia]. cbn [out_bind].
    pose proof (json_size_pos x). rewrite parse_elems_dumps by (done || lia). reflexivity.
  - apply json_wf_obj in Hwf as [Hnd Hwf].
    assert (Hrb : Forall (fun kv => reads_back kv.2) kvs).
    { eapply Forall_impl; [apply Forall_and; split; [exact IH|exact Hwf]|]. by intros x [Hx Hw]; apply Hx. }
    destruct kvs as [|[k v] kvs]; [reflexivity|].
    apply Forall_cons in Hrb as [Hv Hkvs]. cbn [json_size sum_list_with] in Hn.
    cbn [dumps_tree member_text encode_basestring_ascii fst snd].
    cbn [app]. rewrite <- ?app_assoc. cbn [app]. rewrite <- ?app_assoc. cbn [app].
    cbn -[skip_ws parse_members]. repeat case_bool_decide; try congruence.
    rewrite skip_ws_head by done. repeat case_bool_decide; try congruence.
    pose proof (parse_members_dumps (k, v) kvs n r) as Hm. cbn [fst snd] in Hm. app_norm.
    rewrite Hm by (done || lia). cbn [out_map out_bind].
    by rewrite dict_of_pairs_nodup.
Qed.

(** [json.loads] never runs out of its budget [length s + 1]. *)
Lemma loads_text_terminates s : loads_text s <> NoFuel.
Proof.
  unfold loads_text. pose proof (skip_ws_length s).
  destruct (proj1 (parse_shrinks (S (length s))) (skip_ws s)) as [Hnf _]; [lia|].
  destruct (parse_value _ _) as [[t r]| | |]; simpl; try done. by case_bool_decide.
Qed.

(** [json.loads(json.dumps(v))] gives back [v]'s tree. *)
Lemma loads_dumps t : json_wf t = true -> loads_text (dumps_tree t) = Ok t.
Proof.
  intros Hwf. unfold loads_text.
  destruct (dumps_head t) as (c & s & Hc & Hws & _).
  assert (Hskip : skip_ws (dumps_tree t) = dumps_tree t) by (rewrite Hc; by apply skip_ws_head).
  rewrite Hskip.
  set (N := S (length (dumps_tree t)) `max` json_size t).
  assert (Hbig : parse_value N (dumps_tree t) = Ok (t, [])).
  { rewrite <- (app_nil_r (dumps_tree t)). apply parse_dumps; [done|lia|done]. }
  destruct (loads_text_terminates_aux (dumps_tree t)) as [Hnf _].
  rewrite <- (proj1 (parse_mono (S (length (dumps_tree t))) N ltac:(lia)) _ Hnf), Hbig.
  reflexivity.
Qed.

(** The decoder only builds well-formed trees: [dict] keys are unique. *)
Lemma dict_of_pairs_wf kvs :
  Forall (fun kv => json_wf kv.2 = true) kvs -> json_wf (JObj (dict_of_pairs kvs)) = true.
Proof.
  intros Hall. unfold dict_of_pairs. cbn [json_wf]. apply andb_true_iff.
  cut (forall acc, NoDup (map fst acc) -> Forall (fun kv => json_wf kv.2 = true) acc ->
         NoDup (map fst (foldl (fun d '(k, v) => dict_setitem k v d) acc kvs)) /\
         Forall (fun kv => json_wf kv.2 = true) (foldl (fun d '(k, v) => dict_setitem k v d) acc kvs)).
  { intros Hc. destruct (Hc [] (NoDup_nil_2) (List.Forall_nil _)) as [Hnd Hw].
    split; [by apply bool_decide_eq_true|]. apply forallb_forall. intros [k v] Hin.
    by apply (proj1 (List.Forall_forall _ _) Hw (k, v)). }
  induction Hall as [|[k v] kvs Hv Hall IH]; intros acc Hnd Hacc; [done|]. simpl.
  apply IH; [by apply dict_setitem_nodup|].
  apply Forall_forall. intros [k' v'] Hin.
  assert (v' ∈ map snd (dict_setitem k v acc)) as Hv'%dict_setitem_values.
  { apply list_elem_of_In, in_map_iff. exists (k', v'). split; [done|by apply list_elem_of_In]. }
  destruct Hv' as [->|Hv']; [done|].
  apply list_elem_of_In, in_map_iff in Hv' as [[k'' v''] [Heq Hin']]. simpl in Heq; subst v''.
  apply (Forall_forall _ _) with (x := (k'', v')) in Hacc; [done|by apply list_elem_of_In].
Qed.

Lemma scan_literal_wf s t r : scan_literal s = Ok (t, r) -> json_wf t = true.
Proof. unfold scan_literal, scan_number. intros H. repeat case_match; by simplify_eq. Qed.

Lemma parse_wf n :
  (forall s t r, parse_value n s = Ok (t, r) -> json_wf t = true) /\
  (forall s xs r, parse_elems n s = Ok (xs, r) -> Forall (fun x => json_wf x = true) xs) /\
  (forall s kvs r, parse_members n s = Ok (kvs, r) ->
     Forall (fun kv => json_wf kv.2 = true) kvs).
Proof.
  induction n as [|n (IHv & IHe & IHm)]; [split_and!; by intros ???|].
  split_and!.
  - intros [|c s1] t r H; simpl in H; [done|].
    case_bool_decide.
    { apply out_map_Ok in H as ([k r'] & _ & H). by simplify_eq. }
    case_bool_decide.
    { destruct (skip_ws s1) as [|c' s2]; [done|].
      case_bool_decide; [by simplify_eq|]. case_bool_decide; [|done].
      apply out_map_Ok in H as ([kvs r'] & Hm & H). simplify_eq.
      apply dict_of_pairs_wf. by eapply IHm. }
    case_bool_decide; [|by eapply scan_literal_wf].
    destruct (skip_ws s1) as [|c' s2]; [done|].
    case_bool_decide; [by simplify_eq|].
    apply out_bind_Ok in H as ([x r1] & Hx & H).
    apply out_map_Ok in H as ([xs r2] & Hxs & H). simplify_eq. cbn [json_wf].
    apply forallb_forall, List.Forall_forall, List.Forall_cons.
    + by eapply IHv. + by eapply IHe.
  - intros s xs r H; simpl in H. destruct (skip_ws s) as [|c s1]; [done|].
    case_bool_decide; [by simplify_eq|]. case_bool_decide; [|done].
    apply out_bind_Ok in H as ([x r1] & Hx & H).
    apply out_map_Ok in H as ([xs' r2] & Hxs & H). simplify_eq.
    constructor; [by eapply IHv|by eapply IHe].
  - intros s kvs r H; simpl in H.
    apply out_bind_Ok in H as ([k s1] & _ & H).
    destruct (skip_ws s1) as [|c s2]; [done|]. case_bool_decide; [|done].
    apply out_bind_Ok in H as ([v s3] & Hv & H).
    destruct (skip_ws s3) as [|c' s4]; [done|].
    case_bool_decide; [simplify_eq; constructor; [by eapply IHv|done]|].
    case_bool_decide; [|done]. destruct (skip_ws s4) as [|c'' s5]; [done|].
    case_bool_decide; [|done].
    apply out_map_Ok in H as ([kvs' r'] & Hm & H). simplify_eq.
    constructor; [by eapply IHv|by eapply IHm].
Qed.

(** Whatever [json.loads] returns is a well-formed tree. *)
Lemma loads_text_wf s t : loads_text s = Ok t -> json_wf t = true.
Proof.
  unfold loads_text. intros H. apply out_bind_Ok in H as ([t' r] & Hp & H).
  case_bool_decide; simplify_eq. by eapply parse_wf.
Qed.
