(* ===== verification/Codec.v ===== *)
(** * The serialization adapters and the codec they compose with

    [src/jsonobj.py] lines 9-30: [dump], [dumps], [load], [loads], and the
    wrappers' [__str__] (lines 126-127 and 238-239), each a one-line
    composition of Python's [json] package with [unwrap] or [wrap].
    The package enters through an interface, the class [JsonCodec]: a
    text format for trees ([codec_dumps], [codec_loads]) with its laws
    (decoding an encoding gives the tree back; decoding always answers;
    decoded trees are well formed).  [python_json] is the instance of
    [JsonText].  The package's walk over native containers is modelled
    here, from CPython's C encoder ([encode_val]: [TypeError] on a
    wrapper, [ValueError] on a cycle), its pure-Python streaming encoder
    used by [json.dump] ([iterencode]), and the containers the decoder
    allocates ([alloc_tree]).  A stream is the list of characters
    written to it; [json.load(fp)] is [json.loads(fp.read())].  The C
    encoder's and scanner's [RecursionError] on deep nesting is not
    modelled: [encode_val]'s budget only bounds the walk. *)

From Stdlib Require Import ZArith Ascii String Lia.
From stdpp Require Import base list gmap sets strings.
From S2P Require Import Prelude PyObjects PyBuiltins Fixtures Convert ArrayWrapper JsonText.

(** ** The interface of the [json] package *)

Class JsonCodec := {
  codec_dumps : json -> list ascii;
  codec_loads : list ascii -> outcome json;
  codec_loads_dumps : forall t, json_wf t = true -> codec_loads (codec_dumps t) = Ok t;
  codec_loads_total : forall s, codec_loads s <> NoFuel;
  codec_loads_wf : forall s t, codec_loads s = Ok t -> json_wf t = true
}.

#[export] Instance python_json : JsonCodec := {|
  codec_dumps := dumps_tree;
  codec_loads := loads_text;
  codec_loads_dumps := loads_dumps;
  codec_loads_total := loads_text_terminates;
  codec_loads_wf := loads_text_wf
|}.

(** ** The package on heap values *)

(** The C encoder's walk ([encoder_listencode_obj]): scalars as they are;
    an empty container at once; a non-empty one raises [ValueError] when
    it is already being encoded further up ([markers]), and otherwise its
    items in order; anything else, a wrapper in particular, goes to
    [default], which raises [TypeError]. *)
Fixpoint encode_val (fuel : nat) (h : heap) (path : list loc) (v : val) : outcome json :=
  match fuel with
  | O => NoFuel
  | S n =>
      match v with
      | VNone => Ok JNull
      | VBool b => Ok (JBool b)
      | VInt z => Ok (JInt z)
      | VStr s => Ok (JStr s)
      | VRef l =>
          match hmem h !! l with
          | None => Wrong
          | Some (ODict []) => Ok (JObj [])
          | Some (ODict items) =>
              if bool_decide (l ∈ path) then Exc ValueError
              else out_map JObj (out_mapM (fun '(k, x) =>
                     out_map (pair k) (encode_val n h (l :: path) x)) items)
          | Some (OList []) | Some (OTuple []) => Ok (JArr [])
          | Some (OList xs) | Some (OTuple xs) =>
              if bool_decide (l ∈ path) then Exc ValueError
              else out_map JArr (out_mapM (encode_val n h (l :: path)) xs)
          | Some (OJSONobj _) | Some (OJSONarray _) => Exc TypeError
          end
      end
  end.

(** The budget: one step per object of the heap and one for the leaf;
    the marker check keeps every branch of the walk free of repeats. *)
Definition encode_budget (h : heap) : nat := S (size (hmem h)).

(** The containers the C scanner builds: each container is created
    before its items ([PyList_New], [PyDict_New]) and filled in order. *)
Fixpoint alloc_tree (t : json) : PyM val :=
  match t with
  | JNull => py_ret VNone
  | JBool b => py_ret (VBool b)
  | JInt z => py_ret (VInt z)
  | JStr s => py_ret (VStr s)
  | JArr xs =>
      let* l := alloc (OList []) in
      let* vs := py_mapM alloc_tree xs in
      put_obj l (OList vs) ;; py_ret (VRef l)
  | JObj kvs =>
      let* l := alloc (ODict []) in
      let* items := py_mapM (fun '(k, x) => let* v := alloc_tree x in py_ret (k, v)) kvs in
      put_obj l (ODict items) ;; py_ret (VRef l)
  end.

Section package.
  Context `{JsonCodec}.

  (** [json.dumps(v)] with default options. *)
Definition json_dumps (v : val) : PyM val :=
    fun h => (h, out_map (fun t => VStr (string_of_list_ascii (codec_dumps t)))
                         (encode_val (encode_budget h) h [] v)).

  (** [json.loads] of a text, and of a Python value: only a [str] is
      accepted (there are no [bytes] in the model). *)
Definition json_loads_text (txt : list ascii) : PyM val :=
    fun h => match codec_loads txt with
             | Ok t => alloc_tree t h
             | Exc e => (h, Exc e)
             | Wrong => (h, Wrong)
             | NoFuel => (h, NoFuel)
             end.

Definition json_loads (s : val) : PyM val :=
    match s with
    | VStr str => json_loads_text (list_ascii_of_string str)
    | _ => py_raise TypeError
    end.
End package.

(** ** The streaming encoder of [json.dump]

    [json.dump] does not use the C encoder: it writes each chunk of the
    pure-Python generator [_iterencode] as soon as it is produced, so
    an error leaves the chunks before it in the stream.  A run is the
    text written and how it ended. *)

Definition w_seq (a b : list ascii * outcome unit) : list ascii * outcome unit :=
  match a.2 with
  | Ok _ => (a.1 ++ b.1, b.2)
  | e => (a.1, e)
  end.

Fixpoint w_concat (ws : list (list ascii * outcome unit)) : list ascii * outcome unit :=
  match ws with
  | [] => ([], Ok tt)
  | w :: ws' => w_seq w (w_concat ws')
  end.

Definition w_text (s : list ascii) : list ascii * outcome unit := (s, Ok tt).

(** [_iterencode], [_iterencode_list] and [_iterencode_dict]. *)
Fixpoint iterencode (fuel : nat) (h : heap) (path : list loc) (v : val) :
    list ascii * outcome unit :=
  match fuel with
  | O => ([], NoFuel)
  | S n =>
      match v with
      | VNone => w_text (list_ascii_of_string "null")
      | VBool true => w_text (list_ascii_of_string "true")
      | VBool false => w_text (list_ascii_of_string "false")
      | VInt z => w_text (int_text z)
      | VStr s => w_text (encode_basestring_ascii s)
      | VRef l =>
          let member := fun '(k, x) =>
            w_seq (w_text (encode_basestring_ascii k ++ [":"%char; " "%char]))
                  (iterencode n h (l :: path) x) in
          let sep := fun w => w_seq (w_text [","%char; " "%char]) w in
          match hmem h !! l with
          | None => ([], Wrong)
          | Some (ODict []) => w_text ["{"%char; "}"%char]
          | Some (ODict (kv :: items)) =>
              if bool_decide (l ∈ path) then ([], Exc ValueError)
              else w_concat (w_text ["{"%char] :: member kv ::
                             map (fun kv' => sep (member kv')) items ++ [w_text ["}"%char]])
          | Some (OList []) | Some (OTuple []) => w_text ["["%char; "]"%char]
          | Some (OList (x :: xs)) | Some (OTuple (x :: xs)) =>
              if bool_decide (l ∈ path) then ([], Exc ValueError)
              else w_concat (w_text ["["%char] :: iterencode n h (l :: path) x ::
                             map (fun x' => sep (iterencode n h (l :: path) x')) xs ++
                             [w_text ["]"%char]])
          | Some (OJSONobj _) | Some (OJSONarray _) => ([], Exc TypeError)
          end
      end
  end.

(** ** The adapters of [src/jsonobj.py] *)

Section adapters.
  Context `{JsonCodec}.

  (** [dumps(obj)]: [json.dumps(unwrap(obj))]. *)
Definition dumps (obj : val) : PyM val :=
    let* v := unwrap obj in json_dumps v.

  (** [loads(s)]: [wrap(json.loads(s))]. *)
Definition loads (s : val) : PyM val :=
    let* v := json_loads s in wrap v.

  (** [load(fp)]: [wrap(json.load(fp))]; the read empties the stream. *)
Definition load (fp : list ascii) (h : heap) : (heap * list ascii) * outcome val :=
    let '(h', o) := (let* v := json_loads_text fp in wrap v) h in ((h', []), o).
End adapters.

(** [dump(obj, fp)]: [json.dump(unwrap(obj), fp)]; the stream keeps the
    text written before an error. *)
Definition dump (obj : val) (fp : list ascii) (h : heap) : (heap * list ascii) * outcome val :=
  match unwrap obj h with
  | (h', Ok v) =>
      let '(txt, o) := iterencode (encode_budget h') h' [] v in
      ((h', fp ++ txt), out_map (fun _ => VNone) o)
  | (h', Exc e) => ((h', fp), Exc e)
  | (h', Wrong) => ((h', fp), Wrong)
  | (h', NoFuel) => ((h', fp), NoFuel)
  end.

(** [JSONobj.__str__] and [JSONarray.__str__]: [json.dumps] of the slot,
    with no [unwrap]. *)
Module JSONobj.
Definition __str__ `{JsonCodec} (self : val) : PyM val :=
    match self with
    | VRef l => let* o := get_obj l in
                match o with OJSONobj d => json_dumps d | _ => py_wrong end
    | _ => py_wrong
    end.
End JSONobj.

Module JSONarray.
Definition __str__ `{JsonCodec} (self : val) : PyM val :=
    match self with
    | VRef l => let* o := get_obj l in
                match o with OJSONarray s => json_dumps s | _ => py_wrong end
    | _ => py_wrong
    end.
End JSONarray.

(** ** Trees laid out on the heap *)

(** Pointwise relation of two lists, by recursion (usable in a
    [Fixpoint] over a nested type). *)
Section all2.
  Context {A B : Type} (R : A -> B -> Prop).
Fixpoint all2 (xs : list A) (ys : list B) {struct ys} : Prop :=
    match xs, ys with
    | [], [] => True
    | x :: xs', y :: ys' => R x y /\ all2 xs' ys'
    | _, _ => False
    end.
End all2.

Section all2_kv.
  Context {V J : Type} (R : V -> J -> Prop).
  (** The same keys in the same order, related values. *)
Fixpoint all2_kv (items : list (string * V)) (kvs : list (string * J)) {struct kvs} : Prop :=
    match items, kvs with
    | [], [] => True
    | (k, v) :: items', (k', x) :: kvs' => k = k' /\ R v x /\ all2_kv items' kvs'
    | _, _ => False
    end.
End all2_kv.

(** [v] denotes [t] in [h], every container of it lying in [[lo, hi)]
    and above the container holding it: the layout [alloc_tree] makes. *)
Fixpoint tree_at (h : heap) (lo hi : loc) (v : val) (t : json) {struct t} : Prop :=
  match t with
  | JNull => v = VNone
  | JBool b => v = VBool b
  | JInt z => v = VInt z
  | JStr s => v = VStr s
  | JArr xs =>
      exists (l : loc) vs, v = VRef l /\ (lo <= l < hi)%positive /\ hmem h !! l = Some (OList vs) /\
        all2 (fun v' x => tree_at h (Pos.succ l) hi v' x) vs xs
  | JObj kvs =>
      exists (l : loc) items, v = VRef l /\ (lo <= l < hi)%positive /\ hmem h !! l = Some (ODict items) /\
        all2_kv (fun v' x => tree_at h (Pos.succ l) hi v' x) items kvs
  end.

(** Two heaps agree on the addresses [[lo, hi)]. *)
Definition agree (h h' : heap) (lo hi : loc) : Prop :=
  forall l : loc, (lo <= l < hi)%positive -> hmem h' !! l = hmem h !! l.

Lemma all2_Forall_impl {A B} (P : B -> Prop) (R R' : A -> B -> Prop) xs ys :
  Forall P ys -> (forall x y, P y -> R x y -> R' x y) -> all2 R xs ys -> all2 R' xs ys.
Proof.
  intros HP HR. revert xs. induction HP as [|y ys Hy HP IH]; intros [|x xs]; simpl; try done.
  intros [Hxy Hr]. split; [by apply HR|by apply IH].
Qed.

Lemma all2_kv_Forall_impl {V J} (P : string * J -> Prop) (R R' : V -> J -> Prop) items kvs :
  Forall P kvs -> (forall v k x, P (k, x) -> R v x -> R' v x) ->
  all2_kv R items kvs -> all2_kv R' items kvs.
Proof.
  intros HP HR. revert items. induction HP as [|[k x] kvs Hx HP IH]; intros [|[k' v] items]; simpl; try done.
  intros (Hk & Hvx & Hr). split_and!; [done|by apply (HR v k x)|by apply IH].
Qed.

(** The layout survives any change outside its addresses, and any
    widening of its bounds. *)
Lemma tree_at_agree t : forall h h' lo hi v,
  agree h h' lo hi -> tree_at h lo hi v t -> tree_at h' lo hi v t.
Proof.
  induction t as [| | | | xs IH | kvs IH] using json_ind'; intros h h' lo hi v Hag; simpl; try done.
  - intros (l & vs & -> & Hl & Hh & Hall). exists l, vs. split_and!; try (done || lia); [rewrite Hag; [done|lia]|].
    eapply all2_Forall_impl; [exact IH| |exact Hall]. intros v' x IHx Hx.
    eapply IHx; [|exact Hx]. intros l' Hl'. apply Hag. lia.
  - intros (l & items & -> & Hl & Hh & Hall). exists l, items. split_and!; try (done || lia); [rewrite Hag; [done|lia]|].
    eapply all2_kv_Forall_impl; [exact IH| |exact Hall]. intros v' k x IHx Hx.
    eapply IHx; [|exact Hx]. intros l' Hl'. apply Hag. lia.
Qed.

Lemma tree_at_widen t : forall h lo hi lo' hi' v,
  (lo' <= lo)%positive -> (hi <= hi')%positive -> tree_at h lo hi v t -> tree_at h lo' hi' v t.
Proof.
  induction t as [| | | | xs IH | kvs IH] using json_ind'; intros h lo hi lo' hi' v Hlo Hhi; simpl; try done.
  - intros (l & vs & -> & Hl & Hh & Hall). exists l, vs. split_and!; try (done || lia).
    eapply all2_Forall_impl; [exact IH| |exact Hall]. intros v' x IHx Hx.
    eapply IHx; [| |exact Hx]; lia.
  - intros (l & items & -> & Hl & Hh & Hall). exists l, items. split_and!; try (done || lia).
    eapply all2_kv_Forall_impl; [exact IH| |exact Hall]. intros v' k x IHx Hx.
    eapply IHx; [| |exact Hx]; lia.
Qed.

Lemma sum_list_with_Forall {A} (f : A -> nat) xs n :
  sum_list_with f xs <= n -> Forall (fun x => f x <= n) xs.
Proof.
  induction xs as [|x xs IH]; simpl; intros Hn; constructor; [lia|apply IH; lia].
Qed.

Lemma out_mapM_all2 {A B} (f : A -> outcome B) xs ys :
  all2 (fun x y => f x = Ok y) xs ys -> out_mapM f xs = Ok ys.
Proof.
  revert xs. induction ys as [|y ys IH]; intros [|x xs]; simpl; try done.
  intros [-> Hr]. simpl. by rewrite (IH xs Hr).
Qed.

Lemma out_mapM_all2_kv {A B} (g : A -> outcome B) items kvs :
  all2_kv (fun v x => g v = Ok x) items kvs ->
  out_mapM (fun '(k, x) => out_map (pair k) (g x)) items = Ok kvs.
Proof.
  revert items. induction kvs as [|[k x] kvs IH]; intros [|[k' v] items]; simpl; try done.
  intros (-> & -> & Hr). simpl. by rewrite (IH items Hr).
Qed.

(** The encoder reads a laid-out tree back, from any walk whose open
    containers lie below it. *)
Lemma encode_tree t : forall n h lo hi path v,
  tree_at h lo hi v t -> (forall p, p ∈ path -> (p < lo)%positive) -> json_size t <= n ->
  encode_val n h path v = Ok t.
Proof.
  induction t as [| | | | xs IH | kvs IH] using json_ind';
    intros [|n] h lo hi path v Ht Hp Hn; simpl in Hn; try lia; simpl in Ht; try (by subst).
  - destruct Ht as (l & vs & -> & Hl & Hh & Hall). simpl. rewrite Hh.
    destruct vs as [|v0 vs]; [by destruct xs|].
    rewrite bool_decide_eq_false_2 by (intros Hin; specialize (Hp l Hin); lia).
    pose proof (sum_list_with_Forall json_size xs n ltac:(lia)) as Hsz.
    rewrite (out_mapM_all2 _ (v0 :: vs) xs); [done|].
    eapply all2_Forall_impl; [apply Forall_and; split; [exact IH|exact Hsz]| |exact Hall].
    intros v' x [IHx Hx] Hvx. eapply IHx; [exact Hvx| |done].
    intros p [->|Hin]%elem_of_cons; [lia|]. specialize (Hp p Hin). lia.
  - destruct Ht as (l & items & -> & Hl & Hh & Hall). simpl. rewrite Hh.
    destruct items as [|kv0 items]; [by destruct kvs|].
    rewrite bool_decide_eq_false_2 by (intros Hin; specialize (Hp l Hin); lia).
    assert (Hsz : Forall (fun kx => S (json_size kx.2) <= n) kvs).
    { clear -Hn. induction kvs as [|[k x] kvs IHk]; simpl in *; constructor; simpl; [lia|].
      apply IHk. lia. }
    rewrite (out_mapM_all2_kv (encode_val n h (l :: path)) (kv0 :: items) kvs); [done|].
    eapply all2_kv_Forall_impl; [apply Forall_and; split; [exact IH|exact Hsz]| |exact Hall].
    intros v' k x [IHx Hx] Hvx. simpl in Hx. eapply IHx; [exact Hvx| |simpl; lia].
    intros p [->|Hin]%elem_of_cons; [lia|]. specialize (Hp p Hin). lia.
Qed.

(** ** What the decoder allocates *)

(** [h'] only adds to [h]: every address below [hnext h] is unchanged. *)
Definition extends (h h' : heap) : Prop :=
  (hnext h <= hnext h')%positive /\
  forall l : loc, (l < hnext h)%positive -> hmem h' !! l = hmem h !! l.

(** Every object created since [h] is a native container whose
    references lead to objects created since [h]. *)
Definition fresh_native (h h' : heap) : Prop :=
  forall (l : loc) o, (hnext h <= l)%positive -> hmem h' !! l = Some o ->
    is_native_obj o = true /\
    Forall (fun c => forall l', c = VRef l' -> (hnext h <= l')%positive) (obj_children o).

Lemma extends_refl h : extends h h.
Proof. split; [lia|done]. Qed.

Lemma extends_trans h1 h2 h3 : extends h1 h2 -> extends h2 h3 -> extends h1 h3.
Proof.
  intros [H12 E12] [H23 E23]. split; [lia|]. intros l Hl. rewrite E23 by lia. by apply E12.
Qed.

Lemma extends_alloc h o : heap_wf h -> extends h (heap_alloc h o).
Proof.
  intros Hwf. split; [simpl; lia|]. intros l Hl. unfold heap_alloc; simpl.
  rewrite lookup_insert_ne; [done|lia].
Qed.

Lemma extends_update h h' l o :
  extends h h' -> (hnext h <= l)%positive -> extends h (heap_update h' l o).
Proof.
  intros [Hn E] Hl. split; [simpl; lia|]. intros l' Hl'.
  rewrite lookup_update. case_decide; [lia|by apply E].
Qed.

Lemma val_ok_extends h h' v : heap_wf h -> extends h h' -> val_ok h v -> val_ok h' v.
Proof.
  intros Hwf [_ E] Hv. destruct v as [| | | |l]; simpl in *; try done.
  destruct Hv as [o Ho]. rewrite E; [by eexists|]. exact (wf_fresh h Hwf l o Ho).
Qed.

Lemma fresh_native_refl h : heap_wf h -> fresh_native h h.
Proof. intros Hwf l o Hl Ho. pose proof (wf_fresh h Hwf l o Ho). simpl in *. lia. Qed.

Lemma fresh_native_trans h1 h2 h3 :
  extends h1 h2 -> extends h2 h3 -> fresh_native h1 h2 -> fresh_native h2 h3 ->
  fresh_native h1 h3.
Proof.
  intros [H12 _] [_ E23] F12 F23 l o Hl Ho.
  destruct (decide (l < hnext h2)%positive) as [Hlt|Hge].
  - rewrite E23 in Ho by done. exact (F12 l o Hl Ho).
  - destruct (F23 l o ltac:(lia) Ho) as [Hn Hc]. split; [done|].
    eapply Forall_impl; [exact Hc|]. intros c Hc' l' ->. specialize (Hc' l' eq_refl). lia.
Qed.

Lemma tree_at_ref h lo hi v t l : tree_at h lo hi v t -> v = VRef l -> (lo <= l)%positive.
Proof.
  destruct t; simpl; try (intros -> [=]).
  - intros (l' & vs & -> & Hl & _) [= <-]. lia.
  - intros (l' & items & -> & Hl & _) [= <-]. lia.
Qed.

Lemma all2_kv_keys {V J} (R : V -> J -> Prop) items kvs :
  all2_kv R items kvs -> map fst items = map fst kvs.
Proof.
  revert items. induction kvs as [|[k x] kvs IH]; intros [|[k' v] items]; simpl; try done.
  intros (-> & _ & Hr). by rewrite (IH items Hr).
Qed.

Lemma agree_update_below h l o lo hi : (l < lo)%positive -> agree h (heap_update h l o) lo hi.
Proof. intros Hl l' Hl'. rewrite lookup_update. case_decide; [lia|done]. Qed.

Lemma agree_extends h h' lo hi : extends h h' -> (hi <= hnext h)%positive -> agree h h' lo hi.
Proof. intros [_ E] Hhi l Hl. apply E. lia. Qed.

Lemma all2_length {A B} (R : A -> B -> Prop) xs ys : all2 R xs ys -> length xs = length ys.
Proof. revert xs. induction ys; intros [|x xs]; simpl; try done. intros [_ H]. f_equal. eauto. Qed.

Lemma all2_kv_zip {V J} (R : V -> J -> Prop) vs kvs :
  all2 R vs (map snd kvs) -> all2_kv R (zip (map fst kvs) vs) kvs.
Proof.
  revert vs. induction kvs as [|[k x] kvs IH]; intros [|v vs]; simpl; try done.
  intros [Hvx Hr]. split_and!; [done|done|by apply IH].
Qed.

(** Allocating the members of an object is allocating its values. *)
Lemma py_mapM_members (g : json -> PyM val) kvs h h' o :
  py_mapM g (map snd kvs) h = (h', o) ->
  py_mapM (fun '((k, x) : string * json) => let* v := g x in py_ret (k, v)) kvs h =
    (h', out_map (zip (map fst kvs)) o).
Proof.
  revert h h' o. induction kvs as [|[k x] kvs IH]; intros h h' o; [by intros [= <- <-]|].
  cbn [map fst snd]. rewrite !py_mapM_cons. intros Hrun.
  unfold py_bind, py_ret in *. cbn beta iota in *.
  destruct (g x h) as [h1 [v| | |]]; try (by injection Hrun as <- <-).
  destruct (py_mapM g (map snd kvs) h1) as [h2 o2] eqn:E.
  rewrite (IH h1 h2 o2 E). by destruct o2; injection Hrun as <- <-.
Qed.

(** The specification of [alloc_tree] on one tree. *)
Definition alloc_ok (t : json) : Prop :=
  forall h, heap_wf h -> exists h' v,
    alloc_tree t h = (h', Ok v) /\ heap_wf h' /\ extends h h' /\ fresh_native h h' /\
    tree_at h' (hnext h) (hnext h') v t /\ val_ok h' v.

Lemma alloc_list_spec xs : Forall alloc_ok xs -> forall h, heap_wf h ->
  exists h' vs, py_mapM alloc_tree xs h = (h', Ok vs) /\ heap_wf h' /\ extends h h' /\
    fresh_native h h' /\ all2 (fun v x => tree_at h' (hnext h) (hnext h') v x) vs xs /\
    Forall (val_ok h') vs /\ Forall (fun c => forall l', c = VRef l' -> (hnext h <= l')%positive) vs.
Proof.
  induction 1 as [|x xs Hx Hxs IH]; intros h Hwf.
  - exists h, []. split_and!; try done; auto using extends_refl, fresh_native_refl.
  - destruct (Hx h Hwf) as (h1 & v & Hrun & Hwf1 & Ext1 & Fr1 & Ht1 & Hv1).
    destruct (IH h1 Hwf1) as (h2 & vs & Hrun2 & Hwf2 & Ext2 & Fr2 & Hall & Hvs & Hrefs).
    pose proof Ext1 as [Hn1 _]. pose proof Ext2 as [Hn2 _].
    exists h2, (v :: vs). split_and!.
    + rewrite py_mapM_cons. by rewrite (py_bind_run_ok _ _ _ _ _ Hrun), (py_bind_run_ok _ _ _ _ _ Hrun2).
    + done.
    + by eapply extends_trans.
    + by eapply fresh_native_trans.
    + split.
      * eapply tree_at_widen; [| |eapply tree_at_agree; [apply agree_extends; [exact Ext2|]|exact Ht1]];
          lia.
      * eapply all2_Forall_impl; [apply (Forall_true (fun _ => True)); done| |exact Hall].
        intros v' x' _. apply tree_at_widen; lia.
    + constructor; [eapply val_ok_extends; [exact Hwf1|exact Ext2|exact Hv1]|done].
    + constructor; [intros l' ->; by eapply tree_at_ref in Ht1|].
      eapply Forall_impl; [exact Hrefs|]. intros c Hc l' Hl'. specialize (Hc l' Hl'). lia.
Qed.

(** Filling in the container allocated first, once its items exist. *)
Lemma fill_spec h h2 o0 o :
  heap_wf h -> extends (heap_alloc h o0) h2 -> fresh_native (heap_alloc h o0) h2 ->
  heap_wf h2 -> is_native_obj o = true -> obj_ok h2 o ->
  Forall (fun c => forall l', c = VRef l' -> (Pos.succ (hnext h) <= l')%positive) (obj_children o) ->
  heap_wf (heap_update h2 (hnext h) o) /\ extends h (heap_update h2 (hnext h) o) /\
  fresh_native h (heap_update h2 (hnext h) o) /\
  hmem h2 !! hnext h = Some o0 /\
  agree h2 (heap_update h2 (hnext h) o) (Pos.succ (hnext h)) (hnext h2) /\
  (Pos.succ (hnext h) <= hnext h2)%positive.
Proof.
  intros Hh Ext Fr Hh2 Hn Hok Hc. pose proof Ext as [Hnx E].
  assert (Hl : hmem h2 !! hnext h = Some o0).
  { rewrite E; [apply lookup_alloc_new|simpl; lia]. }
  split_and!; try done.
  - apply update_wf; [done|by eexists|done].
  - apply extends_update; [|lia]. eapply extends_trans; [apply extends_alloc, Hh|exact Ext].
  - intros l o' Hge Ho'. rewrite lookup_update in Ho'. case_decide as Heq.
    + injection Ho' as <-. split; [done|].
      eapply Forall_impl; [exact Hc|]. intros c Hc' l' Hl'. specialize (Hc' l' Hl'). lia.
    + destruct (Fr l o' ltac:(simpl; lia) Ho') as [Hn' Hc'']. split; [done|].
      eapply Forall_impl; [exact Hc''|]. intros c Hc' l' Hl'. specialize (Hc' l' Hl'). simpl in Hc'. lia.
  - apply agree_update_below. lia.
Qed.

(** [alloc_tree] lays a well-formed tree out in fresh native containers
    of a still well-formed heap, without touching older objects. *)
Lemma alloc_tree_spec t : json_wf t = true -> alloc_ok t.
Proof.
  induction t as [| | | | xs IH | kvs IH] using json_ind'; intros Hwf h Hh;
    try (eexists h, _; split_and!; try done; auto using extends_refl, fresh_native_refl; fail).
  - apply json_wf_arr in Hwf.
    assert (Hall : Forall alloc_ok xs).
    { eapply Forall_impl; [apply Forall_and; split; [exact IH|exact Hwf]|]. intros x [Hx Hw]. by apply Hx. }
    pose proof (alloc_wf h Hh (OList []) (conj (List.Forall_nil _) I)) as Hh1.
    destruct (alloc_list_spec xs Hall _ Hh1) as (h2 & vs & Hrun & Hwf2 & Ext2 & Fr2 & Htr & Hvs & Hrefs).
    destruct (fill_spec h h2 (OList []) (OList vs) Hh Ext2 Fr2 Hwf2 eq_refl (conj Hvs I) Hrefs)
      as (Hwf3 & Ext3 & Fr3 & Hl2 & Ag & Hn3).
    exists (heap_update h2 (hnext h) (OList vs)), (VRef (hnext h)). split_and!; try done.
    + cbn [alloc_tree]. rewrite (py_bind_run_ok _ _ h (heap_alloc h (OList [])) (hnext h)) by reflexivity.
      rewrite (py_bind_run_ok _ _ _ _ _ Hrun). unfold py_bind.
      by rewrite (put_obj_run _ _ _ _ Hl2).
    + exists (hnext h), vs. split_and!; try done; try (simpl; lia).
      { apply lookup_insert_eq. }
      eapply all2_Forall_impl; [apply (Forall_true (fun _ => True)); done| |exact Htr].
      intros v x _ Hvx. eapply tree_at_agree; [exact Ag|exact Hvx].
    + simpl. rewrite lookup_insert_eq. by eexists.
  - apply json_wf_obj in Hwf as [Hnd Hwf].
    assert (Hall : Forall alloc_ok (map snd kvs)).
    { apply Forall_fmap. eapply Forall_impl; [apply Forall_and; split; [exact IH|exact Hwf]|].
      intros x [Hx Hw]. by apply Hx. }
    pose proof (alloc_wf h Hh (ODict []) (conj (List.Forall_nil _) (NoDup_nil_2))) as Hh1.
    destruct (alloc_list_spec _ Hall _ Hh1) as (h2 & vs & Hrun & Hwf2 & Ext2 & Fr2 & Htr & Hvs & Hrefs).
    pose proof (all2_length _ _ _ Htr) as Hlen. rewrite length_map in Hlen.
    set (items := zip (map fst kvs) vs).
    assert (Hsnd : map snd items = vs) by (apply snd_zip; rewrite length_map; lia).
    assert (Hfst : map fst items = map fst kvs) by (apply fst_zip; rewrite length_map; lia).
    destruct (fill_spec h h2 (ODict []) (ODict items) Hh Ext2 Fr2 Hwf2 eq_refl)
      as (Hwf3 & Ext3 & Fr3 & Hl2 & Ag & Hn3);
      [split; [simpl; by rewrite Hsnd|simpl; by rewrite Hfst]|simpl; by rewrite Hsnd|].
    exists (heap_update h2 (hnext h) (ODict items)), (VRef (hnext h)). split_and!; try done.
    + cbn [alloc_tree]. rewrite (py_bind_run_ok _ _ h (heap_alloc h (ODict [])) (hnext h)) by reflexivity.
      rewrite (py_bind_run_ok _ _ _ _ _ (py_mapM_members _ _ _ _ _ Hrun)). unfold py_bind.
      by rewrite (put_obj_run _ _ _ _ Hl2).
    + exists (hnext h), items. split_and!; try done; try (simpl; lia).
      { apply lookup_insert_eq. }
      apply all2_kv_zip.
      eapply all2_Forall_impl; [apply (Forall_true (fun _ => True)); done| |exact Htr].
      intros v x _ Hvx. eapply tree_at_agree; [exact Ag|exact Hvx].
    + simpl. rewrite lookup_insert_eq. by eexists.
Qed.

(** ** What the encoder can answer *)

(** The answers of a walk over a well-formed heap: a tree, [ValueError]
    for a cycle, and (unless [strict], i.e. unless the heap keeps the
    unwrap boundary) [TypeError] for a wrapper. *)
Definition out_good {A} (strict : bool) (o : outcome A) : Prop :=
  match o with
  | Ok _ => True
  | Exc ValueError => True
  | Exc TypeError => strict = false
  | _ => False
  end.

Lemma out_good_map {A B} s (f : A -> B) o : out_good s o -> out_good s (out_map f o).
Proof. by destruct o as [|[]| |]. Qed.

Lemma out_good_mapM {A B} s (f : A -> outcome B) xs :
  (forall x, x ∈ xs -> out_good s (f x)) -> out_good s (out_mapM f xs).
Proof.
  induction xs as [|x xs IH]; intros Hf; simpl; [done|].
  assert (Hx : out_good s (f x)) by (apply Hf; left).
  destruct (f x) as [y|[]| |]; simpl in *; try done.
  apply out_good_map, IH. intros x' Hx'. apply Hf. by right.
Qed.

(** A walk's open containers are distinct objects of the heap, so there
    are no more of them than objects. *)
Lemma path_length h path :
  NoDup path -> (forall p : loc, p ∈ path -> is_Some (hmem h !! p)) -> length path <= size (hmem h).
Proof.
  intros Hnd Hin. rewrite <- (size_list_to_set (C:=gset loc) path Hnd), <- size_dom.
  apply subseteq_size. intros p Hp. apply elem_of_list_to_set in Hp. by apply elem_of_dom, Hin.
Qed.

(** Over a well-formed heap, a budget above the number of objects not
    yet open is enough; under [jsonobj_inv], a value that is not a
    wrapper never reaches one. *)
Lemma encode_good s h : heap_wf h -> (s = true -> jsonobj_inv h) -> forall n path v,
  NoDup path -> (forall p : loc, p ∈ path -> is_Some (hmem h !! p)) ->
  size (hmem h) < length path + n -> val_ok h v ->
  (s = true -> refers_to_wrapper h v = false) ->
  out_good s (encode_val n h path v).
Proof.
  intros Hwf Hinv n. induction n as [|n IH]; intros path v Hnd Hpath Hn Hv Hw.
  { pose proof (path_length h path Hnd Hpath). lia. }
  destruct v as [| | | |l]; simpl; try done.
  destruct Hv as [o Ho]. rewrite Ho.
  assert (Hchild : forall c, c ∈ obj_children o -> is_native_obj o = true -> l ∉ path ->
            out_good s (encode_val n h (l :: path) c)).
  { intros c Hc Hnat Hl. apply IH.
    - by apply NoDup_cons_2.
    - intros p [->|Hp]%elem_of_cons; [by eexists|by apply Hpath].
    - simpl. lia.
    - destruct (wf_closed h Hwf l o Ho) as [Hok _]. by apply Forall_forall with (x := c) in Hok.
    - intros Hs. pose proof (inv_boundary h (Hinv Hs) l o Ho Hnat) as Hb.
      by apply Forall_forall with (x := c) in Hb. }
  destruct o as [items|xs|xs|d|sq]; simpl in Hchild.
  - destruct items as [|kv items]; [done|]. case_bool_decide as Hl; [done|].
    apply out_good_map, out_good_mapM. intros [k x] Hin. apply out_good_map, Hchild; [|done|done].
    apply list_elem_of_In, in_map_iff. exists (k, x). split; [done|by apply list_elem_of_In].
  - destruct xs as [|x xs]; [done|]. case_bool_decide as Hl; [done|].
    apply out_good_map, out_good_mapM. intros x' Hin. by apply Hchild.
  - destruct xs as [|x xs]; [done|]. case_bool_decide as Hl; [done|].
    apply out_good_map, out_good_mapM. intros x' Hin. by apply Hchild.
  - destruct s; [|done]. specialize (Hw eq_refl). unfold refers_to_wrapper in Hw.
    simpl in Hw. by rewrite Ho in Hw.
  - destruct s; [|done]. specialize (Hw eq_refl). unfold refers_to_wrapper in Hw.
    simpl in Hw. by rewrite Ho in Hw.
Qed.

Lemma out_map_NoFuel {A B} (f : A -> B) o : out_map f o <> NoFuel -> o <> NoFuel.
Proof. by destruct o. Qed.

Lemma out_mapM_mono {A B} (f g : A -> outcome B) xs :
  (forall x, x ∈ xs -> f x <> NoFuel -> g x = f x) ->
  out_mapM f xs <> NoFuel -> out_mapM g xs = out_mapM f xs.
Proof.
  induction xs as [|x xs IH]; intros Hfg; simpl; [done|].
  apply out_bind_mono; [apply Hfg; left|].
  intros y Hy. unfold out_map in *. apply out_bind_mono; [|done|done].
  intros Hn. apply IH; [|done]. intros x' Hx'. apply Hfg. by right.
Qed.

(** A larger budget does not change an answer the encoder has reached. *)
Lemma encode_mono n m h path v :
  n <= m -> encode_val n h path v <> NoFuel -> encode_val m h path v = encode_val n h path v.
Proof.
  revert m path v. induction n as [|n IH]; intros [|m] path v Hle Hn; try done; [lia|].
  destruct v as [| | | |l]; simpl in *; try done.
  destruct (hmem h !! l) as [[[|kv items]|[|x xs]|[|x xs]| |]|]; try done;
    case_bool_decide; try done; apply out_bind_mono; try done;
    apply out_mapM_mono; try done.
  - intros [k x] _ Hx. unfold out_map in *. apply out_bind_mono; [|done|done].
    intros Hn'. apply IH; [lia|done].
  - intros x' _ Hx. apply IH; [lia|done].
  - intros x' _ Hx. apply IH; [lia|done].
Qed.

Section codec_lemmas.
  Context `{JsonCodec}.

  (** [json.dumps] of a value laid out as [t] is the codec's text of [t]. *)
Lemma json_dumps_tree h lo hi v t :
    heap_wf h -> tree_at h lo hi v t -> val_ok h v ->
    json_dumps v h = (h, Ok (VStr (string_of_list_ascii (codec_dumps t)))).
  Proof.
    intros Hwf Ht Hv. unfold json_dumps, encode_budget.
    assert (Hnf : encode_val (S (size (hmem h))) h [] v <> NoFuel).
    { pose proof (encode_good false h Hwf ltac:(done) (S (size (hmem h))) [] v
                    (NoDup_nil_2) ltac:(by intros ? ?%elem_of_nil) ltac:(simpl; lia) Hv ltac:(done)) as Hg.
      intros Hn. by rewrite Hn in Hg. }
    rewrite <- (encode_mono (S (size (hmem h))) (S (size (hmem h)) `max` json_size t) h [] v ltac:(lia) Hnf).
    rewrite (encode_tree t (S (size (hmem h)) `max` json_size t) h lo hi [] v Ht
               ltac:(by intros ? ?%elem_of_nil) ltac:(lia)).
    reflexivity.
  Qed.
End codec_lemmas.

(** Adding fresh native containers keeps the representation invariant. *)
Lemma inv_extend_native h h' :
  jsonobj_inv h -> heap_wf h' -> extends h h' -> fresh_native h h' -> jsonobj_inv h'.
Proof.
  intros Hinv Hwf' Ext Fr. pose proof Ext as [Hn E]. pose proof (inv_wf h Hinv) as Hwf.
  assert (Hold : forall v, val_ok h v -> obj_at h' v = obj_at h v).
  { intros [| | | |l] Hv; simpl in *; try done. destruct Hv as [o Ho].
    apply E. exact (wf_fresh h Hwf l o Ho). }
  assert (Hnew : forall l' : loc, (hnext h <= l')%positive -> refers_to_wrapper h' (VRef l') = false).
  { intros l' Hl'. unfold refers_to_wrapper; cbn [obj_at].
    destruct (hmem h' !! l') as [o|] eqn:Ho; [|done].
    destruct (Fr l' o Hl' Ho) as [Hnat _]. by destruct o. }
  constructor; [done| |].
  - intros l o Ho. destruct (decide (l < hnext h)%positive) as [Hlt|Hge].
    + rewrite E in Ho by done. pose proof (inv_slots h Hinv l o Ho) as Hs.
      pose proof (wf_closed h Hwf l o Ho) as [Hok _].
      destruct o as [| | |d|sq]; simpl in *; try done;
        (destruct Hs as (o' & Ho' & Hk); exists o'; split; [|done];
         rewrite Hold; [done|]; by apply Forall_cons in Hok as [? _]).
    + destruct (Fr l o ltac:(lia) Ho) as [Hnat _]. by destruct o.
  - intros l o Ho Hnat. destruct (decide (l < hnext h)%positive) as [Hlt|Hge].
    + rewrite E in Ho by done. pose proof (inv_boundary h Hinv l o Ho Hnat) as Hb.
      pose proof (wf_closed h Hwf l o Ho) as [Hok _].
      eapply Forall_impl; [apply Forall_and; split; [exact Hb|exact Hok]|].
      intros c [Hc Hcv]. unfold refers_to_wrapper in *. by rewrite Hold.
    + destruct (Fr l o ltac:(lia) Ho) as [_ Hc].
      eapply Forall_impl; [exact Hc|]. intros [| | | |l'] Hl'; try done. apply Hnew. by apply Hl'.
Qed.

(** ** The streaming encoder writes what the one-shot encoder returns *)

(** A run of the streaming encoder agrees with an answer of the walk:
    it ends the same way, and on success its text is the answer's text. *)
Definition w_agrees {B} (pr : B -> list ascii) (w : list ascii * outcome unit) (o : outcome B) : Prop :=
  w.2 = out_map (fun _ => tt) o /\ forall b, o = Ok b -> w.1 = pr b.

Lemma w_agrees_map {B C} (pr : C -> list ascii) (g : B -> C) w o :
  w_agrees (fun b => pr (g b)) w o -> w_agrees pr w (out_map g o).
Proof.
  intros [H2 H1]. split; [rewrite H2; by destruct o|].
  intros c Hc. apply out_map_Ok in Hc as (b & -> & ->). by apply H1.
Qed.

Lemma w_agrees_seq {B C D} (a : list ascii) (pr1 : B -> list ascii) (pr2 : C -> list ascii)
    (pr : D -> list ascii) (f : B -> C -> D) w1 w2 o1 o2 :
  w_agrees pr1 w1 o1 -> w_agrees pr2 w2 o2 ->
  (forall b c, pr (f b c) = a ++ pr1 b ++ pr2 c) ->
  w_agrees pr (w_seq (w_text a) (w_seq w1 w2)) (out_bind o1 (fun b => out_map (f b) o2)).
Proof.
  intros [H12 H11] [H22 H21] Hpr. destruct w1 as [t1 r1], w2 as [t2 r2]; simpl in *.
  unfold w_seq; simpl. subst r1 r2.
  destruct o1 as [b| | |]; simpl; try (split; [done|intros ? [=]]).
  split; [by destruct o2|]. intros d Hd. apply out_map_Ok in Hd as (c & -> & ->).
  rewrite Hpr, (H11 b eq_refl), (H21 c eq_refl). done.
Qed.

Lemma w_items {A B} (it : A -> list ascii * outcome unit) (enc : A -> outcome B)
    (pr : B -> list ascii) xs c :
  (forall x, x ∈ xs -> w_agrees pr (it x) (enc x)) ->
  w_agrees (fun ts => items_tail (map pr ts) ++ c)
    (w_concat (map (fun x => w_seq (w_text [","%char; " "%char]) (it x)) xs ++ [w_text c]))
    (out_mapM enc xs).
Proof.
  induction xs as [|x xs IH]; intros Hx.
  - split; [done|]. intros ts [= <-]. simpl. unfold w_seq; simpl. by rewrite app_nil_r.
  - cbn [map app w_concat out_mapM].
    pose proof (w_agrees_seq [","%char; " "%char] pr (fun ts => items_tail (map pr ts) ++ c)
                  (fun ts => items_tail (map pr ts) ++ c) cons (it x) _ (enc x) _
                  (Hx x (list_elem_of_here _ _)) (IH (fun x' Hx' => Hx x' (list_elem_of_further _ _ _ Hx')))) as Hs.
    destruct Hs as [Hs2 Hs1]; [intros b ts; simpl; by rewrite <- app_assoc|].
    split; [rewrite <- Hs2|intros ts Hts; rewrite <- (Hs1 ts Hts)];
      unfold w_seq; simpl; destruct (it x) as [tx [] ]; simpl; try done; by rewrite <- app_assoc.
Qed.

(** [_iterencode] and the C encoder agree on every value: the same
    outcome, and on success the same text. *)
Lemma iterencode_agrees n h path v :
  w_agrees dumps_tree (iterencode n h path v) (encode_val n h path v).
Proof.
  revert path v. induction n as [|n IH]; intros path v; [split; [done|intros ? [=]]|].
  destruct v as [|[]| | |l]; try (split; [done|intros ? [= <-]; done]).
  cbn [iterencode encode_val].
  assert (Hmember : forall kv, w_agrees (member_text dumps_tree)
            (w_seq (w_text (encode_basestring_ascii kv.1 ++ [":"%char; " "%char]))
                   (iterencode n h (l :: path) kv.2))
            (out_map (pair kv.1) (encode_val n h (l :: path) kv.2))).
  { intros [k x]. apply w_agrees_map. destruct (IH (l :: path) x) as [H2 H1].
    unfold w_seq; simpl. split; [by rewrite H2; destruct (encode_val _ _ _ _)|].
    intros t Ht. rewrite H2, Ht in *. simpl. unfold member_text; simpl.
    by rewrite (H1 t eq_refl), <- app_assoc. }
  destruct (hmem h !! l) as [[[|[k x] items]|[|x xs]|[|x xs]| |]|];
    try solve [split; [done|intros ? [=]]];
    try solve [split; [done|intros ? Hb; injection Hb; intros <-; reflexivity]];
    try case_bool_decide; try solve [split; [done|intros ? [=]]].
  - apply w_agrees_map. cbn [w_concat out_mapM].
    apply (w_agrees_seq _ (member_text dumps_tree)
             (fun ts => items_tail (map (member_text dumps_tree) ts) ++ ["}"%char]) _ cons
             _ _ _ _ (Hmember (k, x))).
    + apply w_items. intros [k' x'] _. apply (Hmember (k', x')).
    + intros b c. reflexivity.
  - apply w_agrees_map. cbn [w_concat out_mapM].
    apply (w_agrees_seq _ dumps_tree (fun ts => items_tail (map dumps_tree ts) ++ ["]"%char]) _ cons
             _ _ _ _ (IH _ x)).
    + apply w_items. intros x' _. apply IH.
    + intros b c. reflexivity.
  - apply w_agrees_map. cbn [w_concat out_mapM].
    apply (w_agrees_seq _ dumps_tree (fun ts => items_tail (map dumps_tree ts) ++ ["]"%char]) _ cons
             _ _ _ _ (IH _ x)).
    + apply w_items. intros x' _. apply IH.
    + intros b c. reflexivity.
Qed.

(** ** Running the adapters *)

(** [wrap] of a native container: a new wrapper around it, keeping the
    invariant. *)
Lemma wrap_native_inv h v o :
  jsonobj_inv h -> obj_at h v = Some o -> is_native_obj o = true ->
  wrap v h = (heap_alloc h (wrapper_of o v), Ok (VRef (hnext h))) /\
  jsonobj_inv (heap_alloc h (wrapper_of o v)) /\
  unwrap_val (heap_alloc h (wrapper_of o v)) (VRef (hnext h)) = v /\
  is_wrapper_obj (wrapper_of o v) = true.
Proof.
  intros Hinv Ho Hn. destruct (wrapper_of_ok h o v Hinv Ho Hn) as (Hok & Hs & Hb).
  split_and!; [by apply wrap_run_native|by apply inv_alloc| |].
  - unfold unwrap_val. cbn [obj_at]. rewrite lookup_alloc_new. unfold wrapper_of. by destruct (is_dict_obj o).
  - unfold wrapper_of. by destruct (is_dict_obj o).
Qed.

(** [wrap] of a freshly decoded value: the outermost container wrapped,
    a scalar passed through. *)
Lemma wrap_tree h lo hi v t :
  jsonobj_inv h -> tree_at h lo hi v t ->
  exists h' w, wrap v h = (h', Ok w) /\ jsonobj_inv h' /\ extends h h' /\
    unwrap_val h' w = v /\ val_ok h' w /\
    (forall o, obj_at h' w = Some o -> is_wrapper_obj o = true).
Proof.
  intros Hinv Ht. pose proof (inv_wf h Hinv) as Hwf.
  destruct t as [| | | | xs | kvs]; simpl in Ht.
  1-4: subst v; eexists h, _; rewrite wrap_run_other by (done || (intros ? [=]));
    split_and!; try done; try apply extends_refl; intros ? [=].
  all: destruct Ht as (l & c & -> & Hl & Hc & _).
  all: edestruct (wrap_native_inv h (VRef l)) as (Hrun & Hinv' & Hun & Hw);
    [exact Hinv|exact Hc|reflexivity|].
  all: eexists _, _; split_and!; [exact Hrun|exact Hinv'|by apply extends_alloc|exact Hun| |].
  all: try (unfold val_ok; rewrite lookup_alloc_new; by eexists).
  all: cbn [obj_at]; rewrite lookup_alloc_new; by intros o [= <-].
Qed.

(** [_iterencode] writes the codec's text of a laid-out tree and finishes,
    on the budget [json.dump] gives it. *)
Lemma iterencode_tree h lo hi (path : list loc) v t n :
  heap_wf h -> tree_at h lo hi v t -> val_ok h v -> NoDup path ->
  (forall p, p ∈ path -> is_Some (hmem h !! p) /\ (p < lo)%positive) ->
  size (hmem h) < length path + n ->
  iterencode n h path v = w_text (dumps_tree t).
Proof.
  intros Hwf Ht Hv Hnd Hp Hn.
  assert (Hnf : encode_val n h path v <> NoFuel).
  { pose proof (encode_good false h Hwf ltac:(done) n path v Hnd (fun p Hin => proj1 (Hp p Hin)) Hn Hv
                  ltac:(done)) as Hg.
    intros E. by rewrite E in Hg. }
  assert (E : encode_val n h path v = Ok t).
  { rewrite <- (encode_mono n (n `max` json_size t) h path v ltac:(lia) Hnf).
    apply (encode_tree t _ h lo hi path v Ht); [intros p Hin; apply (Hp p Hin)|lia]. }
  destruct (iterencode_agrees n h path v) as [H2 H1]. rewrite E in H2.
  destruct (iterencode n h path v) as [txt o]. cbn [fst snd] in *. subst o. by rewrite (H1 t E).
Qed.

(** The items of a list laid out as [ts], each under the list at [s]. *)
Lemma iterencode_items {X} (f : list ascii * outcome unit -> X) h lo hi (s : loc) n xs ts :
  heap_wf h -> is_Some (hmem h !! s) -> (s < lo)%positive -> size (hmem h) < 1 + n ->
  Forall (val_ok h) xs -> all2 (fun v t => tree_at h lo hi v t) xs ts ->
  map (fun x => f (iterencode n h [s] x)) xs = map (fun t => f (w_text (dumps_tree t))) ts.
Proof.
  intros Hwf Hs Hlo Hn Hv. revert ts. induction Hv as [|x xs Hx Hxs IH]; intros [|t ts]; try done.
  intros [Ht Hr]. cbn [map]. rewrite (IH ts Hr).
  rewrite (iterencode_tree h lo hi [s] x t n Hwf Ht Hx (NoDup_singleton s)); [done| |done].
  intros p ->%list_elem_of_singleton. by split.
Qed.

(** A run whose chunks succeed up to a failing one writes them and that
    chunk's text, and ends with its error. *)
Lemma w_concat_fail cs b e rest :
  w_concat (map w_text cs ++ (b, Exc e) :: rest) = (concat cs ++ b, Exc e).
Proof. induction cs as [|c cs IH]; [done|]. cbn [map app w_concat concat]. rewrite IH. unfold w_seq. cbn. by rewrite app_assoc. Qed.

(** The list encoder's run when the items [t :: ts] succeed and the next
    one fails: the bracket, the first item, each further item after its
    separator, the failing item's separator. *)
Lemma w_concat_items_fail (f : json -> list ascii) c d ts e rest :
  w_concat (w_text c :: w_text d ::
            map (fun t => w_seq (w_text [","%char; " "%char]) (w_text (f t))) ts ++
            w_seq (w_text [","%char; " "%char]) ([], Exc e) :: rest) =
    (c ++ d ++ items_tail (map f ts) ++ [","%char; " "%char], Exc e).
Proof.
  transitivity (w_concat (map w_text (c :: d :: map (fun t => [","%char; " "%char] ++ f t) ts) ++
                          ([","%char; " "%char] ++ [], Exc e) :: rest)).
  { cbn [map app]. do 4 f_equal. by rewrite map_map. }
  rewrite w_concat_fail, app_nil_r. cbn [concat]. unfold items_tail. by rewrite map_map, !app_assoc.
Qed.

Section adapter_lemmas.
  Context `{JsonCodec}.

Lemma loads_run h s t :
    codec_loads (list_ascii_of_string s) = Ok t ->
    loads (VStr s) h = py_bind (alloc_tree t) wrap h.
  Proof. intros Ht. unfold loads, py_bind at 1. simpl. unfold json_loads_text. by rewrite Ht. Qed.

  (** [loads] of a decodable text: a heap keeping the invariant and a
      value whose unwrapping is the decoded tree laid out fresh. *)
Lemma loads_spec h s t :
    jsonobj_inv h -> codec_loads (list_ascii_of_string s) = Ok t ->
    exists h' w, loads (VStr s) h = (h', Ok w) /\ jsonobj_inv h' /\ val_ok h' w /\
      (forall o, obj_at h' w = Some o -> is_wrapper_obj o = true) /\
      exists lo hi, tree_at h' lo hi (unwrap_val h' w) t /\ val_ok h' (unwrap_val h' w).
  Proof.
    intros Hinv Ht. pose proof (codec_loads_wf _ _ Ht) as Hwft.
    destruct (alloc_tree_spec t Hwft h (inv_wf h Hinv)) as (h1 & v & Hrun & Hwf1 & Ext & Fr & Htr & Hv).
    pose proof (inv_extend_native h h1 Hinv Hwf1 Ext Fr) as Hinv1.
    destruct (wrap_tree h1 _ _ v t Hinv1 Htr) as (h2 & w & Hw & Hinv2 & Ext2 & Hun & Hw2 & Hwr).
    exists h2, w. rewrite (loads_run h s t Ht), (py_bind_run_ok _ _ _ _ _ Hrun).
    split_and!; try done. exists (hnext h), (hnext h1). rewrite Hun. split.
    - eapply tree_at_agree; [apply agree_extends; [exact Ext2|lia]|exact Htr].
    - by eapply val_ok_extends.
  Qed.

  (** [dumps] after [unwrap] is [json.dumps] of the unwrapped value. *)
Lemma dumps_run h obj : val_ok h obj -> dumps obj h = json_dumps (unwrap_val h obj) h.
  Proof. intros Hv. unfold dumps. by rewrite (py_bind_run_ok _ _ _ _ _ (unwrap_run h obj Hv)). Qed.
End adapter_lemmas.

(** ** Properties of the adapters *)

Section adapter_theorems.
  Context `{JsonCodec}.

  (** C26.  [loads] then [dumps] gives the codec's own text of the decoded
      tree: for any text the codec decodes to [t], [loads] keeps the
      invariant, wraps the outermost container, and [dumps] of what it
      returns is [codec_dumps t]. *)
Theorem loads_dumps_roundtrip h s t :
    jsonobj_inv h -> codec_loads (list_ascii_of_string s) = Ok t ->
    exists h' w, loads (VStr s) h = (h', Ok w) /\ jsonobj_inv h' /\
      (forall o, obj_at h' w = Some o -> is_wrapper_obj o = true) /\
      dumps w h' = (h', Ok (VStr (string_of_list_ascii (codec_dumps t)))).
  Proof.
    intros Hinv Ht.
    destruct (loads_spec h s t Hinv Ht) as (h' & w & Hrun & Hinv' & Hw & Hwr & lo & hi & Htr & Hv).
    exists h', w. split_and!; try done.
    rewrite (dumps_run h' w Hw). exact (json_dumps_tree h' lo hi _ t (inv_wf h' Hinv') Htr Hv).
  Qed.


  (** C30.  [loads] of any Python value keeps the invariant and always
      answers, on every branch: a [str] the codec decodes to [t] gives a
      value that is a wrapper whenever it is an object (so a container
      comes back wrapped) and whose unwrapping is [t] laid out in the
      heap; a [str] it cannot decode raises the codec's error and any
      other value raises [TypeError], both with the heap unchanged (a
      text outside the modelled JSON, a float, is [Wrong], also with
      the heap unchanged). *)
Theorem loads_preserves_inv h s :
    jsonobj_inv h ->
    jsonobj_inv (loads s h).1 /\
    match s with
    | VStr str =>
        match codec_loads (list_ascii_of_string str) with
        | Ok t => exists h' w, loads s h = (h', Ok w) /\
                    (forall o, obj_at h' w = Some o -> is_wrapper_obj o = true) /\
                    exists lo hi, tree_at h' lo hi (unwrap_val h' w) t
        | Exc e => loads s h = (h, Exc e)
        | Wrong => loads s h = (h, Wrong)
        | NoFuel => False
        end
    | _ => loads s h = (h, Exc TypeError)
    end.
  Proof.
    intros Hinv. destruct s as [| | |str|]; try (split; [done|done]).
    destruct (codec_loads (list_ascii_of_string str)) as [t|e| |] eqn:Ht.
    - destruct (loads_spec h str t Hinv Ht) as (h' & w & Hrun & Hinv' & _ & Hw & lo & hi & Htr & _).
      rewrite Hrun. split; [done|]. exists h', w. by split_and!; [| |exists lo, hi].
    - unfold loads, py_bind; simpl. unfold json_loads_text. rewrite Ht. by split.
    - unfold loads, py_bind; simpl. unfold json_loads_text. rewrite Ht. by split.
    - by apply codec_loads_total in Ht.
  Qed.

  (** C31.  [str(w)] is [jsonobj.dumps(w)] for both wrapper classes:
      [__str__] encodes the slot, which is what [unwrap] returns. *)
Theorem str_is_dumps h self :
    (forall d, obj_at h self = Some (OJSONobj d) -> JSONobj.__str__ self h = dumps self h) /\
    (forall sq, obj_at h self = Some (OJSONarray sq) -> JSONarray.__str__ self h = dumps self h).
  Proof.
    split; intros x Ho; destruct self as [| | | |l]; try discriminate; cbn [obj_at] in Ho;
      (rewrite dumps_run; [|unfold val_ok; rewrite Ho; by eexists]);
      unfold unwrap_val; cbn [obj_at]; rewrite Ho; simpl;
      by rewrite (py_bind_run_ok _ _ _ _ _ (get_obj_run l _ h Ho)).
  Qed.
End adapter_theorems.

Lemma size_pos_of_lookup h (l : loc) o : hmem h !! l = Some o -> 1 <= size (hmem h).
Proof.
  intros Ho. apply (path_length h [l]); [apply NoDup_singleton|].
  intros p ->%list_elem_of_singleton. by eexists.
Qed.

(** C27.  After [a.insert(0, w)] with a wrapper [w] (which [insert] does
    not unwrap), [jsonobj.dumps(a)] raises [TypeError]: the stored
    wrapper reaches the encoder, whatever codec is behind it. *)
Theorem insert_wrapper_breaks_dumps `{JsonCodec} h self s xs value :
  is_jsonarray h self s KList xs -> refers_to_wrapper h value = true ->
  (ArrayWrapper.JSONarray.insert self 0 value ;; dumps self) h =
    (heap_update h s (OList (value :: xs)), Exc TypeError).
Proof.
  intros Hself Hw. pose proof Hself as [Hs Hx].
  destruct self as [| | | |a]; try discriminate. cbn [obj_at] in Hs.
  destruct value as [| | | |lv]; try discriminate. unfold refers_to_wrapper in Hw; cbn [obj_at] in Hw.
  destruct (hmem h !! lv) as [ov|] eqn:Hov; [|done].
  assert (Has : a <> s) by (intros ->; rewrite Hs in Hx; discriminate).
  assert (Hvs : lv <> s) by (intros ->; rewrite Hx in Hov; injection Hov as <-; discriminate).
  set (h' := heap_update h s (OList (VRef lv :: xs))).
  assert (Hins : ArrayWrapper.JSONarray.insert (VRef a) 0 (VRef lv) h = (h', Ok tt)).
  { unfold ArrayWrapper.JSONarray.insert. unfold py_bind at 1.
    rewrite (self_list_run _ _ _ _ Hself). cbn beta iota.
    rewrite (put_obj_run _ _ _ _ Hx). reflexivity. }
  rewrite (py_bind_run_ok _ _ _ _ _ Hins).
  assert (Ha' : hmem h' !! a = Some (OJSONarray (VRef s))) by (unfold h'; rewrite lookup_update; by case_decide).
  assert (Hs' : hmem h' !! s = Some (OList (VRef lv :: xs))) by (unfold h'; rewrite lookup_update; by case_decide).
  assert (Hv' : hmem h' !! lv = Some ov) by (unfold h'; rewrite lookup_update; by case_decide).
  rewrite dumps_run by (unfold val_ok; rewrite Ha'; by eexists).
  unfold unwrap_val. cbn [obj_at]. rewrite Ha'. unfold json_dumps, encode_budget.
  pose proof (size_pos_of_lookup h' s _ Hs') as Hsz.
  destruct (size (hmem h')) as [|m] eqn:Esz; [lia|]. cbn [encode_val]. rewrite Hs'.
  rewrite bool_decide_eq_false_2 by set_solver. cbn [out_mapM].
  rewrite Hv'.
  by destruct ov.
Qed.

(** C28.  [dump(obj, fp)] and [dumps(obj)] agree: the streaming encoder
    of [json.dump] ends as the C encoder of [json.dumps] does, and on
    success writes exactly the text [dumps] returns after what [fp]
    held. *)
Theorem dump_agrees_dumps h obj fp :
  (dump obj fp h).2 = out_map (fun _ => VNone) (dumps obj h).2 /\
  (forall txt, (dumps obj h).2 = Ok (VStr txt) ->
     (dump obj fp h).1 = ((dumps obj h).1, fp ++ list_ascii_of_string txt)).
Proof.
  unfold dump, dumps, py_bind.
  destruct (unwrap obj h) as [h1 [v| | |]]; try (split; [done|intros ? [=]]).
  destruct (iterencode_agrees (encode_budget h1) h1 [] v) as [H2 H1].
  destruct (iterencode (encode_budget h1) h1 [] v) as [txt o] eqn:E.
  cbn [fst snd] in H1, H2 |- *. unfold json_dumps. cbn [fst snd]. subst o.
  destruct (encode_val (encode_budget h1) h1 [] v) as [t|e| |];
    cbn [out_map out_bind]; split; try done; intros s [= <-].
  rewrite list_ascii_of_string_of_list_ascii, (H1 t eq_refl). reflexivity.
Qed.

(** ** The repository's tests *)

(** The text of [test_loads]/[test_dumps] and the tree it decodes to. *)
Definition test_loads_str : string := string_of_list_ascii test_loads_text.
Definition test_tree : json :=
  JArr [JObj [("key1", JStr "value1")]; JObj [("key2", JStr "value2")]].


(** C29.  A failing [dump] leaves a prefix in the stream, where [dumps]
    returns nothing: after [a.insert(len(a), w)] with a wrapper [w] on an
    array whose items are laid-out trees [t :: ts], [dump(a, fp)] writes
    to the stream, after what it held, the opening bracket, the text of
    every item before [w] and the separator, then raises [TypeError]. *)
Theorem dump_partial_write h self s x xs t ts w lo hi fp :
  jsonobj_inv h -> is_jsonarray h self s KList (x :: xs) -> (s < lo)%positive ->
  tree_at h lo hi x t -> all2 (fun v t => tree_at h lo hi v t) xs ts -> refers_to_wrapper h w = true ->
  let h1 := heap_update h s (OList (x :: xs ++ [w])) in
  ArrayWrapper.JSONarray.insert self (Z.of_nat (S (length xs))) w h = (h1, Ok tt) /\
  dump self fp h1 =
    ((h1, fp ++ "["%char :: dumps_tree t ++ items_tail (map dumps_tree ts) ++ [","%char; " "%char]),
     Exc TypeError).
Proof.
  intros Hinv Hself Hlo Ht Hts Hw h1. pose proof Hself as [Hsl Hx].
  destruct self as [| | | |a]; try discriminate. cbn [obj_at] in Hsl.
  destruct w as [| | | |lw]; try discriminate. unfold refers_to_wrapper in Hw; cbn [obj_at] in Hw.
  destruct (hmem h !! lw) as [ow|] eqn:How; [|done].
  assert (Has : a <> s) by (intros ->; rewrite Hsl in Hx; discriminate).
  assert (Hws : lw <> s) by (intros ->; rewrite Hx in How; injection How as <-; discriminate).
  pose proof (seq_elems_ok h s KList (x :: xs) Hinv Hx) as Hel.
  assert (Hv : Forall (val_ok h) (x :: xs)) by (eapply Forall_impl; [exact Hel|]; by intros ? []).
  assert (Hwf1 : heap_wf h1).
  { apply update_wf; [apply Hinv|by eexists|]. split; [|done]. cbn [obj_children].
    rewrite app_comm_cons. apply Forall_app; split; [done|]. repeat constructor. by eexists. }
  assert (Hv1 : Forall (val_ok h1) (x :: xs)).
  { eapply Forall_impl; [exact Hv|]. intros y. apply val_ok_update. by eexists. }
  assert (Ag : agree h h1 lo hi) by (apply agree_update_below, Hlo).
  assert (Hs1 : hmem h1 !! s = Some (OList (x :: xs ++ [VRef lw]))) by (unfold h1; rewrite lookup_update; by case_decide).
  assert (Ha1 : hmem h1 !! a = Some (OJSONarray (VRef s))) by (unfold h1; rewrite lookup_update; by case_decide).
  assert (Hw1 : hmem h1 !! lw = Some ow) by (unfold h1; rewrite lookup_update; by case_decide).
  split.
  { unfold ArrayWrapper.JSONarray.insert. unfold py_bind at 1.
    rewrite (self_list_run _ _ _ _ Hself). cbn beta iota. rewrite (put_obj_run _ _ _ _ Hx).
    assert (Hc : py_clamp_index (length (x :: xs)) (Z.of_nat (S (length xs))) = length (x :: xs)).
    { unfold py_clamp_index. cbn [length]. destruct (Z.ltb_spec (Z.of_nat (S (length xs))) 0); lia. }
    by rewrite Hc, insert_at_end. }
  unfold dump. rewrite (unwrap_run h1 (VRef a)) by (unfold val_ok; rewrite Ha1; by eexists).
  unfold unwrap_val. cbn [obj_at]. rewrite Ha1. unfold encode_budget.
  pose proof (size_pos_of_lookup h1 s _ Hs1) as Hsz.
  cbn [iterencode]. rewrite Hs1. rewrite bool_decide_eq_false_2 by set_solver.
  apply Forall_cons in Hv1 as [Hx1 Hxs1].
  rewrite (iterencode_tree h1 lo hi [s] x t (size (hmem h1)) Hwf1 (tree_at_agree t h h1 lo hi x Ag Ht) Hx1
             (NoDup_singleton s)); [|intros p ->%list_elem_of_singleton; split; [by eexists|done]|simpl; lia].
  assert (Hts1 : all2 (fun v t => tree_at h1 lo hi v t) xs ts).
  { apply (all2_Forall_impl (fun _ => True) (fun v t => tree_at h lo hi v t)); [by apply Forall_true| |exact Hts].
    intros v t' _ Hvt.
    exact (tree_at_agree t' h h1 lo hi v Ag Hvt). }
  rewrite map_app, (iterencode_items (w_seq (w_text [","%char; " "%char])) h1 lo hi s
                      (size (hmem h1)) xs ts Hwf1 ltac:(by eexists) Hlo ltac:(lia) Hxs1 Hts1).
  destruct (size (hmem h1)) as [|m] eqn:Esz; [lia|]. cbn [map iterencode]. rewrite Hw1.
  rewrite <- (app_assoc (map _ ts)). cbn [app].
  destruct ow; try discriminate Hw; cbn iota;
    rewrite (w_concat_items_fail dumps_tree ["["%char]); cbn [out_map out_bind app]; done.
Qed.


Lemma loads_dumps_roundtrip_witness :
  exists h' w, loads (VStr test_loads_str) empty_heap = (h', Ok w) /\ jsonobj_inv h' /\
    (forall o, obj_at h' w = Some o -> is_wrapper_obj o = true) /\
    dumps w h' = (h', Ok (VStr test_loads_str)).
Proof.
  pose proof (loads_dumps_roundtrip empty_heap test_loads_str test_tree
                ltac:(decide_by_eval) ltac:(vm_compute; reflexivity)) as W.
  assert (Hs : string_of_list_ascii (codec_dumps test_tree) = test_loads_str) by (vm_compute; reflexivity).
  rewrite Hs in W. exact W.
Defined.


Lemma insert_wrapper_breaks_dumps_witness :
  (ArrayWrapper.JSONarray.insert (VRef 3%positive) 0 (VRef 3%positive) ;; dumps (VRef 3%positive))
    test_array_heap =
  (heap_update test_array_heap 2%positive (OList [VRef 3%positive; VStr "value1"; VRef 1%positive]),
   Exc TypeError).
Proof.
  apply (insert_wrapper_breaks_dumps _ _ 2%positive [VStr "value1"; VRef 1%positive]);
    [split; reflexivity|reflexivity].
Defined.

Lemma loads_preserves_inv_witness :
  jsonobj_inv (loads (VInt 1) empty_heap).1 /\ loads (VInt 1) empty_heap = (empty_heap, Exc TypeError).
Proof. apply (loads_preserves_inv empty_heap (VInt 1)). decide_by_eval. Defined.

Lemma str_is_dumps_witness :
  JSONobj.__str__ (VRef 3%positive) test_obj_heap = dumps (VRef 3%positive) test_obj_heap /\
  JSONarray.__str__ (VRef 3%positive) test_array_heap = dumps (VRef 3%positive) test_array_heap.
Proof.
  split; [apply (proj1 (str_is_dumps test_obj_heap (VRef 3%positive)) (VRef 2%positive))
         |apply (proj2 (str_is_dumps test_array_heap (VRef 3%positive)) (VRef 2%positive))];
    reflexivity.
Defined.

(** [a = jsonobj.loads('[{"key1": "value1"}, {"key2": "value2"}]')], the
    list at 1 holding the dicts at 2 and 3, the wrapper at 4; then
    [a.insert(2, a)] and [dump(a, fp)]. *)
Lemma dump_partial_write_witness :
  let h := (loads (VStr test_loads_str) empty_heap).1 in
  let h1 := heap_update h 1%positive (OList (VRef 2%positive :: [VRef 3%positive] ++ [VRef 4%positive])) in
  ArrayWrapper.JSONarray.insert (VRef 4%positive) (Z.of_nat (S (length [VRef 3%positive]))) (VRef 4%positive) h =
    (h1, Ok tt) /\
  dump (VRef 4%positive) [] h1 =
    ((h1, [] ++ "["%char :: dumps_tree (JObj [("key1", JStr "value1")]) ++
            items_tail (map dumps_tree [JObj [("key2", JStr "value2")]]) ++ [","%char; " "%char]),
     Exc TypeError).
Proof.
  apply (dump_partial_write _ (VRef 4%positive) 1%positive (VRef 2%positive) [VRef 3%positive]
           (JObj [("key1", JStr "value1")]) [JObj [("key2", JStr "value2")]] (VRef 4%positive)
           2%positive 4%positive []).
  - decide_by_eval.
  - split; vm_compute; reflexivity.
  - lia.
  - exists 2%positive. eexists. split_and!; try done; try lia; try (vm_compute; reflexivity).
  - split; [|done]. exists 3%positive. eexists. split_and!; try done; try lia; try (vm_compute; reflexivity).
  - vm_compute. reflexivity.
Defined.
