(* ===== verification/Repr.v ===== *)
(** * [repr] of the wrappers and of the values they hold

    [src/jsonobj.py] lines 123-124 and 235-236: [JSONobj.__repr__] and
    [JSONarray.__repr__] return ['jsonobj.JSONobj({!r})'.format(self.dict)]
    and its array twin, so their text is CPython's [repr] of the slot.
    [repr_val] is [PyObject_Repr] over the heap: [None], [bool], [int],
    [str] ([unicode_repr] with its choice of quote and its escapes),
    [list_repr], [tuple_repr] and [dict_repr] with the [Py_ReprEnter]
    marks that print a container already being printed as [[...]],
    [(...)] or [{...}], and the wrappers' own [__repr__].  Every nested
    [repr] takes one unit of the recursion budget [depth] and raises
    [RecursionError] when it is spent, as [Py_EnterRecursiveCall] does.
    The docstrings' doctest sessions (lines 78-89 and 137-146) are
    programs over the same heap, so the text they print is computed. *)

From Stdlib Require Import ZArith Ascii String Lia.
From stdpp Require Import base list gmap sets strings.
From S2P Require Import Prelude PyObjects PyBuiltins Fixtures Convert ObjectWrapper ArrayWrapper JsonText Codec.

(** ** [repr] of a [str] ([unicode_repr]) *)

(** [Py_UNICODE_ISPRINTABLE] on the code points [0..255]: ASCII from
    [' '] to ['~'], and Latin-1 from U+00A1 except the soft hyphen
    U+00AD; controls, DEL, U+0080..U+009F and the no-break space U+00A0
    are not printable. *)
Definition is_printable (n : nat) : bool :=
  ((32 <=? n) && (n <? 127)) || ((161 <=? n) && negb (n =? 173)).

(** One character inside the quotes [q]: the quote and the backslash
    escaped, [\t], [\n], [\r] by name, other non-printable characters as
    [\xhh] with lower-case hex digits. *)
Definition repr_char (q c : ascii) : list ascii :=
  let n := nat_of_ascii c in
  if bool_decide (c = q) || bool_decide (c = bslash) then [bslash; c]
  else if n =? 9 then [bslash; "t"%char]
  else if n =? 10 then [bslash; "n"%char]
  else if n =? 13 then [bslash; "r"%char]
  else if is_printable n then [c]
  else [bslash; "x"%char; hex_digit (n / 16); hex_digit (n mod 16)].

(** The quote: ['] unless the text holds a ['] and no double quote. *)
Definition repr_quote (cs : list ascii) : ascii :=
  if bool_decide ("'"%char ∈ cs) && negb (bool_decide (dq ∈ cs)) then dq else "'"%char.

Definition repr_str (s : string) : list ascii :=
  let cs := list_ascii_of_string s in
  let q := repr_quote cs in
  q :: concat (map (repr_char q) cs) ++ [q].

(** [", ".join(parts)]. *)
Definition join (cs : list (list ascii)) : list ascii :=
  match cs with
  | [] => []
  | c :: cs' => c ++ items_tail cs'
  end.

(** ['cls({!r})'.format(slot)], the body of both [__repr__] methods. *)
Definition wrapper_text (cls : string) (c : list ascii) : list ascii :=
  list_ascii_of_string cls ++ "("%char :: c ++ [")"%char].

(** [repr(v)] with [depth] levels of recursion left and [stk] the
    containers whose [repr] is in progress ([Py_ReprEnter]'s list).
    [list_repr] and [tuple_repr] answer an empty sequence before the
    mark check, [dict_repr] after it; a one-element tuple ends in [,)];
    a [dict] member is the key's [repr], [': '], the value's [repr]. *)
Fixpoint repr_val (depth : nat) (h : heap) (stk : list loc) (v : val) : outcome (list ascii) :=
  match depth with
  | O => Exc RecursionError
  | S n =>
      match v with
      | VNone => Ok (list_ascii_of_string "None")
      | VBool true => Ok (list_ascii_of_string "True")
      | VBool false => Ok (list_ascii_of_string "False")
      | VInt z => Ok (int_text z)
      | VStr s => Ok (repr_str s)
      | VRef l =>
          match hmem h !! l with
          | None => Wrong
          | Some (ODict items) =>
              if bool_decide (l ∈ stk) then Ok (list_ascii_of_string "{...}")
              else match items with
                   | [] => Ok (list_ascii_of_string "{}")
                   | _ => out_map (fun cs => "{"%char :: join cs ++ ["}"%char])
                            (out_mapM (fun '(k, x) =>
                               out_bind (repr_val n h (l :: stk) (VStr k)) (fun ck =>
                               out_map (fun cx => ck ++ [":"%char; " "%char] ++ cx)
                                 (repr_val n h (l :: stk) x))) items)
                   end
          | Some (OList []) => Ok (list_ascii_of_string "[]")
          | Some (OList xs) =>
              if bool_decide (l ∈ stk) then Ok (list_ascii_of_string "[...]")
              else out_map (fun cs => "["%char :: join cs ++ ["]"%char])
                     (out_mapM (repr_val n h (l :: stk)) xs)
          | Some (OTuple []) => Ok (list_ascii_of_string "()")
          | Some (OTuple xs) =>
              if bool_decide (l ∈ stk) then Ok (list_ascii_of_string "(...)")
              else out_map (fun cs => "("%char :: join cs ++
                                      (if length xs =? 1 then [","%char; ")"%char] else [")"%char]))
                     (out_mapM (repr_val n h (l :: stk)) xs)
          | Some (OJSONobj d) => out_map (wrapper_text "jsonobj.JSONobj") (repr_val n h stk d)
          | Some (OJSONarray s) => out_map (wrapper_text "jsonobj.JSONarray") (repr_val n h stk s)
          end
      end
  end.

(** CPython's default recursion limit. *)
Definition recursion_limit : nat := 1000.

(** [repr(v)], the builtin, as the interactive prompt calls it. *)
Definition py_repr (depth : nat) (v : val) : PyM val :=
  fun h => (h, out_map (fun c => VStr (string_of_list_ascii c)) (repr_val depth h [] v)).

Module JSONobj.
Definition __repr__ (depth : nat) (self : val) : PyM val :=
    match self with
    | VRef l =>
        let* o := get_obj l in
        match o with
        | OJSONobj d => fun h => (h, out_map (fun c => VStr (string_of_list_ascii
                                     (wrapper_text "jsonobj.JSONobj" c))) (repr_val depth h [] d))
        | _ => py_wrong
        end
    | _ => py_wrong
    end.
End JSONobj.

Module JSONarray.
Definition __repr__ (depth : nat) (self : val) : PyM val :=
    match self with
    | VRef l =>
        let* o := get_obj l in
        match o with
        | OJSONarray s => fun h => (h, out_map (fun c => VStr (string_of_list_ascii
                                       (wrapper_text "jsonobj.JSONarray" c))) (repr_val depth h [] s))
        | _ => py_wrong
        end
    | _ => py_wrong
    end.
End JSONarray.

(** ** [repr] of the native values of a JSON tree *)

(** What [repr] prints for the containers and scalars [json.loads]
    builds from [t]. *)
Fixpoint repr_tree (t : json) : list ascii :=
  match t with
  | JNull => list_ascii_of_string "None"
  | JBool true => list_ascii_of_string "True"
  | JBool false => list_ascii_of_string "False"
  | JInt z => int_text z
  | JStr s => repr_str s
  | JArr [] => list_ascii_of_string "[]"
  | JArr xs => "["%char :: join (map repr_tree xs) ++ ["]"%char]
  | JObj [] => list_ascii_of_string "{}"
  | JObj kvs => "{"%char :: join (map (fun '(k, x) => repr_str k ++ [":"%char; " "%char] ++ repr_tree x) kvs)
                  ++ ["}"%char]
  end.

(** Levels of nesting, the leaf counted: the recursion budget [repr]
    takes on [t]. *)
Fixpoint nesting (t : json) : nat :=
  match t with
  | JArr xs => S (list_max (map nesting xs))
  | JObj kvs => S (list_max (map (fun '(_, x) => nesting x) kvs))
  | _ => 1
  end.

(** What [repr(jsonobj.loads(s))] prints for a text decoding to [t]:
    the outermost container inside its wrapper's [__repr__], a scalar
    as it is. *)
Definition repr_loaded (t : json) : list ascii :=
  match t with
  | JObj _ => list_ascii_of_string "jsonobj.JSONobj(" ++ repr_tree t ++ [")"%char]
  | JArr _ => list_ascii_of_string "jsonobj.JSONarray(" ++ repr_tree t ++ [")"%char]
  | _ => repr_tree t
  end.

(** ** The docstrings' doctest sessions *)

(** [sys.displayhook]: an expression statement at the prompt prints the
    [repr] of its value, and nothing for [None]. *)
Definition display (depth : nat) (v : val) : PyM (list (list ascii)) :=
  match v with
  | VNone => py_ret []
  | _ => fun h => (h, out_map (fun c => [c]) (repr_val depth h [] v))
  end.

(** [array.seq]: the slot descriptor of [__slots__ = ('seq',)]. *)
Definition seq_slot (self : val) : PyM val :=
  match self with
  | VRef l =>
      let* o := get_obj l in
      match o with OJSONarray s => py_ret s | _ => py_raise AttributeError end
  | _ => py_raise AttributeError
  end.

(** [for e in it: e] at the prompt, on a budget of [fuel] iterations. *)
Fixpoint for_display (fuel depth : nat) (it : py_iter) : PyM (list (list ascii)) :=
  match fuel with
  | O => py_nofuel
  | S fuel' =>
      let* r := iter_next it in
      match r with
      | None => py_ret []
      | Some (e, it') =>
          let* out := display depth e in
          let* rest := for_display fuel' depth it' in
          py_ret (out ++ rest)
      end
  end.

(** The heap after [import jsonobj]: the two default arguments. *)
Definition doctest_heap : heap := (import_jsonobj empty_heap).1.

(** The session of [JSONobj]'s docstring, lines 78-89; the lines it
    prints. *)
Definition doctest_jsonobj (depth : nat) : PyM (list (list ascii)) :=
  let* d := alloc (ODict [("key"%string, VStr "value")]) in
  let* obj := JSONobj_new (VRef d) in
  let* o1 := (let* r := ObjectWrapper.JSONobj.attr_read obj "key" in display depth r) in
  ObjectWrapper.JSONobj.__setattr__ obj "foo" (VStr "bar") ;;
  let* o2 := (let* b := ObjectWrapper.JSONobj.__contains__ obj "foo" in display depth (VBool b)) in
  ObjectWrapper.JSONobj.__setattr__ obj "foo" (VStr "fiz") ;;
  let* o3 := (let* r := ObjectWrapper.JSONobj.attr_read obj "dict" in display depth r) in
  ObjectWrapper.JSONobj.__delattr__ obj "foo" ;;
  let* o4 := (let* r := Codec.JSONobj.__str__ obj in display depth r) in
  py_ret (o1 ++ o2 ++ o3 ++ o4).

(** The output the docstring expects, lines 80, 83, 86 and 89. *)
Definition jsonobj_docstring_output : list (list ascii) :=
  [list_ascii_of_string "'value'"; list_ascii_of_string "True";
   list_ascii_of_string "{'key': 'value', 'foo': 'fiz'}";
   ["'"%char] ++ qt "{'key': 'value'}" ++ ["'"%char]].

(** The session of [JSONarray]'s docstring, lines 137-146. *)
Definition doctest_jsonarray (fuel depth : nat) : PyM (list (list ascii)) :=
  let* d := alloc (ODict [("key"%string, VStr "value")]) in
  let* l := alloc (OList [VRef d]) in
  let* array := JSONarray_new (VRef l) in
  let* o1 := (let* e := ArrayWrapper.JSONarray.__getitem__ array 0 in
              let* r := ObjectWrapper.JSONobj.attr_read e "key" in display depth r) in
  let* d2 := alloc (ODict [("foo"%string, VStr "bar")]) in
  let* w := JSONobj_new (VRef d2) in
  ArrayWrapper.JSONarray.append array w ;;
  let* o2 := (let* sq := seq_slot array in display depth sq) in
  let* it := py_iter_of array in
  let* o3 := for_display fuel depth it in
  py_ret (o1 ++ o2 ++ o3).

(** The output the docstring expects, lines 139, 142, 145 and 146. *)
Definition jsonarray_docstring_output : list (list ascii) :=
  [list_ascii_of_string "'value'";
   list_ascii_of_string "[{'key': 'value'}, {'foo': 'bar'}]";
   list_ascii_of_string "JSONobj({'key': 'value'})";
   list_ascii_of_string "JSONobj({'foo': 'bar'})"].

(** The session of [wrap]'s docstring, lines 37-42. *)
Definition doctest_wrap (depth : nat) : PyM (list (list ascii)) :=
  let* d := alloc (ODict [("key"%string, VStr "value")]) in
  let* o1 := (let* w := wrap (VRef d) in display depth w) in
  let* l := alloc (OList [VStr "foo"; VStr "bar"]) in
  let* o2 := (let* w := wrap (VRef l) in display depth w) in
  let* t := alloc (OTuple [VStr "foo"; VStr "bar"]) in
  let* o3 := (let* w := wrap (VRef t) in display depth w) in
  py_ret (o1 ++ o2 ++ o3).

(** The output it expects, lines 38, 40 and 42. *)
Definition wrap_docstring_output : list (list ascii) :=
  [list_ascii_of_string "JSONobj({'key': 'value'})";
   list_ascii_of_string "JSONarray(['foo', 'bar'])";
   list_ascii_of_string "JSONarray(('foo', 'bar'))"].

(** The session of [unwrap]'s docstring, lines 56-61. *)
Definition doctest_unwrap (depth : nat) : PyM (list (list ascii)) :=
  let* d := alloc (ODict [("key"%string, VStr "value")]) in
  let* o1 := (let* w := JSONobj_new (VRef d) in let* u := unwrap w in display depth u) in
  let* l := alloc (OList [VStr "foo"; VStr "bar"]) in
  let* o2 := (let* w := JSONarray_new (VRef l) in let* u := unwrap w in display depth u) in
  let* t := alloc (OTuple [VStr "foo"; VStr "bar"]) in
  let* o3 := (let* w := JSONarray_new (VRef t) in let* u := unwrap w in display depth u) in
  py_ret (o1 ++ o2 ++ o3).

(** The output it expects, lines 57, 59 and 61. *)
Definition unwrap_docstring_output : list (list ascii) :=
  [list_ascii_of_string "{'key': 'value'}";
   list_ascii_of_string "['foo', 'bar']";
   list_ascii_of_string "('foo', 'bar')"].

Lemma out_mapM_all2_map {A B C} (g : A -> outcome C) (f : B -> C) xs ys :
  all2 (fun x y => g x = Ok (f y)) xs ys -> out_mapM g xs = Ok (map f ys).
Proof.
  revert xs. induction ys as [|y ys IH]; intros [|x xs]; simpl; try done.
  intros [-> Hr]. simpl. by rewrite (IH xs Hr).
Qed.

Lemma out_mapM_all2_kv_map {V J C} (g : string * V -> outcome C) (f : string * J -> C) items kvs :
  all2_kv (fun v x => forall k, g (k, v) = Ok (f (k, x))) items kvs -> out_mapM g items = Ok (map f kvs).
Proof.
  revert items. induction kvs as [|[k x] kvs IH]; intros [|[k' v] items]; simpl; try done.
  intros (-> & Hv & Hr). rewrite Hv. simpl. by rewrite (IH items Hr).
Qed.

Lemma list_max_Forall {A} (f : A -> nat) xs n :
  list_max (map f xs) <= n -> Forall (fun x => f x <= n) xs.
Proof. intros H. apply list_max_le in H. by apply Forall_map in H. Qed.

(** The child of a container at [l] is laid out above [l], so a stack
    below [lo] stays clear of it once [l] is pushed. *)
Lemma stack_push (stk : list loc) (lo l : loc) :
  (forall p, p ∈ stk -> (p < lo)%positive) -> (lo <= l)%positive ->
  forall p, p ∈ l :: stk -> (p < Pos.succ l)%positive.
Proof. intros Hp Hl p [->|Hin]%elem_of_cons; [lia|]. specialize (Hp p Hin). lia. Qed.

(** [repr] of a laid-out tree is [repr_tree], from any stack of
    containers below it, with [nesting t] levels of recursion. *)
Lemma repr_tree_at h hi t : forall lo n stk v,
  tree_at h lo hi v t -> (forall p, p ∈ stk -> (p < lo)%positive) -> nesting t <= n ->
  repr_val n h stk v = Ok (repr_tree t).
Proof.
  induction t as [| | | | xs IH | kvs IH] using json_ind';
    intros lo [|n] stk v Ht Hp Hn; simpl in Hn; try lia; simpl in Ht; subst; try (by destruct_or?).
  - by destruct b.
  - destruct Ht as (l & vs & -> & Hl & Hh & Hall). simpl. rewrite Hh.
    destruct vs as [|v0 vs], xs as [|x0 xs]; try done.
    rewrite bool_decide_eq_false_2 by (intros Hin; specialize (Hp l Hin); lia).
    apply Nat.succ_le_mono, list_max_Forall in Hn.
    rewrite (out_mapM_all2_map _ repr_tree (v0 :: vs) (x0 :: xs)); [done|].
    eapply all2_Forall_impl; [apply Forall_and; split; [exact IH|exact Hn]| |exact Hall].
    intros v' x [IHx Hx] Hvx. exact (IHx (Pos.succ l) n (l :: stk) v' Hvx (stack_push stk lo l Hp (proj1 Hl)) Hx).
  - destruct Ht as (l & items & -> & Hl & Hh & Hall). simpl. rewrite Hh.
    rewrite bool_decide_eq_false_2 by (intros Hin; specialize (Hp l Hin); lia).
    destruct items as [|kv0 items], kvs as [|[k0 x0] kvs]; try done; [by destruct kv0|].
    apply Nat.succ_le_mono, list_max_Forall in Hn.
    erewrite out_mapM_all2_kv_map; [done|].
    eapply all2_kv_Forall_impl; [apply Forall_and; split; [exact IH|exact Hn]| |exact Hall].
    intros v' k x [IHx Hx] Hvx k'. simpl in Hx.
    destruct n as [|n]; [destruct x; simpl in Hx; try lia; destruct l0; lia|].
    rewrite (IHx (Pos.succ l) (S n) (l :: stk) v' Hvx (stack_push stk lo l Hp (proj1 Hl)) Hx). done.
Qed.


(** ** What [repr] prints *)

Section repr_theorems.
  Context `{JsonCodec}.

  (** C32.  [repr(jsonobj.loads(s))] is the wrapper's [__repr__] around
      Python's [repr] of the decoded tree: for any text the codec
      decodes to [t], with more recursion budget than [t] has levels,
      [loads] keeps the invariant and [repr] of its result is
      [repr_loaded t]. *)
Theorem loads_repr h s t n :
    jsonobj_inv h -> codec_loads (list_ascii_of_string s) = Ok t -> nesting t < n ->
    exists h' w, loads (VStr s) h = (h', Ok w) /\ jsonobj_inv h' /\
      py_repr n w h' = (h', Ok (VStr (string_of_list_ascii (repr_loaded t)))).
  Proof.
    intros Hinv Ht Hn.
    destruct (loads_spec h s t Hinv Ht) as (h' & w & Hrun & Hinv' & Hw & Hwr & lo & hi & Htr & Hv).
    exists h', w. split_and!; [done|done|].
    enough (E : repr_val n h' [] w = Ok (repr_loaded t)) by (unfold py_repr; by rewrite E).
    assert (Hstk : forall p, p ∈ ([] : list loc) -> (p < lo)%positive) by (by intros ? ?%elem_of_nil).
    destruct n as [|n]; [lia|].
    destruct w as [| | | |l].
    1-4: cbn [unwrap_val obj_at] in Htr; rewrite (repr_tree_at h' hi t lo (S n) [] _ Htr Hstk) by lia;
         destruct t; simpl in Htr; try (destruct Htr as (? & ? & [=] & _)); done.
    destruct Hw as [o Ho]. specialize (Hwr o Ho).
    pose proof (inv_slots h' Hinv' l o Ho) as Hsl.
    cbn [repr_val]. rewrite Ho. unfold unwrap_val in Htr; cbn [obj_at] in Htr; rewrite Ho in Htr.
    destruct o as [| | |d|sq]; try discriminate; simpl in Hsl; destruct Hsl as (o' & Ho' & Hk);
      rewrite (repr_tree_at h' hi t lo n [] _ Htr Hstk) by lia;
      destruct t; simpl in Htr; try (subst; discriminate);
      try (destruct Htr as (l' & ? & -> & _ & Hl' & _); cbn [obj_at] in Ho';
           rewrite Hl' in Ho'; injection Ho' as <-; discriminate Hk);
      reflexivity.
  Qed.
End repr_theorems.


Lemma loads_repr_witness :
  exists h' w, loads (VStr test_loads_str) empty_heap = (h', Ok w) /\ jsonobj_inv h' /\
    py_repr recursion_limit w h' =
      (h', Ok (VStr "jsonobj.JSONarray([{'key1': 'value1'}, {'key2': 'value2'}])")).
Proof.
  pose proof (loads_repr empty_heap test_loads_str test_tree recursion_limit
                ltac:(decide_by_eval) ltac:(vm_compute; reflexivity) ltac:(vm_compute; lia)) as W.
  assert (Hs : string_of_list_ascii (repr_loaded test_tree) =
               "jsonobj.JSONarray([{'key1': 'value1'}, {'key2': 'value2'}])"%string)
    by (vm_compute; reflexivity).
  rewrite Hs in W. exact W.
Defined.


