(* ===== verification/Session.v ===== *)
(** * Sessions: every sequence of calls a client makes keeps the invariant

    A client of [src/jsonobj.py] imports the module and then calls its
    functions and methods in any order, on any values it holds.  [call]
    lists these calls (the conversion functions, both constructors, every
    method of [JSONobj] and [JSONarray], [next] on the iterators they
    return, [==], and the four codec adapters with [str] and [repr]);
    [run_call] runs one on the heap; [session_step] is one call whose
    arguments follow the documented use ([call_ok]); a session is any
    path of [rtc session_step] from the heap [import jsonobj] leaves, and
    [run_calls]/[calls_ok] run and check one given as a list of calls.

    The proof goes through [wp m h Q]: running [m] from [h] ends in a heap
    satisfying [jsonobj_inv] that only grew from [h] (every object keeps
    its address and class), and an [Ok] answer satisfies [Q].  The rules
    for [py_bind], the heap primitives, [wrap] and [unwrap] make each
    method's lemma a few applications; rule induction on [rtc] does the
    rest. *)

From Stdlib Require Import ZArith Ascii String Lia.
From stdpp Require Import base list gmap sets strings relations.
From S2P Require Import Prelude PyObjects PyBuiltins Fixtures Convert ObjectWrapper ArrayWrapper.
From S2P Require Import Equality ArraySearch JsonText Codec Repr.

(** ** The heap only grows *)

(** Every object of [h] is still in [h'], at the same address and of the
    same class; what it holds may have changed. *)
Definition grows (h h' : heap) : Prop :=
  forall (l : loc) o, hmem h !! l = Some o -> exists o', hmem h' !! l = Some o' /\ same_class o o'.

(** A value that may be stored in a native container: valid, and not a
    wrapper (the unwrap boundary). *)
Definition storable (h : heap) (v : val) : Prop :=
  val_ok h v /\ refers_to_wrapper h v = false.

(** [m] run from [h] keeps the invariant, only grows the heap, and an
    [Ok] answer satisfies [Q] in the final heap. *)
Definition wp {A} (m : PyM A) (h : heap) (Q : A -> heap -> Prop) : Prop :=
  let '(h', o) := m h in jsonobj_inv h' /\ grows h h' /\ (forall a, o = Ok a -> Q a h').

(** ** The calls a client makes *)

(** One call of the module's interface, with its arguments: the
    conversion functions; the literals [{...}], [[...]], [(...)] a client
    writes; both constructors with and without argument; the methods of
    [JSONobj] ([obj.name] is [attr_read]), of [JSONarray], [iter] and
    [next]; [==]; the adapters; [str] and [repr]. *)
Inductive call :=
  | CallWrap (v : val)
  | CallUnwrap (v : val)
  | CallDict (items : list (string * val))
  | CallList (xs : list val)
  | CallTuple (xs : list val)
  | CallJSONobj (d : val)
  | CallJSONobjDefault
  | CallJSONarray (sq : val)
  | CallJSONarrayDefault
  | CallObjLen (self : val)
  | CallObjContains (self : val) (item : string)
  | CallObjIter (self : val)
  | CallGetattr (self : val) (name : string)
  | CallSetattr (self : val) (name : string) (value : val)
  | CallDelattr (self : val) (name : string)
  | CallArrLen (self : val)
  | CallGetitem (self : val) (index : Z)
  | CallSetitem (self : val) (index : Z) (value : val)
  | CallDelitem (self : val) (index : Z)
  | CallArrIter (self : val)
  | CallReversed (self : val)
  | CallInsert (self : val) (index : Z) (value : val)
  | CallAppend (self value : val)
  | CallClear (self : val)
  | CallReverse (self : val)
  | CallPop (self : val) (index : Z)
  | CallExtend (self values : val)
  | CallIadd (self values : val)
  | CallArrContains (self item : val)
  | CallIndex (self value : val) (start stop : Z)
  | CallCount (self value : val)
  | CallRemove (self value : val)
  | CallIterOf (v : val)
  | CallNext (it : py_iter)
  | CallEq (a b : val)
  | CallLoads (s : val)
  | CallDumps (obj : val)
  | CallLoad (fp : list ascii)
  | CallDump (obj : val) (fp : list ascii)
  | CallObjStr (self : val)
  | CallArrStr (self : val)
  | CallRepr (v : val)
  | CallObjRepr (self : val)
  | CallArrRepr (self : val).

(** Run [m] for its effect on the heap. *)
Definition discard {A} (m : PyM A) : PyM unit := m ;; py_ret tt.

Section session.
  Context (env : module_env) (fuel depth : nat).

  (** One call on the heap; [fuel] bounds [extend]'s loop and [depth] is
      the recursion budget of [==], [in] and [repr]. *)
Definition run_call (c : call) : PyM unit :=
    match c with
    | CallWrap v => discard (wrap v)
    | CallUnwrap v => discard (unwrap v)
    | CallDict items => discard (alloc (ODict items))
    | CallList xs => discard (alloc (OList xs))
    | CallTuple xs => discard (alloc (OTuple xs))
    | CallJSONobj d => discard (JSONobj_new d)
    | CallJSONobjDefault => discard (JSONobj_new_default env)
    | CallJSONarray sq => discard (JSONarray_new sq)
    | CallJSONarrayDefault => discard (JSONarray_new_default env)
    | CallObjLen self => discard (ObjectWrapper.JSONobj.__len__ self)
    | CallObjContains self item => discard (ObjectWrapper.JSONobj.__contains__ self item)
    | CallObjIter self => discard (ObjectWrapper.JSONobj.__iter__ self)
    | CallGetattr self name => discard (ObjectWrapper.JSONobj.attr_read self name)
    | CallSetattr self name value => ObjectWrapper.JSONobj.__setattr__ self name value
    | CallDelattr self name => ObjectWrapper.JSONobj.__delattr__ self name
    | CallArrLen self => discard (ArrayWrapper.JSONarray.__len__ self)
    | CallGetitem self i => discard (ArrayWrapper.JSONarray.__getitem__ self i)
    | CallSetitem self i value => ArrayWrapper.JSONarray.__setitem__ self i value
    | CallDelitem self i => ArrayWrapper.JSONarray.__delitem__ self i
    | CallArrIter self => discard (ArrayWrapper.JSONarray.__iter__ self)
    | CallReversed self => discard (ArrayWrapper.JSONarray.__reversed__ self)
    | CallInsert self i value => ArrayWrapper.JSONarray.insert self i value
    | CallAppend self value => ArrayWrapper.JSONarray.append self value
    | CallClear self => ArrayWrapper.JSONarray.clear self
    | CallReverse self => ArrayWrapper.JSONarray.reverse self
    | CallPop self i => discard (ArrayWrapper.JSONarray.pop self i)
    | CallExtend self values => ArrayWrapper.JSONarray.extend fuel self values
    | CallIadd self values => discard (ArrayWrapper.JSONarray.__iadd__ fuel self values)
    | CallArrContains self item => discard (ArraySearch.JSONarray.__contains__ depth self item)
    | CallIndex self value start stop => discard (ArraySearch.JSONarray.index depth self value start stop)
    | CallCount self value => discard (ArraySearch.JSONarray.count depth self value)
    | CallRemove self value => ArraySearch.JSONarray.remove depth self value
    | CallIterOf v => discard (py_iter_of v)
    | CallNext it => discard (iter_next it)
    | CallEq a b => discard (py_read (fun h => rich_eq depth h a b))
    | CallLoads s => discard (loads s)
    | CallDumps obj => discard (dumps obj)
    | CallLoad fp => fun h => let '((h', _), o) := load fp h in (h', out_map (fun _ => tt) o)
    | CallDump obj fp => fun h => let '((h', _), o) := dump obj fp h in (h', out_map (fun _ => tt) o)
    | CallObjStr self => discard (Codec.JSONobj.__str__ self)
    | CallArrStr self => discard (Codec.JSONarray.__str__ self)
    | CallRepr v => discard (py_repr depth v)
    | CallObjRepr self => discard (Repr.JSONobj.__repr__ depth self)
    | CallArrRepr self => discard (Repr.JSONarray.__repr__ depth self)
    end.
End session.

(** [isinstance(v, dict)] and [isinstance(v, (list, tuple))] on the heap. *)
Definition is_dict_val (h : heap) (v : val) : bool :=
  match obj_at h v with Some o => is_dict_obj o | None => false end.
Definition is_seq_val (h : heap) (v : val) : bool :=
  match obj_at h v with Some o => is_seq_obj o | None => false end.

(** The documented use: values the client holds are valid; the literals it
    writes hold no wrapper (and a dict display no repeated key, as Python
    keeps the last); the constructors get a [dict], a [list] or a
    [tuple]; and [insert], which does not [unwrap], is not given a
    wrapper. *)
Definition call_ok (h : heap) (c : call) : Prop :=
  match c with
  | CallWrap v | CallUnwrap v | CallIterOf v | CallRepr v | CallDumps v | CallDump v _ => val_ok h v
  | CallDict items => Forall (storable h) (map snd items) /\ NoDup (map fst items)
  | CallList xs | CallTuple xs => Forall (storable h) xs
  | CallJSONobj d => is_dict_val h d = true
  | CallJSONarray sq => is_seq_val h sq = true
  | CallSetattr _ _ v | CallSetitem _ _ v | CallAppend _ v | CallArrContains _ v
  | CallIndex _ v _ _ | CallCount _ v => val_ok h v
  | CallInsert _ _ v => storable h v
  | _ => True
  end.

#[export] Instance storable_dec h v : Decision (storable h v).
Proof. unfold storable. apply _. Defined.

#[export] Instance call_ok_dec h c : Decision (call_ok h c).
Proof. destruct c; simpl; apply _. Defined.

(** The module's default arguments are still a [dict] and a [list]. *)
Definition env_ok (env : module_env) (h : heap) : Prop :=
  is_dict_val h (VRef (JSONobj_default env)) = true /\ is_seq_val h (VRef (JSONarray_default env)) = true.

(** A session as the list of its calls, and whether each is documented
    in the heap the previous ones leave. *)
Definition run_calls (env : module_env) (fuel depth : nat) (cs : list call) (h : heap) : heap :=
  fold_left (fun h c => (run_call env fuel depth c h).1) cs h.

Fixpoint calls_ok (env : module_env) (fuel depth : nat) (cs : list call) (h : heap) : bool :=
  match cs with
  | [] => true
  | c :: cs' => bool_decide (call_ok h c) && calls_ok env fuel depth cs' (run_call env fuel depth c h).1
  end.

(** One call made as documented. *)
Inductive session_step (env : module_env) (fuel depth : nat) : heap -> heap -> Prop :=
  | session_call h c : call_ok h c -> session_step env fuel depth h (run_call env fuel depth c h).1.

Lemma same_class_refl o : same_class o o.
Proof. done. Qed.

Lemma grows_refl h : grows h h.
Proof. intros l o Ho. by exists o. Qed.

Lemma grows_trans h1 h2 h3 : grows h1 h2 -> grows h2 h3 -> grows h1 h3.
Proof.
  intros G1 G2 l o Ho. destruct (G1 l o Ho) as (o2 & Ho2 & S1).
  destruct (G2 l o2 Ho2) as (o3 & Ho3 & S2). exists o3. split; [done|].
  destruct S1 as (? & ? & ?), S2 as (? & ? & ?). split_and!; congruence.
Qed.

Lemma grows_alloc h o : heap_wf h -> grows h (heap_alloc h o).
Proof.
  intros Hwf l o' Ho'. exists o'. split; [|done].
  rewrite (lookup_alloc_old h Hwf o l); [done|by eexists].
Qed.

Lemma grows_update h l o_old o :
  hmem h !! l = Some o_old -> same_class o_old o -> grows h (heap_update h l o).
Proof.
  intros Hold Hs l' o' Ho'. rewrite lookup_update. case_decide as E; [subst|by exists o'].
  rewrite Hold in Ho'. injection Ho' as <-. by exists o.
Qed.

Lemma val_ok_grows h h' v : grows h h' -> val_ok h v -> val_ok h' v.
Proof.
  intros G. destruct v as [| | | |l]; simpl; try done. intros [o Ho].
  destruct (G l o Ho) as (o' & Ho' & _). by eexists.
Qed.

Lemma storable_grows h h' v : grows h h' -> storable h v -> storable h' v.
Proof.
  intros G [Hv Hw]. split; [by eapply val_ok_grows|].
  destruct v as [| | | |l]; try done. destruct Hv as [o Ho].
  destruct (G l o Ho) as (o' & Ho' & _ & _ & Hc). unfold refers_to_wrapper in *; simpl in *.
  rewrite Ho in Hw. rewrite Ho'. congruence.
Qed.

(** The children of a native container of an invariant heap are storable. *)
Lemma children_storable h (l : loc) o :
  jsonobj_inv h -> hmem h !! l = Some o -> is_native_obj o = true ->
  Forall (storable h) (obj_children o).
Proof.
  intros Hinv Ho Hn. destruct (wf_closed h (inv_wf h Hinv) l o Ho) as [Hc _].
  pose proof (inv_boundary h Hinv l o Ho Hn) as Hb. apply Forall_and. by split.
Qed.

(** ** Rules *)

Lemma wp_mono {A} (m : PyM A) h (Q Q' : A -> heap -> Prop) :
  wp m h Q -> (forall a h', Q a h' -> Q' a h') -> wp m h Q'.
Proof. unfold wp. destruct (m h) as [h' o]. intros (? & ? & HQ) HQQ. split_and!; auto. Qed.

(** A computation that leaves the heap as it is. *)
Lemma wp_read {A} (m : PyM A) h o Q :
  m h = (h, o) -> jsonobj_inv h -> (forall a, o = Ok a -> Q a h) -> wp m h Q.
Proof. intros E Hi HQ. unfold wp. rewrite E. split_and!; [done|apply grows_refl|done]. Qed.

Lemma wp_ret {A} (a : A) h Q : jsonobj_inv h -> Q a h -> wp (py_ret a) h Q.
Proof. intros Hi HQ. apply (wp_read _ h (Ok a)); [done|done|by intros ? [= <-]]. Qed.

Lemma wp_raise {A} e h (Q : A -> heap -> Prop) : jsonobj_inv h -> wp (py_raise e) h Q.
Proof. intros Hi. by apply (wp_read _ h (Exc e)). Qed.

Lemma wp_wrong {A} h (Q : A -> heap -> Prop) : jsonobj_inv h -> wp py_wrong h Q.
Proof. intros Hi. by apply (wp_read _ h Wrong). Qed.

Lemma wp_nofuel {A} h (Q : A -> heap -> Prop) : jsonobj_inv h -> wp py_nofuel h Q.
Proof. intros Hi. by apply (wp_read _ h NoFuel). Qed.

(** The continuation runs from a heap that keeps the invariant and grew
    from [h]. *)
Lemma wp_bind {A B} (m : PyM A) (k : A -> PyM B) h Q :
  wp m h (fun a h' => jsonobj_inv h' -> grows h h' -> wp (k a) h' Q) -> wp (py_bind m k) h Q.
Proof.
  unfold wp, py_bind. destruct (m h) as [h1 [a|e| |]]; intros (Hi & Hg & Hq); try done.
  specialize (Hq a eq_refl Hi Hg). destruct (k a h1) as [h2 o]. destruct Hq as (Hi2 & Hg2 & Hq2).
  split_and!; [done|by eapply grows_trans|done].
Qed.

Lemma wp_get_obj (l : loc) h Q :
  jsonobj_inv h -> (forall o, hmem h !! l = Some o -> Q o h) -> wp (get_obj l) h Q.
Proof.
  intros Hi HQ. unfold get_obj. destruct (hmem h !! l) as [o|] eqn:E.
  - apply (wp_read _ h (Ok o)); [unfold get_obj; by rewrite E|done|]. intros ? [= <-]. by apply HQ.
  - apply (wp_read _ h Wrong); [unfold get_obj; by rewrite E|done|done].
Qed.

(** Storing a native container of the same class, with storable children. *)
Lemma wp_put_native (l : loc) o_old o h Q :
  jsonobj_inv h -> hmem h !! l = Some o_old -> same_class o_old o -> is_native_obj o = true ->
  Forall (storable h) (obj_children o) -> obj_keys_nodup o ->
  Q tt (heap_update h l o) -> wp (put_obj l o) h Q.
Proof.
  intros Hi Hold Hs Hn Hc Hk HQ. unfold wp. rewrite (put_obj_run l o o_old h Hold).
  split_and!; [|by eapply grows_update|by intros ? [= <-]].
  apply (inv_update h l o_old o Hold Hs Hi).
  - split; [|done]. eapply Forall_impl; [exact Hc|]. by intros ? [].
  - by destruct o.
  - intros _. eapply Forall_impl; [exact Hc|]. by intros ? [].
Qed.

Lemma wp_alloc o h Q :
  jsonobj_inv h -> obj_ok h o -> slot_ok h o -> boundary_ok h o ->
  Q (hnext h) (heap_alloc h o) -> wp (alloc o) h Q.
Proof.
  intros Hi Hok Hs Hb HQ. unfold wp, alloc.
  split_and!; [by apply inv_alloc|apply grows_alloc, (inv_wf h Hi)|by intros ? [= <-]].
Qed.

Lemma wp_unwrap v h Q :
  jsonobj_inv h -> val_ok h v -> Q (unwrap_val h v) h -> wp (unwrap v) h Q.
Proof. intros Hi Hv HQ. apply (wp_read _ h (Ok (unwrap_val h v))); [by apply unwrap_run|done|by intros ? [= <-]]. Qed.

Lemma wp_wrap v h Q :
  jsonobj_inv h -> val_ok h v -> (forall h' w, grows h h' -> val_ok h' w -> Q w h') ->
  wp (wrap v) h Q.
Proof.
  intros Hi Hv HQ. destruct (obj_at h v) as [o|] eqn:Ho; [destruct (is_native_obj o) eqn:Hn|].
  - destruct (wrapper_of_ok h o v Hi Ho Hn) as (Hok & Hs & Hb).
    unfold wp. rewrite (wrap_run_native h v o Ho Hn).
    split_and!; [by apply inv_alloc|apply grows_alloc, (inv_wf h Hi)|].
    intros ? [= <-]. apply HQ; [apply grows_alloc, (inv_wf h Hi)|].
    unfold val_ok. rewrite lookup_alloc_new. by eexists.
  - apply (wp_read _ h (Ok v)); [apply wrap_run_other; [done|intros o' Ho'; congruence]|done|].
    intros ? [= <-]. by apply HQ; [apply grows_refl|].
  - apply (wp_read _ h (Ok v)); [apply wrap_run_other; [done|intros o' Ho'; congruence]|done|].
    intros ? [= <-]. by apply HQ; [apply grows_refl|].
Qed.

(** [apply wp_bind] and introduce what the continuation is given. *)
Ltac wp_bind_with rule :=
  apply wp_bind; apply rule; [assumption|..].

Lemma extends_grows h h' : heap_wf h -> extends h h' -> grows h h'.
Proof.
  intros Hwf [_ E] l o Ho. exists o. split; [|done].
  rewrite E; [done|]. exact (wf_fresh h Hwf l o Ho).
Qed.

Lemma child_val_ok h (l : loc) o x :
  heap_wf h -> hmem h !! l = Some o -> x ∈ obj_children o -> val_ok h x.
Proof.
  intros Hwf Ho Hx. destruct (wf_closed h Hwf l o Ho) as [Hc _].
  by apply Forall_forall with (x := x) in Hc.
Qed.

Lemma dict_items_ok h (d : loc) items :
  jsonobj_inv h -> hmem h !! d = Some (ODict items) ->
  Forall (storable h) (map snd items) /\ NoDup (map fst items).
Proof.
  intros Hi Hd. split; [exact (children_storable h d _ Hi Hd eq_refl)|].
  exact (proj2 (wf_closed h (inv_wf h Hi) d _ Hd)).
Qed.

Lemma seq_items_ok h (s : loc) k xs :
  jsonobj_inv h -> hmem h !! s = Some (seq_obj k xs) -> Forall (storable h) xs.
Proof.
  intros Hi Hs. pose proof (children_storable h s _ Hi Hs) as Hc. by destruct k; apply Hc.
Qed.

(** ** Reading the slot *)

Lemma wp_self_dict self h Q :
  jsonobj_inv h -> (forall d items, hmem h !! d = Some (ODict items) -> Q (d, items) h) ->
  wp (self_dict self) h Q.
Proof.
  intros Hi HQ. unfold self_dict. destruct self as [| | | |l]; try (by apply wp_raise).
  wp_bind_with wp_get_obj. intros o Ho _ _.
  destruct o as [| | |[| | | |d]|]; try (by apply wp_raise).
  wp_bind_with wp_get_obj. intros [] Hd _ _; try (by apply wp_raise). by apply wp_ret, HQ.
Qed.

Lemma wp_self_seq self h Q :
  jsonobj_inv h -> (forall s k xs, hmem h !! s = Some (seq_obj k xs) -> Q (s, k, xs) h) ->
  wp (self_seq self) h Q.
Proof.
  intros Hi HQ. unfold self_seq. destruct self as [| | | |l]; try (by apply wp_raise).
  wp_bind_with wp_get_obj. intros o Ho _ _.
  destruct o as [| | | |[| | | |s]]; try (by apply wp_raise).
  wp_bind_with wp_get_obj. intros [] Hs _ _; try (by apply wp_raise).
  - apply wp_ret; [done|]. by apply (HQ s KList).
  - apply wp_ret; [done|]. by apply (HQ s KTuple).
Qed.

Lemma wp_self_list self h Q :
  jsonobj_inv h -> (forall s xs, hmem h !! s = Some (OList xs) -> Q (s, xs) h) ->
  wp (self_list self) h Q.
Proof.
  intros Hi HQ. unfold self_list. wp_bind_with wp_self_seq. intros s [] xs Hs _ _.
  - by apply wp_ret, HQ.
  - by apply wp_raise.
Qed.

(** ** The methods of [JSONobj] *)

Section object_methods.
  Context (h : heap) (Hi : jsonobj_inv h).

Lemma wp_obj_len self : wp (ObjectWrapper.JSONobj.__len__ self) h (fun _ _ => True).
  Proof. wp_bind_with wp_self_dict. intros d items _ _ _. by apply wp_ret. Qed.

Lemma wp_obj_contains self name :
    wp (ObjectWrapper.JSONobj.__contains__ self name) h (fun _ _ => True).
  Proof. wp_bind_with wp_self_dict. intros d items _ _ _. by apply wp_ret. Qed.

Lemma wp_obj_iter self : wp (ObjectWrapper.JSONobj.__iter__ self) h (fun _ _ => True).
  Proof. wp_bind_with wp_self_dict. intros d items _ _ _. by apply wp_ret. Qed.

Lemma wp_getattr self name :
    wp (ObjectWrapper.JSONobj.__getattr__ self name) h (fun w h' => val_ok h' w).
  Proof.
    wp_bind_with wp_self_dict. intros d items Hd _ _.
    destruct (dict_lookup name items) as [v|] eqn:E; [|by apply wp_raise].
    apply wp_wrap; [done| |by intros]. destruct (dict_items_ok h d items Hi Hd) as [Hc _].
    apply Forall_forall with (x := v) in Hc as [? _]; [done|]. by eapply dict_lookup_elem.
  Qed.

Lemma wp_attr_read self name :
    wp (ObjectWrapper.JSONobj.attr_read self name) h (fun _ _ => True).
  Proof.
    unfold ObjectWrapper.JSONobj.attr_read. case_decide.
    - destruct self as [| | | |l]; try (by apply wp_raise).
      wp_bind_with wp_get_obj. intros [] _ _ _; try (by apply wp_raise). by apply wp_ret.
    - eapply wp_mono; [apply wp_getattr|done].
  Qed.

Lemma wp_setattr self name value :
    val_ok h value -> wp (ObjectWrapper.JSONobj.__setattr__ self name value) h (fun _ _ => True).
  Proof.
    intros Hv. wp_bind_with wp_self_dict. intros d items Hd _ _.
    apply wp_bind, wp_unwrap; [done|done|]. intros _ _.
    destruct (unwrap_val_ok h value Hi Hv) as [Hu Hw].
    destruct (dict_items_ok h d items Hi Hd) as [Hc Hk].
    apply (wp_put_native d (ODict items)); try done; simpl.
    - apply Forall_forall. intros x [->|Hx]%dict_setitem_values; [done|].
      by apply Forall_forall with (x := x) in Hc.
    - by apply dict_setitem_nodup.
  Qed.

Lemma wp_delattr self name :
    wp (ObjectWrapper.JSONobj.__delattr__ self name) h (fun _ _ => True).
  Proof.
    wp_bind_with wp_self_dict. intros d items Hd _ _. cbn beta iota.
    destruct (dict_delitem name items) as [items'|] eqn:E; [|by apply wp_raise].
    destruct (dict_items_ok h d items Hi Hd) as [Hc Hk].
    apply (wp_put_native d (ODict items)); try done; simpl.
    - apply Forall_forall. intros x Hx. apply Forall_forall with (x := x) in Hc; [done|].
      by eapply dict_delitem_values.
    - by eapply dict_delitem_nodup.
  Qed.

  (** [JSONobj(d)] on a [dict] [d], as documented. *)
Lemma wp_JSONobj_new d :
    (exists items, obj_at h d = Some (ODict items)) ->
    wp (JSONobj_new d) h (fun w h' => val_ok h' w).
  Proof.
    intros [items Hd]. unfold JSONobj_new. apply wp_bind, wp_alloc; [done| | |by intros ?|].
    - split; [|done]. constructor; [|done]. destruct d; try discriminate. by eexists.
    - by exists (ODict items).
    - intros Hi' _. apply wp_ret; [done|]. unfold val_ok. rewrite lookup_alloc_new. by eexists.
  Qed.

Lemma wp_JSONarray_new sq k xs :
    obj_at h sq = Some (seq_obj k xs) ->
    wp (JSONarray_new sq) h (fun w h' => val_ok h' w).
  Proof.
    intros Hs. unfold JSONarray_new. apply wp_bind, wp_alloc; [done| | |by intros ?|].
    - split; [|done]. constructor; [|done]. destruct sq; try discriminate. by eexists.
    - exists (seq_obj k xs). split; [done|]. by destruct k.
    - intros Hi' _. apply wp_ret; [done|]. unfold val_ok. rewrite lookup_alloc_new. by eexists.
  Qed.
End object_methods.

(** ** The methods of [JSONarray] *)

Lemma storable_lookup h xs k x : Forall (storable h) xs -> xs !! k = Some x -> storable h x.
Proof. intros Hc Hx. apply Forall_forall with (x := x) in Hc; [done|]. by eapply list_elem_of_lookup_2. Qed.

(** Replacing a list of storable elements by another. *)
Lemma wp_put_list (s : loc) xs ys h Q :
  jsonobj_inv h -> hmem h !! s = Some (OList xs) -> Forall (storable h) ys ->
  Q tt (heap_update h s (OList ys)) -> wp (put_obj s (OList ys)) h Q.
Proof. intros Hi Hs Hys HQ. by apply (wp_put_native s (OList xs)). Qed.

Section array_methods.
  Context (h : heap) (Hi : jsonobj_inv h).

Lemma wp_arr_len self : wp (ArrayWrapper.JSONarray.__len__ self) h (fun _ _ => True).
  Proof. wp_bind_with wp_self_seq. intros s k xs _ _ _. by apply wp_ret. Qed.

Lemma wp_arr_iter self : wp (ArrayWrapper.JSONarray.__iter__ self) h (fun _ _ => True).
  Proof. wp_bind_with wp_self_seq. intros s k xs _ _ _. by apply wp_ret. Qed.

Lemma wp_reversed self : wp (ArrayWrapper.JSONarray.__reversed__ self) h (fun _ _ => True).
  Proof.
    wp_bind_with wp_self_seq. intros s [] xs _ _ _; [by apply wp_ret|by apply wp_raise].
  Qed.

Lemma wp_getitem self i : wp (ArrayWrapper.JSONarray.__getitem__ self i) h (fun _ _ => True).
  Proof.
    wp_bind_with wp_self_seq. intros s k xs Hs _ _. cbn beta iota.
    destruct (py_norm_index (length xs) i ≫= _) as [x|] eqn:E; [|by apply wp_raise].
    apply wp_wrap; [done| |done]. apply bind_Some in E as (j & _ & Hx).
    exact (proj1 (storable_lookup h xs j x (seq_items_ok h s k xs Hi Hs) Hx)).
  Qed.

Lemma wp_setitem self i value :
    val_ok h value -> wp (ArrayWrapper.JSONarray.__setitem__ self i value) h (fun _ _ => True).
  Proof.
    intros Hv. wp_bind_with wp_self_list. intros s xs Hs _ _.
    apply wp_bind, wp_unwrap; [done|done|]. intros _ _. cbn beta iota.
    destruct (py_norm_index (length xs) i) as [j|]; [|by apply wp_raise].
    apply (wp_put_list s xs); try done. apply Forall_insert; [exact (seq_items_ok h s KList xs Hi Hs)|].
    by apply unwrap_val_ok.
  Qed.

Lemma wp_delitem self i : wp (ArrayWrapper.JSONarray.__delitem__ self i) h (fun _ _ => True).
  Proof.
    wp_bind_with wp_self_list. intros s xs Hs _ _. cbn beta iota.
    destruct (py_norm_index (length xs) i) as [j|]; [|by apply wp_raise].
    apply (wp_put_list s xs); try done. apply Forall_delete, (seq_items_ok h s KList xs Hi Hs).
  Qed.

  (** [insert] stores its argument as given, so it must be storable. *)
Lemma wp_insert self i value :
    storable h value -> wp (ArrayWrapper.JSONarray.insert self i value) h (fun _ _ => True).
  Proof.
    intros Hv. wp_bind_with wp_self_list. intros s xs Hs _ _.
    pose proof (seq_items_ok h s KList xs Hi Hs) as Hc.
    apply (wp_put_list s xs); try done. unfold insert_at.
    apply Forall_app; split; [by apply Forall_take|]. constructor; [done|by apply Forall_drop].
  Qed.

Lemma wp_append self value :
    val_ok h value -> wp (ArrayWrapper.JSONarray.append self value) h (fun _ _ => True).
  Proof.
    intros Hv. wp_bind_with wp_self_list. intros s xs Hs _ _.
    apply wp_bind, wp_unwrap; [done|done|]. intros _ _.
    apply (wp_put_list s xs); try done. apply Forall_app; split; [exact (seq_items_ok h s KList xs Hi Hs)|].
    constructor; [by apply unwrap_val_ok|done].
  Qed.

Lemma wp_clear self : wp (ArrayWrapper.JSONarray.clear self) h (fun _ _ => True).
  Proof. wp_bind_with wp_self_list. intros s xs Hs _ _. by apply (wp_put_list s xs). Qed.

Lemma wp_reverse self : wp (ArrayWrapper.JSONarray.reverse self) h (fun _ _ => True).
  Proof.
    wp_bind_with wp_self_list. intros s xs Hs _ _.
    apply (wp_put_list s xs); try done. apply Forall_reverse, (seq_items_ok h s KList xs Hi Hs).
  Qed.

Lemma wp_pop self i : wp (ArrayWrapper.JSONarray.pop self i) h (fun _ _ => True).
  Proof.
    wp_bind_with wp_self_list. intros s xs Hs _ _. cbn beta iota.
    destruct (py_norm_index (length xs) i ≫= _) as [[j x]|] eqn:E; [|by apply wp_raise].
    apply bind_Some in E as (j' & _ & E). apply fmap_Some in E as (x' & Hx & [= <- <-]).
    pose proof (seq_items_ok h s KList xs Hi Hs) as Hc.
    apply wp_bind, (wp_put_list s xs); [done|done|by apply Forall_delete|]. intros Hi' G.
    apply wp_wrap; [done| |done]. eapply val_ok_grows; [exact G|]. exact (proj1 (storable_lookup h xs j x Hc Hx)).
  Qed.
End array_methods.

(** ** Iterators and [extend] *)

(** [next(it)] allocates at most the wrapper of the item it returns. *)
Lemma wp_iter_next it : forall h, jsonobj_inv h ->
  wp (iter_next it) h (fun r h' => forall v it', r = Some (v, it') -> val_ok h' v).
Proof.
  induction it as [s i|s i|d i|str|inner IH]; intros h Hi; cbn [iter_next].
  - wp_bind_with wp_get_obj. intros o Ho _ _.
    destruct o as [|xs|xs| |]; try (by apply wp_wrong).
    all: destruct (xs !! i) as [x|] eqn:Hx; (apply wp_ret; [done|]); intros v it' Hr; try discriminate.
    all: injection Hr as <- _; eapply child_val_ok; [exact (inv_wf h Hi)|exact Ho|by eapply list_elem_of_lookup_2].
  - wp_bind_with wp_get_obj. intros o Ho _ _.
    destruct o as [|xs| | |]; try (by apply wp_wrong).
    destruct (_ && _); [|by apply wp_ret].
    destruct (xs !! Z.to_nat i) as [x|] eqn:Hx; (apply wp_ret; [done|]); intros v it' Hr; try discriminate.
    injection Hr as <- _. eapply child_val_ok; [exact (inv_wf h Hi)|exact Ho|by eapply list_elem_of_lookup_2].
  - wp_bind_with wp_get_obj. intros o Ho _ _.
    destruct o as [items| | | |]; try (by apply wp_wrong).
    destruct (items !! i) as [[k x]|]; apply wp_ret; try done; by intros ? ? [= <- _].
  - destruct str; apply wp_ret; try done; by intros ? ? [= <- _].
  - apply wp_bind. eapply wp_mono; [exact (IH h Hi)|]. intros r h1 Hr Hi1 _.
    destruct r as [[x inner']|]; [|by apply wp_ret].
    apply wp_bind, wp_wrap; [done|by eapply Hr|]. intros h2 w _ Hw Hi2 _.
    apply wp_ret; [done|]. by intros ? ? [= <- _].
Qed.

Lemma wp_iter_of v h : jsonobj_inv h -> wp (py_iter_of v) h (fun _ _ => True).
Proof.
  intros Hi. unfold py_iter_of. destruct v as [| | |str|l]; try (by apply wp_raise); [by apply wp_ret|].
  wp_bind_with wp_get_obj. intros o _ _ _.
  destruct o as [| | |[| | | |d]|[| | | |s]]; try (by apply wp_raise); try (by apply wp_ret).
  - wp_bind_with wp_get_obj. intros [] _ _ _; try (by apply wp_raise). by apply wp_ret.
  - wp_bind_with wp_get_obj. intros [] _ _ _; try (by apply wp_raise); by apply wp_ret.
Qed.

Lemma wp_extend_loop fuel self : forall it h, jsonobj_inv h ->
  wp (ArrayWrapper.JSONarray.extend_loop fuel self it) h (fun _ _ => True).
Proof.
  induction fuel as [|fuel IH]; intros it h Hi; cbn [ArrayWrapper.JSONarray.extend_loop];
    [by apply wp_nofuel|].
  apply wp_bind. eapply wp_mono; [exact (wp_iter_next it h Hi)|]. intros r h1 Hr Hi1 _.
  destruct r as [[v it']|]; [|by apply wp_ret].
  apply wp_bind, wp_unwrap; [done|by eapply Hr|]. intros _ _.
  apply wp_bind. eapply wp_mono; [apply wp_append; [done|]|].
  - apply unwrap_val_ok; [done|by eapply Hr].
  - intros _ h2 _ Hi2 _. by apply IH.
Qed.

Lemma wp_extend fuel self values h :
  jsonobj_inv h -> wp (ArrayWrapper.JSONarray.extend fuel self values) h (fun _ _ => True).
Proof.
  intros Hi. unfold ArrayWrapper.JSONarray.extend. apply wp_bind.
  apply (wp_mono _ _ (fun _ _ => True)); [|intros src h1 _ Hi1 _; apply wp_bind;
    eapply wp_mono; [exact (wp_iter_of src h1 Hi1)|intros it h2 _ Hi2 _; by apply wp_extend_loop]].
  case_decide; [|by apply wp_ret].
  wp_bind_with wp_self_seq. intros s k xs Hs _ _.
  pose proof (seq_items_ok h s k xs Hi Hs) as Hc.
  apply wp_bind, wp_alloc; [done| | |intros _; simpl; eapply Forall_impl; [exact Hc|by intros ? []]|].
  - split; [|done]. simpl. eapply Forall_impl; [exact Hc|by intros ? []].
  - done.
  - intros Hi' _. by apply wp_ret.
Qed.

Lemma wp_iadd fuel self values h :
  jsonobj_inv h -> wp (ArrayWrapper.JSONarray.__iadd__ fuel self values) h (fun _ _ => True).
Proof.
  intros Hi. unfold ArrayWrapper.JSONarray.__iadd__. apply wp_bind.
  eapply wp_mono; [exact (wp_extend fuel self values h Hi)|]. intros _ h' _ Hi' _. by apply wp_ret.
Qed.

(** ** Searches, comparison, the codec adapters and [repr] *)

Section read_methods.
  Context (h : heap) (Hi : jsonobj_inv h) (depth : nat).

Lemma wp_py_read {A} (f : heap -> outcome A) Q :
    (forall a, f h = Ok a -> Q a h) -> wp (py_read f) h Q.
  Proof. intros HQ. by apply (wp_read _ h (f h)). Qed.

Lemma wp_arr_contains self item :
    val_ok h item -> wp (ArraySearch.JSONarray.__contains__ depth self item) h (fun _ _ => True).
  Proof.
    intros Hv. wp_bind_with wp_self_seq. intros s k xs _ _ _.
    apply wp_bind, wp_unwrap; [done|done|]. intros _ _.
    apply wp_bind, wp_py_read. intros r _ _ _. by apply wp_ret.
  Qed.

Lemma wp_index self value start stop :
    val_ok h value -> wp (ArraySearch.JSONarray.index depth self value start stop) h (fun _ _ => True).
  Proof.
    intros Hv. wp_bind_with wp_self_seq. intros s k xs _ _ _.
    apply wp_bind, wp_unwrap; [done|done|]. intros _ _.
    apply wp_bind, wp_py_read. intros [r|] _ _ _; [by apply wp_ret|by apply wp_raise].
  Qed.

Lemma wp_count self value :
    val_ok h value -> wp (ArraySearch.JSONarray.count depth self value) h (fun _ _ => True).
  Proof.
    intros Hv. wp_bind_with wp_self_seq. intros s k xs _ _ _.
    apply wp_bind, wp_unwrap; [done|done|]. intros _ _. by apply wp_py_read.
  Qed.

Lemma wp_remove self value : wp (ArraySearch.JSONarray.remove depth self value) h (fun _ _ => True).
  Proof.
    wp_bind_with wp_self_list. intros s xs Hs _ _.
    apply wp_bind, wp_py_read. intros [j|] _ _ _; [|by apply wp_raise].
    apply (wp_put_list s xs); try done. apply Forall_delete, (seq_items_ok h s KList xs Hi Hs).
  Qed.

Lemma wp_dumps obj : val_ok h obj -> wp (dumps obj) h (fun _ _ => True).
  Proof.
    intros Hv. unfold dumps. apply wp_bind, wp_unwrap; [done|done|]. intros _ _.
    by apply (wp_read _ h (json_dumps (unwrap_val h obj) h).2).
  Qed.

Lemma wp_obj_str self : wp (Codec.JSONobj.__str__ self) h (fun _ _ => True).
  Proof.
    unfold Codec.JSONobj.__str__. destruct self as [| | | |l]; try (by apply wp_wrong).
    wp_bind_with wp_get_obj. intros [| | |d|] _ _ _; try (by apply wp_wrong).
    by apply (wp_read _ h (json_dumps d h).2).
  Qed.

Lemma wp_arr_str self : wp (Codec.JSONarray.__str__ self) h (fun _ _ => True).
  Proof.
    unfold Codec.JSONarray.__str__. destruct self as [| | | |l]; try (by apply wp_wrong).
    wp_bind_with wp_get_obj. intros [| | | |sq] _ _ _; try (by apply wp_wrong).
    by apply (wp_read _ h (json_dumps sq h).2).
  Qed.

Lemma wp_repr v : wp (py_repr depth v) h (fun _ _ => True).
  Proof. by apply (wp_read _ h (py_repr depth v h).2). Qed.

Lemma wp_obj_repr self : wp (Repr.JSONobj.__repr__ depth self) h (fun _ _ => True).
  Proof.
    unfold Repr.JSONobj.__repr__. destruct self as [| | | |l]; try (by apply wp_wrong).
    wp_bind_with wp_get_obj. intros [| | |d|] _ _ _; try (by apply wp_wrong).
    by eapply wp_read.
  Qed.

Lemma wp_arr_repr self : wp (Repr.JSONarray.__repr__ depth self) h (fun _ _ => True).
  Proof.
    unfold Repr.JSONarray.__repr__. destruct self as [| | | |l]; try (by apply wp_wrong).
    wp_bind_with wp_get_obj. intros [| | | |sq] _ _ _; try (by apply wp_wrong).
    by eapply wp_read.
  Qed.
End read_methods.

(** [json.loads] lays the decoded tree out in fresh native containers. *)
Lemma wp_json_loads_text txt h :
  jsonobj_inv h -> wp (json_loads_text txt) h (fun v h' => val_ok h' v).
Proof.
  intros Hi. unfold wp, json_loads_text.
  destruct (codec_loads txt) as [t|e| |] eqn:Ht; try (split_and!; [done|apply grows_refl|done]).
  destruct (alloc_tree_spec t (codec_loads_wf _ _ Ht) h (inv_wf h Hi))
    as (h1 & v & -> & Hwf1 & Ext & Fr & _ & Hv).
  split_and!; [by eapply inv_extend_native|exact (extends_grows h h1 (inv_wf h Hi) Ext)|by intros ? [= <-]].
Qed.

Lemma wp_loads s h : jsonobj_inv h -> wp (loads s) h (fun _ _ => True).
Proof.
  intros Hi. unfold loads, json_loads. apply wp_bind.
  destruct s as [| | |str|]; try (by apply wp_raise).
  eapply wp_mono; [exact (wp_json_loads_text _ h Hi)|]. intros v h1 Hv Hi1 _.
  by apply wp_wrap.
Qed.

Lemma wp_load_text fp h :
  jsonobj_inv h -> wp (let* v := json_loads_text fp in wrap v) h (fun _ _ => True).
Proof.
  intros Hi. apply wp_bind. eapply wp_mono; [exact (wp_json_loads_text _ h Hi)|].
  intros v h1 Hv Hi1 _. by apply wp_wrap.
Qed.

(** ** Every documented call keeps the invariant *)

Lemma wp_discard {A} (m : PyM A) h :
  wp m h (fun _ _ => True) -> wp (discard m) h (fun _ _ => True).
Proof. intros Hm. apply wp_bind. eapply wp_mono; [exact Hm|]. intros _ h' _ Hi' _. by apply wp_ret. Qed.

Lemma wp_True {A} (m : PyM A) h Q : wp m h Q -> wp m h (fun _ _ => True).
Proof. intros Hm. by eapply wp_mono. Qed.

Lemma wp_literal o h :
  jsonobj_inv h -> is_native_obj o = true -> Forall (storable h) (obj_children o) -> obj_keys_nodup o ->
  wp (alloc o) h (fun _ _ => True).
Proof.
  intros Hi Hn Hc Hk. apply wp_alloc; [done| | |intros _; eapply Forall_impl; [exact Hc|by intros ? []]|done].
  - split; [|done]. eapply Forall_impl; [exact Hc|by intros ? []].
  - by destruct o.
Qed.

Lemma wp_JSONobj_dict h d :
  jsonobj_inv h -> is_dict_val h d = true -> wp (JSONobj_new d) h (fun _ _ => True).
Proof.
  intros Hi Hd. unfold is_dict_val in Hd. destruct (obj_at h d) as [[items| | | |]|] eqn:E; try discriminate.
  eapply wp_True, wp_JSONobj_new; [done|by eexists].
Qed.

Lemma wp_JSONarray_seq h sq :
  jsonobj_inv h -> is_seq_val h sq = true -> wp (JSONarray_new sq) h (fun _ _ => True).
Proof.
  intros Hi Hs. unfold is_seq_val in Hs. destruct (obj_at h sq) as [[|xs|xs| |]|] eqn:E; try discriminate.
  - eapply wp_True, (wp_JSONarray_new h Hi sq KList xs), E.
  - eapply wp_True, (wp_JSONarray_new h Hi sq KTuple xs), E.
Qed.

Lemma wp_run_load fp h :
  jsonobj_inv h -> wp (fun h => let '((h', _), o) := load fp h in (h', out_map (fun _ => tt) o)) h (fun _ _ => True).
Proof.
  intros Hi. pose proof (wp_load_text fp h Hi) as W. unfold wp, load in *.
  destruct ((let* v := json_loads_text fp in wrap v) h) as [h' o]. destruct W as (? & ? & _). by split_and!.
Qed.

Lemma wp_run_dump obj fp h :
  jsonobj_inv h -> val_ok h obj ->
  wp (fun h => let '((h', _), o) := dump obj fp h in (h', out_map (fun _ => tt) o)) h (fun _ _ => True).
Proof.
  intros Hi Hv. unfold wp, dump. rewrite (unwrap_run h obj Hv).
  destruct (iterencode _ _ _ _). split_and!; [done|apply grows_refl|done].
Qed.

Lemma wp_eq depth a b h : jsonobj_inv h -> wp (py_read (fun h => rich_eq depth h a b)) h (fun _ _ => True).
Proof. intros Hi. by apply wp_py_read. Qed.

Create HintDb session.
#[export] Hint Resolve wp_discard wp_True wp_literal wp_JSONobj_dict wp_JSONarray_seq wp_run_load
  wp_run_dump wp_eq wp_wrap wp_unwrap wp_obj_len wp_obj_contains wp_obj_iter wp_attr_read
  wp_setattr wp_delattr wp_arr_len wp_getitem wp_setitem wp_delitem wp_arr_iter wp_reversed
  wp_insert wp_append wp_clear wp_reverse wp_pop wp_extend wp_iadd wp_arr_contains wp_index
  wp_count wp_remove wp_iter_of wp_iter_next wp_loads wp_dumps wp_obj_str wp_arr_str wp_repr
  wp_obj_repr wp_arr_repr : session.

Lemma wp_run_call env fuel depth h c :
  jsonobj_inv h -> env_ok env h -> call_ok h c -> wp (run_call env fuel depth c) h (fun _ _ => True).
Proof.
  intros Hi [Hd Hs] Hc. destruct c; simpl in Hc |- *.
  3: destruct Hc; apply wp_discard, wp_literal; simpl; by rewrite ?list_fmap_id.
  3, 4: apply wp_discard, wp_literal; done.
  all: eauto 6 with session.
Qed.

Lemma env_ok_grows env h h' : grows h h' -> env_ok env h -> env_ok env h'.
Proof.
  intros G [Hd Hs]. unfold env_ok, is_dict_val, is_seq_val in *; cbn [obj_at] in *.
  destruct (hmem h !! JSONobj_default env) as [o1|] eqn:E1; [|discriminate].
  destruct (hmem h !! JSONarray_default env) as [o2|] eqn:E2; [|discriminate].
  destruct (G _ _ E1) as (o1' & -> & S1 & _), (G _ _ E2) as (o2' & -> & _ & S2 & _). split; congruence.
Qed.

Lemma session_step_inv env fuel depth h h' :
  session_step env fuel depth h h' -> jsonobj_inv h -> env_ok env h -> jsonobj_inv h' /\ env_ok env h'.
Proof.
  intros [h0 c Hc] Hi He. pose proof (wp_run_call env fuel depth h0 c Hi He Hc) as W.
  unfold wp in W. destruct (run_call env fuel depth c h0) as [h1 o]. destruct W as (Hi1 & G & _).
  split; [done|by eapply env_ok_grows].
Qed.

(** Rule induction: the invariant and the default arguments' classes hold
    along any session from a heap that has them. *)
Lemma reachable_inv env fuel depth h h' :
  rtc (session_step env fuel depth) h h' -> jsonobj_inv h -> env_ok env h ->
  jsonobj_inv h' /\ env_ok env h'.
Proof.
  induction 1 as [h|h1 h2 h3 Hs _ IH]; intros Hi He; [done|].
  destruct (session_step_inv env fuel depth h1 h2 Hs Hi He). by apply IH.
Qed.

(** C23.  Every session of documented calls keeps the representation
    invariant: from the heap [import jsonobj] leaves, any sequence of
    calls of the module's interface whose arguments are valid, whose
    literals and constructor arguments hold no wrapper, and which never
    passes a wrapper to [insert], ends in a heap satisfying
    [jsonobj_inv], whatever each call answers (errors included) and
    whatever loop and recursion budgets are used. *)
Theorem session_keeps_inv fuel depth h0 env h :
  import_jsonobj empty_heap = (h0, Ok env) ->
  rtc (session_step env fuel depth) h0 h -> jsonobj_inv h.
Proof.
  intros Himp Hr. vm_compute in Himp. injection Himp as <- <-.
  apply (reachable_inv _ fuel depth _ h Hr); [decide_by_eval|split; reflexivity].
Qed.

Lemma calls_ok_rtc env fuel depth cs : forall h,
  calls_ok env fuel depth cs h = true ->
  rtc (session_step env fuel depth) h (run_calls env fuel depth cs h).
Proof.
  induction cs as [|c cs IH]; intros h Hok; [apply rtc_refl|].
  simpl in Hok. apply andb_true_iff in Hok as [Hc Hok]. apply bool_decide_eq_true_1 in Hc.
  eapply rtc_l; [by apply session_call|]. by apply IH.
Qed.

(** A session: [o = JSONobj()], [o.key = 'v'], [a = jsonobj.loads(...)],
    [a.append(o)], [a.insert(0, 'x')], [a.extend(a)], [a.pop(1)]. *)
Definition test_session_env : module_env :=
  {| JSONobj_default := 1%positive; JSONarray_default := 2%positive |}.

Definition test_session : list call :=
  [CallJSONobjDefault; CallSetattr (VRef 3%positive) "key" (VStr "v");
   CallLoads (VStr test_loads_str); CallAppend (VRef 7%positive) (VRef 3%positive);
   CallInsert (VRef 7%positive) 0 (VStr "x"); CallExtend (VRef 7%positive) (VRef 7%positive);
   CallPop (VRef 7%positive) 1].

Lemma session_keeps_inv_witness :
  import_jsonobj empty_heap = (doctest_heap, Ok test_session_env) /\
  rtc (session_step test_session_env 10 recursion_limit) doctest_heap
      (run_calls test_session_env 10 recursion_limit test_session doctest_heap) /\
  jsonobj_inv (run_calls test_session_env 10 recursion_limit test_session doctest_heap).
Proof.
  assert (Himp : import_jsonobj empty_heap = (doctest_heap, Ok test_session_env)) by (vm_compute; reflexivity).
  assert (Hr := calls_ok_rtc test_session_env 10 recursion_limit test_session doctest_heap
                  ltac:(vm_compute; reflexivity)).
  split_and!; [exact Himp|exact Hr|exact (session_keeps_inv _ _ _ _ _ Himp Hr)].
Defined.
