(* ===== verification/Packaging.v ===== *)
(** * Packaging: [src/setup.py] and the attributes of [src/jsonobj.py]

    [setup.py] imports the module (line 5), reads [README.md] (lines
    8-10) and calls [setuptools.setup] with the package's metadata
    (lines 13-45), three fields of which come from the module's own
    attributes [__doc__], [__version__] and [__author__] (lines 1-4 of
    [src/jsonobj.py]).  [setup_py] is that call's keyword arguments as a
    record, the imported module and the README's text its parameters.

    The metadata is data for [pip]; the one piece of it that [pip]
    evaluates is [python_requires = '>=2.7, !=3.0.*'], a PEP 440 version
    specifier that decides on which interpreters the package installs
    ([specifier_admits]: comma-separated clauses, every one of which must
    hold; release segments compared with zero padding; [.*] a prefix
    match).  Pre-, post- and dev-releases, local versions, [~=] and [===]
    are not used by the file and not modelled. *)

From Stdlib Require Import Ascii String.
From stdpp Require Import base list strings.
From S2P Require Import Prelude.


(** ** The module's attributes and the [setup()] call *)

(** The attributes of [jsonobj] that [setup.py] reads. *)
Record module_attrs := {
  __doc__ : string;
  __version__ : string;
  __author__ : string
}.

(** Lines 1-4 of [src/jsonobj.py]: the docstring and two assignments. *)
Definition jsonobj_attrs : module_attrs := {|
  __doc__ := "Wrapper module to provide a simple property accessor for JSON objects.";
  __version__ := "0.1.0";
  __author__ := "skitchy"
|}.

(** The keyword arguments of [setuptools.setup]. *)
Record metadata := {
  name : string;
  version : string;
  py_modules : list string;
  python_requires : string;
  description : string;
  url : string;
  author : string;
  author_email : string;
  license : string;
  long_description : string;
  long_description_content_type : string;
  classifiers : list string;
  keywords : string;
  project_urls : list (string * string)
}.

(** [setup(...)] as [setup.py] calls it, with [jsonobj] the imported
    module and [readme] what [f.read()] returned on [README.md]. *)
Definition setup_py (jsonobj : module_attrs) (readme : string) : metadata := {|
  name := "jsonobj";
  version := jsonobj.(__version__);
  py_modules := ["jsonobj"%string];
  python_requires := ">=2.7, !=3.0.*";
  description := jsonobj.(__doc__);
  url := "https://github.com/skitschy/pyJSONobj";
  author := jsonobj.(__author__);
  author_email := "s1kitschy@gmail.com";
  license := "MIT";
  long_description := readme;
  long_description_content_type := "text/markdown";
  classifiers := [
    "Development Status :: 5 - Production/Stable";
    "License :: OSI Approved :: MIT License";
    "Intended Audience :: Developers";
    "Operating System :: OS Independent";
    "Programming Language :: Python";
    "Programming Language :: Python :: 2";
    "Programming Language :: Python :: 2.7";
    "Programming Language :: Python :: 3";
    "Programming Language :: Python :: 3.3";
    "Programming Language :: Python :: 3.5";
    "Programming Language :: Python :: 3.6";
    "Programming Language :: Python :: 3.7"]%string;
  keywords := "json";
  project_urls := [
    ("Documentation", "https://pyjsonobj.readthedocs.io/");
    ("Source", "https://github.com/skitschy/pyJSONobj")]%string
|}.

(** ** PEP 440 version specifiers *)

(** [s] cut at every [c]; [split_on c ""] is [[""]], as [str.split]. *)
Fixpoint split_on (c : ascii) (s : string) : list string :=
  match s with
  | EmptyString => [EmptyString]
  | String a s' =>
      if Ascii.eqb a c then EmptyString :: split_on c s'
      else match split_on c s' with
           | w :: ws => String a w :: ws
           | [] => [String a EmptyString]
           end
  end.

Fixpoint lstrip (s : string) : string :=
  match s with
  | String " "%char s' => lstrip s'
  | _ => s
  end.

Fixpoint rstrip (s : string) : string :=
  match s with
  | EmptyString => EmptyString
  | String a s' =>
      let r := rstrip s' in
      if Ascii.eqb a " "%char && String.eqb r ""%string then EmptyString else String a r
  end.

(** [str.strip()] on spaces. *)
Definition strip (s : string) : string := rstrip (lstrip s).

Definition digit_of (a : ascii) : option nat :=
  let n := nat_of_ascii a in
  if ((48 <=? n) && (n <=? 57))%nat then Some (n - 48)%nat else None.

(** A non-empty run of decimal digits. *)
Fixpoint parse_digits (acc : option nat) (s : string) : option nat :=
  match s with
  | EmptyString => acc
  | String a s' =>
      match digit_of a with
      | Some d => parse_digits (Some (10 * default 0 acc + d)) s'
      | None => None
      end
  end.

(** A release segment [N(.N)*]. *)
Definition parse_release (s : string) : option (list nat) :=
  mapM (parse_digits None) (split_on "."%char s).

Inductive spec_op := OpGe | OpLe | OpGt | OpLt | OpEq | OpNe | OpEqPrefix | OpNePrefix.

Record clause := { cl_op : spec_op; cl_release : list nat }.

(** Strip a trailing [.*]. *)
Definition wildcard (s : string) : option string :=
  let n := String.length s in
  if (2 <=? n)%nat && String.eqb (substring (n - 2) 2 s) ".*"%string
  then Some (substring 0 (n - 2) s) else None.

(** One clause: the operator, then a release, or for [==]/[!=] a
    release followed by [.*]. *)
Definition parse_clause (s : string) : option clause :=
  let simple op rest := (fun v => {| cl_op := op; cl_release := v |}) <$> parse_release rest in
  let eqne op opp rest :=
    match wildcard rest with
    | Some pre => (fun v => {| cl_op := opp; cl_release := v |}) <$> parse_release pre
    | None => simple op rest
    end in
  match s with
  | String ">"%char (String "="%char rest) => simple OpGe rest
  | String "<"%char (String "="%char rest) => simple OpLe rest
  | String "="%char (String "="%char rest) => eqne OpEq OpEqPrefix rest
  | String "!"%char (String "="%char rest) => eqne OpNe OpNePrefix rest
  | String ">"%char rest => simple OpGt rest
  | String "<"%char rest => simple OpLt rest
  | _ => None
  end.

(** The clauses of a specifier, as [SpecifierSet] splits it: at commas,
    stripped, empty pieces dropped; [None] if a clause does not parse. *)
Definition parse_specifier (spec : string) : option (list clause) :=
  mapM parse_clause (filter (fun c => c <> ""%string) (map strip (split_on ","%char spec))).

(** Segment by segment, on lists of one length. *)
Fixpoint lex_cmp (a b : list nat) : comparison :=
  match a, b with
  | x :: a', y :: b' => match Nat.compare x y with Eq => lex_cmp a' b' | c => c end
  | _, _ => Eq
  end.

(** Release segments compared as PEP 440 does, both padded with zeros
    to the longer length. *)
Definition release_cmp (a b : list nat) : comparison :=
  let n := Nat.max (length a) (length b) in
  lex_cmp (a ++ replicate (n - length a) 0) (b ++ replicate (n - length b) 0).

(** The first [length pre] segments of [v], padded with zeros. *)
Definition release_prefix (pre v : list nat) : list nat :=
  take (length pre) (v ++ replicate (length pre) 0).

Definition clause_admits (c : clause) (v : list nat) : bool :=
  let w := cl_release c in
  match cl_op c, release_cmp v w with
  | OpGe, Lt => false | OpGe, _ => true
  | OpLe, Gt => false | OpLe, _ => true
  | OpGt, Gt => true | OpGt, _ => false
  | OpLt, Lt => true | OpLt, _ => false
  | OpEq, Eq => true | OpEq, _ => false
  | OpNe, Eq => false | OpNe, _ => true
  | OpEqPrefix, _ => bool_decide (release_prefix w v = w)
  | OpNePrefix, _ => negb (bool_decide (release_prefix w v = w))
  end.

(** Whether [pip] installs under an interpreter of version [v]: every
    clause holds; [None] when the specifier does not parse. *)
Definition specifier_admits (spec : string) (v : list nat) : option bool :=
  (fun cs => forallb (fun c => clause_admits c v) cs) <$> parse_specifier spec.


(** ** Release comparison *)

Lemma release_cmp_cons x y a b :
  release_cmp (x :: a) (y :: b) = match Nat.compare x y with Eq => release_cmp a b | c => c end.
Proof. reflexivity. Qed.

Lemma lex_cmp_zeros a : lex_cmp a (replicate (length a) 0) <> Lt.
Proof. induction a as [|[|x] a IH]; simpl; done. Qed.

(** Trailing zeros do not count: a release is never below the empty one. *)
Lemma release_cmp_nil_r a : release_cmp a [] <> Lt.
Proof.
  unfold release_cmp. cbn [length app].
  rewrite Nat.max_0_r, Nat.sub_diag, Nat.sub_0_r, app_nil_r. apply lex_cmp_zeros.
Qed.

(** [python_requires] of [setup.py] parses into its two clauses. *)
Lemma setup_python_requires_clauses m readme :
  parse_specifier (python_requires (setup_py m readme)) =
    Some [{| cl_op := OpGe; cl_release := [2; 7] |}; {| cl_op := OpNePrefix; cl_release := [3; 0] |}].
Proof. vm_compute. reflexivity. Qed.

(** ** What the metadata promises *)

(** C34.  [pip] installs the package exactly on the interpreters from
    2.7 on, the 3.0 series excepted: for every version [x.y.rest],
    [python_requires] admits it iff [x.y] is at least [2.7] and not
    [3.0]. *)
Theorem python_requires_admits m readme x y rest :
  specifier_admits (python_requires (setup_py m readme)) (x :: y :: rest) =
    Some (bool_decide ((2 < x \/ (x = 2 /\ 7 <= y)) /\ ~ (x = 3 /\ y = 0))).
Proof.
  unfold specifier_admits. rewrite setup_python_requires_clauses. cbn [fmap option_fmap option_map].
  f_equal. cbn [forallb clause_admits cl_op cl_release].
  rewrite !release_cmp_cons.
  change (release_prefix [3; 0] (x :: y :: rest)) with [x; y].
  pose proof (release_cmp_nil_r rest).
  destruct (Nat.compare_spec x 2), (Nat.compare_spec y 7), (release_cmp rest []); simpl;
    repeat case_bool_decide; simplify_eq; try done; exfalso; naive_solver lia.
Qed.

