(* ===== verification/PyEval.v ===== *)
(** * Python's [eval] on the texts [repr] prints

    The two [test_repr] methods of [src/test_jsonobj.py] (lines 79-81
    and 206-208) check [eval(repr(x)) == x] in the test module, where
    the name [jsonobj] is the imported module.  As CPython does, [eval]
    first parses the whole text into an expression ([parse_expr]), then
    evaluates it on the heap ([eval_pexpr]).

    The language is the one [repr_val] prints: [None], [True], [False],
    decimal integer literals (no leading zeros) with an optional unary
    minus, string literals in either quote with the escapes
    [unicode_repr] writes (a backslash before a backslash or a quote,
    [\t], [\n], [\r], [\xhh]), list, tuple and dict displays (a trailing
    comma allowed; one item in parentheses without a comma is just that
    item), and the calls [jsonobj.JSONobj(e)] and [jsonobj.JSONarray(e)].
    Spaces, tabs and line breaks may separate the tokens.  Displays are
    built after their items, evaluated left to right; a dict display
    keeps the first position and the last value of a repeated key; the
    calls run the constructors of [Convert].  Text outside this
    language is a [SyntaxError] of Python's, here [None] from the parser
    and [Wrong] from [py_eval]; so is a dict key that is not a [str].

    The parser runs on a budget [fuel]; [py_eval] gives it twice the
    text's length plus two, which [eval_repr_tree] shows is enough for
    every text [repr] prints.  [repr_eval_roundtrip] (C16) carries this
    to the wrappers: [eval(w.__repr__())] builds a new wrapper of [w]'s
    class over a fresh value that denotes the same tree as [w]'s slot. *)

From Stdlib Require Import ZArith Ascii String Lia.
From stdpp Require Import base list strings gmap.
From S2P Require Import Prelude PyObjects PyBuiltins Fixtures Convert JsonText Codec Repr.

(** ** Expressions *)

Inductive pexpr :=
  | PNone
  | PBool (b : bool)
  | PInt (z : Z)
  | PStr (s : string)
  | PList (xs : list pexpr)
  | PTuple (xs : list pexpr)
  | PDict (kvs : list (pexpr * pexpr))
  | PCallJSONobj (arg : pexpr)
  | PCallJSONarray (arg : pexpr).

(** ** The tokens *)

(** The body of a string literal opened by [q], up to its closing
    quote, with its escapes decoded. *)
Fixpoint lex_str (q : ascii) (s : list ascii) : option (string * list ascii) :=
  match s with
  | [] => None
  | c :: s' =>
      if Ascii.eqb c q then Some (EmptyString, s')
      else if Ascii.eqb c bslash then
        match s' with
        | e :: s'' =>
            let more x := (fun '(w, r) => (String x w, r)) <$> lex_str q s'' in
            if Ascii.eqb e "n"%char then more (ascii_of_nat 10)
            else if Ascii.eqb e "t"%char then more (ascii_of_nat 9)
            else if Ascii.eqb e "r"%char then more (ascii_of_nat 13)
            else if Ascii.eqb e "x"%char then
              match s'' with
              | a :: b :: s3 =>
                  match hex_val a, hex_val b with
                  | Some x, Some y =>
                      (fun '(w, r) => (String (ascii_of_nat (16 * x + y)) w, r)) <$> lex_str q s3
                  | _, _ => None
                  end
              | _ => None
              end
            else if Ascii.eqb e bslash || Ascii.eqb e "'"%char || Ascii.eqb e dq then more e
            else None
        | [] => None
        end
      else (fun '(w, r) => (String c w, r)) <$> lex_str q s'
  end.

(** A decimal literal: [0], or a non-zero digit and more digits. *)
Definition lex_int (s : list ascii) : option (Z * list ascii) :=
  match s with
  | c :: s' =>
      if bool_decide (c = "0"%char) then
        match s' with
        | d :: _ => if is_digit d then None else Some (0%Z, s')
        | [] => Some (0%Z, s')
        end
      else if is_digit c then
        let '(d, r) := span_digits s in Some (Z.of_uint d, r)
      else None
  | [] => None
  end.

(** A letter, a digit or [_]: what continues a name. *)
Definition is_name_char (c : ascii) : bool :=
  let n := nat_of_ascii c in
  is_digit c || ((65 <=? n) && (n <=? 90)) || ((97 <=? n) && (n <=? 122)) || (n =? 95).

(** The keyword [kw] at the head of [s], as a whole name. *)
Definition lex_keyword (kw : string) (s : list ascii) : option (list ascii) :=
  match strip_prefix (list_ascii_of_string kw) s with
  | Some (c :: r) => if is_name_char c then None else Some (c :: r)
  | Some [] => Some []
  | None => None
  end.

(** [jsonobj.name(]: the attribute of the module, then the call's
    parenthesis. *)
Definition lex_call (name : string) (s : list ascii) : option (list ascii) :=
  match strip_prefix (list_ascii_of_string "jsonobj") s with
  | Some r =>
      match skip_ws r with
      | c :: r1 =>
          if bool_decide (c = "."%char) then
            match strip_prefix (list_ascii_of_string name) (skip_ws r1) with
            | Some r2 =>
                match skip_ws r2 with
                | c' :: r3 => if bool_decide (c' = "("%char) then Some r3 else None
                | [] => None
                end
            | None => None
            end
          else None
      | [] => None
      end
  | None => None
  end.

(** ** The parser *)

(** [parse_seq close] reads the items of a list display or of a
    parenthesised form up to [close], and says whether a comma was seen;
    [parse_dict] reads [key: value] items up to the closing brace. *)
Fixpoint parse_expr (fuel : nat) (s : list ascii) {struct fuel} : option (pexpr * list ascii) :=
  match fuel with
  | O => None
  | S n =>
      match skip_ws s with
      | [] => None
      | c :: s1 =>
          if bool_decide (c = "["%char) then
            (fun '(xs, _, r) => (PList xs, r)) <$> parse_seq n "]"%char s1
          else if bool_decide (c = "("%char) then
            (fun '(xs, comma, r) =>
               match xs, comma with
               | [x], false => (x, r)
               | _, _ => (PTuple xs, r)
               end) <$> parse_seq n ")"%char s1
          else if bool_decide (c = "{"%char) then
            (fun '(kvs, r) => (PDict kvs, r)) <$> parse_dict n s1
          else if bool_decide (c = "'"%char) || bool_decide (c = dq) then
            (fun '(w, r) => (PStr w, r)) <$> lex_str c s1
          else if bool_decide (c = "-"%char) then
            (fun '(z, r) => (PInt (- z), r)) <$> lex_int (skip_ws s1)
          else if is_digit c then
            (fun '(z, r) => (PInt z, r)) <$> lex_int (c :: s1)
          else
            match lex_keyword "None" (c :: s1) with
            | Some r => Some (PNone, r)
            | None =>
            match lex_keyword "True" (c :: s1) with
            | Some r => Some (PBool true, r)
            | None =>
            match lex_keyword "False" (c :: s1) with
            | Some r => Some (PBool false, r)
            | None =>
            match lex_call "JSONobj" (c :: s1) with
            | Some r =>
                '(e, r') ← parse_expr n r;
                match skip_ws r' with
                | c' :: r'' => if bool_decide (c' = ")"%char) then Some (PCallJSONobj e, r'') else None
                | [] => None
                end
            | None =>
            match lex_call "JSONarray" (c :: s1) with
            | Some r =>
                '(e, r') ← parse_expr n r;
                match skip_ws r' with
                | c' :: r'' => if bool_decide (c' = ")"%char) then Some (PCallJSONarray e, r'') else None
                | [] => None
                end
            | None => None
            end end end end end
      end
  end
with parse_seq (fuel : nat) (close : ascii) (s : list ascii) {struct fuel} :
    option (list pexpr * bool * list ascii) :=
  match fuel with
  | O => None
  | S n =>
      match skip_ws s with
      | [] => None
      | c :: s1 =>
          if bool_decide (c = close) then Some ([], false, s1) else
          '(x, r) ← parse_expr n (c :: s1);
          match skip_ws r with
          | c2 :: r2 =>
              if bool_decide (c2 = close) then Some ([x], false, r2)
              else if bool_decide (c2 = ","%char) then
                (fun '(xs, _, r3) => (x :: xs, true, r3)) <$> parse_seq n close r2
              else None
          | [] => None
          end
      end
  end
with parse_dict (fuel : nat) (s : list ascii) {struct fuel} :
    option (list (pexpr * pexpr) * list ascii) :=
  match fuel with
  | O => None
  | S n =>
      match skip_ws s with
      | [] => None
      | c :: s1 =>
          if bool_decide (c = "}"%char) then Some ([], s1) else
          '(k, r) ← parse_expr n (c :: s1);
          match skip_ws r with
          | c1 :: r1 =>
              if bool_decide (c1 = ":"%char) then
                '(v, r2) ← parse_expr n r1;
                match skip_ws r2 with
                | c2 :: r3 =>
                    if bool_decide (c2 = "}"%char) then Some ([(k, v)], r3)
                    else if bool_decide (c2 = ","%char) then
                      (fun '(kvs, r4) => ((k, v) :: kvs, r4)) <$> parse_dict n r3
                    else None
                | [] => None
                end
              else None
          | [] => None
          end
      end
  end.

(** ** Evaluation *)

(** The items of a dict display, the keys being [str]s, entered in
    order as [d[k] = v] does. *)
Fixpoint dict_display (acc : list (string * val)) (kvs : list (val * val)) : option (list (string * val)) :=
  match kvs with
  | [] => Some acc
  | (VStr k, v) :: kvs' => dict_display (dict_setitem k v acc) kvs'
  | _ :: _ => None
  end.

Definition of_opt {A} (o : option A) : PyM A :=
  match o with Some a => py_ret a | None => py_wrong end.

Fixpoint eval_pexpr (e : pexpr) : PyM val :=
  match e with
  | PNone => py_ret VNone
  | PBool b => py_ret (VBool b)
  | PInt z => py_ret (VInt z)
  | PStr s => py_ret (VStr s)
  | PList xs =>
      let* vs := py_mapM eval_pexpr xs in
      let* l := alloc (OList vs) in py_ret (VRef l)
  | PTuple xs =>
      let* vs := py_mapM eval_pexpr xs in
      let* l := alloc (OTuple vs) in py_ret (VRef l)
  | PDict kvs =>
      let* pairs := py_mapM (fun '(k, v) => let* kv := eval_pexpr k in
                                            let* vv := eval_pexpr v in py_ret (kv, vv)) kvs in
      let* items := of_opt (dict_display [] pairs) in
      let* d := alloc (ODict items) in py_ret (VRef d)
  | PCallJSONobj arg => let* v := eval_pexpr arg in JSONobj_new v
  | PCallJSONarray arg => let* v := eval_pexpr arg in JSONarray_new v
  end.

(** [eval(s)]: one expression, nothing after it but whitespace. *)
Definition py_eval (s : val) : PyM val :=
  match s with
  | VStr str =>
      let cs := list_ascii_of_string str in
      match parse_expr (S (S (2 * length cs))) cs with
      | Some (e, r) => if bool_decide (skip_ws r = []) then eval_pexpr e else py_wrong
      | None => py_wrong
      end
  | _ => py_raise TypeError
  end.

(** ** What [repr] prints, as an expression *)

(** The expression [repr_tree t] spells. *)
Fixpoint expr_of_tree (t : json) : pexpr :=
  match t with
  | JNull => PNone
  | JBool b => PBool b
  | JInt z => PInt z
  | JStr s => PStr s
  | JArr xs => PList (map expr_of_tree xs)
  | JObj kvs => PDict (map (fun '(k, x) => (PStr k, expr_of_tree x)) kvs)
  end.

(** [v] denotes [t] in [h], wherever its containers are. *)
Fixpoint tree_val (h : heap) (v : val) (t : json) {struct t} : Prop :=
  match t with
  | JNull => v = VNone
  | JBool b => v = VBool b
  | JInt z => v = VInt z
  | JStr s => v = VStr s
  | JArr xs =>
      exists (l : loc) vs, v = VRef l /\ hmem h !! l = Some (OList vs) /\ all2 (tree_val h) vs xs
  | JObj kvs =>
      exists (l : loc) items, v = VRef l /\ hmem h !! l = Some (ODict items) /\
        all2_kv (tree_val h) items kvs
  end.

(** The text that follows a value inside [repr]'s output. *)
Definition follows (r : list ascii) : Prop :=
  match r with
  | [] => True
  | c :: _ => c = ","%char \/ c = "]"%char \/ c = "}"%char \/ c = ")"%char \/ c = ":"%char
  end.

(** Every address in use is below [hnext]: what [alloc] needs to leave
    the objects in place. *)
Definition fresh_ok (h : heap) : Prop := map_Forall (fun l _ => (l < hnext h)%positive) (hmem h).

(** [repr_tree t] followed by any text that may follow a value is
    parsed back as [expr_of_tree t], on a budget of twice the tree's
    size. *)
Definition reads_py (t : json) : Prop :=
  forall n r, 2 * json_size t <= n -> follows r -> parse_expr n (repr_tree t ++ r) = Some (expr_of_tree t, r).

(** [expr_of_tree t] evaluates, from any heap whose addresses in use
    are below [hnext], to a value denoting [t], only adding objects. *)
Definition eval_ok (t : json) : Prop :=
  forall h, fresh_ok h -> exists h' v,
    eval_pexpr (expr_of_tree t) h = (h', Ok v) /\ fresh_ok h' /\ hmem h ⊆ hmem h' /\ tree_val h' v t.

(** ** The lexer reads back what [repr] writes *)

Lemma repr_quote_cases cs : repr_quote cs = "'"%char \/ repr_quote cs = dq.
Proof. unfold repr_quote. destruct (_ && _); auto. Qed.

Lemma lex_repr_char q c s :
  q = "'"%char \/ q = dq ->
  lex_str q (repr_char q c ++ s) = (fun '(w, r) => (String c w, r)) <$> lex_str q s.
Proof. intros [-> | ->]; destruct c as [[] [] [] [] [] [] [] []]; reflexivity. Qed.

Lemma lex_repr_chars q cs r :
  q = "'"%char \/ q = dq ->
  lex_str q (concat (map (repr_char q) cs) ++ q :: r) = Some (string_of_list_ascii cs, r).
Proof.
  intros Hq. induction cs as [|c cs IH]; simpl.
  - by rewrite Ascii.eqb_refl.
  - rewrite <- app_assoc, lex_repr_char, IH by done. reflexivity.
Qed.

Lemma follows_head c r :
  follows (c :: r) -> is_digit c = false /\ is_name_char c = false /\ is_ws c = false.
Proof. by intros [-> | [-> | [-> | [-> | ->]]]]. Qed.

Lemma digit_not_ws c : is_digit c = true -> is_ws c = false.
Proof. destruct c as [[] [] [] [] [] [] [] []]; try discriminate; reflexivity. Qed.

(** [span_digits] stops at the first character that is not a digit. *)
Lemma span_uint_follows d r : follows r -> span_digits (uint_text d ++ r) = (d, r).
Proof.
  intros Hr. induction d; simpl; try (by rewrite IHd).
  destruct r as [|c r]; [done|]. simpl. by rewrite (proj1 (follows_head c r Hr)).
Qed.

(** [int.__repr__] read back by the lexer. *)
Lemma parse_int_text n z r : follows r -> parse_expr (S n) (int_text z ++ r) = Some (PInt z, r).
Proof.
  intros Hr. destruct z as [|p|p]; unfold int_text; cbn [Z.to_int].
  - cbn -[skip_ws]. rewrite skip_ws_head by done. repeat case_bool_decide; try congruence.
    cbn. destruct r as [|c r]; [done|]. by rewrite (proj1 (follows_head c r Hr)).
  - destruct (pos_uint_lead p) as [Hn Hd].
    destruct (uint_text_lead _ Hn Hd) as (c & s & Hs & Hc & Hc0).
    pose proof (span_uint_follows (Pos.to_uint p) r Hr) as Hsp. rewrite Hs in Hsp |- *. cbn [app] in *.
    cbn -[skip_ws span_digits]. rewrite skip_ws_head by (by apply digit_not_ws).
    rewrite !bool_decide_eq_false_2 by (apply digit_ne; done). cbn [orb]. rewrite Hc.
    rewrite bool_decide_eq_false_2 by done. rewrite Hsp. cbn. by rewrite Z_of_uint_pos.
  - destruct (pos_uint_lead p) as [Hn Hd].
    destruct (uint_text_lead _ Hn Hd) as (c & s & Hs & Hc & Hc0).
    pose proof (span_uint_follows (Pos.to_uint p) r Hr) as Hsp. rewrite Hs in Hsp |- *. cbn [app] in *.
    cbn -[skip_ws span_digits]. rewrite skip_ws_head by done. repeat case_bool_decide; try congruence.
    cbn -[skip_ws span_digits]. rewrite skip_ws_head by (by apply digit_not_ws).
    unfold lex_int. rewrite bool_decide_eq_false_2 by done. rewrite Hc, Hsp. cbn. by rewrite Z_of_uint_pos.
Qed.

(** [unicode_repr] read back by the lexer. *)
Lemma parse_repr_str n s r : 1 <= n -> parse_expr n (repr_str s ++ r) = Some (PStr s, r).
Proof.
  intros Hn. destruct n as [|n]; [lia|]. unfold repr_str. set (cs := list_ascii_of_string s). set (q := repr_quote cs).
  assert (Hq : q = "'"%char \/ q = dq) by apply repr_quote_cases.
  cbn [app]. rewrite <- app_assoc. cbn [app].
  cbn -[skip_ws lex_str]. rewrite skip_ws_head by (by destruct Hq as [-> | ->]).
  clearbody q. destruct Hq as [-> | ->]; cbn -[lex_str concat map repr_char];
    rewrite lex_repr_chars by auto; cbn; unfold cs; by rewrite string_of_list_ascii_of_string.
Qed.

(** The first character of [repr_tree t]: a token's, never a space or
    a closing bracket. *)
Lemma repr_tree_head t :
  exists c s, repr_tree t = c :: s /\ is_ws c = false /\
    c <> "]"%char /\ c <> "}"%char /\ c <> ")"%char.
Proof.
  destruct t as [| [] | [|p|p] | str | [|? ?] | [|[? ?] ?]]; cbn [repr_tree];
    try (eexists _, _; split; [reflexivity|split; [reflexivity|split_and!; ascii_neq]]).
  - destruct (uint_text_lead _ (proj1 (pos_uint_lead p)) (proj2 (pos_uint_lead p))) as (c & s & Hs & Hc & _).
    unfold int_text; simpl; rewrite Hs. eexists _, _. split; [reflexivity|].
    split; [by apply digit_not_ws|]. split_and!; intros ->; discriminate.
  - unfold repr_str. destruct (repr_quote_cases (list_ascii_of_string str)) as [Hq | Hq]; rewrite Hq;
      (eexists _, _; split; [reflexivity|split; [reflexivity|split_and!; ascii_neq]]).
Qed.

Lemma skip_ws_repr t r : skip_ws (repr_tree t ++ r) = repr_tree t ++ r.
Proof. destruct (repr_tree_head t) as (c & s & -> & Hws & _). by apply skip_ws_head. Qed.

Lemma parse_expr_space n s : parse_expr n (" "%char :: s) = parse_expr n s.
Proof. by destruct n. Qed.
Lemma parse_seq_space n close s : parse_seq n close (" "%char :: s) = parse_seq n close s.
Proof. by destruct n. Qed.
Lemma parse_dict_space n s : parse_dict n (" "%char :: s) = parse_dict n s.
Proof. by destruct n. Qed.

Lemma follows_tail (close : ascii) cs r :
  close = "]"%char \/ close = ")"%char \/ close = "}"%char -> follows (items_tail cs ++ close :: r).
Proof. destruct cs; simpl; [|by left]. intros [-> | [-> | ->]]; simpl; auto. Qed.

(** The items of a list or tuple display, read up to [close]. *)
Lemma parse_seq_items close xs r n :
  close = "]"%char \/ close = ")"%char -> Forall reads_py xs -> xs <> [] ->
  1 + 2 * sum_list_with json_size xs <= n -> follows r ->
  parse_seq n close (join (map repr_tree xs) ++ close :: r) =
    Some (map expr_of_tree xs, bool_decide (1 < length xs), r).
Proof.
  intros Hcl Hall. revert n. induction Hall as [|x xs Hx Hxs IH]; intros n Hne Hn Hr; [done|].
  destruct n as [|n]; [lia|]. cbn [sum_list_with] in Hn.
  pose proof (follows_tail close (map repr_tree xs) r ltac:(tauto)) as Hfol.
  assert (Hcw : is_ws close = false) by (by destruct Hcl as [-> | ->]).
  assert (Hcc : ","%char <> close) by (destruct Hcl as [-> | ->]; ascii_neq).
  destruct (repr_tree_head x) as (c & s & Hc & Hws & Hc1 & Hc2 & Hc3).
  cbn [map join]. rewrite <- app_assoc, Hc. cbn -[skip_ws parse_expr]. rewrite skip_ws_head by done.
  rewrite bool_decide_eq_false_2 by (destruct Hcl as [-> | ->]; done).
  change (c :: s ++ ?rest) with ((c :: s) ++ rest). rewrite <- Hc.
  rewrite Hx by (done || lia). cbn [mbind option_bind].
  destruct xs as [|y ys].
  - cbn -[skip_ws]. rewrite skip_ws_head by done. rewrite bool_decide_eq_true_2 by done. reflexivity.
  - cbn [map]. rewrite items_tail_cons. cbn -[skip_ws parse_seq]. rewrite skip_ws_head by done.
    rewrite bool_decide_eq_false_2 by done.
    rewrite bool_decide_eq_true_2 by done. rewrite parse_seq_space, <- app_assoc.
    pose proof (IH n ltac:(done) ltac:(cbn [sum_list_with] in *; pose proof (json_size_pos x); lia) Hr) as IH'.
    cbn [map join] in IH'. rewrite <- app_assoc in IH'. rewrite IH'. cbn.
    rewrite bool_decide_eq_true_2 by (simpl; lia). reflexivity.
Qed.

Lemma repr_str_head k : exists q s, repr_str k = q :: s /\ (q = "'"%char \/ q = dq).
Proof. unfold repr_str. eexists _, _. split; [reflexivity|apply repr_quote_cases]. Qed.

(** The items of a dict display, read up to the closing brace. *)
Lemma parse_dict_items kvs r n :
  Forall (fun kv => reads_py kv.2) kvs -> kvs <> [] ->
  1 + 2 * sum_list_with (fun '(_, v) => S (json_size v)) kvs <= n -> follows r ->
  parse_dict n (join (map (fun '(k, x) => repr_str k ++ [":"%char; " "%char] ++ repr_tree x) kvs) ++
                "}"%char :: r) =
    Some (map (fun '(k, x) => (PStr k, expr_of_tree x)) kvs, r).
Proof.
  intros Hall. revert n. induction Hall as [|[k x] kvs Hx Hkvs IH]; intros n Hne Hn Hr; [done|].
  cbn [sum_list_with snd] in Hn, Hx. pose proof (json_size_pos x).
  destruct n as [|n]; [lia|].
  pose proof (follows_tail "}"%char
    (map (fun '(k, x) => repr_str k ++ [":"%char; " "%char] ++ repr_tree x) kvs) r ltac:(tauto)) as Hfol.
  destruct (repr_str_head k) as (q & s & Hs & Hq).
  cbn [map join]. rewrite <- !app_assoc, Hs. cbn -[skip_ws parse_expr repr_str repr_tree].
  rewrite skip_ws_head by (by destruct Hq as [-> | ->]).
  rewrite bool_decide_eq_false_2 by (destruct Hq as [-> | ->]; ascii_neq).
  change (q :: s ++ ?rest) with ((q :: s) ++ rest). rewrite <- Hs, parse_repr_str by lia.
  cbn -[skip_ws parse_expr parse_dict repr_str repr_tree]. rewrite skip_ws_head by done.
  cbn -[skip_ws parse_expr parse_dict repr_str repr_tree]. rewrite bool_decide_eq_true_2 by done.
  rewrite parse_expr_space, Hx by first [lia | apply follows_tail; tauto]. cbn [mbind option_bind].
  destruct kvs as [|[k' x'] kvs].
  - reflexivity.
  - cbn [map]. rewrite items_tail_cons. cbn -[skip_ws parse_dict repr_str repr_tree].
    rewrite skip_ws_head by done. cbn -[skip_ws parse_dict repr_str repr_tree].
    rewrite bool_decide_eq_false_2, bool_decide_eq_true_2 by (done || ascii_neq).
    rewrite parse_dict_space, <- !app_assoc.
    pose proof (IH n ltac:(done) ltac:(cbn [sum_list_with] in *; lia) Hr) as IH'.
    cbn [map join] in IH'. rewrite <- !app_assoc in IH'. cbn [app] in IH' |- *. rewrite IH'. reflexivity.
Qed.

(** Every text [repr] prints for a tree is parsed back as its
    expression. *)
Lemma parse_repr_tree t : reads_py t.
Proof.
  induction t as [| b | z | s | xs IH | kvs IH] using json_ind'; intros n r Hn Hr;
    destruct n as [|n]; cbn [json_size] in Hn; try lia.
  - simpl. unfold lex_keyword. simpl. destruct r as [|c r]; [done|].
    by rewrite (proj1 (proj2 (follows_head c r Hr))).
  - destruct b; simpl; unfold lex_keyword; simpl; destruct r as [|c r]; try done;
      by rewrite (proj1 (proj2 (follows_head c r Hr))).
  - apply parse_int_text, Hr.
  - cbn [repr_tree]. apply parse_repr_str; lia.
  - destruct xs as [|x xs].
    + destruct n; [cbn in Hn; lia|reflexivity].
    + cbn [repr_tree app parse_expr]. rewrite skip_ws_head by done. cbn -[parse_seq join skip_ws].
      rewrite bool_decide_eq_true_2 by done. rewrite <- app_assoc. cbn [app].
      pose proof (parse_seq_items "]"%char (x :: xs) r n ltac:(auto) IH ltac:(done) ltac:(lia) Hr) as E.
      cbn [map] in E. rewrite E. reflexivity.
  - destruct kvs as [|[k x] kvs].
    + destruct n; [cbn in Hn; lia|reflexivity].
    + cbn [repr_tree app parse_expr]. rewrite skip_ws_head by done.
      cbn -[parse_dict join repr_str repr_tree skip_ws].
      rewrite !bool_decide_eq_false_2, bool_decide_eq_true_2 by (done || ascii_neq).
      rewrite <- app_assoc. cbn [app].
      pose proof (parse_dict_items ((k, x) :: kvs) r n IH ltac:(done) ltac:(cbn [sum_list_with] in *; lia) Hr) as E.
      cbn [map app] in E |- *. rewrite E. reflexivity.
Qed.

(** ** The budget [py_eval] gives is enough *)

Lemma length_items_tail cs : length (items_tail cs) = sum_list_with (fun c => 2 + length c) cs.
Proof.
  induction cs as [|c cs IH]; [done|].
  rewrite items_tail_cons. cbn [length sum_list_with]. rewrite length_app, IH. lia.
Qed.

Lemma length_repr_str s : 2 <= length (repr_str s).
Proof. unfold repr_str. simpl. rewrite length_app. simpl. lia. Qed.

(** A tree's text is at least as long as the tree is large. *)
Lemma json_size_repr t : json_size t <= length (repr_tree t).
Proof.
  induction t as [| b | z | s | xs IH | kvs IH] using json_ind'; cbn [json_size];
    try match goal with
        | |- 1 <= length (repr_tree ?t) => destruct (repr_tree_head t) as (c & w & -> & _); simpl; lia
        end.
  - destruct xs as [|x xs]; [simpl; lia|]. apply Forall_cons in IH as [Hx Hxs].
    cbn [repr_tree json_size sum_list_with map join]. cbn [length]. rewrite !length_app, length_items_tail.
    cbn [length]. enough (sum_list_with json_size xs <= sum_list_with (fun c => 2 + length c) (map repr_tree xs)) by lia.
    induction Hxs as [|y ys Hy Hys IHys]; [done|]. cbn [sum_list_with map]. lia.
  - destruct kvs as [|[k x] kvs]; [simpl; lia|]. apply Forall_cons in IH as [Hx Hkvs]. cbn [snd] in Hx.
    cbn [repr_tree json_size sum_list_with map join]. cbn [length]. rewrite !length_app, length_items_tail.
    pose proof (length_repr_str k). cbn [length].
    enough (sum_list_with (fun '(_, v) => S (json_size v)) kvs <=
            sum_list_with (fun c => 2 + length c)
              (map (fun '(k, x) => repr_str k ++ [":"%char; " "%char] ++ repr_tree x) kvs)) by lia.
    induction Hkvs as [|[k' y] ys Hy Hys IHys]; [done|]. cbn [snd] in Hy. cbn [sum_list_with map].
    rewrite !length_app. pose proof (length_repr_str k'). cbn [length]. lia.
Qed.

(** ** Evaluation builds the tree *)

Lemma fresh_alloc h o :
  fresh_ok h ->
  fresh_ok (heap_alloc h o) /\ hmem h ⊆ hmem (heap_alloc h o) /\ hmem (heap_alloc h o) !! hnext h = Some o.
Proof.
  intros Hf. unfold heap_alloc, fresh_ok in *; simpl. split_and!.
  - apply map_Forall_insert_2; [lia|]. intros l x Hl. specialize (Hf l x Hl). simpl in Hf. lia.
  - apply insert_subseteq. destruct (hmem h !! hnext h) eqn:E; [|done]. apply Hf in E. lia.
  - apply lookup_insert_eq.
Qed.

Lemma tree_val_mono h h' t : hmem h ⊆ hmem h' -> forall v, tree_val h v t -> tree_val h' v t.
Proof.
  intros Hsub. induction t as [| | | | xs IH | kvs IH] using json_ind'; intros v; simpl; try done.
  - intros (l & vs & -> & Hl & Hall). exists l, vs. split_and!; [done|by eapply lookup_weaken|].
    eapply all2_Forall_impl; [exact IH| |exact Hall]. intros v' x IHx. apply IHx.
  - intros (l & items & -> & Hl & Hall). exists l, items. split_and!; [done|by eapply lookup_weaken|].
    eapply all2_kv_Forall_impl; [exact IH| |exact Hall]. intros v' k x IHx. apply IHx.
Qed.

Lemma all2_tree_val_mono h h' vs xs : hmem h ⊆ hmem h' -> all2 (tree_val h) vs xs -> all2 (tree_val h') vs xs.
Proof.
  intros Hsub. revert vs. induction xs as [|x xs IH]; intros [|v vs]; simpl; try done.
  intros [Hv Hr]. split; [by apply (tree_val_mono h)|by apply IH].
Qed.

Lemma all2_kv_tree_val_mono h h' items kvs :
  hmem h ⊆ hmem h' -> all2_kv (tree_val h) items kvs -> all2_kv (tree_val h') items kvs.
Proof.
  intros Hsub. revert items. induction kvs as [|[k x] kvs IH]; intros [|[k' v] items]; simpl; try done.
  intros (-> & Hv & Hr). split_and!; [done|by apply (tree_val_mono h)|by apply IH].
Qed.

(** The items of a list display, left to right. *)
Lemma eval_items xs :
  Forall eval_ok xs -> forall h, fresh_ok h -> exists h' vs,
    py_mapM eval_pexpr (map expr_of_tree xs) h = (h', Ok vs) /\ fresh_ok h' /\ hmem h ⊆ hmem h' /\
    all2 (tree_val h') vs xs.
Proof.
  induction 1 as [|x xs Hx Hxs IH]; intros h Hf.
  - exists h, []. split_and!; done.
  - destruct (Hx h Hf) as (h1 & v & E1 & Hf1 & S1 & T1).
    destruct (IH h1 Hf1) as (h2 & vs & E2 & Hf2 & S2 & T2).
    exists h2, (v :: vs). cbn [map]. rewrite py_mapM_cons. unfold py_bind, py_ret. rewrite E1, E2.
    split_and!; [done|done|by transitivity (hmem h1)|]. split; [by apply (tree_val_mono h1)|done].
Qed.

(** The items of a dict display: each key, then its value. *)
Lemma eval_members kvs :
  Forall (fun kv => eval_ok kv.2) kvs -> forall h, fresh_ok h -> exists h' items,
    py_mapM (fun '(k, v) => let* kv := eval_pexpr k in let* vv := eval_pexpr v in py_ret (kv, vv))
      (map (fun '(k, x) => (PStr k, expr_of_tree x)) kvs) h =
      (h', Ok (map (fun '(k, v) => (VStr k, v)) items)) /\
    fresh_ok h' /\ hmem h ⊆ hmem h' /\ all2_kv (tree_val h') items kvs.
Proof.
  induction 1 as [|[k x] kvs Hx Hkvs IH]; intros h Hf.
  - exists h, []. split_and!; done.
  - cbn [snd] in Hx. destruct (Hx h Hf) as (h1 & v & E1 & Hf1 & S1 & T1).
    destruct (IH h1 Hf1) as (h2 & items & E2 & Hf2 & S2 & T2).
    exists h2, ((k, v) :: items). cbn [map]. rewrite py_mapM_cons. unfold py_bind, py_ret.
    cbn [eval_pexpr]. unfold py_ret. rewrite E1. unfold py_bind, py_ret in E2. rewrite E2.
    split_and!; [done|done|by transitivity (hmem h1)|]. split_and!; [done|by apply (tree_val_mono h1)|done].
Qed.

(** A dict display with distinct keys keeps them in order. *)
Lemma dict_display_fresh acc items :
  NoDup (map fst (acc ++ items)) ->
  dict_display acc (map (fun '(k, v) => (VStr k, v)) items) = Some (acc ++ items).
Proof.
  revert acc. induction items as [|[k v] items IH]; intros acc Hnd; simpl; [by rewrite app_nil_r|].
  rewrite map_app in Hnd. cbn [map fst] in Hnd.
  rewrite dict_setitem_fresh.
  - rewrite IH; [by rewrite <- app_assoc|]. rewrite <- app_assoc, map_app. exact Hnd.
  - apply NoDup_app in Hnd as (_ & Hdis & _). intros Hk. by apply (Hdis k); [|left].
Qed.

Lemma eval_tree t : json_wf t = true -> eval_ok t.
Proof.
  induction t as [| b | z | s | xs IH | kvs IH] using json_ind'; intros Hwf h Hf;
    try (exists h; eexists; split_and!; [reflexivity|done|done|reflexivity]).
  - apply json_wf_arr in Hwf.
    assert (Hev : Forall eval_ok xs).
    { eapply Forall_impl; [apply Forall_and; split; [exact IH|exact Hwf]|]. by intros x [Hx Hw]; apply Hx. }
    destruct (eval_items xs Hev h Hf) as (h1 & vs & E1 & Hf1 & S1 & T1).
    destruct (fresh_alloc h1 (OList vs) Hf1) as (Hf2 & S2 & L2).
    exists (heap_alloc h1 (OList vs)), (VRef (hnext h1)). cbn [expr_of_tree eval_pexpr].
    unfold py_bind, alloc, py_ret. rewrite E1. split_and!; [done|done|by transitivity (hmem h1)|].
    exists (hnext h1), vs. split_and!; [done|done|by apply (all2_tree_val_mono h1)].
  - apply json_wf_obj in Hwf as [Hnd Hwf].
    assert (Hev : Forall (fun kv => eval_ok kv.2) kvs).
    { eapply Forall_impl; [apply Forall_and; split; [exact IH|exact Hwf]|]. by intros x [Hx Hw]; apply Hx. }
    destruct (eval_members kvs Hev h Hf) as (h1 & items & E1 & Hf1 & S1 & T1).
    assert (Hd : dict_display [] (map (fun '(k, v) => (VStr k, v)) items) = Some items).
    { apply (dict_display_fresh []). simpl. by rewrite (all2_kv_keys _ _ _ T1). }
    destruct (fresh_alloc h1 (ODict items) Hf1) as (Hf2 & S2 & L2).
    exists (heap_alloc h1 (ODict items)), (VRef (hnext h1)). cbn [expr_of_tree eval_pexpr].
    unfold py_bind, alloc, py_ret in E1 |- *. rewrite E1. cbn [of_opt]. rewrite Hd. unfold py_ret.
    split_and!; [done|done|by transitivity (hmem h1)|].
    exists (hnext h1), items. split_and!; [done|done|by apply (all2_kv_tree_val_mono h1)].
Qed.

(** [eval] of the text [repr] prints for a tree builds that tree. *)
Lemma eval_repr_tree t h :
  json_wf t = true -> fresh_ok h -> exists h' v,
    py_eval (VStr (string_of_list_ascii (repr_tree t))) h = (h', Ok v) /\
    fresh_ok h' /\ hmem h ⊆ hmem h' /\ tree_val h' v t.
Proof.
  intros Hwf Hf. unfold py_eval. rewrite list_ascii_of_string_of_list_ascii.
  pose proof (json_size_repr t).
  pose proof (parse_repr_tree t (S (S (2 * length (repr_tree t)))) [] ltac:(lia) I) as E.
  rewrite app_nil_r in E. rewrite E, bool_decide_eq_true_2 by done. by apply eval_tree.
Qed.

(** The text of a wrapper's [__repr__] is parsed as the call of its
    class on the slot's expression. *)
Lemma parse_wrapper_JSONobj n c e :
  parse_expr n (c ++ [")"%char]) = Some (e, [")"%char]) ->
  parse_expr (S n) (wrapper_text "jsonobj.JSONobj" c) = Some (PCallJSONobj e, []).
Proof. intros H. unfold wrapper_text. simpl. rewrite H. reflexivity. Qed.

Lemma parse_wrapper_JSONarray n c e :
  parse_expr n (c ++ [")"%char]) = Some (e, [")"%char]) ->
  parse_expr (S n) (wrapper_text "jsonobj.JSONarray" c) = Some (PCallJSONarray e, []).
Proof. intros H. unfold wrapper_text. simpl. rewrite H. reflexivity. Qed.

Lemma length_wrapper_text cls c : length c <= length (wrapper_text cls c).
Proof. unfold wrapper_text. rewrite length_app. simpl. rewrite length_app. lia. Qed.

(** [eval] of the text of a wrapper over [t]: a new wrapper, built by the
    constructor the text names, over a value denoting [t]. *)
Lemma eval_wrapper_text cls (mk : pexpr -> pexpr) (o : val -> obj) t h :
  (forall n c e, parse_expr n (c ++ [")"%char]) = Some (e, [")"%char]) ->
                 parse_expr (S n) (wrapper_text cls c) = Some (mk e, [])) ->
  (forall e, eval_pexpr (mk e) = (let* v := eval_pexpr e in let* l := alloc (o v) in py_ret (VRef l))) ->
  json_wf t = true -> fresh_ok h -> exists h' l' d',
    py_eval (VStr (string_of_list_ascii (wrapper_text cls (repr_tree t)))) h = (h', Ok (VRef l')) /\
    hmem h !! l' = None /\ hmem h' !! l' = Some (o d') /\ tree_val h' d' t /\ hmem h ⊆ hmem h'.
Proof.
  intros Hparse Hmk Hwf Hf. unfold py_eval. rewrite list_ascii_of_string_of_list_ascii.
  pose proof (json_size_repr t). pose proof (length_wrapper_text cls (repr_tree t)).
  rewrite (Hparse _ _ (expr_of_tree t)) by (apply parse_repr_tree; [lia|simpl; auto]).
  rewrite bool_decide_eq_true_2 by done. rewrite Hmk.
  destruct (eval_tree t Hwf h Hf) as (h1 & v & E1 & Hf1 & S1 & T1).
  destruct (fresh_alloc h1 (o v) Hf1) as (Hf2 & S2 & L2).
  exists (heap_alloc h1 (o v)), (hnext h1), v. unfold py_bind, alloc, py_ret. rewrite E1.
  split_and!; [done| |done|by apply (tree_val_mono h1)|by transitivity (hmem h1)].
  eapply lookup_weaken_None; [|exact S1]. destruct (hmem h1 !! hnext h1) eqn:E; [|done].
  apply Hf1 in E. lia.
Qed.

(** A laid-out tree over a well-formed heap is well formed: its dicts
    are the heap's, whose keys are distinct. *)
Lemma tree_at_wf h t : heap_wf h -> forall lo hi v, tree_at h lo hi v t -> json_wf t = true.
Proof.
  intros Hwf. induction t as [| | | | xs IH | kvs IH] using json_ind'; intros lo hi v Ht; try done.
  - destruct Ht as (l & vs & -> & _ & _ & Hall). simpl. apply forallb_forall. intros x Hx.
    revert vs Hall. induction IH as [|y ys Hy _ IH']; [done|]; intros [|v' vs] Hall; [done|].
    destruct Hall as [Hv Hr]. apply list_elem_of_In, elem_of_cons in Hx as [->|Hx]; [by eapply Hy|].
    eapply IH'; [by apply list_elem_of_In|exact Hr].
  - destruct Ht as (l & items & -> & _ & Hl & Hall). simpl. apply andb_true_intro. split.
    + apply bool_decide_eq_true_2. rewrite <- (all2_kv_keys _ _ _ Hall).
      exact (proj2 (wf_closed h Hwf l _ Hl)).
    + apply forallb_forall. intros [k x] Hx. clear Hl. revert items Hall.
      induction IH as [|[k' y] kvs' Hy _ IH']; [done|]; intros [|[k'' v'] items] Hall; [done|].
      destruct Hall as (_ & Hv & Hr). apply list_elem_of_In, elem_of_cons in Hx as [[=-> ->]|Hx];
        [by eapply Hy|]. eapply IH'; [by apply list_elem_of_In|exact Hr].
Qed.

Lemma heap_wf_fresh h : heap_wf h -> fresh_ok h.
Proof. intros Hwf. exact (wf_fresh h Hwf). Qed.

(** [repr] of a slot laid out as [t], from an empty stack. *)
Lemma repr_slot h lo hi d t n :
  tree_at h lo hi d t -> nesting t <= n -> repr_val n h [] d = Ok (repr_tree t).
Proof. intros Ht Hn. by apply (repr_tree_at h hi t lo n [] d Ht); [intros ? ?%elem_of_nil|]. Qed.

(** A laid-out value denotes its tree. *)
Lemma tree_at_val h hi t : forall lo v, tree_at h lo hi v t -> tree_val h v t.
Proof.
  induction t as [| | | | xs IH | kvs IH] using json_ind'; intros lo v Ht; try done.
  - destruct Ht as (l & vs & -> & _ & Hl & Hall). exists l, vs. split_and!; [done|done|].
    eapply all2_Forall_impl; [exact IH| |exact Hall]. intros v' x IHx. apply IHx.
  - destruct Ht as (l & items & -> & _ & Hl & Hall). exists l, items. split_and!; [done|done|].
    eapply all2_kv_Forall_impl; [exact IH| |exact Hall]. intros v' k x IHx. apply IHx.
Qed.

(** [eval] of what a wrapper's [__repr__] prints, for a class whose
    [__repr__] is [wrapper_text cls] around [repr] of the slot and whose
    text [eval] reads as the constructor [mk] building [o]. *)
Lemma repr_eval_wrapper cls (mk : pexpr -> pexpr) (o : val -> obj) (rep : nat -> val -> PyM val)
    h l d t lo hi n :
  (forall n c e, parse_expr n (c ++ [")"%char]) = Some (e, [")"%char]) ->
                 parse_expr (S n) (wrapper_text cls c) = Some (mk e, [])) ->
  (forall e, eval_pexpr (mk e) = (let* v := eval_pexpr e in let* l := alloc (o v) in py_ret (VRef l))) ->
  rep n (VRef l) h = (h, out_map (fun c => VStr (string_of_list_ascii (wrapper_text cls c))) (repr_val n h [] d)) ->
  heap_wf h -> tree_at h lo hi d t -> nesting t <= n ->
  exists r h' l' d',
    rep n (VRef l) h = (h, Ok (VStr r)) /\
    py_eval (VStr r) h = (h', Ok (VRef l')) /\ hmem h !! l' = None /\
    hmem h' !! l' = Some (o d') /\ tree_val h' d' t /\ hmem h ⊆ hmem h'.
Proof.
  intros Hparse Hmk Hrep Hwf Ht Hn.
  destruct (eval_wrapper_text cls mk o t h Hparse Hmk (tree_at_wf h t Hwf lo hi d Ht) (heap_wf_fresh h Hwf))
    as (h' & l' & d' & R).
  exists (string_of_list_ascii (wrapper_text cls (repr_tree t))), h', l', d'.
  split; [|exact R]. by rewrite Hrep, (repr_slot h lo hi d t n Ht Hn).
Qed.

(** ** [eval(repr(w))] *)

(** C16.  [eval(repr(w))] rebuilds the wrapper: for a [JSONobj] or a
    [JSONarray] over a value laid out as a tree [t] in a well-formed
    heap, with a recursion budget of [t]'s levels, [w.__repr__()]
    answers with a text whose [eval] allocates a new wrapper of the
    same class at an address not in use, over a freshly built value
    that again denotes [t], leaving every existing object as it was:
    what [test_repr] of both test classes checks. *)
Theorem repr_eval_roundtrip h l d t lo hi n :
  heap_wf h -> tree_at h lo hi d t -> nesting t <= n ->
  (hmem h !! l = Some (OJSONobj d) -> exists r h' l' d',
     JSONobj.__repr__ n (VRef l) h = (h, Ok (VStr r)) /\
     py_eval (VStr r) h = (h', Ok (VRef l')) /\ hmem h !! l' = None /\
     hmem h' !! l' = Some (OJSONobj d') /\ tree_val h' d' t /\ hmem h ⊆ hmem h') /\
  (hmem h !! l = Some (OJSONarray d) -> exists r h' l' d',
     JSONarray.__repr__ n (VRef l) h = (h, Ok (VStr r)) /\
     py_eval (VStr r) h = (h', Ok (VRef l')) /\ hmem h !! l' = None /\
     hmem h' !! l' = Some (OJSONarray d') /\ tree_val h' d' t /\ hmem h ⊆ hmem h').
Proof.
  intros Hwf Ht Hn. split; intros Hl.
  - apply (repr_eval_wrapper "jsonobj.JSONobj" PCallJSONobj OJSONobj JSONobj.__repr__ h l d t lo hi n
             parse_wrapper_JSONobj (fun e => eq_refl)); [|done..].
    unfold JSONobj.__repr__, py_bind, get_obj. by rewrite Hl.
  - apply (repr_eval_wrapper "jsonobj.JSONarray" PCallJSONarray OJSONarray JSONarray.__repr__ h l d t lo hi n
             parse_wrapper_JSONarray (fun e => eq_refl)); [|done..].
    unfold JSONarray.__repr__, py_bind, get_obj. by rewrite Hl.
Qed.

(** The array [jsonobj.loads] makes of the test text, [[{...}, {...}]]:
    its wrapper at 4 over the list at 1, which holds the dicts at 2 and 3. *)
Lemma repr_eval_roundtrip_witness :
  let h := (loads (VStr test_loads_str) empty_heap).1 in
  heap_wf h /\ tree_at h 1%positive 4%positive (VRef 1%positive) test_tree /\ nesting test_tree <= recursion_limit /\
  hmem h !! 4%positive = Some (OJSONarray (VRef 1%positive)) /\
  exists r h' l' d',
     JSONarray.__repr__ recursion_limit (VRef 4%positive) h = (h, Ok (VStr r)) /\
     py_eval (VStr r) h = (h', Ok (VRef l')) /\ hmem h !! l' = None /\
     hmem h' !! l' = Some (OJSONarray d') /\ tree_val h' d' test_tree /\ hmem h ⊆ hmem h'.
Proof.
  cbv zeta.
  assert (H1 : heap_wf (loads (VStr test_loads_str) empty_heap).1) by decide_by_eval.
  assert (H2 : tree_at (loads (VStr test_loads_str) empty_heap).1 1%positive 4%positive (VRef 1%positive) test_tree).
  { cbn [tree_at test_tree all2 all2_kv]. exists 1%positive, [VRef 2%positive; VRef 3%positive].
    split_and!; try done; try lia; try (vm_compute; reflexivity).
    - exists 2%positive. eexists. split_and!; try done; try lia; try (vm_compute; reflexivity).
    - exists 3%positive. eexists. split_and!; try done; try lia; try (vm_compute; reflexivity). }
  assert (H3 : nesting test_tree <= recursion_limit) by (vm_compute; lia).
  assert (H4 : hmem (loads (VStr test_loads_str) empty_heap).1 !! 4%positive = Some (OJSONarray (VRef 1%positive)))
    by (vm_compute; reflexivity).
  split_and!; [exact H1|exact H2|exact H3|exact H4|].
  exact (proj2 (repr_eval_roundtrip _ 4%positive (VRef 1%positive) test_tree 1%positive 4%positive recursion_limit H1 H2 H3) H4).
Defined.
