(* ===== verification/TestSuite.v ===== *)
(** * The repository's test suite, [src/test_jsonobj.py], run on the model

    Each [unittest] test method is a program over the heap of the
    imported module, in a Module named after its [TestCase] class:
    [Test_jsonobj] (the four adapters, lines 7-32), [TestJSONobj]
    (lines 35-86) and [TestJSONarray] (lines 89-211).  The assertions
    are [TestCase]'s: [assertEqual] fails unless [first == second]
    (the type-specific asserters it picks for two [dict]s, [list]s or
    [str]s also decide by [==] or [!=]), [assertNotEqual] unless
    [first != second], which for these classes is the negation of
    [==]; [assertIn] and [assertNotIn] use [in]; [assertRaises] passes
    when the block raises the exception, fails when it returns, and lets
    any other exception through.  A failing assertion raises
    [AssertionError], and a test passes when it returns.

    [run_suite] runs the tests in the order [unittest]'s loader finds
    them (classes and methods by name), on one heap, each test's effects
    left for the next, and reports each test's outcome.  The two
    [test_repr] methods evaluate [eval(repr(...))] with [PyEval]. *)

From Stdlib Require Import ZArith Ascii String.
From stdpp Require Import base list gmap strings.
From S2P Require Import Prelude PyObjects PyBuiltins Fixtures Convert ObjectWrapper ArrayWrapper.
From S2P Require Import Equality ArraySearch JsonText Codec Repr PyEval.

(** ** [unittest.TestCase]'s assertions *)

Definition assert_ (b : bool) : PyM unit :=
  if b then py_ret tt else py_raise AssertionError.

(** [first == second], on CPython's recursion budget. *)
Definition py_eq (a b : val) : PyM bool := py_read (fun h => rich_eq recursion_limit h a b).

Definition assertEqual (first second : val) : PyM unit :=
  let* r := py_eq first second in assert_ r.

Definition assertNotEqual (first second : val) : PyM unit :=
  let* r := py_eq first second in assert_ (negb r).

(** [isinstance(v, jsonobj.JSONobj)]. *)
Definition assertIsInstance_JSONobj (v : val) : PyM unit :=
  let* b := py_read (fun h => Ok (match obj_at h v with Some (OJSONobj _) => true | _ => false end)) in
  assert_ b.

(** [with self.assertRaises(e): m]. *)
Definition assertRaises {A} (e : exc) (m : PyM A) : PyM unit :=
  fun h => match m h with
           | (h', Exc e') => if decide (e' = e) then (h', Ok tt) else (h', Exc e')
           | (h', Ok _) => (h', Exc AssertionError)
           | (h', Wrong) => (h', Wrong)
           | (h', NoFuel) => (h', NoFuel)
           end.

(** ** The expressions the tests are written with *)

(** A [dict] or [list] display. *)
Definition new_dict (items : list (string * val)) : PyM val :=
  let* d := alloc (ODict items) in py_ret (VRef d).
Definition new_list (xs : list val) : PyM val :=
  let* l := alloc (OList xs) in py_ret (VRef l).

(** [len(x)]. *)
Definition obj_len (x : val) : PyM val :=
  let* n := ObjectWrapper.JSONobj.__len__ x in py_ret (VInt (Z.of_nat n)).
Definition arr_len (x : val) : PyM val :=
  let* n := ArrayWrapper.JSONarray.__len__ x in py_ret (VInt (Z.of_nat n)).

(** [self.assertEqual(eval(repr(x)), x)], the assertion of both
    [test_repr] methods, with [rep] the [__repr__] of [x]'s class. *)
Definition check_repr (rep : val -> PyM val) (x : val) : PyM unit :=
  let* r := rep x in
  let* v := py_eval r in assertEqual v x.

(** [[e for e in x]], on a budget of [fuel] items. *)
Definition list_comp (fuel : nat) (x : val) : PyM val :=
  let* it := py_iter_of x in
  let* es := iter_collect fuel it in
  new_list es.

(** [StringIO(text)] read by [jsonobj.load], and [jsonobj.dump] into
    [StringIO(text)] followed by [getvalue()]. *)
Definition load_from (text : list ascii) : PyM val :=
  fun h => let '((h', _), o) := load text h in (h', o).
Definition dump_to (obj : val) (text : list ascii) : PyM val :=
  fun h => let '((h', text'), o) := dump obj text h in
           (h', out_map (fun _ => VStr (string_of_list_ascii text')) o).

(** [JSONobj({'key1': 'value1', 'key2': {'foo': 'bar'}})], the object of
    every [TestJSONobj] test. *)
Definition test_obj_dict : PyM val :=
  let* inner := new_dict [("foo", VStr "bar")] in
  new_dict [("key1", VStr "value1"); ("key2", inner)].
Definition test_obj : PyM val :=
  let* d := test_obj_dict in JSONobj_new d.

(** [JSONarray(['value1', {'foo': 'bar'}])], the array of every
    [TestJSONarray] test. *)
Definition test_array : PyM val :=
  let* inner := new_dict [("foo", VStr "bar")] in
  let* l := new_list [VStr "value1"; inner] in
  JSONarray_new l.

Definition foo_bar : PyM val := new_dict [("foo", VStr "bar")].

(** [x[i]] on a native [list] or [tuple]. *)
Definition seq_getitem (x : val) (i : Z) : PyM val :=
  match x with
  | VRef l =>
      let* o := get_obj l in
      match o with
      | OList xs | OTuple xs =>
          match py_norm_index (length xs) i with
          | Some k => match xs !! k with Some v => py_ret v | None => py_raise IndexError end
          | None => py_raise IndexError
          end
      | _ => py_raise TypeError
      end
  | _ => py_raise TypeError
  end.

(** [member in obj] and [member in array]. *)
Definition assertIn_obj (member : string) (obj : val) : PyM unit :=
  let* b := ObjectWrapper.JSONobj.__contains__ obj member in assert_ b.
Definition assertNotIn_obj (member : string) (obj : val) : PyM unit :=
  let* b := ObjectWrapper.JSONobj.__contains__ obj member in assert_ (negb b).
Definition assertIn_arr (member array : val) : PyM unit :=
  let* b := ArraySearch.JSONarray.__contains__ recursion_limit array member in assert_ b.
Definition assertNotIn_arr (member array : val) : PyM unit :=
  let* b := ArraySearch.JSONarray.__contains__ recursion_limit array member in assert_ (negb b).

(** [self.assertEqual(array[i], v)]. *)
Definition assertItem (array : val) (i : Z) (v : val) : PyM unit :=
  let* e := ArrayWrapper.JSONarray.__getitem__ array i in assertEqual e v.

(** The step budget of the loops the tests run ([extend], list
    comprehensions): more than any test's list has items. *)
Definition test_fuel : nat := 16.

(** ** [class Test_jsonobj] (lines 7-32) *)
Module Test_jsonobj.

(** Lines 10-13 and 17-20: the loaded array's items and their
    properties. *)
Definition check_loaded (o : val) : PyM unit :=
  (let* d := new_dict [("key1", VStr "value1")] in assertItem o 0 d) ;;
  (let* d := new_dict [("key2", VStr "value2")] in assertItem o 1 d) ;;
  (let* e := ArrayWrapper.JSONarray.__getitem__ o 0 in
   let* v := ObjectWrapper.JSONobj.attr_read e "key1" in assertEqual v (VStr "value1")) ;;
  (let* e := ArrayWrapper.JSONarray.__getitem__ o 1 in
   let* v := ObjectWrapper.JSONobj.attr_read e "key2" in assertEqual v (VStr "value2")).

Definition test_loads : PyM unit :=
  let* o := loads (VStr test_loads_str) in check_loaded o.

Definition test_load : PyM unit :=
  let* o := load_from test_loads_text in check_loaded o.

Definition test_dumps : PyM unit :=
  let* o := loads (VStr test_loads_str) in
  let* s := dumps o in assertEqual s (VStr test_loads_str).

Definition test_dump : PyM unit :=
  let* o := loads (VStr test_loads_str) in
  let* s := dump_to o [] in assertEqual s (VStr test_loads_str).

End Test_jsonobj.

(** ** [class TestJSONobj] (lines 35-86) *)
Module TestJSONobj.

Definition test_len : PyM unit :=
  let* obj := test_obj in
  let* n := obj_len obj in assertEqual n (VInt 2).

Definition test_contains : PyM unit :=
  let* obj := test_obj in
  assertIn_obj "key1" obj ;; assertIn_obj "key2" obj ;; assertNotIn_obj "key3" obj.

Definition test_iter : PyM unit :=
  let* obj := test_obj in
  let* array := list_comp test_fuel obj in
  let* expected := new_list [VStr "key1"; VStr "key2"] in
  assertEqual array expected.

Definition test_getattr : PyM unit :=
  let* obj := test_obj in
  (let* v := ObjectWrapper.JSONobj.attr_read obj "key1" in assertEqual v (VStr "value1")) ;;
  (let* v := ObjectWrapper.JSONobj.attr_read obj "key2" in assertIsInstance_JSONobj v) ;;
  (let* v := ObjectWrapper.JSONobj.attr_read obj "key2" in
   let* w := ObjectWrapper.JSONobj.attr_read v "foo" in assertEqual w (VStr "bar")) ;;
  assertRaises KeyError (ObjectWrapper.JSONobj.attr_read obj "key3").

Definition test_setattr : PyM unit :=
  let* obj := test_obj in
  ObjectWrapper.JSONobj.__setattr__ obj "key1" (VStr "update") ;;
  (let* v := ObjectWrapper.JSONobj.attr_read obj "key1" in assertEqual v (VStr "update")) ;;
  ObjectWrapper.JSONobj.__setattr__ obj "key3" (VStr "new") ;;
  (let* v := ObjectWrapper.JSONobj.attr_read obj "key3" in assertEqual v (VStr "new")).

Definition test_delattr : PyM unit :=
  let* obj := test_obj in
  ObjectWrapper.JSONobj.__delattr__ obj "key1" ;; assertNotIn_obj "key1" obj.

Definition test_eq : PyM unit :=
  let* obj1 := test_obj in
  let* obj2 := test_obj in
  let* obj3 := (let* inner := foo_bar in
                let* d := new_dict [("key0", VStr "value0"); ("key2", inner)] in JSONobj_new d) in
  assertEqual obj1 obj2 ;;
  (let* d := test_obj_dict in assertEqual obj1 d) ;;
  assertNotEqual obj1 obj3.

Definition test_str : PyM unit :=
  let* obj := test_obj in
  let* s := Codec.JSONobj.__str__ obj in
  assertEqual s (VStr (string_of_list_ascii (qt "{'key1': 'value1', 'key2': {'foo': 'bar'}}"))).

(** [eval(repr(obj))] in the test module, where [jsonobj] is bound. *)
Definition test_repr : PyM unit :=
  let* obj := test_obj in
  check_repr (Repr.JSONobj.__repr__ recursion_limit) obj.

End TestJSONobj.

(** ** [class TestJSONarray] (lines 89-211) *)
Module TestJSONarray.

Definition test_len : PyM unit :=
  let* array := test_array in
  let* n := arr_len array in assertEqual n (VInt 2).

Definition test_contains : PyM unit :=
  let* array := test_array in
  assertIn_arr (VStr "value1") array ;;
  (let* d := foo_bar in assertIn_arr d array) ;;
  (let* d := foo_bar in let* w := JSONobj_new d in assertIn_arr w array) ;;
  assertNotIn_arr (VStr "value2") array.

Definition test_getitem : PyM unit :=
  let* array := test_array in
  assertItem array 0 (VStr "value1") ;;
  (let* e := ArrayWrapper.JSONarray.__getitem__ array 1 in assertIsInstance_JSONobj e) ;;
  assertRaises IndexError (ArrayWrapper.JSONarray.__getitem__ array 2).

Definition test_setitem : PyM unit :=
  let* array := test_array in
  ArrayWrapper.JSONarray.__setitem__ array 0 (VStr "update") ;;
  assertItem array 0 (VStr "update").

Definition test_delitem : PyM unit :=
  let* array := test_array in
  ArrayWrapper.JSONarray.__delitem__ array 0 ;;
  assertNotIn_arr (VStr "value1") array ;;
  (let* n := arr_len array in assertEqual n (VInt 1)).

(** Lines 121-124 and 128-131: the items of a list of wrapped
    elements, [a[i]] the string, [a[j]] the wrapped [{'foo': 'bar'}]. *)
Definition check_wrapped (a : val) (i j : Z) : PyM unit :=
  (let* e := seq_getitem a i in assertEqual e (VStr "value1")) ;;
  (let* e := seq_getitem a j in assertIsInstance_JSONobj e) ;;
  (let* e := seq_getitem a j in
   let* d := foo_bar in let* w := JSONobj_new d in assertEqual e w).

Definition test_iter : PyM unit :=
  let* array := test_array in
  let* a := list_comp test_fuel array in
  check_wrapped a 0 1.

Definition test_reversed : PyM unit :=
  let* array := test_array in
  let* it := ArrayWrapper.JSONarray.__reversed__ array in
  let* es := iter_collect test_fuel it in
  let* r := new_list es in
  check_wrapped r 1 0.

Definition test_index : PyM unit :=
  let* array := test_array in
  (let* i := ArraySearch.JSONarray.index recursion_limit array (VStr "value1") 0 (-1) in
   assertEqual (VInt (Z.of_nat i)) (VInt 0)) ;;
  assertRaises ValueError (ArraySearch.JSONarray.index recursion_limit array (VStr "value2") 0 (-1)).

Definition test_count : PyM unit :=
  let* array := test_array in
  let count v := (let* n := ArraySearch.JSONarray.count recursion_limit array v in
                  py_ret (VInt (Z.of_nat n))) in
  (let* n := count (VStr "value1") in assertEqual n (VInt 1)) ;;
  (let* d := foo_bar in let* w := JSONobj_new d in let* n := count w in assertEqual n (VInt 1)) ;;
  (let* n := count (VStr "value2") in assertEqual n (VInt 0)).

Definition test_insert : PyM unit :=
  let* array := test_array in
  ArrayWrapper.JSONarray.insert array 0 (VStr "insert") ;;
  assertItem array 0 (VStr "insert") ;;
  assertItem array 1 (VStr "value1") ;;
  (let* n := arr_len array in assertEqual n (VInt 3)).

Definition test_append : PyM unit :=
  let* array := test_array in
  ArrayWrapper.JSONarray.append array (VStr "append") ;;
  assertItem array 2 (VStr "append") ;;
  (let* n := arr_len array in assertEqual n (VInt 3)).

Definition test_clear : PyM unit :=
  let* array := test_array in
  ArrayWrapper.JSONarray.clear array ;;
  (let* n := arr_len array in assertEqual n (VInt 0)).

Definition test_reverse : PyM unit :=
  let* array := test_array in
  ArrayWrapper.JSONarray.reverse array ;;
  assertItem array 1 (VStr "value1") ;;
  (let* d := foo_bar in assertItem array 0 d).

(** Lines 172-177 and 199-204: after [array] was extended by itself,
    its last items and length; then extended by a second array. *)
Definition check_doubled (array : val) : PyM unit :=
  assertItem array 2 (VStr "value1") ;;
  (let* d := foo_bar in assertItem array 3 d) ;;
  (let* n := arr_len array in assertEqual n (VInt 4)).
Definition check_extended (array : val) : PyM unit :=
  (let* sq := seq_slot array in let* e := seq_getitem sq 4 in
   let* d := new_dict [("key", VStr "value")] in assertEqual e d) ;;
  (let* n := arr_len array in assertEqual n (VInt 5)).
Definition key_value_array : PyM val :=
  let* d := new_dict [("key", VStr "value")] in
  let* l := new_list [d] in JSONarray_new l.

Definition test_extend : PyM unit :=
  let* array := test_array in
  ArrayWrapper.JSONarray.extend test_fuel array array ;;
  check_doubled array ;;
  (let* other := key_value_array in ArrayWrapper.JSONarray.extend test_fuel array other) ;;
  check_extended array.

Definition test_pop : PyM unit :=
  let* array := test_array in
  let* pop := ArrayWrapper.JSONarray.pop array (-1) in
  (let* d := foo_bar in assertEqual pop d) ;;
  assertIsInstance_JSONobj pop ;;
  (let* n := arr_len array in assertEqual n (VInt 1)) ;;
  let* array := test_array in
  (let* e := ArrayWrapper.JSONarray.pop array 0 in assertEqual e (VStr "value1")) ;;
  (let* d := foo_bar in assertItem array 0 d) ;;
  (let* n := arr_len array in assertEqual n (VInt 1)).

Definition test_remove : PyM unit :=
  let* array := test_array in
  ArraySearch.JSONarray.remove recursion_limit array (VStr "value1") ;;
  (let* d := foo_bar in assertItem array 0 d) ;;
  (let* n := arr_len array in assertEqual n (VInt 1)).

(** [array += x] rebinds [array] to what [__iadd__] returns. *)
Definition test_iadd : PyM unit :=
  let* array := test_array in
  let* array := ArrayWrapper.JSONarray.__iadd__ test_fuel array array in
  check_doubled array ;;
  let* other := key_value_array in
  let* array := ArrayWrapper.JSONarray.__iadd__ test_fuel array other in
  check_extended array.

Definition test_str : PyM unit :=
  let* array := test_array in
  let* s := Codec.JSONarray.__str__ array in
  assertEqual s (VStr (string_of_list_ascii (qt "['value1', {'foo': 'bar'}]"))).

Definition test_repr : PyM unit :=
  let* array := test_array in
  check_repr (Repr.JSONarray.__repr__ recursion_limit) array.

End TestJSONarray.

(** ** The runner *)

(** A test and its outcome, the heap left as the test left it. *)
Definition run_test (t : PyM unit) : PyM (outcome unit) :=
  fun h => let '(h', o) := t h in (h', Ok o).

Fixpoint run_suite (ts : list (string * PyM unit)) : PyM (list (string * outcome unit)) :=
  match ts with
  | [] => py_ret []
  | (n, t) :: ts' =>
      let* o := run_test t in
      let* rs := run_suite ts' in
      py_ret ((n, o) :: rs)
  end.

(** The tests in the loader's order: the classes by name ([TestJSONarray],
    [TestJSONobj], [Test_jsonobj]), in each the methods by name. *)
Definition test_suite : list (string * PyM unit) := [
  ("TestJSONarray.test_append", TestJSONarray.test_append);
  ("TestJSONarray.test_clear", TestJSONarray.test_clear);
  ("TestJSONarray.test_contains", TestJSONarray.test_contains);
  ("TestJSONarray.test_count", TestJSONarray.test_count);
  ("TestJSONarray.test_delitem", TestJSONarray.test_delitem);
  ("TestJSONarray.test_extend", TestJSONarray.test_extend);
  ("TestJSONarray.test_getitem", TestJSONarray.test_getitem);
  ("TestJSONarray.test_iadd", TestJSONarray.test_iadd);
  ("TestJSONarray.test_index", TestJSONarray.test_index);
  ("TestJSONarray.test_insert", TestJSONarray.test_insert);
  ("TestJSONarray.test_iter", TestJSONarray.test_iter);
  ("TestJSONarray.test_len", TestJSONarray.test_len);
  ("TestJSONarray.test_pop", TestJSONarray.test_pop);
  ("TestJSONarray.test_remove", TestJSONarray.test_remove);
  ("TestJSONarray.test_repr", TestJSONarray.test_repr);
  ("TestJSONarray.test_reverse", TestJSONarray.test_reverse);
  ("TestJSONarray.test_reversed", TestJSONarray.test_reversed);
  ("TestJSONarray.test_setitem", TestJSONarray.test_setitem);
  ("TestJSONarray.test_str", TestJSONarray.test_str);
  ("TestJSONobj.test_contains", TestJSONobj.test_contains);
  ("TestJSONobj.test_delattr", TestJSONobj.test_delattr);
  ("TestJSONobj.test_eq", TestJSONobj.test_eq);
  ("TestJSONobj.test_getattr", TestJSONobj.test_getattr);
  ("TestJSONobj.test_iter", TestJSONobj.test_iter);
  ("TestJSONobj.test_len", TestJSONobj.test_len);
  ("TestJSONobj.test_repr", TestJSONobj.test_repr);
  ("TestJSONobj.test_setattr", TestJSONobj.test_setattr);
  ("TestJSONobj.test_str", TestJSONobj.test_str);
  ("Test_jsonobj.test_dump", Test_jsonobj.test_dump);
  ("Test_jsonobj.test_dumps", Test_jsonobj.test_dumps);
  ("Test_jsonobj.test_load", Test_jsonobj.test_load);
  ("Test_jsonobj.test_loads", Test_jsonobj.test_loads)]%string.

(** ** Comparing two values that denote one tree *)

Section tree_eq.
  Context (h : heap).

Lemma nesting_pos t : 1 <= nesting t.
Proof. destruct t; simpl; lia. Qed.

Lemma items_eq_all (cmp : val -> val -> outcome bool) (R1 R2 : val -> json -> Prop) vs1 vs2 xs :
  all2 R1 vs1 xs -> all2 R2 vs2 xs ->
  (forall x v1 v2, x ∈ xs -> R1 v1 x -> R2 v2 x -> cmp v1 v2 = Ok true) ->
  items_eq cmp vs1 vs2 = Ok true.
Proof.
  revert vs1 vs2. induction xs as [|x xs IH]; intros [|v1 vs1] [|v2 vs2] A1 A2 Hc; simpl in A1, A2; try done.
  destruct A1 as [H1 A1], A2 as [H2 A2]. cbn [items_eq].
  rewrite (Hc x v1 v2 (list_elem_of_here x xs) H1 H2). cbn [out_bind].
  apply IH; [done|done|]. intros x' w1 w2 Hx. apply Hc. by apply list_elem_of_further.
Qed.

(** In a dict laid out as [kvs], with distinct keys, a key of [kvs]
    finds the value related to its tree. *)
Lemma dict_lookup_all2_kv {J} (R : val -> J -> Prop) items kvs k x :
  all2_kv R items kvs -> NoDup (map fst kvs) -> (k, x) ∈ kvs ->
  exists v, dict_lookup k items = Some v /\ R v x.
Proof.
  revert items. induction kvs as [|[k' x'] kvs IH]; intros items Hall Hnd Hin;
    [by apply elem_of_nil in Hin|].
  destruct items as [|[k'' v] items]; [done|]. destruct Hall as (-> & Hv & Hr).
  apply NoDup_cons in Hnd as [Hk Hnd]. cbn [dict_lookup].
  apply elem_of_cons in Hin as [[= -> ->]|Hin]; [rewrite decide_True by done; by exists v|].
  rewrite decide_False; [by apply IH|]. intros ->. apply Hk.
  apply list_elem_of_In, in_map_iff. exists (k', x). split; [done|by apply list_elem_of_In].
Qed.

Lemma dict_items_eq_all (cmp : val -> val -> outcome bool) (R1 R2 : val -> json -> Prop) items items2 kvs kvs0 :
  all2_kv R1 items kvs -> all2_kv R2 items2 kvs0 -> NoDup (map fst kvs0) ->
  (forall kx, kx ∈ kvs -> kx ∈ kvs0) ->
  (forall k x v1 v2, (k, x) ∈ kvs -> R1 v1 x -> R2 v2 x -> cmp v1 v2 = Ok true) ->
  dict_items_eq cmp items items2 = Ok true.
Proof.
  revert items. induction kvs as [|[k x] kvs IH]; intros [|[k' v] items] A1 A2 Hnd Hsub Hc;
    simpl in A1; try done.
  destruct A1 as (-> & Hv & A1). cbn [dict_items_eq].
  destruct (dict_lookup_all2_kv R2 items2 kvs0 k x A2 Hnd (Hsub _ (list_elem_of_here _ _))) as (v2 & -> & Hv2).
  rewrite (Hc k x v v2 (list_elem_of_here _ _) Hv Hv2). cbn [out_bind].
  apply IH; [done|done|done| |].
  - intros kx Hkx. apply Hsub. by apply list_elem_of_further.
  - intros k0 x0 w1 w2 Hin. apply (Hc k0 x0). by apply list_elem_of_further.
Qed.

(** Two values denoting one well-formed tree compare equal, with one
    level of recursion per level of nesting. *)
Lemma eq_method_tree t : json_wf t = true -> forall n v1 v2,
  tree_val h v1 t -> tree_val h v2 t -> nesting t <= S n ->
  eq_method (fun a b => if py_is a b then Ok true else rich_eq n h a b) h v1 v2 = Ok (Some true).
Proof.
  induction t as [| b | z | s | xs IH | kvs IH] using json_ind'; intros Hwf n v1 v2 H1 H2 Hn;
    simpl in H1, H2; try (subst; simpl; by rewrite ?Z.eqb_refl, ?String.eqb_refl).
  - destruct H1 as (l1 & vs1 & -> & Hl1 & A1), H2 as (l2 & vs2 & -> & Hl2 & A2).
    cbn [eq_method]. rewrite Hl1. unfold seq_eq_method. rewrite Hl2.
    rewrite decide_True by (by rewrite (all2_length _ _ _ A1), (all2_length _ _ _ A2)).
    apply json_wf_arr in Hwf. simpl in Hn. apply Nat.succ_le_mono, list_max_Forall in Hn.
    rewrite (items_eq_all _ (tree_val h) (tree_val h) vs1 vs2 xs A1 A2); [done|].
    intros x y1 y2 Hx Hy1 Hy2. rewrite Forall_forall in IH, Hwf, Hn.
    destruct (py_is y1 y2); [done|]. pose proof (nesting_pos x). specialize (Hn x Hx).
    destruct n as [|n]; [lia|]. cbn [rich_eq]. by rewrite (IH x Hx (Hwf x Hx) n y1 y2 Hy1 Hy2 Hn).
  - destruct H1 as (l1 & it1 & -> & Hl1 & A1), H2 as (l2 & it2 & -> & Hl2 & A2).
    cbn [eq_method]. rewrite Hl1. unfold dict_eq_method. rewrite Hl2.
    rewrite decide_True by (rewrite <- !length_map with (f := fst); by rewrite (all2_kv_keys _ _ _ A1), (all2_kv_keys _ _ _ A2)).
    apply json_wf_obj in Hwf as [Hnd Hwf]. simpl in Hn. apply Nat.succ_le_mono, list_max_Forall in Hn.
    rewrite (dict_items_eq_all _ (tree_val h) (tree_val h) it1 it2 kvs kvs A1 A2 Hnd); [done|done|].
    intros k x y1 y2 Hx Hy1 Hy2. rewrite Forall_forall in IH, Hwf, Hn.
    destruct (py_is y1 y2); [done|]. pose proof (nesting_pos x). specialize (Hn (k, x) Hx). simpl in Hn.
    destruct n as [|n]; [lia|]. cbn [rich_eq].
    by rewrite (IH (k, x) Hx (Hwf (k, x) Hx) n y1 y2 Hy1 Hy2 Hn).
Qed.
End tree_eq.


(** A native container's [__eq__] is what [==] calls on it. *)
Lemma slot_eq_native cmp h (l : loc) o b :
  hmem h !! l = Some o -> is_native_obj o = true -> slot_eq_method cmp h (VRef l) b = eq_method cmp h (VRef l) b.
Proof. intros Hl Hn. unfold slot_eq_method. cbn [obj_at eq_method]. rewrite Hl. by destruct o. Qed.

(** The assertion of [test_repr] for one wrapper class: [rep] prints
    [wrapper_text cls] around the slot's [repr], [eval] reads the text
    back as the constructor [mk] of class [o], and [o]'s [__eq__]
    compares its slot with [unwrap(other)]. *)
Lemma check_repr_class cls (mk : pexpr -> pexpr) (o : val -> obj) (rep : nat -> val -> PyM val)
    h l d t lo hi n :
  (forall n c e, parse_expr n (c ++ [")"%char]) = Some (e, [")"%char]) ->
                 parse_expr (S n) (wrapper_text cls c) = Some (mk e, [])) ->
  (forall e, eval_pexpr (mk e) = (let* v := eval_pexpr e in let* l := alloc (o v) in py_ret (VRef l))) ->
  rep (S n) (VRef l) h =
    (h, out_map (fun c => VStr (string_of_list_ascii (wrapper_text cls c))) (repr_val (S n) h [] d)) ->
  (forall h' l' d' b, hmem h' !! l' = Some (o d') ->
     eq_method (fun a b => if py_is a b then Ok true else rich_eq n h' a b) h' (VRef l') b =
     slot_eq_method (fun a b => if py_is a b then Ok true else rich_eq n h' a b) h' d' (unwrap_val h' b)) ->
  (forall h', hmem h ⊆ hmem h' -> unwrap_val h' (VRef l) = d) ->
  heap_wf h -> tree_at h lo hi d t -> nesting t <= S n -> (exists xs, t = JArr xs) \/ (exists kvs, t = JObj kvs) ->
  exists h', (let* r := rep (S n) (VRef l) in let* v := py_eval r in
              let* b := py_read (fun h => rich_eq (S n) h v (VRef l)) in assert_ b) h = (h', Ok tt).
Proof.
  intros Hparse Hmk Hrep Heq Hun Hwf Ht Hn Hc.
  destruct (repr_eval_wrapper cls mk o rep h l d t lo hi (S n) Hparse Hmk Hrep Hwf Ht Hn)
    as (r & h' & l' & d' & Er & Ev & _ & Hl' & Hd' & Hsub).
  exists h'. rewrite (py_bind_run_ok _ _ _ _ _ Er), (py_bind_run_ok _ _ _ _ _ Ev).
  unfold py_bind, py_read. cbn [rich_eq]. rewrite (Heq h' l' d' (VRef l) Hl'), (Hun h' Hsub).
  pose proof (tree_val_mono h h' t Hsub d (tree_at_val h hi t lo d Ht)) as Hd.
  pose proof (tree_at_wf h t Hwf lo hi d Ht) as Hwt.
  pose proof Hd' as Hd'0.
  destruct Hc as [[xs ->]|[kvs ->]]; destruct Hd' as (l1 & vs & -> & Hl1 & _);
    rewrite (slot_eq_native _ h' l1 _ d Hl1) by done;
    by rewrite (eq_method_tree h' _ Hwt n (VRef l1) d Hd'0 Hd Hn).
Qed.

(** ** [test_repr] *)

(** C33.  The assertion of both [test_repr] methods,
    [self.assertEqual(eval(repr(x)), x)], holds for every [JSONobj] and
    every [JSONarray] whose slot is a container laid out as a tree [t] in
    a well-formed heap, with at most CPython's recursion limit of levels:
    [repr] names the class through the imported module, [eval] rebuilds
    a wrapper over a fresh copy of [t], and the wrappers' [__eq__]
    compares the two copies equal. *)
Theorem test_repr_holds h l d t lo hi :
  heap_wf h -> tree_at h lo hi d t -> nesting t <= recursion_limit ->
  (exists xs, t = JArr xs) \/ (exists kvs, t = JObj kvs) ->
  (hmem h !! l = Some (OJSONobj d) ->
     exists h', check_repr (Repr.JSONobj.__repr__ recursion_limit) (VRef l) h = (h', Ok tt)) /\
  (hmem h !! l = Some (OJSONarray d) ->
     exists h', check_repr (Repr.JSONarray.__repr__ recursion_limit) (VRef l) h = (h', Ok tt)).
Proof.
  intros Hwf Ht Hn Hc. unfold check_repr, assertEqual, py_eq. change recursion_limit with (S 999) in *.
  split; intros Hl.
  - apply (check_repr_class "jsonobj.JSONobj" PCallJSONobj OJSONobj Repr.JSONobj.__repr__ h l d t lo hi 999
             parse_wrapper_JSONobj (fun e => eq_refl)); try done.
    + unfold Repr.JSONobj.__repr__, py_bind, get_obj. by rewrite Hl.
    + intros h' l' d' b Hl'. cbn [eq_method]. by rewrite Hl'.
    + intros h' Hsub. unfold unwrap_val. cbn [obj_at]. by rewrite (lookup_weaken _ _ _ _ Hl Hsub).
  - apply (check_repr_class "jsonobj.JSONarray" PCallJSONarray OJSONarray Repr.JSONarray.__repr__ h l d t lo hi 999
             parse_wrapper_JSONarray (fun e => eq_refl)); try done.
    + unfold Repr.JSONarray.__repr__, py_bind, get_obj. by rewrite Hl.
    + intros h' l' d' b Hl'. cbn [eq_method]. by rewrite Hl'.
    + intros h' Hsub. unfold unwrap_val. cbn [obj_at]. by rewrite (lookup_weaken _ _ _ _ Hl Hsub).
Qed.

(** On the array [jsonobj.loads] makes of the test text: the wrapper at 4
    over the list at 1, which holds the dicts at 2 and 3. *)
Lemma test_repr_holds_witness :
  let h := (loads (VStr test_loads_str) empty_heap).1 in
  heap_wf h /\ tree_at h 1%positive 4%positive (VRef 1%positive) test_tree /\
  nesting test_tree <= recursion_limit /\
  hmem h !! 4%positive = Some (OJSONarray (VRef 1%positive)) /\
  exists h', check_repr (Repr.JSONarray.__repr__ recursion_limit) (VRef 4%positive) h = (h', Ok tt).
Proof.
  cbv zeta.
  assert (H1 : heap_wf (loads (VStr test_loads_str) empty_heap).1) by decide_by_eval.
  assert (H2 : tree_at (loads (VStr test_loads_str) empty_heap).1 1%positive 4%positive (VRef 1%positive) test_tree).
  { cbn [tree_at test_tree all2 all2_kv]. exists 1%positive, [VRef 2%positive; VRef 3%positive].
    split_and!; try done; try lia; try (vm_compute; reflexivity).
    - exists 2%positive. eexists. split_and!; try done; try lia; try (vm_compute; reflexivity).
    - exists 3%positive. eexists. split_and!; try done; try lia; try (vm_compute; reflexivity). }
  assert (H3 : nesting test_tree <= recursion_limit) by (vm_compute; lia).
  assert (H4 : hmem (loads (VStr test_loads_str) empty_heap).1 !! 4%positive = Some (OJSONarray (VRef 1%positive)))
    by (vm_compute; reflexivity).
  split_and!; [exact H1|exact H2|exact H3|exact H4|].
  exact (proj2 (test_repr_holds _ 4%positive (VRef 1%positive) test_tree 1%positive 4%positive H1 H2 H3
                  ltac:(left; eexists; reflexivity)) H4).
Defined.
